(* ===== verification/_CoqProject ===== *)
-Q . S2P
Prelude.v
GoNet.v
HealthCheck.v
DnsConfig.v
GoTime.v
Literal.v
LiteralFuel.v
LiteralTypes.v
LiteralParse.v
Config.v
ConfigZones.v
Prog.v
Disk.v
DiskSafety.v
DiskLoad.v
DnsServer.v
Balancer.v
BalancerSafety.v
BalancerPipes.v
Election.v
ControlServer.v
ControlSafety.v
ControlClient.v
ControlLocks.v
Launcher.v
LauncherChecks.v
Lifecycle.v
LifecycleSafety.v
Commands.v
CommandsSafety.v
Operator.v
Updates.v
Daemon.v
