(* ===== verification/Prelude.v ===== *)
(** * Border: a model of the border DNS server and load balancer, and its laws

    Border (src/, Go 1.20) is one daemon per host.  It serves DNS from zones kept
    in its configuration, balances TCP and HTTP connections over backends that
    are themselves DNS records, probes peers, addresses and backends with health
    checks that edit those records, and shares its configuration with peers
    through an encrypted control API whose publisher is elected.

    ** The parts and their files

    - Prelude: Go's [error] and the [outcome] of code that may return an error,
      panic or end the process; [for ... range] over maps in an arbitrary order
      (class [MapRange], so every theorem about it holds for every order); the
      functions of package strings that the program calls; shared lemmas, the
      hint database and tactics.
    - GoNet, GoTime: the parts of packages net and time, and of float64, that
      the program's results depend on, transcribed from Go's standard library.
    - HealthCheck (pkg/healthcheck/healthcheck.go): [runCheck] over a network
      environment [NetEnv]; [run_one], [runChecks] and [run] are one goroutine,
      one tick and a sequence of ticks, the goroutines of a tick in any order.
    - DnsConfig (pkg/dnsconfig/dnsconfig.go): the record structs and their
      [Convert] methods, with Go's interface as the class [DnsRecord].
    - Literal, LiteralFuel, LiteralTypes, LiteralParse (pkg/config/literal.go):
      [parseLiteral] and [typeAssert] over a universe of Go types and values.
    - Config, ConfigZones (pkg/config/config.go, record.go): peers, zones in a
      shared heap, [trimZones], [decorateZones], [convertLiterals].
    - Prog: the monad [prog] of stateful code that may fail half-way, its laws,
      and the tactic [walk] that shows what code leaves unchanged.
    - Disk, DiskSafety, DiskLoad (pkg/config/disk.go and [Reload]): [Save],
      [FromDisk] and [Reload] over the state [World] of the process, on a file
      system whose operations may fail and which keeps data that was not synced
      only as long as the machine runs ([power_loss]).
    - DnsServer (pkg/dnsserver/dnsserver.go): [findZone] and [ServeDNS], reading
      zones through the shared heap.
    - Balancer, BalancerSafety, BalancerPipes (pkg/lb/lb.go, tcp.go, http.go):
      the pool and its counts, [getLowestBalancer], the forwarding loop, the TCP
      balancer's choices with the goroutines that count and close its connections
      ([step]), its queue of connections ([pipe_step]) and the HTTP balancer's
      dials, redirects included ([http_step]), as step relations, and the HTTP
      proxy's headers and responses.
    - Election (pkg/election/election.go): [gatherUptimes] as a step relation of
      one goroutine per peer, some of which may hang, and [Vote].
    - ControlServer, ControlSafety (pkg/api, pkg/josekit, pkg/controlserver):
      messages, nonces, every handler, and [handle], the closure that
      authenticates a request, runs its handler and encrypts the answer; the
      critical sections of the nonces in all interleavings ([nonce_step]).
    - ControlLocks (pkg/controlserver): [handle] with the state of [configMutex].
    - ControlClient (pkg/controlclient/controlclient.go): [GetNonce],
      [PrepareRequest], [SendRequest], [Exchange]; [transport] connects it to
      the server's [handle].
    - Launcher, LauncherChecks (pkg/launcher/launcher.go): [buildHealthChecks]
      with the closures it registers, [holdElection] and a round of
      [monitorConfig].
    - Lifecycle, LifecycleSafety (pkg/launcher/launcher.go and the [Start] and
      [Shutdown] of pkg/controlserver, pkg/dnsserver and pkg/lb): [Launch],
      [createBalancers], [Shutdown] and [monitorReload] over the state
      [Process], the [World] with the open sockets and the long-running
      goroutines.
    - Commands, CommandsSafety (cmd/border/border.go): [serve] with its
      bootstrap of the configuration and its signal handler, the client's
      commands, and [main] with the table of commands.
    - Operator: [identifypublisher] and [reloadconfig] through all the components.
    - Updates: [updateconfig] through all the components, from the operator's
      file to the DNS server, and the request object an update is decoded into.
    - Daemon: a launched server with its control requests, health checks, monitor
      rounds and reloads as one step relation.

    A configuration is loaded by Disk through Config and Literal, by [serve] in
    Commands; [Launch] hands it to DnsServer, Balancer and ControlServer;
    ControlServer and the health checks of Launcher change it; Election prunes
    it; [monitorReload] restarts the services on it.

    ** What is shown

    - Configuration on disk: at every moment of [Save], whatever operation
      fails, each configuration file is absent, as before, or holds the complete
      new document for every process that reads it; a stop of the machine may
      leave both files empty, since nothing is synced; [Save] followed by [Reload] gives back the configuration;
      what [FromDisk] returns has typed records and fully qualified names;
      [trimZones] and [decorateZones] are inverse.
    - Literals: a parse that succeeds stores values of the fields' types, and
      the structs exist; the order of an object's keys does
      not matter; lists of addresses and strings are copied exactly.
    - DNS: [findZone] is the longest matching suffix; [ServeDNS] meets a
      specification of its answers and header on every query to well-formed
      zones, the queries that end the process included.
    - Load balancing: in every interleaving no backend has more TCP connections in
      service than the maximum; the chosen backend is free and least loaded; a forward
      succeeds within as many attempts as there are backends when one answers;
      accepted connections are served in order and at most a buffer's worth of
      them wait; what the handlers of the HTTP balancer dial first overshoots the
      maximum by no more than the handlers that have chosen and not dialled; the
      forwarded headers.
    - Elections: when the goroutines have ended, the winner is a reachable peer
      with the greatest uptime, and reachable peers are never pruned; they end
      exactly when no peer hangs.
    - Control API: requests that do not overlap never use one nonce twice, nor one
      that has expired; requests that do not authenticate change nothing but the
      request object of their endpoint; a client with the key completes an
      exchange with the server; no request changes the process's identity.
    - Health checks refine a small automaton: one failed action per outage, one
      revival at its end; the launcher's address checks remove an address and
      put it back.
    - Starting and stopping: the bootstrap of [serve] makes the process run the
      document of its file; a launched server has opened exactly its sockets,
      serves zones that meet the precondition of the DNS specification, and has
      a balancer wherever the configuration asks for one and nowhere else;
      [Shutdown] closes what [Launch] opened except for the HTTP balancers; a
      reload replaces the services, and after a request that changes the
      configuration the new DNS server serves it, but a reload fails for good
      when there is an HTTP balancer.
    - Commands: [authcheck] tells the right key from a wrong one; what [addpeer]
      does to the server's peers; [updateconfig] makes a peer run, save and serve
      exactly the operator's file, and [reloadconfig] the JSON file on its disk;
      [identifypublisher] names the oldest answering peer; what the signal handler
      stops, when no reload came before.
    - The whole daemon: in every sequence of requests, check results and monitor
      rounds the DNS server answers without a panic, and across reloads too as
      long as no change of the configuration was refused half-way and the monitor
      has not fetched one.
    - The last quarter of the claims are exact statements of behaviour that the
      documentation or the names would not lead one to expect: replay of a nonce
      by concurrent requests, a health check that prunes the wrong backend, a
      monitor that never fetches, records hidden by [Save], a request that leaves
      the control server's mutex locked, an update that leaves the peer without
      services, a refused update whose zones come back, and others.

    ** How it is modelled

    Integers are [Z]; where Go's width matters (uint32 TTLs, float64 to int,
    durations) the conversion is written out.  Strings are bytes.  A nil pointer
    is [None] or a location outside the heap.  Errors keep their format, their
    string arguments and what they wrap; the printed text of an error that a
    [%v] includes is left out.  Mutex-protected sections are the steps of the
    relations; where the code drops a lock between reading and writing, these
    are two steps.  The mutex that a panic leaves locked is tracked for
    [configMutex], in ControlLocks; for the others a panic is where a run ends.

    A message carries a configuration by value ([Document]); zones in memory are
    in the heap of the process, shared by everything that points to them.

    A [Launch] runs without interleaved requests, and the goroutines that a
    [Shutdown] has told to close their listeners have done so when a reload
    launches again.  What happens between the start of [serve] and the signal
    is an argument of [serve]; it is not a reload.

    Of the codecs each theorem relies on the round trip of the documents it is
    about ([codec_for]), and of the decoding of requests on what becomes of the
    object of the endpoint ([exchange_ok]).

    Fuel: [typeAssert] takes the depth of the literal, proved enough
    ([LiteralParse.typeAssert_terminates]; the calls that take a pointer off the type
    use none); [forward] takes the number of
    attempts, and the size of the pool is proved enough when a backend answers;
    the loop of [handleNonce] takes the list of random strings that will be
    read, and says so when it is used up.

    Code outside src/ is a parameter: encoding/json and ghodss/yaml ([Codec],
    [Wire]), erikh/go-hashchain ([HashChain]), miekg/dns ([DnsLib]), crypto/tls
    ([TlsLib]), go-jose ([Jose]), the system's sockets ([Sockets]), the network
    ([NetEnv], [http], [dial]), what peers answer ([uptime], [hangs]) and, where
    a component only uses it, the outcome of an election that ends ([elect]).
    Their laws are stated in the classes or as hypotheses of the theorems that need them, and the witnesses instantiate
    them with concrete functions.

    ** What is not modelled

    The flags, and the dispatch to the subcommands of [main], which ff does; the
    copying of bytes and the clock behind time-outs in the balancers (a step may
    end a connection at any time); requests that arrive while [Launch] or
    [Shutdown] runs; the second [Shutdown] of the first server, which the signal
    handler calls when a reload has replaced it; the data race of [expireNonces],
    which ranges over the map of nonces without a lock; debug logging; null zones and records in a configuration document or message;
    the loop of the health checker's goroutine between [Start] and [Shutdown],
    other than its ticks; what [configMutex] protects against when several
    handlers run at once.  Next in the plan: requests interleaved with a reload,
    and concurrent handlers that save. *)

From stdpp Require Export base option list strings gmap relations.
From Stdlib Require Export ZArith Ascii.

(** ** Go errors and outcomes *)

(** A Go [error] value: [Errorf] is [errors.New] and a [fmt.Errorf] that does
    not wrap; [Wrapf] is a [fmt.Errorf] whose format wraps its cause with [%w];
    [Join] is [errors.Join]. *)
Inductive error : Type :=
| Errorf (fmt : string) (args : list string)
| Wrapf (fmt : string) (args : list string) (cause : error)
| Join (e1 e2 : error).

Definition errors_New (msg : string) : error := Errorf msg [].

#[export] Instance error_eq_dec : EqDecision error.
Proof. solve_decision. Defined.

(** [errors.Is(e, target)]: [e] is [target], or [e] wraps or joins such an error. *)
Fixpoint errors_Is (e target : error) : bool :=
  bool_decide (e = target) ||
  match e with
  | Errorf _ _ => false
  | Wrapf _ _ cause => errors_Is cause target
  | Join e1 e2 => errors_Is e1 target || errors_Is e2 target
  end.

(** The result of running Go code that may fail: a value, a returned error, a
    run-time panic (nil dereference, failed type assertion, misuse of
    [reflect]), or [logrus.Fatalf], which terminates the process. *)
Inductive outcome (A : Type) : Type :=
| Ok (a : A)
| Err (e : error)
| Panic
| Fatal (msg : string).
Arguments Ok {A} a.
Arguments Err {A} e.
Arguments Panic {A}.
Arguments Fatal {A} msg.

#[export] Instance outcome_ret : MRet outcome := fun A a => Ok a.
#[export] Instance outcome_bind : MBind outcome := fun A B f m =>
  match m with
  | Ok a => f a
  | Err e => Err e
  | Panic => Panic
  | Fatal msg => Fatal msg
  end.
#[export] Instance outcome_fmap : FMap outcome := fun A B f m =>
  match m with
  | Ok a => Ok (f a)
  | Err e => Err e
  | Panic => Panic
  | Fatal msg => Fatal msg
  end.

(** The outcome is a value. *)
Definition is_ok {A} (m : outcome A) : bool :=
  match m with Ok _ => true | _ => false end.

(** Replaces a returned error, as [if err != nil { return g(err) }] does;
    panics and fatal exits pass through. *)
Definition map_err {A} (g : error -> error) (m : outcome A) : outcome A :=
  match m with
  | Err e => Err (g e)
  | m => m
  end.

(** Sequential loop with early exit: [for _, x := range l { ... return err }]. *)
Fixpoint for_each {A S} (f : A -> S -> outcome S) (l : list A) (s : S) : outcome S :=
  match l with
  | [] => Ok s
  | x :: l' => s' ← f x s; for_each f l' s'
  end.

(** A loop that builds a list, [out = append(out, f(x)...)], with early exit. *)
Fixpoint collect {A B} (f : A -> outcome (list B)) (l : list A) : outcome (list B) :=
  match l with
  | [] => Ok []
  | x :: l' => ys ← f x; zs ← collect f l'; Ok (ys ++ zs)
  end.

(** ** Strings *)

(** A Go string as its list of bytes, and back. *)
Definition chars (s : string) : list ascii := String.list_ascii_of_string s.
Definition str (l : list ascii) : string := String.string_of_list_ascii l.

(** [strings.HasSuffix] and [strings.TrimSuffix]. *)
Definition HasSuffix (s suffix : string) : bool :=
  let n := length (chars s) in
  let k := length (chars suffix) in
  (k <=? n) && bool_decide (drop (n - k) (chars s) = chars suffix).

Definition TrimSuffix (s suffix : string) : string :=
  if HasSuffix s suffix
  then str (take (length (chars s) - length (chars suffix)) (chars s))
  else s.

(** [strings.Join(ls, sep)]. *)
Definition Join_strings (ls : list string) (sep : string) : string :=
  String.concat sep ls.

(** [strings.Split(s, sep)] for a one-byte separator. *)
Fixpoint split_chars (c : ascii) (l acc : list ascii) : list (list ascii) :=
  match l with
  | [] => [rev acc]
  | x :: l' => if Ascii.eqb x c then rev acc :: split_chars c l' []
               else split_chars c l' (x :: acc)
  end.

Definition Split_string (s : string) (c : ascii) : list string :=
  str <$> split_chars c (chars s) [].

(** ** Map iteration

    Go iterates over a map in an unspecified order.  A [MapRange] is an
    arbitrary such order: definitions that range over a map take one, and the
    theorems about them hold for every one. *)
Class MapRange := {
  range : forall {V : Type}, gmap string V -> list (string * V);
  range_perm : forall {V : Type} (m : gmap string V), range m ≡ₚ map_to_list m
}.

(** The order [map_to_list] gives, for evaluating examples. *)
Definition canonical_range : MapRange :=
  {| range V m := map_to_list m; range_perm V m := reflexivity _ |}.

(** ** Machine integers *)

Definition uint32_max : Z := 2 ^ 32 - 1.
Definition int64_min : Z := - 2 ^ 63.
Definition int64_max : Z := 2 ^ 63 - 1.

(** Two's-complement wrap-around of a 64-bit signed integer. *)
Definition wrap64 (z : Z) : Z := (z + 2 ^ 63) mod 2 ^ 64 - 2 ^ 63.

(** ** Automation *)

Create HintDb border.
Create HintDb border_rw.

(** Case analysis on every [match]/[if] scrutinee, keeping the equations. *)
Ltac destruct_match :=
  repeat match goal with
  | |- context [match ?x with _ => _ end] => destruct x eqn:?; simplify_eq/=
  | H : context [match ?x with _ => _ end] |- _ => destruct x eqn:?; simplify_eq/=
  end.

(** Inverts a successful run of a monadic computation. *)
Ltac inv_ok :=
  repeat match goal with
  | H : mbind _ ?m = Ok _ |- _ =>
      let x := fresh "x" in let E := fresh "E" in
      destruct m as [x| | |] eqn:E; simpl in H; try discriminate H
  | H : fmap _ ?m = Ok _ |- _ =>
      let x := fresh "x" in let E := fresh "E" in
      destruct m as [x| | |] eqn:E; simpl in H; try discriminate H
  | H : map_err _ ?m = Ok _ |- _ =>
      let x := fresh "x" in let E := fresh "E" in
      destruct m as [x| | |] eqn:E; simpl in H; try discriminate H
  | H : Ok _ = Ok _ |- _ => injection H as H
  end; simplify_eq/=.

(** ** Lemmas on outcomes *)

Lemma bind_ok {A B} (m : outcome A) (f : A -> outcome B) b :
  m ≫= f = Ok b <-> exists a, m = Ok a /\ f a = Ok b.
Proof. destruct m; simpl; naive_solver. Qed.

Lemma for_each_app {A S} (f : A -> S -> outcome S) l k s :
  for_each f (l ++ k) s = (s' ← for_each f l s; for_each f k s').
Proof.
  revert s. induction l as [|x l IH]; intros s; simpl; [done|].
  destruct (f x s); simpl; auto.
Qed.

Lemma for_each_inv {A S} (P : S -> Prop) (f : A -> S -> outcome S) l s s' :
  (forall x s0 s1, x ∈ l -> P s0 -> f x s0 = Ok s1 -> P s1) ->
  P s -> for_each f l s = Ok s' -> P s'.
Proof.
  revert s. induction l as [|x l IH]; intros s Hf Hs Hl; simpl in Hl; [by simplify_eq|].
  apply bind_ok in Hl as (s1 & H1 & H2).
  eapply IH; [|eapply Hf; [left|exact Hs|exact H1]|exact H2].
  intros y s0 s2 Hy. apply Hf. by right.
Qed.

Lemma for_each_pure {A S} (f : A -> S -> S) l s :
  for_each (fun x s => Ok (f x s)) l s = Ok (foldl (fun s x => f x s) s l).
Proof. revert s. induction l as [|x l IH]; intros s; simpl; auto. Qed.

Lemma collect_app {A B} (f : A -> outcome (list B)) l k :
  collect f (l ++ k) = (ys ← collect f l; zs ← collect f k; Ok (ys ++ zs)).
Proof.
  induction l as [|x l IH]; simpl.
  - by destruct (collect f k).
  - destruct (f x); simpl; [|done..]. rewrite IH.
    destruct (collect f l); simpl; [|done..].
    destruct (collect f k); simpl; [|done..]. by rewrite app_assoc.
Qed.

Lemma collect_ok_pure {A B} (f : A -> outcome (list B)) (g : A -> list B) l :
  (forall x, x ∈ l -> f x = Ok (g x)) -> collect f l = Ok (mjoin (g <$> l)).
Proof.
  induction l as [|x l IH]; intros Hf; simpl; [done|].
  rewrite Hf by left; simpl. rewrite IH; [done|]. intros y Hy. apply Hf. by right.
Qed.

Lemma collect_elem_of {A B} (f : A -> outcome (list B)) l ys y :
  collect f l = Ok ys ->
  y ∈ ys <-> exists x zs, x ∈ l /\ f x = Ok zs /\ y ∈ zs.
Proof.
  revert ys. induction l as [|x l IH]; intros ys Hc; simpl in Hc.
  - simplify_eq. split; [by intros ?%elem_of_nil|]. intros (? & ? & []%elem_of_nil & _).
  - apply bind_ok in Hc as (ys0 & Hx & (zs0 & Hl & [= <-])%bind_ok).
    rewrite elem_of_app, (IH _ Hl). split.
    + intros [Hy|(x' & zs & ? & ? & ?)]; [exists x, ys0|exists x', zs]; set_solver.
    + intros (x' & zs & [->|Hx']%elem_of_cons & Hf & Hy); [left|right; eauto].
      congruence.
Qed.

(** ** Lemmas on lists *)

Lemma NoDup_fmap_eq {A B} (f : A -> B) (l : list A) x y :
  NoDup (f <$> l) -> x ∈ l -> y ∈ l -> f x = f y -> x = y.
Proof.
  induction l as [|z l IH]; [by intros _ ?%elem_of_nil|]. rewrite fmap_cons, NoDup_cons.
  intros [Hz Hl] [->|Hx]%elem_of_cons [->|Hy]%elem_of_cons E; auto; exfalso; apply Hz.
  - rewrite E. by apply list_elem_of_fmap_2.
  - rewrite <- E. by apply list_elem_of_fmap_2.
Qed.

Lemma foldl_inv {A S} (P : S -> Prop) (f : S -> A -> S) l : forall s,
  P s -> (forall s x, x ∈ l -> P s -> P (f s x)) -> P (foldl f s l).
Proof.
  induction l as [|x l IH]; intros s Hs Hf; [done|]. apply IH; [apply Hf; [left|done]|].
  intros s' y Hy. apply Hf. by right.
Qed.

(** ** Lemmas on strings *)

Lemma str_chars s : str (chars s) = s.
Proof. apply String.string_of_list_ascii_of_string. Qed.

Lemma chars_str l : chars (str l) = l.
Proof. apply String.list_ascii_of_string_of_list_ascii. Qed.

#[export] Instance chars_inj : Inj (=) (=) chars.
Proof. intros s t H. by rewrite <- (str_chars s), H, str_chars. Qed.

#[export] Instance str_inj : Inj (=) (=) str.
Proof. intros l k H. by rewrite <- (chars_str l), H, chars_str. Qed.

Lemma chars_app s t : chars (s +:+ t) = chars s ++ chars t.
Proof. induction s as [|c s IH]; simpl; [done|]. by f_equal. Qed.

#[global] Arguments chars : simpl never.
#[global] Arguments str : simpl never.

Lemma str_app l k : str (l ++ k) = str l +:+ str k.
Proof. apply (inj chars). by rewrite chars_app, !chars_str. Qed.

Lemma string_app_assoc (s t u : string) : (s +:+ t) +:+ u = s +:+ t +:+ u.
Proof. apply (inj chars). by rewrite !chars_app, app_assoc. Qed.

Lemma string_app_nil_r s : s +:+ "" = s.
Proof. apply (inj chars). rewrite chars_app. apply app_nil_r. Qed.

#[export] Hint Rewrite chars_str str_chars chars_app str_app : border_rw.

Lemma HasSuffix_spec s suf :
  HasSuffix s suf = true <-> exists p, s = p +:+ suf.
Proof.
  unfold HasSuffix. rewrite andb_true_iff, Nat.leb_le, bool_decide_eq_true. split.
  - intros [Hle Hd]. exists (str (take (length (chars s) - length (chars suf)) (chars s))).
    apply (inj chars). rewrite chars_app, chars_str.
    set (n := length (chars s) - length (chars suf)) in *. rewrite <- Hd.
    by rewrite take_drop.
  - intros [p ->]. rewrite chars_app, length_app. split; [lia|].
    replace (_ - _) with (length (chars p)) by lia. by rewrite drop_app_length.
Qed.

Lemma HasSuffix_app p suf : HasSuffix (p +:+ suf) suf = true.
Proof. apply HasSuffix_spec. eauto. Qed.

Lemma TrimSuffix_app p suf : TrimSuffix (p +:+ suf) suf = p.
Proof.
  unfold TrimSuffix. rewrite HasSuffix_app. apply (inj chars).
  rewrite chars_str, chars_app, length_app.
  replace (_ - _) with (length (chars p)) by lia. by rewrite take_app_length.
Qed.

Lemma TrimSuffix_none s suf : HasSuffix s suf = false -> TrimSuffix s suf = s.
Proof. unfold TrimSuffix. by intros ->. Qed.

Lemma concat_cons2 sep x y l :
  Join_strings (x :: y :: l) sep = x +:+ sep +:+ Join_strings (y :: l) sep.
Proof. done. Qed.

Lemma Join_strings_snoc l x sep :
  l <> [] -> Join_strings (l ++ [x]) sep = Join_strings l sep +:+ sep +:+ x.
Proof.
  induction l as [|y l IH]; [done|]. intros _. destruct l as [|z l]; [done|].
  change ((y :: z :: l) ++ [x]) with (y :: z :: (l ++ [x])).
  rewrite !concat_cons2. change (z :: l ++ [x]) with ((z :: l) ++ [x]).
  rewrite IH by done. by rewrite !string_app_assoc.
Qed.

Lemma split_chars_ne c l acc : split_chars c l acc <> [].
Proof. revert acc. induction l as [|x l IH]; intros acc; simpl; [done|]. case_match; done. Qed.

Lemma Join_split_chars c l acc :
  Join_strings (str <$> split_chars c l acc) (str [c]) = str (rev acc ++ l).
Proof.
  revert acc. induction l as [|x l IH]; intros acc; simpl; [by rewrite app_nil_r|].
  destruct (Ascii.eqb_spec x c) as [->|Hne].
  - specialize (IH []). pose proof (split_chars_ne c l []) as Hne.
    destruct (split_chars c l []) as [|y k]; [done|].
    rewrite !fmap_cons in *. rewrite concat_cons2, IH. simpl.
    rewrite <- !str_app. done.
  - rewrite IH. simpl. by rewrite <- app_assoc.
Qed.

(** [strings.Join(strings.Split(s, c), c) = s]. *)
Lemma Join_Split s c : Join_strings (Split_string s c) (str [c]) = s.
Proof. unfold Split_string. rewrite Join_split_chars. simpl. apply str_chars. Qed.

(** ** Lemmas on map iteration *)

Section map_range.
Context `{MR : MapRange}.

Lemma elem_of_range {V} (m : gmap string V) k v :
  (k, v) ∈ range m <-> m !! k = Some v.
Proof. rewrite range_perm. apply elem_of_map_to_list. Qed.

Lemma range_keys_NoDup {V} (m : gmap string V) : NoDup (range m).*1.
Proof. rewrite range_perm. apply NoDup_fst_map_to_list. Qed.

Lemma range_list_to_map {V} (m : gmap string V) : list_to_map (range m) = m.
Proof.
  rewrite <- (list_to_map_to_list m) at 2. apply list_to_map_proper; [|apply range_perm].
  apply range_keys_NoDup.
Qed.
End map_range.

#[export] Hint Resolve @range_keys_NoDup : border.
