(* ===== verification/GoNet.v ===== *)
(** * The parts of Go's [net] package the program relies on

    [net.IP] values, [net.ParseIP], [IP.To4], [IP.String] and
    [net.SplitHostPort] / [net.JoinHostPort], transcribed from the Go 1.20
    standard library (go.mod: [go 1.20]).  The program uses them in
    pkg/dnsconfig ([LB.Convert]), pkg/config/literal.go, pkg/healthcheck,
    pkg/lb ([Init]) and pkg/launcher.  The two round trips proved here,
    [ParseIP_String_v4] and [SplitHostPort_JoinHostPort], are what the launcher
    needs when it turns addresses into strings and back. *)

From S2P Require Import Prelude.

Local Open Scope Z_scope.

(** A [net.IP] is a byte slice; [nil] is the empty list. *)
Notation IP := (list Z).

(** ** Digits *)

Definition code (c : ascii) : Z := Z.of_N (N_of_ascii c).
Definition is_digit (c : ascii) : bool := (48 <=? code c) && (code c <=? 57).

Definition hex_value (c : ascii) : option Z :=
  if (48 <=? code c) && (code c <=? 57) then Some (code c - 48)
  else if (97 <=? code c) && (code c <=? 102) then Some (code c - 97 + 10)
  else if (65 <=? code c) && (code c <=? 70) then Some (code c - 65 + 10)
  else None.

(** The bound [big] of net's parsers: larger numbers are rejected. *)
Definition big : Z := 16777215.

(** [dtoi]: the decimal prefix of a string, with its length and what follows. *)
Fixpoint dtoi_go (l : list ascii) (n : Z) (i : nat) : option (Z * nat * list ascii) :=
  match l with
  | c :: l' =>
      if is_digit c then
        let n' := n * 10 + (code c - 48) in
        if big <=? n' then None else dtoi_go l' n' (S i)
      else match i with O => None | _ => Some (n, i, l) end
  | [] => match i with O => None | _ => Some (n, i, l) end
  end.
Definition dtoi (l : list ascii) : option (Z * nat * list ascii) := dtoi_go l 0 0.

(** [xtoi]: the same for hexadecimal. *)
Fixpoint xtoi_go (l : list ascii) (n : Z) (i : nat) : option (Z * nat * list ascii) :=
  match l with
  | c :: l' =>
      match hex_value c with
      | Some d =>
          let n' := n * 16 + d in
          if big <=? n' then None else xtoi_go l' n' (S i)
      | None => match i with O => None | _ => Some (n, i, l) end
      end
  | [] => match i with O => None | _ => Some (n, i, l) end
  end.
Definition xtoi (l : list ascii) : option (Z * nat * list ascii) := xtoi_go l 0 0.

(** ** [net.ParseIP] *)

Definition v4_prefix : list Z := [0; 0; 0; 0; 0; 0; 0; 0; 0; 0; 255; 255].

(** One dotted component: at most 255, no leading zero. *)
Definition parse_octet (l : list ascii) : option (Z * list ascii) :=
  match dtoi l with
  | Some (n, c, rest) =>
      if 255 <? n then None
      else if (1 <? c)%nat && bool_decide (head l = Some "0"%char) then None
      else Some (n, rest)
  | None => None
  end.

Fixpoint parseIPv4_go (k : nat) (first : bool) (l : list ascii) (acc : list Z) :
    option (list Z) :=
  match k with
  | O => match l with [] => Some acc | _ => None end
  | S k' =>
      match l with
      | [] => None
      | c :: l' =>
          if first then
            match parse_octet l with
            | Some (n, rest) => parseIPv4_go k' false rest (acc ++ [n])
            | None => None
            end
          else if Ascii.eqb c "." then
            match parse_octet l' with
            | Some (n, rest) => parseIPv4_go k' false rest (acc ++ [n])
            | None => None
            end
          else None
      end
  end.

(** [parseIPv4]: the four octets ([ParseIP] returns them in 16-byte form). *)
Definition parseIPv4 (l : list ascii) : option (list Z) := parseIPv4_go 4 true l [].

(** [parseIPv6]'s loop: eight groups at most, so [k] starts at 8; [acc] are the
    bytes parsed so far and [ell] the position of the ellipsis. *)
Fixpoint parseIPv6_go (k : nat) (acc : list Z) (ell : option nat) (l : list ascii) :
    option (list Z * option nat * list ascii) :=
  match k with
  | O => Some (acc, ell, l)
  | S k' =>
      match xtoi l with
      | None => None
      | Some (n, _, rest) =>
          if 65535 <? n then None
          else if bool_decide (head rest = Some "."%char) then
            if negb (bool_decide (is_Some ell)) && negb (length acc =? 12)%nat then None
            else if (16 <? length acc + 4)%nat then None
            else match parseIPv4 l with
                 | Some p => Some (acc ++ p, ell, [])
                 | None => None
                 end
          else
            let acc' := acc ++ [n / 256; n mod 256] in
            match rest with
            | [] => Some (acc', ell, [])
            | c :: [] => None
            | c :: d :: rest' =>
                if negb (Ascii.eqb c ":") then None
                else if Ascii.eqb d ":" then
                  if bool_decide (is_Some ell) then None
                  else match rest' with
                       | [] => Some (acc', Some (length acc'), [])
                       | _ => parseIPv6_go k' acc' (Some (length acc')) rest'
                       end
                else parseIPv6_go k' acc' ell (d :: rest')
            end
      end
  end.

(** The final step of [parseIPv6]: the whole string used, the ellipsis expanded. *)
Definition parseIPv6_end (r : list Z * option nat * list ascii) : option (list Z) :=
  let '(acc, ell, l) := r in
  match l with
  | _ :: _ => None
  | [] =>
      if (length acc <? 16)%nat then
        match ell with
        | None => None
        | Some e => Some (take e acc ++ replicate (16 - length acc) 0 ++ drop e acc)
        end
      else match ell with Some _ => None | None => Some acc end
  end.

Definition parseIPv6 (l : list ascii) : option (list Z) :=
  match l with
  | ":"%char :: ":"%char :: [] => Some (replicate 16 0)
  | ":"%char :: ":"%char :: l' => parseIPv6_go 8 [] (Some 0%nat) l' ≫= parseIPv6_end
  | _ => parseIPv6_go 8 [] None l ≫= parseIPv6_end
  end.

(** The first of [.] and [:] decides the syntax. *)
Fixpoint ip_syntax (l : list ascii) : option bool :=
  match l with
  | [] => None
  | c :: l' => if Ascii.eqb c "." then Some true
               else if Ascii.eqb c ":" then Some false else ip_syntax l'
  end.

Definition ParseIP (s : string) : IP :=
  match ip_syntax (chars s) with
  | Some true => match parseIPv4 (chars s) with Some p => v4_prefix ++ p | None => [] end
  | Some false => default [] (parseIPv6 (chars s))
  | None => []
  end.

(** [IP.To4]: the 4-byte form, or nil. *)
Definition To4 (ip : IP) : IP :=
  if (length ip =? 4)%nat then ip
  else if (length ip =? 16)%nat && bool_decide (take 12 ip = v4_prefix) then drop 12 ip
  else [].

(** ** [IP.String] *)

Definition digit (n : Z) : ascii :=
  ascii_of_N (Z.to_N (if n <? 10 then 48 + n else 87 + n)).

(** netip's [appendDecimal] and [appendHex]. *)
Definition decimal (x : Z) : list ascii :=
  (if 100 <=? x then [digit (x / 100)] else []) ++
  (if 10 <=? x then [digit (x / 10 mod 10)] else []) ++ [digit (x mod 10)].

Definition hex16 (x : Z) : list ascii :=
  (if 4096 <=? x then [digit (x / 4096)] else []) ++
  (if 256 <=? x then [digit (x / 256 mod 16)] else []) ++
  (if 16 <=? x then [digit (x / 16 mod 16)] else []) ++ [digit (x mod 16)].

Definition v4_string (p : list Z) : list ascii :=
  match p with
  | [a; b; c; d] => decimal a ++ "."%char :: decimal b ++ "."%char :: decimal c ++ "."%char :: decimal d
  | _ => []
  end.

(** The 16-bit groups of an IPv6 address. *)
Fixpoint groups (ip : list Z) : list Z :=
  match ip with
  | hi :: lo :: ip' => hi * 256 + lo :: groups ip'
  | _ => []
  end.

Fixpoint zero_run (l : list Z) : nat :=
  match l with
  | 0 :: l' => S (zero_run l')
  | _ => O
  end.

(** The first longest run of at least two zero groups, as (start, end). *)
Fixpoint longest_zeros (gs : list Z) (i : nat) (best : nat * nat) : nat * nat :=
  match gs with
  | [] => best
  | _ :: gs' =>
      let l := zero_run gs in
      longest_zeros gs' (S i)
        (if (2 <=? l)%nat && (best.2 - best.1 <? l)%nat then (i, i + l)%nat else best)
  end.

Fixpoint v6_groups (gs : list Z) (i : nat) (zs ze : nat) : list ascii :=
  match gs with
  | [] => []
  | g :: gs' =>
      if (i =? zs)%nat then ":"%char :: ":"%char :: v6_groups gs' (S i) zs ze
      else if (zs <? i)%nat && (i <? ze)%nat then v6_groups gs' (S i) zs ze
      else (if (0 <? i)%nat && negb ((i =? ze)%nat && (zs <? ze)%nat) then [":"%char] else []) ++
           hex16 g ++ v6_groups gs' (S i) zs ze
  end.

Definition v6_string (ip : list Z) : list ascii :=
  let gs := groups ip in
  let '(zs, ze) := longest_zeros gs 0 (0, 0)%nat in
  if (zs <? ze)%nat then v6_groups gs 0 zs ze else v6_groups gs 0 8 8.

Definition IP_String (ip : IP) : string :=
  match ip with
  | [] => "<nil>"
  | _ =>
      if (length (To4 ip) =? 4)%nat then str (v4_string (To4 ip))
      else if (length ip =? 16)%nat then str (v6_string ip)
      else "?" +:+ str (mjoin ((fun b => [digit (b / 16); digit (b mod 16)]) <$> ip))
  end.

(** ** [net.SplitHostPort] and [net.JoinHostPort] *)

Definition index_of (c : ascii) (l : list ascii) : option nat :=
  fst <$> list_find (fun x => x = c) l.

(** The last index of [c]. *)
Fixpoint last_index (c : ascii) (l : list ascii) : option nat :=
  match l with
  | [] => None
  | x :: l' =>
      match last_index c l' with
      | Some i => Some (S i)
      | None => if Ascii.eqb x c then Some O else None
      end
  end.

Definition addrErr {A} (addr why : string) : outcome A := Err (Errorf why [addr]).

(** The checks for stray brackets and the final result. *)
Definition split_tail (hostport : string) (l host : list ascii) (i j k : nat) :
    outcome (string * string) :=
  match index_of "[" (drop j l) with
  | Some _ => addrErr hostport "unexpected '[' in address"
  | None =>
      match index_of "]" (drop k l) with
      | Some _ => addrErr hostport "unexpected ']' in address"
      | None => Ok (str host, str (drop (S i) l))
      end
  end.

Definition SplitHostPort (hostport : string) : outcome (string * string) :=
  let l := chars hostport in
  match last_index ":" l with
  | None => addrErr hostport "missing port in address"
  | Some i =>
      if bool_decide (head l = Some "["%char) then
        match index_of "]" l with
        | None => addrErr hostport "missing ']' in address"
        | Some e =>
            if (S e =? length l)%nat then addrErr hostport "missing port in address"
            else if (S e =? i)%nat then
              split_tail hostport l (take (e - 1) (drop 1 l)) i 1 (S e)
            else if bool_decide (l !! S e = Some ":"%char)
            then addrErr hostport "too many colons in address"
            else addrErr hostport "missing port in address"
        end
      else
        match index_of ":" (take i l) with
        | Some _ => addrErr hostport "too many colons in address"
        | None => split_tail hostport l (take i l) i 0 0
        end
  end.

Definition JoinHostPort (host port : string) : string :=
  match index_of ":" (chars host) with
  | Some _ => "[" +:+ host +:+ "]:" +:+ port
  | None => host +:+ ":" +:+ port
  end.

Example parse_v4_loopback : ParseIP "127.0.0.1" = v4_prefix ++ [127; 0; 0; 1].
Proof. reflexivity. Qed.
Example parse_v6_loopback : ParseIP "::1" = replicate 15 0 ++ [1].
Proof. reflexivity. Qed.
Example parse_v6_mixed : ParseIP "2001:db8::8:800:200C:417A"
  = [32; 1; 13; 184; 0; 0; 0; 0; 0; 8; 8; 0; 32; 12; 65; 122].
Proof. reflexivity. Qed.
Example parse_name : ParseIP "foo" = [].
Proof. reflexivity. Qed.
Example parse_bad_octet : ParseIP "256.0.0.1" = [] /\ ParseIP "01.0.0.1" = [] /\ ParseIP "1.2.3" = [].
Proof. repeat split; reflexivity. Qed.
Example string_v6 : IP_String (ParseIP "2001:db8::8:800:200C:417A") = "2001:db8::8:800:200c:417a"
  /\ IP_String (ParseIP "::1") = "::1" /\ IP_String (ParseIP "fe80::") = "fe80::"
  /\ IP_String (ParseIP "1:2:3:4:5:6:7:8") = "1:2:3:4:5:6:7:8"
  /\ IP_String (ParseIP "1::2:0:0:5") = "1::2:0:0:5" /\ IP_String (ParseIP "::ffff:1.2.3.4") = "1.2.3.4".
Proof. repeat split; reflexivity. Qed.
Example split_name : SplitHostPort "foo:8000" = Ok ("foo", "8000")
  /\ SplitHostPort "[::1]:53" = Ok ("::1", "53") /\ is_ok (SplitHostPort "::1:53") = false
  /\ is_ok (SplitHostPort "foo") = false /\ SplitHostPort ":5309" = Ok ("", "5309").
Proof. repeat split; reflexivity. Qed.

(** ** Round trip of IPv4 addresses *)

Definition byte_ok (b : Z) : Prop := 0 <= b < 256.
Definition no_digit_head (l : list ascii) : Prop :=
  match l with c :: _ => is_digit c = false | [] => True end.

Lemma dtoi_go_stop l n i :
  no_digit_head l -> dtoi_go l n (S i) = Some (n, S i, l).
Proof. destruct l as [|c l]; simpl; [done|]. by intros ->. Qed.

(** The 256 octets, evaluated once each. *)
Lemma parse_octet_table x :
  byte_ok x -> forall rest, no_digit_head rest ->
  parse_octet (decimal x ++ rest) = Some (x, rest).
Proof.
  intros [H0 H1] rest Hrest. unfold parse_octet, dtoi.
  assert (dtoi_go (decimal x ++ rest) 0 0 = dtoi_go rest x (length (decimal x))
    /\ (1 <? length (decimal x))%nat && bool_decide (head (decimal x ++ rest) = Some "0"%char) = false
    /\ length (decimal x) <> 0%nat) as (-> & Hz & Hl).
  { rewrite <- (Z2Nat.id x) by lia.
    assert (Z.to_nat x < 256)%nat as Hn by lia. revert Hn. clear -H0.
    generalize (Z.to_nat x) as n. intros n Hn.
    do 256 (destruct n as [|n]; [repeat split; done|]). lia. }
  destruct (length (decimal x)) as [|k]; [done|].
  rewrite dtoi_go_stop by done. rewrite Hz.
  destruct (Z.ltb_spec 255 x); [lia|done].
Qed.

Lemma decimal_ne x : decimal x <> [].
Proof. unfold decimal. by intros [_ [_ ?]%app_eq_nil]%app_eq_nil. Qed.

Lemma parseIPv4_go_first k x rest acc :
  byte_ok x -> no_digit_head rest ->
  parseIPv4_go (S k) true (decimal x ++ rest) acc = parseIPv4_go k false rest (acc ++ [x]).
Proof.
  intros Hx Hr. simpl. pose proof (parse_octet_table x Hx rest Hr) as Hp.
  destruct (decimal x ++ rest) as [|c l] eqn:E.
  - apply app_eq_nil in E as [E _]. by destruct (decimal_ne x).
  - by rewrite Hp.
Qed.

Lemma parseIPv4_go_next k x rest acc :
  byte_ok x -> no_digit_head rest ->
  parseIPv4_go (S k) false ("."%char :: decimal x ++ rest) acc
  = parseIPv4_go k false rest (acc ++ [x]).
Proof. intros Hx Hr. simpl. by rewrite parse_octet_table. Qed.

Lemma parseIPv4_string a b c d :
  byte_ok a -> byte_ok b -> byte_ok c -> byte_ok d ->
  parseIPv4 (v4_string [a; b; c; d]) = Some [a; b; c; d].
Proof.
  intros Ha Hb Hc Hd. unfold parseIPv4, v4_string.
  rewrite parseIPv4_go_first by done. rewrite !parseIPv4_go_next by done.
  rewrite <- (app_nil_r (decimal d)), parseIPv4_go_next by done. done.
Qed.

Lemma ip_syntax_digits l k :
  forallb is_digit l = true -> ip_syntax (l ++ "."%char :: k) = Some true.
Proof.
  induction l as [|c l IH]; simpl; [done|]. rewrite andb_true_iff. intros [Hc Hl].
  destruct (Ascii.eqb_spec c "."); [done|].
  destruct (Ascii.eqb_spec c ":") as [->|]; [done|]. auto.
Qed.

Lemma decimal_digits x : byte_ok x -> forallb is_digit (decimal x) = true.
Proof.
  intros [H0 H1]. rewrite <- (Z2Nat.id x) by lia.
  assert (Z.to_nat x < 256)%nat as Hn by lia. revert Hn. clear.
  generalize (Z.to_nat x) as n. intros n Hn.
  do 256 (destruct n as [|n]; [done|]). lia.
Qed.

Lemma To4_prefix p : length p = 4%nat -> To4 (v4_prefix ++ p) = p.
Proof.
  intros Hp. unfold To4. rewrite length_app, Hp. cbn [length v4_prefix Nat.add Nat.eqb andb].
  by rewrite bool_decide_eq_true_2.
Qed.

(** Printing an IPv4 address and parsing it again gives the same [net.IP]. *)
Lemma ParseIP_String_v4 a b c d :
  byte_ok a -> byte_ok b -> byte_ok c -> byte_ok d ->
  ParseIP (IP_String (v4_prefix ++ [a; b; c; d])) = v4_prefix ++ [a; b; c; d].
Proof.
  intros Ha Hb Hc Hd.
  assert (IP_String (v4_prefix ++ [a; b; c; d]) = str (v4_string [a; b; c; d])) as ->.
  { unfold IP_String. rewrite To4_prefix by done. done. }
  unfold ParseIP. rewrite chars_str, parseIPv4_string by done.
  unfold v4_string at 1. by rewrite ip_syntax_digits by auto using decimal_digits.
Qed.

(** ** Round trip of host and port *)

Definition has_char (c : ascii) (s : string) : bool := bool_decide (c ∈ chars s).

Lemma index_of_None c l : index_of c l = None <-> c ∉ l.
Proof.
  unfold index_of. rewrite fmap_None, list_find_None, Forall_forall. set_solver.
Qed.

Lemma index_of_app_r c l k :
  c ∉ l -> index_of c (l ++ c :: k) = Some (length l).
Proof.
  intros Hc. unfold index_of. rewrite list_find_app_r.
  - simpl. by rewrite decide_True.
  - apply list_find_None, Forall_forall. set_solver.
Qed.

Lemma last_index_None c l : c ∉ l -> last_index c l = None.
Proof.
  induction l as [|x l IH]; simpl; [done|]. intros [Hx Hl]%not_elem_of_cons.
  rewrite IH by done. destruct (Ascii.eqb_spec x c); [congruence|done].
Qed.

Lemma last_index_app c l k :
  c ∉ k -> last_index c (l ++ c :: k) = Some (length l).
Proof.
  intros Hk. induction l as [|x l IH]; simpl.
  - by rewrite last_index_None, Ascii.eqb_refl.
  - by rewrite IH.
Qed.

Lemma split_tail_ok hp l host i j k :
  "["%char ∉ drop j l -> "]"%char ∉ drop k l ->
  split_tail hp l host i j k = Ok (str host, str (drop (S i) l)).
Proof.
  intros Hj Hk. unfold split_tail.
  rewrite (proj2 (index_of_None _ _) Hj). by rewrite (proj2 (index_of_None _ _) Hk).
Qed.

Lemma drop_prefix {A} (l k : list A) x y z :
  drop (S (length l)) (l ++ x :: k) = k /\
  drop (S (S (length l))) (l ++ y :: z :: k) = k.
Proof.
  split; (rewrite drop_app_ge by lia).
  - by replace (_ - _)%nat with 1%nat by lia.
  - by replace (_ - _)%nat with 2%nat by lia.
Qed.

Lemma SplitHostPort_bracket (h p : list ascii) s :
  chars s = "["%char :: h ++ "]"%char :: ":"%char :: p ->
  "["%char ∉ h -> "]"%char ∉ h -> ":"%char ∉ p -> "["%char ∉ p -> "]"%char ∉ p ->
  SplitHostPort s = Ok (str h, str p).
Proof.
  intros Es Ho Hc Pc Po Pp. unfold SplitHostPort. rewrite Es.
  assert (last_index ":" ("["%char :: h ++ "]"%char :: ":"%char :: p) = Some (S (S (length h)))) as ->.
  { replace (_ :: _) with (("["%char :: h ++ ["]"%char]) ++ ":"%char :: p)
      by (simpl; by rewrite <- app_assoc).
    rewrite last_index_app by done. f_equal. simpl. rewrite length_app. simpl. lia. }
  rewrite bool_decide_eq_true_2 by done.
  assert (index_of "]" ("["%char :: h ++ "]"%char :: ":"%char :: p) = Some (S (length h))) as ->.
  { apply (index_of_app_r _ ("["%char :: h)). set_solver. }
  cbn [length]. rewrite length_app, Nat.eqb_refl. cbn [length].
  destruct (Nat.eqb_spec (S (S (length h))) (S (length h + S (S (length p))))); [lia|].
  replace (S (length h) - 1)%nat with (length h) by lia.
  cbn [skipn]. rewrite drop_0, (take_app_length h).
  rewrite split_tail_ok; cbn [skipn].
  - by rewrite (proj2 (drop_prefix h p ":"%char "]"%char ":"%char)).
  - set_solver.
  - rewrite (proj1 (drop_prefix h (":"%char :: p) "]"%char "]"%char ":"%char)). set_solver.
Qed.

Lemma SplitHostPort_plain (h p : list ascii) s :
  chars s = h ++ ":"%char :: p ->
  ":"%char ∉ h -> "["%char ∉ h -> "]"%char ∉ h ->
  ":"%char ∉ p -> "["%char ∉ p -> "]"%char ∉ p ->
  SplitHostPort s = Ok (str h, str p).
Proof.
  intros Es Hn Ho Hc Pc Po Pp. unfold SplitHostPort. rewrite Es.
  rewrite last_index_app by done. rewrite bool_decide_eq_false_2.
  2:{ destruct h; [done|]. simpl. set_solver. }
  rewrite take_app_length, (proj2 (index_of_None _ _) Hn).
  rewrite split_tail_ok; [|set_solver..].
  by rewrite (proj1 (drop_prefix h p ":"%char ":"%char ":"%char)).
Qed.

(** Joining a host and a port and splitting again gives both back, for a host
    and a port without brackets and a port without a colon. *)
Lemma SplitHostPort_JoinHostPort host port :
  has_char "[" host = false -> has_char "]" host = false ->
  has_char ":" port = false -> has_char "[" port = false -> has_char "]" port = false ->
  SplitHostPort (JoinHostPort host port) = Ok (host, port).
Proof.
  unfold has_char. rewrite !bool_decide_eq_false. intros Ho Hc Pc Po Pp.
  rewrite <- (str_chars host) at 2. rewrite <- (str_chars port) at 2.
  unfold JoinHostPort. destruct (index_of ":" (chars host)) as [i|] eqn:Ei.
  - apply SplitHostPort_bracket; try done. by rewrite !chars_app.
  - apply index_of_None in Ei. apply SplitHostPort_plain; try done. by rewrite !chars_app.
Qed.
