(* ===== verification/HealthCheck.v ===== *)
(** * Component: health checks (pkg/healthcheck/healthcheck.go)

    [HealthCheck] is the configured probe, [runCheck] performs it against the
    network, [HealthChecker] holds the probes with their failure counters and
    [runChecks] is one round of the ticker loop.  The [FailedAction] and
    [ReviveAction] closures act on a world [W] the checker knows nothing about
    (the launcher instantiates it with the configuration).

    Every goroutine of a round touches only its own counter and its own check,
    so a round is a sequence of [run_one] steps in an arbitrary order of the
    indices; an action runs as one step. *)

From S2P Require Import Prelude GoNet.

Local Open Scope Z_scope.

Definition TypePing : string := "ping".
Definition TypeHTTP : string := "http".

(** [*http.Request], as far as the program reads or changes it. *)
Record HttpRequest := {
  req_Method : string;
  req_URL : string;
  req_Body : string
}.

(** The [HealthCheck] struct; a [time.Duration] is its number of nanoseconds. *)
Record HealthCheck := {
  hc_Name : string;
  hc_Type : string;
  hc_Timeout : Z;
  hc_Failures : Z;
  hc_requestTransformer : option (HttpRequest -> HttpRequest);
  hc_target : string;
  hc_failed : bool
}.

Definition Copy (hc : HealthCheck) : HealthCheck :=
  {| hc_Name := hc_Name hc;
     hc_Type := hc_Type hc;
     hc_Timeout := hc_Timeout hc;
     hc_Failures := hc_Failures hc;
     hc_requestTransformer := None;
     hc_target := "";
     hc_failed := false |}.

Definition SetTarget (target : string) (hc : HealthCheck) : HealthCheck :=
  {| hc_Name := hc_Name hc; hc_Type := hc_Type hc; hc_Timeout := hc_Timeout hc;
     hc_Failures := hc_Failures hc; hc_requestTransformer := hc_requestTransformer hc;
     hc_target := target; hc_failed := hc_failed hc |}.

Definition Target (hc : HealthCheck) : string := hc_target hc.

Definition SetRequestTransformer (f : HttpRequest -> HttpRequest) (hc : HealthCheck) : HealthCheck :=
  {| hc_Name := hc_Name hc; hc_Type := hc_Type hc; hc_Timeout := hc_Timeout hc;
     hc_Failures := hc_Failures hc; hc_requestTransformer := Some f;
     hc_target := hc_target hc; hc_failed := hc_failed hc |}.

Definition set_Name (name : string) (hc : HealthCheck) : HealthCheck :=
  {| hc_Name := name; hc_Type := hc_Type hc; hc_Timeout := hc_Timeout hc;
     hc_Failures := hc_Failures hc; hc_requestTransformer := hc_requestTransformer hc;
     hc_target := hc_target hc; hc_failed := hc_failed hc |}.

Definition set_Type (typ : string) (hc : HealthCheck) : HealthCheck :=
  {| hc_Name := hc_Name hc; hc_Type := typ; hc_Timeout := hc_Timeout hc;
     hc_Failures := hc_Failures hc; hc_requestTransformer := hc_requestTransformer hc;
     hc_target := hc_target hc; hc_failed := hc_failed hc |}.

Definition set_failed (b : bool) (hc : HealthCheck) : HealthCheck :=
  {| hc_Name := hc_Name hc; hc_Type := hc_Type hc; hc_Timeout := hc_Timeout hc;
     hc_Failures := hc_Failures hc; hc_requestTransformer := hc_requestTransformer hc;
     hc_target := hc_target hc; hc_failed := b |}.

(** The network during one round: the [github.com/erikh/ping] package, whether
    [http.NewRequestWithContext] accepts a URL, and the status code with which
    the default client's [Do] returns within the timeout ([None]: an error). *)
Record NetEnv := {
  Ping : IP -> Z -> bool;
  NewRequest_ok : string -> bool;
  http_Do : HttpRequest -> Z -> option Z
}.

Definition StatusOK : Z := 200.

Definition runCheck (env : NetEnv) (hc : HealthCheck) : outcome unit :=
  if bool_decide (hc_Type hc = TypePing) then
    match ParseIP (hc_target hc) with
    | [] => Err (Errorf "Ping types must be an IP, received %q for check %q, which is not an IP"
                        [hc_target hc; hc_Name hc])
    | ip => if Ping env ip (hc_Timeout hc) then Ok tt
            else Err (Errorf "Failed to ping address %q (check: %q)" [hc_target hc; hc_Name hc])
    end
  else if bool_decide (hc_Type hc = TypeHTTP) then
    if NewRequest_ok env (hc_target hc) then
      let req := {| req_Method := "GET"; req_URL := hc_target hc; req_Body := "" |} in
      let req := match hc_requestTransformer hc with Some f => f req | None => req end in
      match http_Do env req (hc_Timeout hc) with
      | None => Err (Errorf "Failed to contact %q over HTTP (check: %q)" [hc_target hc; hc_Name hc])
      | Some status =>
          if bool_decide (status = StatusOK) then Ok tt
          else Err (Errorf "Status was not OK (was: %d) on HTTP healthcheck %q for target %q"
                           [hc_Name hc; hc_target hc])
      end
    else Err (Wrapf "Could not construct initial request: %w" [] (errors_New "invalid URL"))
  else Err (Errorf "Invalid health check type %q (check: %q): please adjust your configuration"
                   [hc_Type hc; hc_Name hc]).

(** ** The checker, over a world [W] *)

(** An action mutates the world and may return an error, which is only logged. *)
Record HealthCheckAction (W : Type) := {
  Check : HealthCheck;
  FailedAction : HealthCheck -> W -> outcome (W * option error);
  ReviveAction : HealthCheck -> W -> outcome (W * option error)
}.
Arguments Check {W} _.
Arguments FailedAction {W} _ _ _.
Arguments ReviveAction {W} _ _ _.
Arguments Build_HealthCheckAction {W} _ _ _.

Record HealthChecker (W : Type) := {
  HealthChecks : list (HealthCheckAction W);
  Failures : list Z
}.
Arguments HealthChecks {W} _.
Arguments Failures {W} _.
Arguments Build_HealthChecker {W} _ _.

(** [Init]; the ticker is the sequence of rounds given to [run]. *)
Definition Init {W} (checks : list (HealthCheckAction W)) : HealthChecker W :=
  {| HealthChecks := checks; Failures := replicate (length checks) 0 |}.

Definition set_check_failed {W} (b : bool) (a : HealthCheckAction W) : HealthCheckAction W :=
  {| Check := set_failed b (Check a);
     FailedAction := FailedAction a;
     ReviveAction := ReviveAction a |}.

(** The writes [hcr.Failures[i] = n] and [hcr.HealthChecks[i].Check.failed = b]. *)
Definition put_failures {W} (i : nat) (n : Z) (hcr : HealthChecker W) : HealthChecker W :=
  {| HealthChecks := HealthChecks hcr; Failures := <[i := n]> (Failures hcr) |}.
Definition put_failed {W} (i : nat) (b : bool) (hcr : HealthChecker W) : HealthChecker W :=
  {| HealthChecks := alter (set_check_failed b) i (HealthChecks hcr); Failures := Failures hcr |}.

(** The goroutine of [runChecks] for index [i]. *)
Definition run_one {W} (env : NetEnv) (i : nat) (st : HealthChecker W * W) :
    outcome (HealthChecker W * W) :=
  let '(hcr, w) := st in
  match HealthChecks hcr !! i, Failures hcr !! i with
  | Some check, Some n =>
      match runCheck env (Check check) with
      | Err _ =>
          let n' := n + 1 in
          let hcr1 := put_failures i n' hcr in
          let failed := bool_decide (hc_Failures (Check check) <= n')
                        && negb (hc_failed (Check check)) in
          if failed then
            r ← FailedAction check (Check check) w;
            Ok (put_failed i true hcr1, r.1)
          else Ok (hcr1, w)
      | Ok _ =>
          w' ← (if bool_decide (0 < n)
                then r ← ReviveAction check (Check check) w; Ok r.1
                else Ok w);
          Ok (put_failed i false (put_failures i 0 hcr), w')
      | Panic => Panic
      | Fatal msg => Fatal msg
      end
  | _, _ => Panic
  end.

(** One round, the goroutines finishing in the order [sched]. *)
Definition runChecks {W} (env : NetEnv) (sched : list nat) (st : HealthChecker W * W) :
    outcome (HealthChecker W * W) :=
  for_each (run_one env) sched st.

(** [run]: the select loop, until the context is cancelled. *)
Inductive tick :=
| Tick (env : NetEnv) (sched : list nat)
| Done.

Fixpoint run {W} (ticks : list tick) (st : HealthChecker W * W) : outcome (HealthChecker W * W) :=
  match ticks with
  | [] => Ok st
  | Done :: _ => Ok st
  | Tick env sched :: ticks' => st' ← runChecks env sched st; run ticks' st'
  end.

(** ** Specification: one probe as a run-length machine

    All a probe remembers is the number [k] of failures since its last success.
    It reports [Failed] when [k] reaches the threshold (at least one), and
    [Revived] at a success that ends a run of failures. *)
Inductive verdict := Failed | Revived.

#[export] Instance verdict_eq_dec : EqDecision verdict.
Proof. solve_decision. Defined.

Definition spec_next (ok : bool) (k : Z) : Z := if ok then 0 else k + 1.

Definition spec_emit (threshold : Z) (ok : bool) (k : Z) : list verdict :=
  if ok then (if bool_decide (0 < k) then [Revived] else [])
  else (if bool_decide (k + 1 = Z.max 1 threshold) then [Failed] else []).

Fixpoint spec_run (threshold : Z) (k : Z) (results : list bool) : list verdict :=
  match results with
  | [] => []
  | ok :: rs => spec_emit threshold ok k ++ spec_run threshold (spec_next ok k) rs
  end.

(** The failures since the last success. *)
Definition spec_count (k : Z) (results : list bool) : Z :=
  foldl (fun k ok => spec_next ok k) k results.

(** The [failed] flag of a probe with [k] failures since its last success. *)
Definition down (threshold k : Z) : bool := bool_decide (0 < k /\ threshold <= k).

(** A checker whose actions record which of them ran, in which order. *)
Definition log_check (i : nat) (hc : HealthCheck) : HealthCheckAction (list (nat * verdict)) :=
  {| Check := hc;
     FailedAction := fun _ w => Ok (w ++ [(i, Failed)], None);
     ReviveAction := fun _ w => Ok (w ++ [(i, Revived)], None) |}.

Definition logging (checks : list HealthCheck) : HealthChecker (list (nat * verdict)) :=
  Init (imap log_check checks).

(** The reports of probe [i]. *)
Definition events_of (i : nat) (log : list (nat * verdict)) : list verdict :=
  snd <$> filter (fun e => e.1 = i) log.

(** What probe [hc] returns in each round. *)
Definition results_of (envs : list NetEnv) (hc : HealthCheck) : list bool :=
  (fun env => is_ok (runCheck env hc)) <$> envs.

(** ** Proofs *)

Lemma runCheck_cases env hc :
  runCheck env hc = Ok tt \/ exists e, runCheck env hc = Err e.
Proof. unfold runCheck. repeat case_match; eauto. Qed.

Lemma runCheck_set_failed env hc b : runCheck env (set_failed b hc) = runCheck env hc.
Proof. done. Qed.

Lemma down_false threshold k :
  0 <= k -> down threshold k = true -> bool_decide (k + 1 = Z.max 1 threshold) = false.
Proof. unfold down. rewrite bool_decide_eq_true, bool_decide_eq_false. lia. Qed.

(** The test of [run_one] decides exactly the specification's condition. *)
Lemma fail_test threshold k :
  0 <= k ->
  bool_decide (threshold <= k + 1) && negb (down threshold k)
  = bool_decide (k + 1 = Z.max 1 threshold).
Proof.
  intros Hk. unfold down. apply eq_bool_prop_intro.
  rewrite andb_True, negb_True, !bool_decide_spec. lia.
Qed.

Lemma events_of_app i l k : events_of i (l ++ k) = events_of i l ++ events_of i k.
Proof. unfold events_of. by rewrite filter_app, fmap_app. Qed.

Lemma events_of_own i vs : events_of i ((i,.) <$> vs) = vs.
Proof.
  unfold events_of. induction vs as [|v vs IH]; [done|].
  rewrite fmap_cons, filter_cons_True by done. by rewrite fmap_cons, IH.
Qed.

Lemma events_of_other i j vs : i <> j -> events_of i ((j,.) <$> vs) = [].
Proof.
  intros Hij. unfold events_of. induction vs as [|v vs IH]; [done|].
  rewrite fmap_cons, filter_cons_False; [done|]. simpl. congruence.
Qed.

Section logging_run.
Context (checks : list HealthCheck).

(** The checker's state is the abstract counters [ks] and the flags they imply. *)
Definition Inv (ks : list Z) (hcr : HealthChecker (list (nat * verdict))) : Prop :=
  Failures hcr = ks /\ length ks = length checks /\ Forall (fun k => 0 <= k) ks /\
  forall i hc k, checks !! i = Some hc -> ks !! i = Some k ->
    HealthChecks hcr !! i = Some (log_check i (set_failed (down (hc_Failures hc) k) hc)).

Lemma Inv_put ks hcr i hc k b (fl : bool) :
  Inv ks hcr -> checks !! i = Some hc -> ks !! i = Some k -> 0 <= spec_next b k ->
  fl = down (hc_Failures hc) (spec_next b k) ->
  Inv (<[i := spec_next b k]> ks) (put_failed i fl (put_failures i (spec_next b k) hcr)).
Proof.
  intros (Hf & Hl & Hp & Hc) Hhc Hk Hn ->. unfold Inv, put_failed, put_failures; simpl.
  rewrite Hf, length_insert. split_and!; [done..| |].
  - by apply Forall_insert.
  - intros j hc' k' Hj Hk'. destruct (decide (i = j)) as [<-|Hij].
    + rewrite list_lookup_alter_eq, (Hc _ _ _ Hhc Hk). simpl. simplify_eq.
      rewrite list_lookup_insert_eq in Hk' by (by eapply lookup_lt_Some).
      by simplify_eq.
    + rewrite list_lookup_alter_ne by done. rewrite list_lookup_insert_ne in Hk' by done.
      by apply Hc.
Qed.

Lemma Inv_same_flag ks hcr i hc k :
  Inv ks hcr -> checks !! i = Some hc -> ks !! i = Some k -> 0 <= k ->
  down (hc_Failures hc) k = down (hc_Failures hc) (k + 1) ->
  Inv (<[i := k + 1]> ks) (put_failures i (k + 1) hcr).
Proof.
  intros HI Hhc Hk Hn Hd.
  pose proof (Inv_put ks hcr i hc k false (down (hc_Failures hc) k) HI Hhc Hk) as H.
  simpl in H. destruct H as (H1 & H2 & H3 & H4); [lia|done|].
  split_and!; [done..|]. intros j hc' k' Hj Hk'. rewrite <- (H4 j hc' k' Hj Hk').
  simpl. destruct (decide (i = j)) as [<-|Hij].
  - destruct HI as (_ & _ & _ & HI). rewrite list_lookup_alter_eq, (HI _ _ _ Hhc Hk). done.
  - by rewrite list_lookup_alter_ne.
Qed.

(** One goroutine advances its probe by one step of the specification. *)
Lemma run_one_log env ks hcr w i hc k :
  Inv ks hcr -> checks !! i = Some hc -> ks !! i = Some k ->
  let ok := is_ok (runCheck env hc) in
  exists hcr', Inv (<[i := spec_next ok k]> ks) hcr' /\
    run_one env i (hcr, w) = Ok (hcr', w ++ ((i,.) <$> spec_emit (hc_Failures hc) ok k)).
Proof.
  intros HI Hhc Hk ok. pose proof HI as (Hf & Hl & Hp & Hc).
  assert (0 <= k) as Hk0 by (by eapply Forall_lookup in Hp).
  specialize (Hc _ _ _ Hhc Hk). unfold run_one. rewrite Hc, Hf, Hk. simpl.
  rewrite runCheck_set_failed. subst ok.
  destruct (runCheck_cases env hc) as [->|[e ->]]; simpl.
  - exists (put_failed i false (put_failures i 0 hcr)). split.
    + by apply (Inv_put ks hcr i hc k true).
    + case_bool_decide; simpl; [done|]. by rewrite app_nil_r.
  - rewrite fail_test by done. case_bool_decide as Hd; simpl.
    + exists (put_failed i true (put_failures i (k + 1) hcr)). split; [|done].
      apply (Inv_put ks hcr i hc k false); simpl; try done; [lia|].
      unfold down. rewrite bool_decide_eq_true_2 by lia. done.
    + exists (put_failures i (k + 1) hcr). rewrite app_nil_r. split; [|done].
      apply Inv_same_flag with hc; try done. unfold down.
      apply bool_decide_ext. lia.
Qed.

(** A round over distinct indices steps each of them once. *)
Lemma runChecks_log env sched : forall ks hcr w,
  Inv ks hcr -> NoDup sched -> Forall (fun i => (i < length checks)%nat) sched ->
  exists ks' hcr' w', runChecks env sched (hcr, w) = Ok (hcr', w') /\ Inv ks' hcr' /\
    forall i hc k, checks !! i = Some hc -> ks !! i = Some k ->
      let ok := is_ok (runCheck env hc) in
      ks' !! i = Some (if bool_decide (i ∈ sched) then spec_next ok k else k) /\
      events_of i w' = events_of i w ++
        (if bool_decide (i ∈ sched) then spec_emit (hc_Failures hc) ok k else []).
Proof.
  induction sched as [|j sched IH]; intros ks hcr w HI Hnd Hin.
  { exists ks, hcr, w. split_and!; [done..|]. intros i hc k _ Hk. split; [done|].
    by rewrite app_nil_r. }
  apply NoDup_cons in Hnd as [Hj Hnd]. apply Forall_cons in Hin as [Hlt Hin].
  destruct (lookup_lt_is_Some_2 checks j Hlt) as [hcj Hhcj].
  assert (is_Some (ks !! j)) as [kj Hkj].
  { apply lookup_lt_is_Some. by destruct HI as (_ & -> & _). }
  destruct (run_one_log env ks hcr w j hcj kj HI Hhcj Hkj) as (hcr1 & HI1 & Hrun).
  destruct (IH _ _ (w ++ ((j,.) <$> spec_emit (hc_Failures hcj) (is_ok (runCheck env hcj)) kj))
    HI1 Hnd Hin) as (ks' & hcr' & w' & Hrest & HI' & Hspec).
  exists ks', hcr', w'. split_and!; [|done|].
  { unfold runChecks. cbn [for_each]. rewrite Hrun. exact Hrest. }
  intros i hc k Hhc Hk. destruct (decide (i = j)) as [->|Hne].
  - simplify_eq. destruct (Hspec j hcj (spec_next (is_ok (runCheck env hcj)) kj)) as [H1 H2]; [done| |].
    { apply list_lookup_insert_eq. by eapply lookup_lt_Some. }
    rewrite bool_decide_eq_false_2 in H1, H2 by done.
    rewrite bool_decide_eq_true_2 by set_solver.
    by rewrite H1, H2, app_nil_r, events_of_app, events_of_own.
  - destruct (Hspec i hc k Hhc) as [H1 H2]; [by rewrite list_lookup_insert_ne|].
    rewrite H1, H2, events_of_app, events_of_other, app_nil_r by done.
    assert (bool_decide (i ∈ j :: sched) = bool_decide (i ∈ sched)) as ->; [|done].
    apply bool_decide_ext. set_solver.
Qed.
End logging_run.

Definition full_round (n : nat) (r : NetEnv * list nat) : Prop := r.2 ≡ₚ seq 0 n.
Definition ticks_of (rounds : list (NetEnv * list nat)) : list tick :=
  (fun r => Tick r.1 r.2) <$> rounds.

Lemma logging_Inv checks :
  Forall (fun hc => hc_failed hc = false) checks ->
  Inv checks (replicate (length checks) 0) (logging checks).
Proof.
  intros Hff. unfold Inv, logging, Init; simpl. rewrite length_imap, length_replicate.
  split_and!; [done..| |].
  - by apply Forall_replicate.
  - intros i hc k Hhc [-> _]%lookup_replicate. rewrite list_lookup_imap, Hhc. simpl. f_equal.
    unfold down. rewrite bool_decide_eq_false_2 by lia. f_equal.
    eapply Forall_lookup in Hff; [|done]. by destruct hc; simpl in *; subst.
Qed.

Lemma run_log checks rounds : forall ks hcr w,
  Inv checks ks hcr -> Forall (full_round (length checks)) rounds ->
  exists hcr' w', run (ticks_of rounds) (hcr, w) = Ok (hcr', w') /\
    forall i hc k, checks !! i = Some hc -> ks !! i = Some k ->
      Failures hcr' !! i = Some (spec_count k (results_of rounds.*1 hc)) /\
      events_of i w' = events_of i w ++ spec_run (hc_Failures hc) k (results_of rounds.*1 hc).
Proof.
  induction rounds as [|[env sched] rounds IH]; intros ks hcr w HI Hr.
  { exists hcr, w. split; [done|]. intros i hc k _ Hk. destruct HI as (-> & _).
    by rewrite app_nil_r. }
  apply Forall_cons in Hr as [Hround Hr]. unfold full_round in Hround; simpl in Hround.
  destruct (runChecks_log checks env sched ks hcr w HI) as (ks1 & hcr1 & w1 & Hrun & HI1 & Hstep).
  { rewrite Hround. apply NoDup_seq. }
  { rewrite Hround. apply Forall_forall. intros x Hx%elem_of_seq. lia. }
  destruct (IH ks1 hcr1 w1 HI1 Hr) as (hcr' & w' & Hrest & Hspec).
  exists hcr', w'. split; [simpl; by rewrite Hrun|].
  intros i hc k Hhc Hk. destruct (Hstep i hc k Hhc Hk) as [Hk1 Hw1].
  assert (bool_decide (i ∈ sched) = true) as Hin.
  { apply bool_decide_eq_true_2. rewrite Hround. apply elem_of_seq.
    apply lookup_lt_Some in Hhc. lia. }
  rewrite Hin in Hk1, Hw1. destruct (Hspec i hc _ Hhc Hk1) as [-> ->].
  split; [done|]. rewrite Hw1, <- app_assoc. done.
Qed.

(** Alternation in the specification: after [Failed], the next report is [Revived]. *)
Lemma spec_run_first threshold k results v vs :
  spec_run threshold k results = v :: vs -> Z.max 1 threshold <= k -> v = Revived.
Proof.
  revert k. induction results as [|ok rs IH]; intros k; simpl; [done|].
  unfold spec_emit. intros Hrun Hk. destruct ok; case_bool_decide; simpl in *; try lia.
  - congruence.
  - eapply IH; [done|]. lia.
Qed.

Lemma spec_run_alternates threshold results : forall k l1 l2,
  spec_run threshold k results = l1 ++ Failed :: Failed :: l2 -> False.
Proof.
  induction results as [|ok rs IH]; intros k l1 l2; simpl; [by destruct l1|].
  unfold spec_emit. destruct ok; case_bool_decide as Hd; simpl; intros Hrun.
  - destruct l1 as [|v l1]; simplify_eq/=. by eapply IH.
  - by eapply IH.
  - destruct l1 as [|v l1]; simplify_eq/=; [|by eapply IH].
    apply spec_run_first in Hrun; [done|lia].
  - by eapply IH.
Qed.

(** C6. The health checker implements the run-length specification: from
    [Init], for every set of probes, every sequence of rounds and every order
    in which the goroutines of a round finish, the loop runs without a panic,
    the counter of each probe is its number of failures since its last success,
    and its actions fire exactly as the specification reports: [FailedAction]
    in the round where that number reaches the threshold and at no other, and
    [ReviveAction] at each success after a failure. *)
Theorem checker_refines_spec checks rounds :
  Forall (fun hc => hc_failed hc = false) checks ->
  Forall (full_round (length checks)) rounds ->
  exists hcr' log, run (ticks_of rounds) (logging checks, []) = Ok (hcr', log) /\
    forall i hc, checks !! i = Some hc ->
      Failures hcr' !! i = Some (spec_count 0 (results_of rounds.*1 hc)) /\
      events_of i log = spec_run (hc_Failures hc) 0 (results_of rounds.*1 hc).
Proof.
  intros Hff Hr.
  destruct (run_log checks rounds _ _ [] (logging_Inv checks Hff) Hr) as (hcr' & w' & Hrun & Hspec).
  exists hcr', w'. split; [done|]. intros i hc Hhc. apply (Hspec i hc 0 Hhc).
  apply lookup_replicate. split; [done|]. by eapply lookup_lt_Some.
Qed.

(** One outage, one prune: whatever the network does, a probe's
    [FailedAction] never fires twice without a [ReviveAction] in between. *)
Theorem failed_action_once_per_outage checks rounds i hcr' log :
  Forall (fun hc => hc_failed hc = false) checks ->
  Forall (full_round (length checks)) rounds ->
  (i < length checks)%nat ->
  run (ticks_of rounds) (logging checks, []) = Ok (hcr', log) ->
  ~ exists l1 l2, events_of i log = l1 ++ Failed :: Failed :: l2.
Proof.
  intros Hff Hr Hi Hrun (l1 & l2 & He).
  destruct (lookup_lt_is_Some_2 checks i Hi) as [hc Hhc].
  destruct (run_log checks rounds _ _ [] (logging_Inv checks Hff) Hr) as (hcr & w & Hrun' & Hspec).
  destruct (Hspec i hc 0 Hhc) as [_ Hev]; [by apply lookup_replicate|].
  rewrite Hrun in Hrun'. injection Hrun' as <- <-. simpl in Hev. rewrite He in Hev.
  by eapply spec_run_alternates.
Qed.

(** A probe below its threshold is revived without ever having failed: one
    failed round followed by a good one runs [ReviveAction] although
    [FailedAction] never ran, for every probe whose threshold is above one. *)
Theorem revive_without_failure hc bad good :
  hc_failed hc = false -> 1 < hc_Failures hc ->
  is_ok (runCheck bad hc) = false -> is_ok (runCheck good hc) = true ->
  exists hcr', run [Tick bad [0%nat]; Tick good [0%nat]] (logging [hc], [])
    = Ok (hcr', [(0%nat, Revived)]).
Proof.
  intros Hf Ht Hb Hg.
  assert (Forall (fun c => hc_failed c = false) [hc]) as Hff by auto.
  destruct (run_one_log [hc] bad _ _ [] 0 hc 0 (logging_Inv _ Hff)) as (h1 & HI1 & Hr1); [done..|].
  rewrite Hb in HI1, Hr1. cbn [spec_next] in HI1.
  destruct (run_one_log [hc] good _ _ [] 0 hc 1 HI1) as (h2 & HI2 & Hr2); [done..|].
  rewrite Hg in Hr2. unfold spec_emit in Hr1, Hr2.
  rewrite bool_decide_eq_false_2 in Hr1 by lia. rewrite bool_decide_eq_true_2 in Hr2 by lia.
  exists h2. cbn [run]. unfold runChecks. cbn [for_each]. rewrite Hr1.
  cbn [mbind outcome_bind for_each fmap list_fmap app]. by rewrite Hr2.
Qed.

(** ** Witnesses *)

Definition probe (threshold : Z) (target : string) : HealthCheck :=
  {| hc_Name := "probe"; hc_Type := TypePing; hc_Timeout := 1000000000;
     hc_Failures := threshold; hc_requestTransformer := None; hc_target := target;
     hc_failed := false |}.

Definition net (up : bool) : NetEnv :=
  {| Ping := fun _ _ => up; NewRequest_ok := fun _ => true; http_Do := fun _ _ => None |}.

Definition outage : list (NetEnv * list nat) :=
  [(net false, [1; 0]%nat); (net false, [0; 1]%nat); (net true, [0; 1]%nat)].

Definition two_probes : list HealthCheck := [probe 2 "127.0.0.1"; probe 3 "::1"].

Lemma outage_full : Forall (full_round (length two_probes)) outage.
Proof.
  apply Forall_forall. unfold outage. intros r Hr. unfold full_round.
  rewrite !elem_of_cons in Hr. destruct Hr as [->|[->|[->|[]%elem_of_nil]]]; simpl;
    [apply perm_swap|reflexivity..].
Qed.

Lemma checker_refines_spec_witness :
  exists hcr' log, run (ticks_of outage) (logging two_probes, []) = Ok (hcr', log) /\
    events_of 0 log = [Failed; Revived] /\ events_of 1 log = [Revived].
Proof.
  destruct (checker_refines_spec two_probes outage) as (hcr' & log & Hrun & Hspec).
  - repeat constructor.
  - apply outage_full.
  - exists hcr', log. split; [exact Hrun|]. split.
    + exact (proj2 (Hspec 0%nat (probe 2 "127.0.0.1") eq_refl)).
    + exact (proj2 (Hspec 1%nat (probe 3 "::1") eq_refl)).
Defined.

Lemma failed_action_once_witness :
  exists hcr' log, run (ticks_of outage) (logging two_probes, []) = Ok (hcr', log) /\
    ~ exists l1 l2, events_of 0 log = l1 ++ Failed :: Failed :: l2.
Proof.
  eexists _, _. split; [vm_compute; reflexivity|].
  refine (failed_action_once_per_outage two_probes outage 0%nat _ _ _ outage_full _ _).
  - repeat constructor.
  - vm_compute. repeat constructor.
  - vm_compute; reflexivity.
Defined.

Lemma revive_without_failure_witness :
  exists hcr', run [Tick (net false) [0%nat]; Tick (net true) [0%nat]]
    (logging [probe 3 "127.0.0.1"], []) = Ok (hcr', [(0%nat, Revived)]).
Proof. apply (revive_without_failure (probe 3 "127.0.0.1")); reflexivity. Defined.
