(* ===== verification/DnsConfig.v ===== *)
(** * Component: DNS records (pkg/dnsconfig/dnsconfig.go)

    The record structs of a zone and their [Convert] methods, which turn them
    into resource records.  Go's [Record] interface is the class [DnsRecord].
    The symbolic constants [TypeA], [TypeAAAA], ... stand for those of
    github.com/miekg/dns, which the program only compares for equality.
    Unsigned 32-bit fields are [Z].  [LB.Convert] calls [logrus.Fatalf], so a
    conversion is an [outcome]. *)

From S2P Require Import Prelude GoNet HealthCheck.

Local Open Scope Z_scope.

(** The record types a configuration names. *)
Definition TypeA : string := "A".
Definition TypeLB : string := "LB".

(** Query and record types of the DNS library. *)
Inductive rrtype :=
| dns_TypeA | dns_TypeNS | dns_TypeSOA | dns_TypeAAAA | dns_TypeOther (code : N).

#[export] Instance rrtype_eq_dec : EqDecision rrtype.
Proof. solve_decision. Defined.

Inductive class := ClassINET.

Record RR_Header := {
  hdr_Name : string;
  hdr_Rrtype : rrtype;
  hdr_Class : class;
  hdr_Ttl : Z
}.

(** The resource records the program builds. *)
Inductive RR :=
| RR_SOA (Hdr : RR_Header) (Ns Mbox : string) (Serial Refresh Retry Expire Minttl : Z)
| RR_A (Hdr : RR_Header) (a : IP)
| RR_NS (Hdr : RR_Header) (Ns : string)
| RR_AAAA (Hdr : RR_Header) (aaaa : IP).

Definition Hdr (rr : RR) : RR_Header :=
  match rr with
  | RR_SOA h _ _ _ _ _ _ _ | RR_A h _ | RR_NS h _ | RR_AAAA h _ => h
  end.

(** [type Record interface { Convert(string) []dns.RR }] *)
Class DnsRecord (R : Type) := Convert : R -> string -> outcome (list RR).

Record SOA := {
  soa_Domain : string;
  soa_Admin : string;
  soa_MinTTL : Z;
  soa_Serial : Z;
  soa_Refresh : Z;
  soa_Retry : Z;
  soa_Expire : Z
}.

Definition SOA_Convert (soa : SOA) (name : string) : outcome (list RR) :=
  Ok [RR_SOA {| hdr_Name := name; hdr_Rrtype := dns_TypeSOA; hdr_Class := ClassINET;
                hdr_Ttl := soa_MinTTL soa |}
        (soa_Domain soa) (soa_Admin soa) (soa_Serial soa) (soa_Refresh soa)
        (soa_Retry soa) (soa_Expire soa) (soa_MinTTL soa)].

Record A := {
  a_Addresses : list IP;
  a_TTL : Z;
  a_HealthCheck : list HealthCheck
}.

Definition A_Convert (a : A) (name : string) : outcome (list RR) :=
  Ok ((fun rec => RR_A {| hdr_Name := name; hdr_Rrtype := dns_TypeA;
                          hdr_Class := ClassINET; hdr_Ttl := a_TTL a |} rec)
      <$> a_Addresses a).

Record NS := {
  ns_Servers : list string;
  ns_TTL : Z
}.

Definition NS_Convert (ns : NS) (name : string) : outcome (list RR) :=
  Ok ((fun rec => RR_NS {| hdr_Name := name; hdr_Rrtype := dns_TypeNS;
                           hdr_Class := ClassINET; hdr_Ttl := ns_TTL ns |} rec)
      <$> ns_Servers ns).

Definition DefaultSimultaneousConnections : Z := 16384.
Definition DefaultMaxConnectionsPerAddress : Z := 32768.

Record TLSLB := {
  tls_CACertificate : list Z;
  tls_Certificate : list Z;
  tls_Key : list Z
}.

Record LB := {
  lb_Listeners : list string;
  lb_Kind : string;
  lb_Backends : list string;
  lb_SimultaneousConnections : Z;
  lb_MaxConnectionsPerAddress : Z;
  lb_ConnectionTimeout : Z;
  lb_TTL : Z;
  lb_TLS : option TLSLB;
  lb_HealthCheck : list HealthCheck
}.

(** The body of [LB.Convert]'s loop for one listener. *)
Definition LB_listener (lb : LB) (name listener : string) : outcome (list RR) :=
  match SplitHostPort listener with
  | Ok (host, _) =>
      match ParseIP host with
      | [] => Fatal "Invalid IP after Peer conversion (%q) for listener %q"
      | ip =>
          if bool_decide (To4 ip <> []) then
            Ok [RR_A {| hdr_Name := name; hdr_Rrtype := dns_TypeA;
                        hdr_Class := ClassINET; hdr_Ttl := lb_TTL lb |} ip]
          else
            Ok [RR_AAAA {| hdr_Name := name; hdr_Rrtype := dns_TypeAAAA;
                           hdr_Class := ClassINET; hdr_Ttl := lb_TTL lb |} ip]
      end
  | Err _ => Fatal "Conversion error in listener %q converting to Peer IP: %v"
  | Panic => Panic
  | Fatal m => Fatal m
  end.

Definition LB_Convert (lb : LB) (name : string) : outcome (list RR) :=
  collect (LB_listener lb name) (lb_Listeners lb).

#[export] Instance SOA_record : DnsRecord SOA := SOA_Convert.
#[export] Instance A_record : DnsRecord A := A_Convert.
#[export] Instance NS_record : DnsRecord NS := NS_Convert.
#[export] Instance LB_record : DnsRecord LB := LB_Convert.

(** ** Specification of [LB.Convert] *)

(** The address of a listener whose host is an IP literal. *)
Definition listener_ip (listener : string) : option IP :=
  match SplitHostPort listener with
  | Ok (host, _) => match ParseIP host with [] => None | ip => Some ip end
  | _ => None
  end.

(** The record of an address: [A] for IPv4 (in either form), [AAAA] otherwise. *)
Definition address_rr (name : string) (ttl : Z) (ip : IP) : RR :=
  let typ := if bool_decide (To4 ip <> []) then dns_TypeA else dns_TypeAAAA in
  let h := {| hdr_Name := name; hdr_Rrtype := typ; hdr_Class := ClassINET; hdr_Ttl := ttl |} in
  if bool_decide (To4 ip <> []) then RR_A h ip else RR_AAAA h ip.

Lemma SplitHostPort_cases s :
  (exists h p, SplitHostPort s = Ok (h, p)) \/ exists e, SplitHostPort s = Err e.
Proof. unfold SplitHostPort, split_tail, addrErr. repeat case_match; eauto. Qed.

Lemma LB_listener_spec lb name listener :
  match listener_ip listener with
  | Some ip => LB_listener lb name listener = Ok [address_rr name (lb_TTL lb) ip]
  | None => exists msg, LB_listener lb name listener = Fatal msg
  end.
Proof.
  unfold listener_ip, LB_listener, address_rr.
  destruct (SplitHostPort_cases listener) as [(h & p & ->)|[e ->]]; simpl; [|eauto].
  destruct (ParseIP h); [eauto|]. by case_bool_decide.
Qed.

(** A successful [LB.Convert] names the query's owner and uses the record type
    that matches the constructor. *)
Definition rr_matches (name : string) (rr : RR) : Prop :=
  hdr_Name (Hdr rr) = name /\
  match rr with
  | RR_SOA h _ _ _ _ _ _ _ => hdr_Rrtype h = dns_TypeSOA
  | RR_A h _ => hdr_Rrtype h = dns_TypeA
  | RR_NS h _ => hdr_Rrtype h = dns_TypeNS
  | RR_AAAA h _ => hdr_Rrtype h = dns_TypeAAAA
  end.

Lemma address_rr_matches name ttl ip : rr_matches name (address_rr name ttl ip).
Proof. unfold address_rr, rr_matches. by case_bool_decide. Qed.

Lemma LB_Convert_ok lb name ips :
  mapM listener_ip (lb_Listeners lb) = Some ips ->
  LB_Convert lb name = Ok (address_rr name (lb_TTL lb) <$> ips).
Proof.
  unfold LB_Convert. revert ips. induction (lb_Listeners lb) as [|l ls IH]; intros ips Hm.
  { by injection Hm as <-. }
  simpl in Hm. pose proof (LB_listener_spec lb name l) as Hl.
  destruct (listener_ip l) as [ip|]; [|done]. simpl in Hm.
  destruct (mapM listener_ip ls) as [ips'|] eqn:E; [|done]. injection Hm as <-.
  cbn [collect]. rewrite Hl. simpl. by rewrite (IH _ eq_refl).
Qed.

Lemma LB_Convert_fatal lb name :
  mapM listener_ip (lb_Listeners lb) = None -> exists msg, LB_Convert lb name = Fatal msg.
Proof.
  unfold LB_Convert. induction (lb_Listeners lb) as [|l ls IH]; intros Hm; [done|].
  simpl in *. pose proof (LB_listener_spec lb name l) as Hl.
  destruct (listener_ip l) as [ip|]; simpl in Hm.
  - rewrite Hl. simpl. destruct (mapM listener_ip ls) as [ips'|]; [done|].
    destruct (IH eq_refl) as [msg ->]. eauto.
  - destruct Hl as [msg ->]. eauto.
Qed.

Lemma LB_Convert_cases lb name :
  match LB_Convert lb name with Ok _ | Fatal _ => True | _ => False end.
Proof.
  destruct (mapM listener_ip (lb_Listeners lb)) as [ips|] eqn:E.
  - by rewrite (LB_Convert_ok lb name ips E).
  - by destruct (LB_Convert_fatal lb name E) as [msg ->].
Qed.

(** [LB.Convert] is total and fully determined: when the host of every
    listener is an IP literal it returns one record per listener, in order,
    [A] for IPv4 and [AAAA] for IPv6, with the record's TTL; in every other
    case it terminates the process. *)
Theorem LB_Convert_spec lb name :
  match mapM listener_ip (lb_Listeners lb) with
  | Some ips => LB_Convert lb name = Ok (address_rr name (lb_TTL lb) <$> ips)
  | None => exists msg, LB_Convert lb name = Fatal msg
  end.
Proof.
  destruct (mapM listener_ip (lb_Listeners lb)) eqn:E;
    [by apply LB_Convert_ok|by apply LB_Convert_fatal].
Qed.

(** The records any conversion produces match their owner and type. *)
Lemma SOA_Convert_matches soa name rrs :
  SOA_Convert soa name = Ok rrs -> Forall (rr_matches name) rrs.
Proof. intros [= <-]. by repeat constructor. Qed.

Lemma A_Convert_matches a name rrs :
  A_Convert a name = Ok rrs -> Forall (rr_matches name) rrs.
Proof. intros [= <-]. apply Forall_fmap, Forall_true. done. Qed.

Lemma NS_Convert_matches ns name rrs :
  NS_Convert ns name = Ok rrs -> Forall (rr_matches name) rrs.
Proof. intros [= <-]. apply Forall_fmap, Forall_true. done. Qed.

Lemma LB_Convert_matches lb name rrs :
  LB_Convert lb name = Ok rrs -> Forall (rr_matches name) rrs.
Proof.
  intros H. destruct (mapM listener_ip (lb_Listeners lb)) as [ips|] eqn:E.
  - rewrite (LB_Convert_ok lb name ips E) in H. simplify_eq.
    apply Forall_fmap, Forall_true. intros ip. apply address_rr_matches.
  - destruct (LB_Convert_fatal lb name E). congruence.
Qed.

#[export] Hint Resolve SOA_Convert_matches A_Convert_matches NS_Convert_matches
  LB_Convert_matches : border.
