(* ===== verification/GoTime.v ===== *)
(** * Numbers of Go's runtime and [time.ParseDuration]

    The [float64] values an [encoding/json] or YAML document decodes to
    (IEEE 754 binary64, Stdlib's [spec_float]), their conversion to [int], and
    [time.ParseDuration] of the Go 1.20 standard library.
    pkg/config/literal.go uses all three. *)

From Stdlib Require Export SpecFloat.
From S2P Require Import Prelude GoNet.

Local Open Scope Z_scope.

(** ** float64 *)

Definition float64 := spec_float.

#[export] Instance float64_eq_dec : EqDecision spec_float.
Proof. solve_decision. Defined.

(** Conversion of an integer, rounded to nearest even. *)
Definition float_of_Z (z : Z) : float64 := binary_normalize 53 1024 z 0 false.
Definition float_mul (x y : float64) : float64 := SFmul 53 1024 x y.
Definition float_div (x y : float64) : float64 := SFdiv 53 1024 x y.

(** Truncation toward zero; [None] for infinities and NaN. *)
Definition float_trunc (f : float64) : option Z :=
  match f with
  | S754_zero _ => Some 0
  | S754_infinity _ | S754_nan => None
  | S754_finite s m e =>
      let a := if 0 <=? e then Z.pos m * 2 ^ e else Z.pos m / 2 ^ (- e) in
      Some (if s then - a else a)
  end.

(** Go's [int(f)] on a 64-bit machine: out of range is the minimum (amd64). *)
Definition int_of_float (f : float64) : Z :=
  match float_trunc f with
  | Some z => if (int64_min <=? z) && (z <=? int64_max) then z else int64_min
  | None => int64_min
  end.

(** ** [time.ParseDuration] *)

Definition Millisecond : Z := 1000000.
Definition Second : Z := 1000000000.

Definition unit_of (u : string) : option Z :=
  if bool_decide (u = "ns") then Some 1
  else if bool_decide (u = "us") then Some 1000
  else if bool_decide (u = "µs") then Some 1000
  else if bool_decide (u = "μs") then Some 1000
  else if bool_decide (u = "ms") then Some Millisecond
  else if bool_decide (u = "s") then Some Second
  else if bool_decide (u = "m") then Some (60 * Second)
  else if bool_decide (u = "h") then Some (3600 * Second)
  else None.

(** [leadingInt]; [None] is its overflow error. *)
Fixpoint leadingInt (l : list ascii) (x : Z) : option (Z * list ascii) :=
  match l with
  | c :: l' =>
      if is_digit c then
        if 2 ^ 63 / 10 <? x then None
        else let x' := x * 10 + (code c - 48) in
             if 2 ^ 63 <? x' then None else leadingInt l' x'
      else Some (x, l)
  | [] => Some (x, l)
  end.

(** [leadingFraction]: digits, scale and rest; digits past overflow are skipped. *)
Fixpoint leadingFraction (l : list ascii) (x : Z) (scale : float64) (overflow : bool) :
    Z * float64 * list ascii :=
  match l with
  | c :: l' =>
      if is_digit c then
        let y := x * 10 + (code c - 48) in
        if overflow || ((2 ^ 63 - 1) / 10 <? x) || (2 ^ 63 <? y)
        then leadingFraction l' x scale true
        else leadingFraction l' y (float_mul scale (float_of_Z 10)) false
      else (x, scale, l)
  | [] => (x, scale, l)
  end.

(** The unit: everything up to the next digit or period. *)
Fixpoint span_unit (l : list ascii) : list ascii * list ascii :=
  match l with
  | c :: l' => if Ascii.eqb c "." || is_digit c then ([], l)
               else let '(u, r) := span_unit l' in (c :: u, r)
  | [] => ([], [])
  end.

Definition bad_duration (s : string) : error := Errorf "time: invalid duration" [s].

(** The loop of [ParseDuration], one number and unit per iteration; each
    consumes at least one byte, so [fuel] is the length of the string. *)
Fixpoint duration_go (fuel : nat) (orig : string) (l : list ascii) (d : Z) : outcome Z :=
  match l, fuel with
  | [], _ => Ok d
  | _, O => Err (bad_duration orig)
  | c :: _, S fuel' =>
      if negb (Ascii.eqb c "." || is_digit c) then Err (bad_duration orig)
      else match leadingInt l 0 with
      | None => Err (bad_duration orig)
      | Some (v, l1) =>
          let pre := negb (length l =? length l1)%nat in
          let '(f, scale, l2, post) :=
            match l1 with
            | c1 :: l1' =>
                if Ascii.eqb c1 "." then
                  let '(f, scale, l2) := leadingFraction l1' 0 (float_of_Z 1) false in
                  (f, scale, l2, negb (length l1' =? length l2)%nat)
                else (0, float_of_Z 1, l1, false)
            | [] => (0, float_of_Z 1, l1, false)
            end in
          if negb pre && negb post then Err (bad_duration orig)
          else match span_unit l2 with
          | ([], _) => Err (Errorf "time: missing unit in duration" [orig])
          | (u, l3) =>
              match unit_of (str u) with
              | None => Err (Errorf "time: unknown unit" [str u; orig])
              | Some unit =>
                  if 2 ^ 63 / unit <? v then Err (bad_duration orig)
                  else
                    let v := v * unit in
                    let v := if 0 <? f
                             then v + default 0 (float_trunc (float_mul (float_of_Z f)
                                        (float_div (float_of_Z unit) scale)))
                             else v in
                    if 2 ^ 63 <? v then Err (bad_duration orig)
                    else if 2 ^ 63 <? d + v then Err (bad_duration orig)
                    else duration_go fuel' orig l3 (d + v)
              end
          end
      end
  end.

Definition ParseDuration (s : string) : outcome Z :=
  let '(neg, l) :=
    match chars s with
    | "-"%char :: l => (true, l)
    | "+"%char :: l => (false, l)
    | l => (false, l)
    end in
  if bool_decide (l = ["0"%char]) then Ok 0
  else match l with
  | [] => Err (bad_duration s)
  | _ =>
      d ← duration_go (length l) s l 0;
      if neg then Ok (- d)
      else if 2 ^ 63 - 1 <? d then Err (bad_duration s) else Ok d
  end.

Example duration_1s : ParseDuration "1s" = Ok Second.
Proof. vm_compute. reflexivity. Qed.
Example duration_compound : ParseDuration "1h2m3.5s" = Ok (3723 * Second + 500 * Millisecond)
  /\ ParseDuration "-10ms" = Ok (- 10 * Millisecond) /\ ParseDuration "1.000000001s" = Ok (Second + 1)
  /\ ParseDuration "1.5h" = Ok (5400 * Second) /\ ParseDuration "0" = Ok 0
  /\ is_ok (ParseDuration "10") = false /\ is_ok (ParseDuration "") = false
  /\ is_ok (ParseDuration "3 s") = false /\ is_ok (ParseDuration ".s") = false.
Proof. vm_compute. repeat split. Qed.
Example int_of_three : int_of_float (float_of_Z 3) = 3 /\ int_of_float (float_of_Z (-7)) = -7
  /\ int_of_float (float_div (float_of_Z (-7)) (float_of_Z 2)) = -3.
Proof. vm_compute. repeat split. Qed.
