(* ===== verification/Literal.v ===== *)
(** * Component: record literals (pkg/config/literal.go)

    [parseLiteral] and [typeAssert] copy the [map[string]any] of a record's
    [value] into the struct of its type through package [reflect].  Reflection
    is modelled by a universe of Go types ([gotype]) and of values that carry
    their dynamic type ([goval]); a [reflect.Value] is an [option goval], [None]
    being the zero [Value] (no field matched).  Struct types are named and
    their fields, with the tags [literal.go] reads, are listed by
    [struct_fields], transcribed from pkg/dnsconfig and pkg/healthcheck.

    A map literal is the list of its entries in the order Go's [MapRange]
    visits them.  [typeAssert] recurses on the literal; its [fuel] is the depth
    of the literal ([LiteralParse.typeAssert_terminates] shows that this is always enough). *)

From S2P Require Import Prelude GoNet GoTime HealthCheck DnsConfig.

Local Open Scope Z_scope.

(** ** Types and values *)

Inductive gotype :=
| TBool | TInt | TInt8 | TInt16 | TInt32 | TInt64 | TDuration
| TUint | TUint8 | TUint16 | TUint32 | TUint64 | TUintptr
| TFloat32 | TFloat64 | TString
| TIP
| TSlice (t : gotype)
| TArray (n : nat) (t : gotype)
| TPtr (t : gotype)
| TMap (t : gotype)
| TAny
| TStruct (name : string)
| TChan | TFunc | TUnsafePointer.

#[export] Instance gotype_eq_dec : EqDecision gotype.
Proof. solve_decision. Defined.

Inductive kind :=
| KBool | KInt | KInt8 | KInt16 | KInt32 | KInt64
| KUint | KUint8 | KUint16 | KUint32 | KUint64 | KUintptr
| KFloat32 | KFloat64 | KString | KSlice | KArray | KPointer | KMap | KInterface
| KStruct | KChan | KFunc | KUnsafePointer.

#[export] Instance kind_eq_dec : EqDecision kind.
Proof. solve_decision. Defined.

(** [reflect.Type.Kind]: [time.Duration] is an [int64], [net.IP] a slice. *)
Definition kind_of (t : gotype) : kind :=
  match t with
  | TBool => KBool | TInt => KInt | TInt8 => KInt8 | TInt16 => KInt16 | TInt32 => KInt32
  | TInt64 | TDuration => KInt64
  | TUint => KUint | TUint8 => KUint8 | TUint16 => KUint16 | TUint32 => KUint32
  | TUint64 => KUint64 | TUintptr => KUintptr
  | TFloat32 => KFloat32 | TFloat64 => KFloat64 | TString => KString
  | TIP | TSlice _ => KSlice
  | TArray _ _ => KArray | TPtr _ => KPointer | TMap _ => KMap | TAny => KInterface
  | TStruct _ => KStruct | TChan => KChan | TFunc => KFunc | TUnsafePointer => KUnsafePointer
  end.

(** Go values with their dynamic type.  [VNil] is the nil interface; the
    [None] of a slice, pointer or map is its nil; [VZero t] is the zero value
    of a type the program never looks into (functions, channels). *)
Inductive goval :=
| VBool (b : bool)
| VInt (t : gotype) (z : Z)
| VFloat (t : gotype) (f : float64)
| VString (s : string)
| VSlice (t : gotype) (l : option (list goval))
| VArray (t : gotype) (l : list goval)
| VPtr (t : gotype) (p : option goval)
| VMap (t : gotype) (m : option (list (string * goval)))
| VStruct (name : string) (fs : list goval)
| VZero (t : gotype)
| VNil.

(** [reflect.TypeOf]; [None] for the nil interface. *)
Definition typeof (v : goval) : option gotype :=
  match v with
  | VBool _ => Some TBool
  | VInt t _ | VFloat t _ | VSlice t _ | VArray t _ | VPtr t _ | VMap t _ | VZero t => Some t
  | VString _ => Some TString
  | VStruct n _ => Some (TStruct n)
  | VNil => None
  end.

(** ** Struct tables *)

Record field := { f_Name : string; f_Tag : option string; f_Type : gotype }.
Definition tagged (name tag : string) (t : gotype) : field :=
  {| f_Name := name; f_Tag := Some tag; f_Type := t |}.
Definition untagged (name : string) (t : gotype) : field :=
  {| f_Name := name; f_Tag := None; f_Type := t |}.

Definition HealthCheck_fields : list field :=
  [tagged "Name" "name,optional" TString;
   tagged "Type" "type,optional" TString;
   tagged "Timeout" "timeout" TDuration;
   tagged "Failures" "failures" TInt;
   untagged "requestTransformer" TFunc;
   untagged "target" TString;
   untagged "failed" TBool].

Definition THealthChecks : gotype := TSlice (TPtr (TStruct "healthcheck.HealthCheck")).

Definition A_fields : list field :=
  [tagged "Addresses" "addresses" (TSlice TIP);
   tagged "TTL" "ttl,optional" TUint32;
   tagged "HealthCheck" "healthcheck,optional" THealthChecks].

Definition TLSLB_fields : list field :=
  [tagged "CACertificate" "ca_certificate,optional" (TSlice TUint8);
   tagged "Certificate" "certificate" (TSlice TUint8);
   tagged "Key" "key" (TSlice TUint8)].

Definition LB_fields : list field :=
  [tagged "Listeners" "listeners" (TSlice TString);
   tagged "Kind" "kind" TString;
   tagged "Backends" "backends" (TSlice TString);
   tagged "SimultaneousConnections" "simultaneous_connections,optional" TInt;
   tagged "MaxConnectionsPerAddress" "max_connections_per_address,optional" TInt;
   tagged "ConnectionTimeout" "connection_timeout,optional" TDuration;
   tagged "TTL" "ttl,optional" TUint32;
   tagged "TLS" "tls,optional" (TPtr (TStruct "dnsconfig.TLSLB"));
   tagged "HealthCheck" "healthcheck,optional" THealthChecks].

Definition struct_fields (name : string) : list field :=
  if bool_decide (name = "dnsconfig.A") then A_fields
  else if bool_decide (name = "dnsconfig.LB") then LB_fields
  else if bool_decide (name = "dnsconfig.TLSLB") then TLSLB_fields
  else if bool_decide (name = "healthcheck.HealthCheck") then HealthCheck_fields
  else [].

(** The zero value of a type; structs of the tables hold no struct by value. *)
Definition zero_flat (t : gotype) : goval :=
  match t with
  | TBool => VBool false
  | TInt | TInt8 | TInt16 | TInt32 | TInt64 | TDuration
  | TUint | TUint8 | TUint16 | TUint32 | TUint64 | TUintptr => VInt t 0
  | TFloat32 | TFloat64 => VFloat t (S754_zero false)
  | TString => VString ""
  | TIP | TSlice _ => VSlice t None
  | TPtr _ => VPtr t None
  | TMap _ => VMap t None
  | TAny => VNil
  | _ => VZero t
  end.

Definition zero (t : gotype) : goval :=
  match t with
  | TStruct name => VStruct name (zero_flat ∘ f_Type <$> struct_fields name)
  | TArray n t' => VArray t (replicate n (zero_flat t'))
  | _ => zero_flat t
  end.

(** [reflect.Value.IsZero]. *)
Fixpoint is_zero (v : goval) : bool :=
  match v with
  | VBool b => negb b
  | VInt _ z => bool_decide (z = 0)
  | VFloat _ f => bool_decide (f = S754_zero false)
  | VString s => bool_decide (s = "")
  | VSlice _ o => negb (bool_decide (is_Some o))
  | VPtr _ o => negb (bool_decide (is_Some o))
  | VMap _ o => negb (bool_decide (is_Some o))
  | VArray _ l | VStruct _ l => forallb is_zero l
  | VZero _ | VNil => true
  end.

(** Element type of a slice or array type. *)
Definition elem_type (t : gotype) : gotype :=
  match t with
  | TIP => TUint8
  | TSlice t' | TArray _ t' => t'
  | _ => TAny
  end.

(** The elements [reflect.Value.Index] ranges over, for a slice, array or string. *)
Definition lit_elems (v : goval) : list goval :=
  match v with
  | VSlice _ o => default [] o
  | VArray _ l => l
  | VString s => (fun c => VInt TUint8 (code c)) <$> chars s
  | _ => []
  end.

(** The kind [typeAssert]'s outer switch reaches: pointers are followed, and an
    interface becomes [reflect.TypeOf(value)], a struct ([reflect.Value]).  The calls
    of these two cases change nothing but [typ] and return what they are returned;
    here they are made at once, one for each pointer of the type, and do not count
    as nested calls. *)
Fixpoint base_kind (t : gotype) : kind :=
  match t with
  | TPtr t' => base_kind t'
  | TAny => KStruct
  | _ => kind_of t
  end.

(** [value.Set(reflect.ValueOf(literal))]: the types must be assignable. *)
Definition assignable (from to : gotype) : bool :=
  bool_decide (from = to)
  || (bool_decide (from = TSlice TUint8) && bool_decide (to = TIP))
  || (bool_decide (from = TIP) && bool_decide (to = TSlice TUint8)).

Definition retype (t : gotype) (v : goval) : goval :=
  match v with VSlice _ o => VSlice t o | v => v end.

Definition set_value (v literal : goval) : outcome goval :=
  match typeof v, typeof literal with
  | Some t, Some t' => if assignable t' t then Ok (retype t literal) else Panic
  | _, _ => Panic
  end.

(** [literal.(T)] followed by [Set]: the dynamic type must be exactly [t]. *)
Definition set_exact (t : gotype) (v literal : goval) : outcome goval :=
  if bool_decide (typeof literal = Some t) then set_value v literal else Panic.

Definition bytes_of (s : string) : list goval := (fun c => VInt TUint8 (code c)) <$> chars s.
Definition ip_value (ip : IP) : goval :=
  VSlice TIP (match ip with [] => None | _ => Some (VInt TUint8 <$> ip) end).

(** [for _, str := range lit { ips = append(ips, net.ParseIP(str)) }] *)
Definition parse_ips (strs : list goval) : goval :=
  VSlice (TSlice TIP)
    (Some ((fun l => match l with VString s => ip_value (ParseIP s) | v => v end) <$> strs)).

(** The default branch of [typeAssert]: scalars, by the kind of the target. *)
Definition assert_scalar (literal v : goval) : outcome goval :=
  match typeof v with
  | None => Panic
  | Some t =>
      match kind_of t with
      | KInt =>
          match literal with
          | VFloat TFloat64 f => set_value v (VInt TInt (int_of_float f))
          | _ => set_exact TInt v literal
          end
      | KInt8 => set_exact TInt8 v literal
      | KInt16 => set_exact TInt16 v literal
      | KInt32 => set_exact TInt32 v literal
      | KInt64 =>
          match literal with
          | VString s =>
              if bool_decide (t = TDuration) then
                d ← ParseDuration s; set_value v (VInt TDuration d)
              else Ok v
          | VInt TDuration d => set_value v literal
          | _ => set_exact TInt64 v literal
          end
      | KUint => set_exact TUint v literal
      | KUint8 => set_exact TUint8 v literal
      | KUint16 => set_exact TUint16 v literal
      | KUint32 => set_exact TUint32 v literal
      | KUint64 => set_exact TUint64 v literal
      | KUintptr => set_exact TUintptr v literal
      | KFloat32 => set_exact TFloat32 v literal
      | KFloat64 => set_exact TFloat64 v literal
      | KSlice =>
          match literal with
          | VString s => set_value v (VSlice (TSlice TUint8) (Some (bytes_of s)))
          | _ => set_value v literal
          end
      | _ => set_value v literal
      end
  end.

(** The search for the field whose whole tag is [key]: whether the last tag
    looked up existed, and the matching field. *)
Fixpoint lookup_tag (fs : list field) (key : string) (i : nat) (ok : bool) : bool * option nat :=
  match fs with
  | [] => (ok, None)
  | f :: fs' =>
      match f_Tag f with
      | Some rec => if bool_decide (rec = key) then (true, Some i) else lookup_tag fs' key (S i) true
      | None => lookup_tag fs' key (S i) false
      end
  end.

(** The element loop of a slice or array: [value.Index(i)] against each element. *)
Fixpoint assert_elems (ta : gotype -> goval -> option goval -> outcome (option goval))
    (lits elems : list goval) : outcome (list goval) :=
  match lits, elems with
  | [], _ => Ok elems
  | _ :: _, [] => Panic
  | l :: lits', e :: elems' =>
      match typeof e with
      | None => Panic
      | Some t =>
          e' ← ta t l (Some e);
          es ← assert_elems ta lits' elems';
          Ok (default e e' :: es)
      end
  end.

(** The entry loop of a struct. *)
Fixpoint assert_entries (ta : gotype -> goval -> option goval -> outcome (option goval))
    (fs : list field) (entries : list (string * goval)) (vals : list goval) : outcome (list goval) :=
  match entries with
  | [] => Ok vals
  | (key, val) :: entries' =>
      let '(ok, m) := lookup_tag fs key 0 true in
      if negb ok then Err (Errorf "Inner struct %T for %q field did not have record tag" [key])
      else match typeof val with
      | None => Panic
      | Some t =>
          match m with
          | Some i =>
              match vals !! i with
              | Some v =>
                  v' ← ta t val (Some v);
                  assert_entries ta fs entries' (<[i := default v v']> vals)
              | None => Panic
              end
          | None => _ ← ta t val None; assert_entries ta fs entries' vals
          end
      end
  end.

(** The tail of the slice and array branch: a slice is grown to the literal's
    length ([Grow] of a negative amount panics), then the elements are assigned. *)
Definition assert_slice (ta : gotype -> goval -> option goval -> outcome (option goval))
    (k : kind) (literal v : goval) : outcome (option goval) :=
  let lits := lit_elems literal in
  match k, v with
  | KSlice, VSlice vt o =>
      let old := default [] o in
      if (length lits <? length old)%nat then Panic
      else
        es ← assert_elems ta lits (old ++ replicate (length lits - length old) (zero (elem_type vt)));
        Ok (Some (VSlice vt (match o, lits with None, [] => None | _, _ => Some es end)))
  | KSlice, _ => Panic
  | _, VArray vt elems => es ← assert_elems ta lits elems; Ok (Some (VArray vt es))
  | _, VSlice vt (Some elems) => es ← assert_elems ta lits elems; Ok (Some (VSlice vt (Some es)))
  | _, VString s => if (length lits <=? length (chars s))%nat then Ok (Some v) else Panic
  | _, _ => match lits with [] => Ok (Some v) | _ => Panic end
  end.

(** [value.SetMapIndex(key, val.Elem())]: a nil element deletes the key. *)
Fixpoint set_entries (t : gotype) (entries m : list (string * goval)) : outcome (list (string * goval)) :=
  match entries with
  | [] => Ok m
  | (k, v) :: entries' =>
      let m0 := filter (fun e => e.1 <> k) m in
      match typeof v with
      | None => set_entries t entries' m0
      | Some t' => if bool_decide (t = TAny \/ t = t')
                   then set_entries t entries' (m0 ++ [(k, v)]) else Panic
      end
  end.

(** The nesting depth of a literal, the number of calls it can cause in a row, those
    that [base_kind] stands for not counted.  A string counts three (it may become a
    [net.IP], then its bytes), a [[]string] one more than another slice (it may
    become a [[]net.IP]). *)
Fixpoint depth (v : goval) : nat :=
  match v with
  | VString _ => 3
  | VSlice t o =>
      S ((if bool_decide (t = TSlice TString) then 1 else 0) +
         match o with Some l => max_list (depth <$> l) | None => 0 end)
  | VArray _ l => S (max_list (depth <$> l))
  | VMap _ (Some m) => S (max_list ((fun e => depth e.2) <$> m))
  | _ => 1
  end.

Definition out_of_fuel : error := errors_New "out of fuel".

(** [typeAssert(typ, literal, value)]: the value after the assignments. *)
Fixpoint typeAssert (fuel : nat) (typ : gotype) (literal : goval) (value : option goval) :
    outcome (option goval) :=
  match fuel with
  | O => Err out_of_fuel
  | S fuel' =>
  match base_kind typ with
  | KArray | KSlice =>
      match typeof literal with
      | None => Panic
      | Some lt =>
          match kind_of lt, value with
          | (KArray | KSlice), Some v =>
              match bool_decide (typeof v = Some (TSlice TIP)), literal with
              | true, VSlice (TSlice TString) strs =>
                  typeAssert fuel' (TSlice TIP) (parse_ips (default [] strs)) value
              | _, _ => assert_slice (typeAssert fuel') (base_kind typ) literal v
              end
          | KString, Some v =>
              match bool_decide (typeof v = Some TIP), literal with
              | true, VString s => typeAssert fuel' TIP (ip_value (ParseIP s)) value
              | _, _ => assert_slice (typeAssert fuel') (base_kind typ) literal v
              end
          | (KArray | KSlice | KString), None => Panic
          | _, _ => Err (Errorf "literal is %T, value is array or slice; data mismatch" [])
          end
      end
  | KMap =>
      match literal, value with
      | VNil, _ => Panic
      | VMap lt entries, Some (VMap vt m) =>
          match entries with
          | Some (_ :: _) =>
              if bool_decide (lt = TMap TAny) then
                m' ← set_entries (match vt with TMap t => t | _ => TAny end)
                                 (default [] entries) (default [] m);
                Ok (Some (VMap vt (Some m')))
              else Panic
          | _ => Ok (Some (VMap vt (Some (default [] m))))
          end
      | VMap _ entries, Some v =>
          if is_zero v then Panic
          else match entries with Some (_ :: _) => Panic | _ => Ok value end
      | VMap _ _, None => Panic
      | _, _ => Err (Errorf "literal is %T, value is map; data mismatch" [])
      end
  | KStruct =>
      match literal with
      | VMap (TMap TAny) entries =>
          match value with
          | Some (VPtr (TPtr (TStruct n)) p) =>
              let s := default (zero (TStruct n)) p in
              match s with
              | VStruct _ vals =>
                  vals' ← assert_entries (typeAssert fuel') (struct_fields n) (default [] entries) vals;
                  Ok (Some (VPtr (TPtr (TStruct n)) (Some (VStruct n vals'))))
              | _ => Panic
              end
          | Some (VStruct n vals) =>
              vals' ← assert_entries (typeAssert fuel') (struct_fields n) (default [] entries) vals;
              Ok (Some (VStruct n vals'))
          | Some (VPtr (TPtr t) p) =>
              match entries with
              | Some (_ :: _) => Panic
              | _ => Ok (Some (VPtr (TPtr t) (Some (default (zero t) p))))
              end
          | Some VNil | None => Panic
          | Some v => match entries with Some (_ :: _) => Panic | _ => Ok (Some v) end
          end
      | _ => Err (Errorf "literal was expected to be map[string]any but is %T" [])
      end
  | KChan => Err (errors_New "Records with channels are not supported. Change the type or fix the code.")
  | KFunc => Err (errors_New "Records with functions are not supported. Change the type or fix the code.")
  | KUnsafePointer =>
      Err (errors_New "Records with unsafe pointers are not supported. Change the type or fix the code.")
  | _ =>
      match value with
      | Some v => Some <$> assert_scalar literal v
      | None => Ok None
      end
  end
  end.

(** [typeAssert] as [parseLiteral] calls it, with fuel for the whole literal. *)
Definition typeAssert_top (typ : gotype) (literal v : goval) : outcome goval :=
  default v <$> typeAssert (depth literal) typ literal (Some v).

(** [parts := strings.Split(tag, ",")]: the key and whether it is optional. *)
Definition split_tag (tag : string) : string * bool :=
  match Split_string tag "," with
  | key :: opts => (key, existsb (fun o => bool_decide (o = "optional")) opts)
  | [] => (tag, false)
  end.

(** [(r *Record) parseLiteral], over the fields of the struct behind [r.Value]. *)
Fixpoint parseLiteral (lit : gmap string goval) (fs : list field) (vals : list goval) :
    outcome (list goval) :=
  match fs, vals with
  | f :: fs', v :: vals' =>
      match f_Tag f with
      | None => Err (Errorf "Struct element was not record-tagged, please report this bug: %v" [f_Name f])
      | Some full =>
          let '(tag, optional) := split_tag full in
          match lit !! tag with
          | None =>
              if optional then vs ← parseLiteral lit fs' vals'; Ok (v :: vs)
              else Err (Errorf "Could not find required literal value in config: %v" [tag])
          | Some literal =>
              v' ← map_err (fun e => Errorf "Error while converting literal %q: %v" [tag])
                           (typeAssert_top (f_Type f) literal v);
              vs ← parseLiteral lit fs' vals';
              Ok (v' :: vs)
          end
      end
  | _, _ => Ok vals
  end.

(** ** The structs behind the reflected values *)

Definition as_int (v : goval) : option Z := match v with VInt _ z => Some z | _ => None end.
Definition as_string (v : goval) : option string := match v with VString s => Some s | _ => None end.
Definition as_list {X} (f : goval -> option X) (v : goval) : option (list X) :=
  match v with VSlice _ o => mapM f (default [] o) | _ => None end.
Definition as_ip : goval -> option IP := as_list as_int.

Definition as_HealthCheck (v : goval) : option HealthCheck :=
  match v with
  | VPtr _ (Some (VStruct _ [VString name; VString typ; VInt _ timeout; VInt _ failures; _; _; _])) =>
      Some {| hc_Name := name; hc_Type := typ; hc_Timeout := timeout; hc_Failures := failures;
              hc_requestTransformer := None; hc_target := ""; hc_failed := false |}
  | _ => None
  end.

Definition as_TLSLB (v : goval) : option (option TLSLB) :=
  match v with
  | VPtr _ None => Some None
  | VPtr _ (Some (VStruct _ [ca; cert; key])) =>
      ca ← as_list as_int ca; cert ← as_list as_int cert; key ← as_list as_int key;
      Some (Some {| tls_CACertificate := ca; tls_Certificate := cert; tls_Key := key |})
  | _ => None
  end.

Definition to_A (vals : list goval) : option A :=
  match vals with
  | [addrs; VInt _ ttl; hcs] =>
      addrs ← as_list as_ip addrs; hcs ← as_list as_HealthCheck hcs;
      Some {| a_Addresses := addrs; a_TTL := ttl; a_HealthCheck := hcs |}
  | _ => None
  end.

Definition to_LB (vals : list goval) : option LB :=
  match vals with
  | [listeners; VString kind; backends; VInt _ sim; VInt _ mx; VInt _ timeout; VInt _ ttl; tls; hcs] =>
      listeners ← as_list as_string listeners; backends ← as_list as_string backends;
      tls ← as_TLSLB tls; hcs ← as_list as_HealthCheck hcs;
      Some {| lb_Listeners := listeners; lb_Kind := kind; lb_Backends := backends;
              lb_SimultaneousConnections := sim; lb_MaxConnectionsPerAddress := mx;
              lb_ConnectionTimeout := timeout; lb_TTL := ttl; lb_TLS := tls; lb_HealthCheck := hcs |}
  | _ => None
  end.

(** [a := &dnsconfig.A{}; a.TTL = minTTL] and the LB defaults, as field values. *)
Definition A_init (minTTL : Z) : list goval :=
  [VSlice (TSlice TIP) None; VInt TUint32 minTTL; VSlice THealthChecks None].

Definition LB_init (minTTL : Z) : list goval :=
  [VSlice (TSlice TString) None; VString ""; VSlice (TSlice TString) None;
   VInt TInt DefaultSimultaneousConnections; VInt TInt DefaultMaxConnectionsPerAddress;
   VInt TDuration 0; VInt TUint32 minTTL; VPtr (TPtr (TStruct "dnsconfig.TLSLB")) None;
   VSlice THealthChecks None].

Definition from_struct {X} (o : option X) : outcome X :=
  match o with Some x => Ok x | None => Panic end.

Definition parse_A (minTTL : Z) (lit : gmap string goval) : outcome A :=
  vals ← parseLiteral lit A_fields (A_init minTTL); from_struct (to_A vals).

Definition parse_LB (minTTL : Z) (lit : gmap string goval) : outcome LB :=
  vals ← parseLiteral lit LB_fields (LB_init minTTL); from_struct (to_LB vals).

(** Literals as [encoding/json] and the YAML loader decode them into [any]. *)
Definition jstr (s : string) : goval := VString s.
Definition jnum (z : Z) : goval := VFloat TFloat64 (float_of_Z z).
Definition jarr (l : list goval) : goval := VSlice (TSlice TAny) (Some l).
Definition jobj (l : list (string * goval)) : goval := VMap (TMap TAny) (Some l).

(** The records of example.yaml. *)
Definition example_A : gmap string goval :=
  {["addresses" := jarr [jstr "127.0.0.1"];
    "healthcheck" := jarr [jobj [("failures", jnum 3); ("timeout", jstr "1s")]]]}.

Definition example_LB : gmap string goval :=
  {["backends" := jarr [jstr "127.0.0.1:8001"; jstr "127.0.0.1:8002"];
    "healthcheck" := jarr [jobj [("timeout", jstr "1s"); ("failures", jnum 3)]];
    "kind" := jstr "tcp";
    "listeners" := jarr [jstr "foo:8000"];
    "tls" := jobj [("certificate", jstr "PEM"); ("key", jstr "K")]]}.

Definition example_check : HealthCheck :=
  {| hc_Name := ""; hc_Type := ""; hc_Timeout := Second; hc_Failures := 3;
     hc_requestTransformer := None; hc_target := ""; hc_failed := false |}.

Example example_A_parses :
  parse_A 60 example_A = Ok {| a_Addresses := [ParseIP "127.0.0.1"]; a_TTL := 60;
                               a_HealthCheck := [example_check] |}.
Proof. vm_compute. reflexivity. Qed.

Example example_LB_parses :
  parse_LB 60 example_LB
  = Ok {| lb_Listeners := ["foo:8000"]; lb_Kind := "tcp";
          lb_Backends := ["127.0.0.1:8001"; "127.0.0.1:8002"];
          lb_SimultaneousConnections := 16384; lb_MaxConnectionsPerAddress := 32768;
          lb_ConnectionTimeout := 0; lb_TTL := 60;
          lb_TLS := Some {| tls_CACertificate := []; tls_Certificate := [80; 69; 77]; tls_Key := [75] |};
          lb_HealthCheck := [example_check] |}.
Proof. vm_compute. reflexivity. Qed.

(** record_test.go's record, whose literals are Go values rather than JSON. *)
Example test_LB_parses :
  parse_LB 60 {["listeners" := VSlice (TSlice TString) (Some [VString "test"]);
                "kind" := VString "tcp";
                "backends" := VSlice (TSlice TString) (Some [VString "127.0.0.1:80"]);
                "simultaneous_connections" := VInt TInt 100;
                "max_connections_per_address" := VInt TInt 1000;
                "connection_timeout" := VInt TDuration (10 * Millisecond)]}
  = Ok {| lb_Listeners := ["test"]; lb_Kind := "tcp"; lb_Backends := ["127.0.0.1:80"];
          lb_SimultaneousConnections := 100; lb_MaxConnectionsPerAddress := 1000;
          lb_ConnectionTimeout := 10 * Millisecond; lb_TTL := 60; lb_TLS := None;
          lb_HealthCheck := [] |}.
Proof. vm_compute. reflexivity. Qed.

Example test_A_parses :
  parse_A 60 {["addresses" := VSlice (TSlice TString) (Some [VString "127.0.0.1"])]}
  = Ok {| a_Addresses := [ParseIP "127.0.0.1"]; a_TTL := 60; a_HealthCheck := [] |}.
Proof. vm_compute. reflexivity. Qed.
