(* ===== verification/LiteralFuel.v ===== *)
(** * Record literals: termination (pkg/config/literal.go)

    [typeAssert] on a literal never needs more calls in a row than the literal
    is deep: with that much fuel it does not run out, and more fuel changes
    nothing. *)

From S2P Require Import Prelude GoNet GoTime HealthCheck DnsConfig Literal.

Local Open Scope Z_scope.

Lemma depth_pos v : (0 < depth v)%nat.
Proof. destruct v as [| | | |t o|t l| |t [m|]| | |]; simpl; lia. Qed.

Lemma depth_elem literal l : l ∈ lit_elems literal -> (depth l < depth literal)%nat.
Proof.
  destruct literal as [| | |s|t [k|]|t k| | | | |]; simpl; try by intros ?%elem_of_nil.
  - intros (c & -> & _)%list_elem_of_fmap. simpl. lia.
  - intros Hl. pose proof (max_list_elem_of_le (depth l) (depth <$> k)) as H.
    specialize (H (list_elem_of_fmap_2 _ _ _ Hl)). lia.
  - intros Hl. pose proof (max_list_elem_of_le (depth l) (depth <$> k)) as H.
    specialize (H (list_elem_of_fmap_2 _ _ _ Hl)). lia.
Qed.

Lemma depth_entry t m key v :
  (key, v) ∈ m -> (depth v < depth (VMap t (Some m)))%nat.
Proof.
  intros Hl. simpl. apply Nat.lt_succ_r, max_list_elem_of_le.
  by apply (list_elem_of_fmap_2 (fun e => depth e.2) m (key, v)).
Qed.

Lemma depth_ip_value ip : (depth (ip_value ip) <= 2)%nat.
Proof.
  destruct ip as [|b ip]; [simpl; lia|]. unfold ip_value. cbn [depth].
  rewrite bool_decide_eq_false_2 by done.
  assert (max_list (depth <$> (VInt TUint8 <$> b :: ip)) <= 1)%nat; [|lia].
  generalize (b :: ip) as l. induction l as [|x l IH]; [simpl; lia|].
  rewrite !fmap_cons. cbn [max_list_with depth]. unfold id at 1. lia.
Qed.

#[local] Arguments ip_value : simpl never.

(** The calls on the elements agree when the recursive calls do. *)
Lemma assert_elems_ext ta1 ta2 lits elems :
  (forall l t v, l ∈ lits -> ta1 t l v = ta2 t l v) ->
  assert_elems ta1 lits elems = assert_elems ta2 lits elems.
Proof.
  revert elems. induction lits as [|l lits IH]; intros elems H; destruct elems as [|e elems]; simpl; try done.
  destruct (typeof e); [|done]. rewrite (H l) by left. destruct (ta2 _ _ _); simpl; try done.
  rewrite IH; [done|]. intros. apply H. by right.
Qed.

Lemma assert_slice_ext ta1 ta2 k literal v :
  (forall l t v, l ∈ lit_elems literal -> ta1 t l v = ta2 t l v) ->
  assert_slice ta1 k literal v = assert_slice ta2 k literal v.
Proof. intros H. unfold assert_slice. by repeat case_match; rewrite ?(assert_elems_ext ta1 ta2). Qed.

Lemma assert_entries_ext ta1 ta2 fs entries vals :
  (forall k l t v, (k, l) ∈ entries -> ta1 t l v = ta2 t l v) ->
  assert_entries ta1 fs entries vals = assert_entries ta2 fs entries vals.
Proof.
  revert vals. induction entries as [|[k l] entries IH]; intros vals H; simpl; [done|].
  assert (forall k' l' t v, (k', l') ∈ entries -> ta1 t l' v = ta2 t l' v) as H'.
  { intros k' l' t v Hin. apply (H k'). by right. }
  destruct (lookup_tag fs k 0 true) as [ok m]. case_match; [done|].
  destruct (typeof l) as [t|]; [|done]. destruct m as [i|].
  - destruct (vals !! i) as [v|]; [|done]. rewrite (H k l) by left.
    destruct (ta2 _ _ _); simpl; auto.
  - rewrite (H k l) by left. destruct (ta2 _ _ _); simpl; auto.
Qed.

Lemma depth_ips strs :
  (depth (parse_ips (default [] strs)) < depth (VSlice (TSlice TString) strs))%nat.
Proof.
  unfold parse_ips. cbn [depth]. rewrite bool_decide_eq_false_2 by done.
  assert (forall l : list goval, (max_list (depth <$> ((fun l => match l with
     VString s => ip_value (ParseIP s) | v => v end) <$> l)) <= max_list (depth <$> l))%nat) as Hle.
  { induction l as [|x l IH]; [simpl; lia|].
    rewrite !fmap_cons. cbn [max_list_with]. unfold id at 1 3.
    assert (depth (match x with VString s => ip_value (ParseIP s) | v => v end) <= depth x)%nat; [|lia].
    destruct x; try reflexivity. change (depth (VString s)) with 3%nat.
    etrans; [apply depth_ip_value|lia]. }
  destruct strs as [l|]; simpl; [pose proof (Hle l)|]; lia.
Qed.

(** Two runs with enough fuel agree. *)
Lemma typeAssert_fuel_agree n : forall m typ literal value,
  (depth literal <= n)%nat -> (depth literal <= m)%nat ->
  typeAssert n typ literal value = typeAssert m typ literal value.
Proof.
  induction n as [|n IH]; intros m typ literal value Hn Hm;
    [pose proof (depth_pos literal); lia|].
  destruct m as [|m]; [pose proof (depth_pos literal); lia|].
  assert (forall k v, assert_slice (typeAssert n) k literal v = assert_slice (typeAssert m) k literal v) as Hs.
  { intros k v. apply assert_slice_ext. intros l t v' Hl%depth_elem. apply IH; lia. }
  assert (forall t es fs vals, literal = VMap t es ->
    assert_entries (typeAssert n) fs (default [] es) vals
    = assert_entries (typeAssert m) fs (default [] es) vals) as He.
  { intros t es fs vals ->. apply assert_entries_ext. intros k l t' v Hin.
    destruct es as [es|]; [|by apply elem_of_nil in Hin].
    pose proof (depth_entry t es k l Hin). apply IH; lia. }
  assert (forall s v, literal = VString s ->
    typeAssert n TIP (ip_value (ParseIP s)) v = typeAssert m TIP (ip_value (ParseIP s)) v) as Hip.
  { intros s v ->. pose proof (depth_ip_value (ParseIP s)).
    change (depth (VString s)) with 3%nat in *. apply IH; lia. }
  assert (forall strs v, literal = VSlice (TSlice TString) strs ->
    typeAssert n (TSlice TIP) (parse_ips (default [] strs)) v
    = typeAssert m (TSlice TIP) (parse_ips (default [] strs)) v) as Hips.
  { intros strs v ->. pose proof (depth_ips strs). apply IH; lia. }
  cbn [typeAssert]. clear IH.
  repeat case_match; subst; rewrite ?Hs; eauto using f_equal; by erewrite He.
Qed.

(** Loops fail with [e] only if one of their calls does. *)
Lemma assert_elems_err ta lits elems e :
  (forall l t v, l ∈ lits -> ta t l v <> Err e) -> assert_elems ta lits elems <> Err e.
Proof.
  revert elems. induction lits as [|l lits IH]; intros elems H; destruct elems as [|x elems]; simpl; try done.
  destruct (typeof x) as [t|]; [|done]. pose proof (H l t (Some x) ltac:(left)) as Hx.
  destruct (ta t l (Some x)); simpl; try congruence.
  specialize (IH elems). destruct (assert_elems ta lits elems); simpl; try congruence.
  intros [= ->]. apply IH; [|done]. intros. apply H. by right.
Qed.

Lemma assert_slice_err ta k literal v e :
  (forall l t v, l ∈ lit_elems literal -> ta t l v <> Err e) ->
  assert_slice ta k literal v <> Err e.
Proof.
  intros H. unfold assert_slice. pose proof (fun es => assert_elems_err ta (lit_elems literal) es e H) as He.
  repeat case_match; try congruence;
    match goal with |- context [assert_elems ?t ?l ?es] => specialize (He es); destruct (assert_elems t l es) end;
    simpl; congruence.
Qed.

Lemma assert_entries_err ta fs entries vals fmt args :
  fmt <> "Inner struct %T for %q field did not have record tag" ->
  (forall k l t v, (k, l) ∈ entries -> ta t l v <> Err (Errorf fmt args)) ->
  assert_entries ta fs entries vals <> Err (Errorf fmt args).
Proof.
  intros Hf. revert vals. induction entries as [|[k l] entries IH]; intros vals H; simpl; [done|].
  assert (forall vals, assert_entries ta fs entries vals <> Err (Errorf fmt args)) as IH'.
  { intros vals'. apply IH. intros k' l' t v Hin. apply (H k'). by right. }
  destruct (lookup_tag fs k 0 true) as [ok m]. case_match; [congruence|].
  destruct (typeof l) as [t|]; [|done]. destruct m as [i|].
  - destruct (vals !! i) as [v|]; [|done]. pose proof (H k l t (Some v) ltac:(left)).
    destruct (ta t l (Some v)); simpl; [apply IH'|congruence..].
  - pose proof (H k l t None ltac:(left)). destruct (ta t l None); simpl; [apply IH'|congruence..].
Qed.

Lemma ParseDuration_err s : ParseDuration s <> Err out_of_fuel.
Proof.
  assert (forall n l d, duration_go n s l d <> Err out_of_fuel) as Hgo.
  { induction n as [|n IH]; intros l d; destruct l as [|c l]; try done.
    cbn [duration_go]. repeat case_match; try done; apply IH. }
  unfold ParseDuration. match goal with |- context [let '(_, _) := ?x in _] => destruct x as [neg l] end.
  case_bool_decide; [done|]. destruct l as [|c l]; [done|].
  specialize (Hgo (length (c :: l)) (c :: l) 0).
  destruct (duration_go _ _ _ _) as [d|e| |]; simpl; try done.
  repeat case_match; done.
Qed.

Lemma set_value_err v literal e : set_value v literal <> Err e.
Proof. unfold set_value. by repeat case_match. Qed.

Lemma assert_scalar_err literal v : assert_scalar literal v <> Err out_of_fuel.
Proof.
  unfold assert_scalar, set_exact.
  repeat case_match; try done; try apply set_value_err.
  all: match goal with |- context [ParseDuration ?s] =>
         pose proof (ParseDuration_err s); destruct (ParseDuration s); simpl; try congruence end;
       apply set_value_err.
Qed.

Lemma set_entries_err t entries e : forall m, set_entries t entries m <> Err e.
Proof. induction entries as [|[k v] es IH]; intros m; simpl; repeat case_match; try done; apply IH. Qed.

(** Fuel equal to the depth never runs out. *)
Lemma typeAssert_fuel_enough n : forall typ literal value,
  (depth literal <= n)%nat -> typeAssert n typ literal value <> Err out_of_fuel.
Proof.
  induction n as [|n IH]; intros typ literal value Hn; [pose proof (depth_pos literal); lia|].
  assert (forall k v, assert_slice (typeAssert n) k literal v <> Err out_of_fuel) as Hs.
  { intros k v. apply assert_slice_err. intros l t v' Hl%depth_elem. apply IH; lia. }
  assert (forall t es fs vals, literal = VMap t es ->
    assert_entries (typeAssert n) fs (default [] es) vals <> Err out_of_fuel) as He.
  { intros t es fs vals ->. apply assert_entries_err; [done|]. intros k l t' v Hin.
    destruct es as [es|]; [|by apply elem_of_nil in Hin].
    pose proof (depth_entry t es k l Hin). apply IH; lia. }
  cbn [typeAssert]. repeat case_match; subst; try done; try apply Hs.
  all: try match goal with
    | |- context [assert_entries ?ta ?fs ?es ?vals] =>
        pose proof (He _ _ fs vals eq_refl); destruct (assert_entries ta fs es vals); simpl; congruence
    | |- context [set_entries ?t ?es ?m] =>
        pose proof (set_entries_err t es out_of_fuel m); destruct (set_entries t es m); simpl; congruence
    | |- context [assert_scalar ?l ?v] =>
        pose proof (assert_scalar_err l v); destruct (assert_scalar l v); simpl; congruence
    end.
  all: apply IH; first
    [ eapply Nat.lt_succ_r, Nat.lt_le_trans; [apply depth_ips|exact Hn]
    | etrans; [apply depth_ip_value|]; apply Nat.succ_le_mono; exact Hn ].
Qed.
