(* ===== verification/LiteralTypes.v ===== *)
(** * Record literals: type soundness (pkg/config/literal.go)

    Whatever literal is given, a value that [typeAssert] returns has the type of
    the location it was stored in, so the structs read back by [to_A] and
    [to_LB] exist. *)

From S2P Require Import Prelude GoNet GoTime HealthCheck DnsConfig Literal.

Local Open Scope Z_scope.

(** ** Types *)

Definition int_type (t : gotype) : bool :=
  match t with
  | TInt | TInt8 | TInt16 | TInt32 | TInt64 | TDuration
  | TUint | TUint8 | TUint16 | TUint32 | TUint64 | TUintptr => true
  | _ => false
  end.

(** The dynamic type of [v] is [t]; anything fits an interface. *)
Definition fits (t : gotype) (v : goval) : bool :=
  match t with TAny => true | _ => bool_decide (typeof v = Some t) end.

(** A pointer to a struct is not nil. *)
Definition live (v : goval) : bool :=
  match v with VPtr (TPtr (TStruct _)) None => false | _ => true end.

(** A struct behind a pointer has its fields. *)
Definition full (v : goval) : bool :=
  match v with VZero (TStruct _) => false | _ => true end.

(** Well-typed values: every part of a value has the type its place demands,
    and slices hold no nil pointers to structs. *)
Fixpoint wt (v : goval) : bool :=
  match v with
  | VBool _ | VString _ | VNil => true
  | VZero t => match t with TStruct _ | TArray _ _ | TChan | TFunc | TUnsafePointer => true | _ => false end
  | VInt t _ => int_type t
  | VFloat t _ => bool_decide (t = TFloat32 \/ t = TFloat64)
  | VSlice t o =>
      bool_decide (kind_of t = KSlice) &&
      match o with
      | Some l => forallb (fun e => fits (elem_type t) e && wt e && live e) l
      | None => true
      end
  | VArray t l =>
      bool_decide (kind_of t = KArray) && forallb (fun e => fits (elem_type t) e && wt e) l
  | VPtr t p =>
      match t with
      | TPtr t' => match p with Some x => fits t' x && wt x && full x | None => true end
      | _ => false
      end
  | VMap t m =>
      bool_decide (kind_of t = KMap) &&
      match m with Some l => forallb (fun e => wt e.2) l | None => true end
  | VStruct n fs =>
      (fix go (vs : list goval) (ts : list field) : bool :=
         match vs, ts with
         | [], [] => true
         | v :: vs', t :: ts' => fits (f_Type t) v && wt v && go vs' ts'
         | _, _ => false
         end) fs (struct_fields n)
  end.

Definition fields_ok (fs : list field) (vals : list goval) : Prop :=
  Forall2 (fun f v => fits (f_Type f) v = true /\ wt v = true) fs vals.

Lemma wt_struct n vals : wt (VStruct n vals) = true <-> fields_ok (struct_fields n) vals.
Proof.
  simpl. unfold fields_ok. generalize (struct_fields n) as fs. intros fs. revert vals.
  induction fs as [|f fs IH]; intros [|v vals]; split; try done; intros H; try by inversion H.
  - apply andb_true_iff in H as [[Hf Hv]%andb_true_iff H].
    constructor; [done|]. by apply IH.
  - apply Forall2_cons in H as [[-> ->] H]. by apply IH in H.
Qed.

(** What one assignment guarantees: the location keeps its type. *)
Definition keeps (v v' : goval) : Prop := typeof v' = typeof v /\ wt v' = true.

Lemma keeps_fits t v v' : keeps v v' -> fits t v = true -> fits t v' = true.
Proof. unfold keeps, fits. intros [-> _]. by destruct t. Qed.


Lemma set_value_keeps v literal v' :
  wt literal = true -> set_value v literal = Ok v' -> keeps v v'.
Proof.
  unfold set_value, keeps. intros Hw Hs.
  destruct (typeof v) as [t|]; [|done]. destruct (typeof literal) as [t'|] eqn:El; [|done].
  destruct (assignable t' t) eqn:Ea; [|done]. injection Hs as <-.
  unfold assignable in Ea. apply orb_true_iff in Ea as [[Ea|Ea]%orb_true_iff|Ea].
  - apply bool_decide_eq_true in Ea as ->. destruct literal; simplify_eq/=; auto.
  - apply andb_true_iff in Ea as [->%bool_decide_eq_true ->%bool_decide_eq_true].
    destruct literal as [|? z|? f| |? o|? l|? p|? m|n fs|t|]; simplify_eq/=; try done.
  - apply andb_true_iff in Ea as [->%bool_decide_eq_true ->%bool_decide_eq_true].
    destruct literal as [|? z|? f| |? o|? l|? p|? m|n fs|t|]; simplify_eq/=; try done.
Qed.

Lemma wt_bytes s : forallb (fun e => fits TUint8 e && wt e && live e) (bytes_of s) = true.
Proof. apply forallb_forall. by intros v (c & -> & _)%list_elem_of_In%list_elem_of_fmap. Qed.

Lemma assert_scalar_keeps literal v v' :
  wt literal = true -> wt v = true -> assert_scalar literal v = Ok v' -> keeps v v'.
Proof.
  intros Hw Hv Hs. unfold assert_scalar, set_exact in Hs.
  repeat case_match; simplify_eq;
    try (by eapply set_value_keeps; [|done]; simpl; rewrite ?wt_bytes); try done.
  apply bind_ok in Hs as (d & _ & Hs). by eapply set_value_keeps; [|done].
Qed.

Lemma zero_flat_ok t : fits t (zero_flat t) = true /\ wt (zero_flat t) = true.
Proof. destruct t; simpl; split; try done; by rewrite bool_decide_eq_true_2 by auto. Qed.

Lemma zero_ok t : fits t (zero t) = true /\ wt (zero t) = true.
Proof.
  destruct t as [| | | | | | | | | | | | | | | | | |n t| | | |name| | |]; try apply zero_flat_ok.
  - split; [by simpl; rewrite bool_decide_eq_true_2|]. cbn [zero wt kind_of elem_type].
    rewrite bool_decide_eq_true_2 by done. apply forallb_forall.
    intros x [-> _]%list_elem_of_In%elem_of_replicate.
    by destruct (zero_flat_ok t) as [-> ->].
  - split; [by simpl; rewrite bool_decide_eq_true_2|]. apply wt_struct.
    unfold fields_ok. rewrite Forall2_fmap_r. apply Forall_Forall2_diag, Forall_true.
    intros f. apply zero_flat_ok.
Qed.

(** The recursive call keeps the type of every location and never leaves a
    pointer to a struct nil. *)
Definition sound (ta : gotype -> goval -> option goval -> outcome (option goval)) : Prop :=
  forall t l v r, wt l = true -> wt v = true -> ta t l (Some v) = Ok r ->
    exists v', r = Some v' /\ keeps v v' /\ (typeof v = Some t -> live v' = true).

Lemma assert_elems_sound ta lits : sound ta -> forall t elems es,
  Forall (fun l => wt l = true) lits ->
  Forall (fun e => fits t e = true /\ wt e = true) elems ->
  assert_elems ta lits elems = Ok es ->
  Forall (fun e => fits t e = true /\ wt e = true) es /\
  Forall (fun e => live e = true) (take (length lits) es) /\
  drop (length lits) es = drop (length lits) elems.
Proof.
  intros Hta. induction lits as [|l lits IH]; intros t elems es Hl He Hr.
  { destruct elems; simplify_eq/=; done. }
  destruct elems as [|e elems]; [done|]. apply Forall_cons in Hl as [Hl Hls].
  apply Forall_cons in He as [[Hf Hw] He]. simpl in Hr.
  destruct (typeof e) as [te|] eqn:Ete; [|done].
  apply bind_ok in Hr as (r & Hr & (es' & Hes & [= <-])%bind_ok).
  destruct (Hta te l e r Hl Hw Hr) as (e' & -> & Hk & Hlive).
  destruct (IH t elems es' Hls He Hes) as (H1 & H2 & H3). simpl. split_and!.
  - constructor; [|done]. split; [by eapply keeps_fits|apply Hk].
  - constructor; auto.
  - done.
Qed.

Lemma wt_lit_elems literal : wt literal = true -> Forall (fun l => wt l = true) (lit_elems literal).
Proof.
  intros Hw. apply Forall_forall. intros x Hx.
  destruct literal as [| | |s|t [l|]|t l| | | | |]; simpl in Hx; try by apply elem_of_nil in Hx.
  - by apply list_elem_of_fmap in Hx as (c & -> & _).
  - simpl in Hw. apply andb_true_iff in Hw as [_ Hw].
    rewrite forallb_forall in Hw. specialize (Hw x (proj1 (list_elem_of_In _ _) Hx)).
    by apply andb_true_iff in Hw as [[_ Hw]%andb_true_iff _].
  - simpl in Hw. apply andb_true_iff in Hw as [_ Hw].
    rewrite forallb_forall in Hw. specialize (Hw x (proj1 (list_elem_of_In _ _) Hx)).
    by apply andb_true_iff in Hw as [_ Hw].
Qed.

Lemma wt_slice t l :
  wt (VSlice t (Some l)) = true <->
  kind_of t = KSlice /\ Forall (fun e => fits (elem_type t) e = true /\ wt e = true) l /\
  Forall (fun e => live e = true) l.
Proof.
  simpl. rewrite andb_true_iff, bool_decide_eq_true, forallb_forall, !Forall_forall.
  setoid_rewrite list_elem_of_In. setoid_rewrite andb_true_iff. setoid_rewrite andb_true_iff.
  naive_solver.
Qed.

Lemma wt_array t l :
  wt (VArray t l) = true <->
  kind_of t = KArray /\ Forall (fun e => fits (elem_type t) e = true /\ wt e = true) l.
Proof.
  simpl. rewrite andb_true_iff, bool_decide_eq_true, forallb_forall, Forall_forall.
  setoid_rewrite list_elem_of_In. setoid_rewrite andb_true_iff. naive_solver.
Qed.

Lemma assert_slice_sound ta k literal v r :
  sound ta -> wt literal = true -> wt v = true ->
  assert_slice ta k literal v = Ok r -> exists v', r = Some v' /\ keeps v v' /\ (live v = true -> live v' = true).
Proof.
  intros Hta Hl%wt_lit_elems Hv Hr. unfold assert_slice in Hr.
  destruct (decide (k = KSlice)) as [->|Hk].
  - destruct v as [| | | |t o| | | | | |]; try done.
    case_match eqn:Hlen; [done|]. apply Nat.ltb_ge in Hlen.
    apply bind_ok in Hr as (es & Hes & [= <-]). eexists. split_and!; [done| |done].
    assert (kind_of t = KSlice /\ Forall (fun e => fits (elem_type t) e = true /\ wt e = true) (default [] o)) as [Ht Ho].
    { destruct o as [l|]; [apply wt_slice in Hv; naive_solver|].
      simpl in Hv. apply andb_true_iff in Hv as [Hv%bool_decide_eq_true _]. done. }
    assert (Forall (fun e => fits (elem_type t) e = true /\ wt e = true)
      (default [] o ++ replicate (length (lit_elems literal) - length (default [] o)) (zero (elem_type t)))) as Hz.
    { apply Forall_app. split; [done|]. apply Forall_replicate, zero_ok. }
    destruct (assert_elems_sound ta _ Hta _ _ _ Hl Hz Hes) as (H1 & H2 & H3).
    split; [done|].
    assert (wt (VSlice t (Some es)) = true) as Hw.
    { apply wt_slice. split_and!; [done..|]. rewrite <- (take_drop (length (lit_elems literal)) es), H3.
      rewrite drop_ge, app_nil_r; [done|]. rewrite length_app, length_replicate. lia. }
    destruct o, (lit_elems literal); try exact Hw. simpl. by rewrite bool_decide_eq_true_2.
  - assert (forall vt elems es, wt (VArray vt elems) = true -> assert_elems ta (lit_elems literal) elems = Ok es ->
      wt (VArray vt es) = true) as Harr.
    { intros vt elems es [Ht He]%wt_array Hes. apply wt_array. split; [done|].
      by destruct (assert_elems_sound ta _ Hta _ _ _ Hl He Hes). }
    assert (forall vt elems es, wt (VSlice vt (Some elems)) = true -> assert_elems ta (lit_elems literal) elems = Ok es ->
      wt (VSlice vt (Some es)) = true) as Hsl.
    { intros vt elems es (Ht & He & Hlv)%wt_slice Hes. apply wt_slice.
      destruct (assert_elems_sound ta _ Hta _ _ _ Hl He Hes) as (H1 & H2 & H3). split_and!; [done..|].
      rewrite <- (take_drop (length (lit_elems literal)) es), H3. apply Forall_app. split; [done|].
      by apply Forall_drop. }
    unfold keeps.
    destruct k; try done;
    (destruct v as [| | | |t [l|]|t l| | | | |]; repeat case_match; simplify_eq;
     try (apply bind_ok in Hr as (es & Hes & [= <-])); eexists; split_and!; eauto; done).
Qed.

Lemma assert_entries_sound ta fs entries : sound ta -> forall vals vals',
  Forall (fun e => wt e.2 = true) entries -> fields_ok fs vals ->
  assert_entries ta fs entries vals = Ok vals' -> fields_ok fs vals'.
Proof.
  intros Hta. induction entries as [|[key l] entries IH]; intros vals vals' Hl Hv Hr; [by simplify_eq/=|].
  apply Forall_cons in Hl as [Hl Hls]. simpl in Hr.
  destruct (lookup_tag fs key 0 true) as [ok m]. case_match; [done|].
  destruct (typeof l) as [t|]; [|done]. destruct m as [i|]; [|by apply bind_ok in Hr as (r & _ & Hr); eauto].
  destruct (vals !! i) as [v|] eqn:Hi; [|done]. apply bind_ok in Hr as (r & Hta' & Hr).
  destruct (Forall2_lookup_r _ _ _ _ _ Hv Hi) as (f & Hf & Hfit & Hw).
  destruct (Hta t l v r Hl Hw Hta') as (v' & -> & Hk & _).
  eapply IH; [done| |exact Hr]. simpl. unfold fields_ok.
  rewrite <- (list_insert_id fs i f Hf). apply Forall2_insert; [done|].
  split; [by eapply keeps_fits|apply Hk].
Qed.

Lemma set_entries_wt t entries : forall m m',
  Forall (fun e => wt e.2 = true) entries -> forallb (fun e => wt e.2) m = true ->
  set_entries t entries m = Ok m' -> forallb (fun e => wt e.2) m' = true.
Proof.
  induction entries as [|[k v] entries IH]; intros m m' He Hm Hr; [by simplify_eq/=|].
  apply Forall_cons in He as [Hv He]. simpl in Hr.
  assert (forallb (fun e => wt e.2) (filter (fun e => e.1 <> k) m) = true) as Hm0.
  { apply forallb_forall. intros x Hx%list_elem_of_In. apply list_elem_of_filter in Hx as [_ Hx%list_elem_of_In].
    rewrite forallb_forall in Hm. auto. }
  destruct (typeof v); [|by eauto]. case_match; [|done].
  eapply IH; [done| |done]. rewrite forallb_app, Hm0. simpl in *. by rewrite Hv.
Qed.

Lemma wt_ip_value ip : fits TIP (ip_value ip) = true /\ wt (ip_value ip) = true /\ live (ip_value ip) = true.
Proof.
  split_and!; [by apply bool_decide_eq_true_2| |done].
  destruct ip as [|b ip]; [done|].
  unfold ip_value. apply wt_slice. split_and!; [done|..]; by apply Forall_fmap, Forall_true.
Qed.

#[local] Arguments ip_value : simpl never.

Lemma wt_parse_ips strs :
  wt (VSlice (TSlice TString) strs) = true -> wt (parse_ips (default [] strs)) = true.
Proof.
  intros Hs. unfold parse_ips. apply wt_slice. split; [done|].
  assert (Forall (fun e => fits TString e = true /\ wt e = true) (default [] strs)) as Hf.
  { destruct strs as [l|]; [|constructor]. apply wt_slice in Hs as (_ & Hs & _). exact Hs. }
  clear Hs. rewrite !Forall_fmap, <- Forall_and. eapply Forall_impl; [exact Hf|].
  intros e [Hst%bool_decide_eq_true Hw]. destruct e as [| | |s|?[]| | | | | |]; simplify_eq/=; try done.
  destruct (wt_ip_value (ParseIP s)) as (? & ? & ?). done.
Qed.

Lemma wt_entries t es :
  wt (VMap t es) = true -> Forall (fun e => wt e.2 = true) (default [] es).
Proof.
  destruct es as [l|]; [|constructor]. simpl. intros [_ Hw]%andb_true_iff.
  rewrite forallb_forall in Hw. apply Forall_forall. intros x Hx%list_elem_of_In. auto.
Qed.

Lemma live_retype t v : typeof v = Some t -> base_kind t <> KStruct -> live v = true.
Proof. unfold live. repeat case_match; naive_solver. Qed.

(** The slice branch either runs the element loop or calls itself on addresses. *)
Lemma typeAssert_slice_cases n t literal v r :
  base_kind t = KArray \/ base_kind t = KSlice ->
  typeAssert (S n) t literal (Some v) = Ok r ->
  assert_slice (typeAssert n) (base_kind t) literal v = Ok r \/
  exists t' lit, (wt literal = true -> wt lit = true) /\ typeAssert n t' lit (Some v) = Ok r.
Proof.
  intros Hk Hr. cbn [typeAssert] in Hr.
  assert (match typeof literal with
    | None => Panic
    | Some lt =>
        match kind_of lt with
        | KArray | KSlice =>
            match bool_decide (typeof v = Some (TSlice TIP)), literal with
            | true, VSlice (TSlice TString) strs =>
                typeAssert n (TSlice TIP) (parse_ips (default [] strs)) (Some v)
            | _, _ => assert_slice (typeAssert n) (base_kind t) literal v
            end
        | KString =>
            match bool_decide (typeof v = Some TIP), literal with
            | true, VString s => typeAssert n TIP (ip_value (ParseIP s)) (Some v)
            | _, _ => assert_slice (typeAssert n) (base_kind t) literal v
            end
        | _ => Err (Errorf "literal is %T, value is array or slice; data mismatch" [])
        end
    end = Ok r) as Hr'.
  { destruct Hk as [Hk|Hk]; rewrite Hk in Hr |- *; destruct (typeof literal) as [lt|]; try discriminate Hr;
      destruct (kind_of lt); exact Hr. }
  clear Hr Hk. destruct (typeof literal) as [lt|]; [|discriminate Hr'].
  assert (forall (b : bool) t' lit, (wt literal = true -> wt lit = true) ->
    (if b then typeAssert n t' lit (Some v) else assert_slice (typeAssert n) (base_kind t) literal v) = Ok r ->
    assert_slice (typeAssert n) (base_kind t) literal v = Ok r \/
    exists t' lit, (wt literal = true -> wt lit = true) /\ typeAssert n t' lit (Some v) = Ok r) as Hb.
  { intros [] t' lit Hlit H; [right; eauto|by left]. }
  destruct (kind_of lt); try discriminate Hr'.
  1: destruct literal; try (by left; destruct (bool_decide _); exact Hr').
  all: try (destruct literal as [| | | |[| | | | | | | | | | | | | | | | |[]| | | | | | | |] ?| | | | | |];
    try (left; destruct (bool_decide _); exact Hr')).
  1: { eapply Hb; [|exact Hr']. intros _. apply wt_ip_value. }
  all: eapply Hb; [|exact Hr']; apply wt_parse_ips.
Qed.

(** A struct literal keeps the fields of the struct it assigns typed. *)
Lemma struct_case_sound n es nm vals vals' :
  sound (typeAssert n) -> wt (VMap (TMap TAny) es) = true -> wt (VStruct nm vals) = true ->
  assert_entries (typeAssert n) (struct_fields nm) (default [] es) vals = Ok vals' ->
  wt (VStruct nm vals') = true.
Proof.
  intros IH Hl%wt_entries Hv%wt_struct Hr. apply wt_struct. by eapply assert_entries_sound.
Qed.

Lemma wt_ptr t p :
  wt (VPtr (TPtr t) p) = true ->
  fits t (default (zero t) p) = true /\ wt (default (zero t) p) = true /\ full (default (zero t) p) = true.
Proof.
  destruct p as [x|].
  - simpl. by intros [[??]%andb_true_iff ?]%andb_true_iff.
  - intros _. destruct (zero_ok t). split_and!; [done..|by destruct t].
Qed.

Lemma typeAssert_struct_sound n t literal v r :
  sound (typeAssert n) -> base_kind t = KStruct -> wt literal = true -> wt v = true ->
  typeAssert (S n) t literal (Some v) = Ok r ->
  exists v', r = Some v' /\ keeps v v' /\ live v' = true.
Proof.
  intros IH Hk Hl Hv Hr. cbn [typeAssert] in Hr. rewrite Hk in Hr. unfold keeps.
  destruct literal as [| | | | | | |[] es| | |]; try discriminate Hr.
  destruct t0; try discriminate Hr.
  destruct v as [| | | | | |pt p| |nm vals| |]; try discriminate Hr.
  7: { destruct pt as [| | | | | | | | | | | | | | | | | | |pt| | | | | |]; try discriminate Hv.
    apply wt_ptr in Hv as (Hf & Hw & Hu).
    assert ((exists nm, pt = TStruct nm) \/ r = Some (VPtr (TPtr pt) (Some (default (zero pt) p)))) as Hp.
    { destruct pt; try (left; by eauto); right; destruct es as [[|]|]; congruence. }
    destruct Hp as [[nm ->]| ->].
    - destruct (default (zero (TStruct nm)) p) as [| | | | | | | |nm' vals| |]; try discriminate Hr.
      apply bool_decide_eq_true in Hf as [= ->].
      apply bind_ok in Hr as (vals' & Hr & [= <-]). eexists. split; [done|].
      pose proof (struct_case_sound _ _ _ _ _ IH Hl Hw Hr) as Hw'. split; [|done]. split; [done|].
      cbn [wt]. rewrite !andb_true_iff. split_and!; [by apply bool_decide_eq_true_2|exact Hw'|done].
    - eexists. split_and!; [done..| |by destruct pt]. cbn [wt]. by rewrite Hf, Hw, Hu. }
  8: { apply bind_ok in Hr as (vals' & Hr & [= <-]). eexists. split; [done|].
       by pose proof (struct_case_sound _ _ _ _ _ IH Hl Hv Hr). }
  all: destruct es as [[|]|]; try discriminate Hr; injection Hr as <-; eauto.
Qed.

Lemma typeAssert_map_sound n t literal v r :
  base_kind t = KMap -> wt literal = true -> wt v = true ->
  typeAssert (S n) t literal (Some v) = Ok r -> exists v', r = Some v' /\ keeps v v'.
Proof.
  intros Hk Hl Hv Hr. cbn [typeAssert] in Hr. rewrite Hk in Hr. unfold keeps.
  destruct literal as [| | | | | | |lt entries| | |]; try discriminate Hr.
  apply wt_entries in Hl.
  destruct v as [| | | | | | |vt m| | |].
  8: { simpl in Hv. apply andb_true_iff in Hv as [Ht Hm].
    assert (forallb (fun e => wt e.2) (default [] m) = true) as Hm' by (by destruct m).
    assert (forall m', forallb (fun e => wt e.2) m' = true -> wt (VMap vt (Some m')) = true) as Hw.
    { intros m' Hm0. simpl. by rewrite Ht, Hm0. }
    destruct entries as [[|e entries]|].
    2: { case_match; [|discriminate Hr]. apply bind_ok in Hr as (m' & Hr & [= <-]). eexists. split; [done|].
         split; [done|]. apply Hw. eapply set_entries_wt; [exact Hl|exact Hm'|exact Hr]. }
    all: injection Hr as <-; eexists; split; [done|]; split; [done|by apply Hw]. }
  all: destruct (is_zero _); [discriminate Hr|];
       destruct entries as [[|]|]; try discriminate Hr; injection Hr as <-; eauto.
Qed.

(** [typeAssert] keeps the type of the location it assigns. *)
Lemma typeAssert_sound n : sound (typeAssert n).
Proof.
  induction n as [|n IH]; [done|]. intros t literal v r Hl Hv Hr.
  destruct (decide (base_kind t = KStruct)) as [Hk|Hns].
  { destruct (typeAssert_struct_sound _ _ _ _ _ IH Hk Hl Hv Hr) as (v' & ? & ? & ?). eauto. }
  assert (exists v', r = Some v' /\ keeps v v') as (v' & -> & Hkp).
  2: { exists v'. split_and!; [done..|]. intros Hv'. eapply live_retype; [|done]. by rewrite (proj1 Hkp). }
  destruct (decide (base_kind t = KArray \/ base_kind t = KSlice)) as [Hk|Hk].
  { destruct (typeAssert_slice_cases _ _ _ _ _ Hk Hr) as [Hs|(t' & lit & Hlit & Hs)].
    - destruct (assert_slice_sound _ _ _ _ _ IH Hl Hv Hs) as (v' & ? & ? & _). eauto.
    - destruct (IH _ _ _ _ (Hlit Hl) Hv Hs) as (v' & ? & ? & _). eauto. }
  destruct (decide (base_kind t = KMap)) as [Hm|Hm]; [eapply typeAssert_map_sound; [exact Hm|exact Hl|exact Hv|exact Hr]|].
  assert (Some <$> assert_scalar literal v = Ok r) as Hs.
  { cbn [typeAssert] in Hr. destruct (base_kind t); try discriminate Hr; try exact Hr; exfalso;
      first [apply Hns; reflexivity|apply Hm; reflexivity|apply Hk; left; reflexivity|apply Hk; right; reflexivity]. }
  clear Hr Hns Hk Hm IH.
  destruct (assert_scalar literal v) as [v'| | |] eqn:E; simplify_eq/=.
  pose proof (assert_scalar_keeps _ _ _ Hl Hv E). eauto.
Qed.

Lemma parseLiteral_fields lit fs : map_Forall (fun _ v => wt v = true) lit -> forall vals vals',
  fields_ok fs vals -> parseLiteral lit fs vals = Ok vals' -> fields_ok fs vals'.
Proof.
  intros Hlit. induction fs as [|f fs IH]; intros vals vals' Hv Hr; inversion Hv as [|? v ? vs [Hf Hw] Hvs]; subst;
    simpl in Hr; [by simplify_eq|].
  destruct (f_Tag f) as [full|]; [|done]. destruct (split_tag full) as [tag opt].
  destruct (lit !! tag) as [literal|] eqn:El.
  - apply bind_ok in Hr as (v' & Hr & (vs' & Hvs' & [= <-])%bind_ok).
    unfold typeAssert_top in Hr. inv_ok.
    destruct (typeAssert_sound _ _ _ _ _ (Hlit _ _ El) Hw E0) as (v1 & -> & Hk & _).
    constructor; [|by eapply IH]. split; [by eapply keeps_fits|apply Hk].
  - destruct opt; [|done]. apply bind_ok in Hr as (vs' & Hvs' & [= <-]). constructor; [done|by eapply IH].
Qed.

(** Values of a known type are the Go values of that type. *)
Lemma fits_as_int t v : int_type t = true -> fits t v = true -> wt v = true -> exists z, v = VInt t z.
Proof.
  intros Ht Hf Hw. assert (typeof v = Some t) as E.
  { unfold fits in Hf. by destruct t; simplify_eq/=; apply bool_decide_eq_true in Hf. }
  destruct v as [|? z|? f| |? o|? l|? p|? m| |u|]; simplify_eq/=; eauto.
  all: try (destruct t; simpl in *; simplify_eq; try done).
  all: try by (apply bool_decide_eq_true in Hw as [|]).
Qed.

Lemma fits_as_string v : fits TString v = true -> wt v = true -> exists s, v = VString s.
Proof.
  intros E%bool_decide_eq_true Hw. destruct v as [|? z|? f| |? o|? l|? p|? m| |u|]; simplify_eq/=; eauto.
Qed.

Lemma fits_slice t v :
  kind_of t = KSlice -> fits t v = true -> wt v = true ->
  exists o, v = VSlice t o /\ Forall (fun e => fits (elem_type t) e = true /\ wt e = true) (default [] o) /\
    Forall (fun e => live e = true) (default [] o).
Proof.
  intros Ht Hf Hw. assert (typeof v = Some t) as E.
  { unfold fits in Hf. by destruct t; simplify_eq/=; apply bool_decide_eq_true in Hf. }
  destruct v as [|? z|? f| |? o|? l|? p|? m| |u|]; simplify_eq/=; try by destruct t.
  all: try (apply andb_true_iff in Hw as [Hw%bool_decide_eq_true Hw']; try congruence).
  exists o. split; [done|]. destruct o as [l|]; [|by split].
  assert (wt (VSlice t (Some l)) = true) as Hw1 by (simpl; by rewrite Hw', bool_decide_eq_true_2).
  by apply wt_slice in Hw1 as (_ & ? & ?).
Qed.

Lemma as_list_total {X} (f : goval -> option X) t v :
  kind_of t = KSlice ->
  (forall e, fits (elem_type t) e = true -> wt e = true -> live e = true -> is_Some (f e)) ->
  fits t v = true -> wt v = true -> is_Some (as_list f v).
Proof.
  intros Ht Hf Hv Hw. destruct (fits_slice t v Ht Hv Hw) as (o & -> & He & Hl). simpl.
  apply mapM_is_Some. rewrite Forall_forall in He. rewrite Forall_forall in Hl.
  apply Forall_forall. intros e Hin. destruct (He e Hin). auto.
Qed.

Lemma as_int_total t e : int_type t = true -> fits t e = true -> wt e = true -> is_Some (as_int e).
Proof. intros Ht Hf Hw. destruct (fits_as_int t e Ht Hf Hw) as [z ->]. by eexists. Qed.

Lemma as_bytes_total v :
  fits (TSlice TUint8) v = true -> wt v = true -> is_Some (as_list as_int v).
Proof. apply as_list_total; [done|]. intros e Hf Hw _. by apply (as_int_total TUint8). Qed.

Lemma as_ips_total v : fits (TSlice TIP) v = true -> wt v = true -> is_Some (as_list as_ip v).
Proof.
  apply as_list_total; [done|]. intros e Hf Hw _. eapply (as_list_total _ TIP); [done| |done..].
  intros b Hb Hwb _. by apply (as_int_total TUint8).
Qed.

Lemma as_strings_total v : fits (TSlice TString) v = true -> wt v = true -> is_Some (as_list as_string v).
Proof.
  apply as_list_total; [done|]. intros e Hf Hw _. destruct (fits_as_string e Hf Hw) as [s ->]. by eexists.
Qed.

Lemma fits_ptr_struct nm v :
  fits (TPtr (TStruct nm)) v = true -> wt v = true ->
  v = VPtr (TPtr (TStruct nm)) None \/
  exists vals, v = VPtr (TPtr (TStruct nm)) (Some (VStruct nm vals)) /\ fields_ok (struct_fields nm) vals.
Proof.
  intros E%bool_decide_eq_true Hw. destruct v as [|? z|? f| |? o|? l|? p|? m| |u|]; simplify_eq/=; try done.
  destruct p as [x|]; [right|by left].
  apply andb_true_iff in Hw as [[Hf%bool_decide_eq_true Hw]%andb_true_iff Hu].
  destruct x as [|? z|? f| |? o|? l|? p'|? m|nm' vals|u|]; simplify_eq/=; try done.
  exists vals. split; [done|]. by apply wt_struct.
Qed.

(** Splits the fields of a typed struct. *)
Ltac split_fields H :=
  repeat match type of H with
  | fields_ok (struct_fields _) _ => unfold fields_ok in H; vm_compute in H
  | Forall2 _ (_ :: _) _ =>
      let Hf := fresh "Hf" in let Hw := fresh "Hw" in let v := fresh "v" in let vs := fresh "vs" in
      apply Forall2_cons_inv_l in H as (v & vs & [Hf Hw] & H & ->)
  | Forall2 _ [] _ => apply Forall2_nil_inv_l in H as ->
  end.

Lemma as_HealthCheck_total e :
  fits (TPtr (TStruct "healthcheck.HealthCheck")) e = true -> wt e = true -> live e = true ->
  is_Some (as_HealthCheck e).
Proof.
  intros Hf Hw Hl. destruct (fits_ptr_struct _ _ Hf Hw) as [->|(vals & -> & Hv)]; [done|].
  change (struct_fields _) with HealthCheck_fields in Hv. unfold fields_ok, HealthCheck_fields in Hv.
  split_fields Hv. cbn [f_Type tagged untagged] in *.
  destruct (fits_as_string v) as [s1 ->]; [done..|]. destruct (fits_as_string v0) as [s2 ->]; [done..|].
  destruct (fits_as_int TDuration v1) as [z1 ->]; [done..|].
  destruct (fits_as_int TInt v2) as [z2 ->]; [done..|]. simpl. eauto.
Qed.

Lemma as_HealthChecks_total v : fits THealthChecks v = true -> wt v = true -> is_Some (as_list as_HealthCheck v).
Proof. apply as_list_total; [done|]. apply as_HealthCheck_total. Qed.

Lemma as_TLSLB_total e :
  fits (TPtr (TStruct "dnsconfig.TLSLB")) e = true -> wt e = true -> is_Some (as_TLSLB e).
Proof.
  intros Hf Hw. destruct (fits_ptr_struct _ _ Hf Hw) as [->|(vals & -> & Hv)]; [by eexists|].
  change (struct_fields _) with TLSLB_fields in Hv. unfold fields_ok, TLSLB_fields in Hv.
  split_fields Hv. cbn [f_Type tagged] in *. cbn [as_TLSLB].
  destruct (as_bytes_total v) as [? ->]; [done..|]. destruct (as_bytes_total v0) as [? ->]; [done..|].
  destruct (as_bytes_total v1) as [? ->]; [done..|]. by eexists.
Qed.

Lemma to_A_total vals : fields_ok A_fields vals -> is_Some (to_A vals).
Proof.
  intros Hv. unfold fields_ok, A_fields in Hv. split_fields Hv. cbn [f_Type tagged] in *.
  destruct (fits_as_int TUint32 v0) as [z ->]; [done..|]. cbn [to_A].
  destruct (as_ips_total v) as [? ->]; [done..|].
  destruct (as_HealthChecks_total v1) as [? ->]; [done..|]. by eexists.
Qed.

Lemma to_LB_total vals : fields_ok LB_fields vals -> is_Some (to_LB vals).
Proof.
  intros Hv. unfold fields_ok, LB_fields in Hv. split_fields Hv. cbn [f_Type tagged] in *.
  destruct (fits_as_string v0) as [k ->]; [done..|].
  destruct (fits_as_int TInt v2) as [z2 ->]; [done..|]. destruct (fits_as_int TInt v3) as [z3 ->]; [done..|].
  destruct (fits_as_int TDuration v4) as [z4 ->]; [done..|].
  destruct (fits_as_int TUint32 v5) as [z5 ->]; [done..|]. cbn [to_LB].
  destruct (as_strings_total v) as [? ->]; [done..|]. destruct (as_strings_total v1) as [? ->]; [done..|].
  cbn [mbind option_bind]. destruct (as_TLSLB_total v6) as [? ->]; [done..|].
  cbn [mbind option_bind]. destruct (as_HealthChecks_total v7) as [? ->]; [done..|]. by eexists.
Qed.

Lemma A_init_ok ttl : fields_ok A_fields (A_init ttl).
Proof. repeat (constructor; [done|]). constructor. Qed.

Lemma LB_init_ok ttl : fields_ok LB_fields (LB_init ttl).
Proof. repeat (constructor; [done|]). constructor. Qed.

(** Literals that hold only typed values. *)
Definition typed_literal (lit : gmap string goval) : Prop := map_Forall (fun _ v => wt v = true) lit.

(** C8. Type soundness of the reflective conversion: if [parseLiteral] accepts a
    literal made of well-typed Go values, then what it stored is a value of the
    record's struct type, every field at its declared type (addresses are
    addresses, the health checks are non-nil), so the record has a value. *)
Theorem parseLiteral_type_sound (ttl : Z) (lit : gmap string goval) :
  typed_literal lit ->
  (forall vals, parseLiteral lit A_fields (A_init ttl) = Ok vals ->
     fields_ok A_fields vals /\ exists a, parse_A ttl lit = Ok a) /\
  (forall vals, parseLiteral lit LB_fields (LB_init ttl) = Ok vals ->
     fields_ok LB_fields vals /\ exists lb, parse_LB ttl lit = Ok lb).
Proof.
  intros Hl. unfold parse_A, parse_LB. split; intros vals Hp; rewrite Hp; simpl.
  - pose proof (parseLiteral_fields _ _ Hl _ _ (A_init_ok ttl) Hp) as Hv. split; [done|].
    destruct (to_A_total _ Hv) as [a ->]. by exists a.
  - pose proof (parseLiteral_fields _ _ Hl _ _ (LB_init_ok ttl) Hp) as Hv. split; [done|].
    destruct (to_LB_total _ Hv) as [a ->]. by exists a.
Qed.

Lemma parseLiteral_type_sound_witness :
  typed_literal example_A /\ exists a, parse_A 60 example_A = Ok a.
Proof.
  assert (typed_literal example_A) as H.
  { repeat (apply map_Forall_insert_2; [vm_compute; reflexivity|]). apply map_Forall_empty. }
  split; [exact H|]. pose proof example_A_parses as E. apply bind_ok in E as (vals & E & _).
  exact (proj2 (proj1 (parseLiteral_type_sound 60 example_A H) vals E)).
Defined.
