(* ===== verification/LiteralParse.v ===== *)
(** * Record literals: what is parsed (pkg/config/literal.go)

    The values a record gets from a JSON or YAML document: lists of addresses
    and strings are copied element by element, keys that are absent keep the
    defaults of [convertLiterals], the order in which Go ranges over an object
    does not matter, and the conversion always ends.  The last part is about
    documented keys that the conversion cannot take. *)

From S2P Require Import Prelude GoNet GoTime HealthCheck DnsConfig Literal LiteralFuel.

Local Open Scope Z_scope.

#[local] Arguments ip_value : simpl never.

(** The fuel is enough: with as much fuel as its literal is deep [typeAssert] never runs
    out, and any larger amount gives the same result.  (The calls that only take a
    pointer or an interface off the type use none, see [base_kind].) *)
Theorem typeAssert_terminates (n : nat) (typ : gotype) (literal : goval) (value : option goval) :
  (depth literal <= n)%nat ->
  typeAssert n typ literal value = typeAssert (depth literal) typ literal value /\
  typeAssert n typ literal value <> Err out_of_fuel.
Proof.
  intros Hn. split; [by apply typeAssert_fuel_agree|by apply typeAssert_fuel_enough].
Qed.

Lemma typeAssert_terminates_witness :
  typeAssert 7 (TSlice TIP) (jarr [jstr "10.0.0.1"]) (Some (VSlice (TSlice TIP) None))
  = typeAssert 4 (TSlice TIP) (jarr [jstr "10.0.0.1"]) (Some (VSlice (TSlice TIP) None)).
Proof. apply (typeAssert_terminates 7). vm_compute. lia. Defined.

(** ** Lists of strings and addresses *)

Lemma assert_elems_fresh ta t z (g : goval -> goval) lits :
  typeof z = Some t -> (forall l, l ∈ lits -> ta t l (Some z) = Ok (Some (g l))) ->
  assert_elems ta lits (replicate (length lits) z) = Ok (g <$> lits).
Proof.
  intros Hz. induction lits as [|l lits IH]; intros Hg; [done|].
  rewrite length_cons, replicate_S, fmap_cons. cbn [assert_elems]. rewrite Hz, (Hg l) by left. cbn [mbind outcome_bind].
  rewrite IH; [done|]. intros l' Hl. apply Hg. by right.
Qed.

(** A nil slice takes the elements of the literal one by one. *)
Lemma assert_slice_fresh ta vt t (g : goval -> goval) literal :
  typeof (zero (elem_type vt)) = Some t ->
  (forall l, l ∈ lit_elems literal -> ta t l (Some (zero (elem_type vt))) = Ok (Some (g l))) ->
  assert_slice ta KSlice literal (VSlice vt None)
  = Ok (Some (VSlice vt (match lit_elems literal with [] => None | ls => Some (g <$> ls) end))).
Proof.
  intros Hz Hg. unfold assert_slice. cbn [default length]. rewrite Nat.sub_0_r, app_nil_l.
  rewrite (assert_elems_fresh ta t _ g) by done. by destruct (lit_elems literal).
Qed.

(** One step of the slice branch on a nil slice. *)
Lemma typeAssert_fresh n vt t (g : goval -> goval) literal lt :
  kind_of vt = KSlice -> typeof literal = Some lt ->
  (vt = TSlice TIP /\ lt = TSlice TString \/ vt = TIP /\ lt = TString -> False) ->
  kind_of lt = KSlice \/ kind_of lt = KString ->
  typeof (zero (elem_type vt)) = Some t ->
  (forall l, l ∈ lit_elems literal -> typeAssert n t l (Some (zero (elem_type vt))) = Ok (Some (g l))) ->
  typeAssert (S n) vt literal (Some (VSlice vt None))
  = Ok (Some (VSlice vt (match lit_elems literal with [] => None | ls => Some (g <$> ls) end))).
Proof.
  intros Hvt Hlt Hno Hk Hz Hg. pose proof (assert_slice_fresh (typeAssert n) vt t g literal Hz Hg) as Hs.
  assert (base_kind vt = KSlice) as Hb by (by destruct vt).
  cbn [typeAssert]. rewrite Hb, Hlt. cbn [typeof].
  destruct Hk as [Hk|Hk]; rewrite Hk; case_bool_decide as Hd; try exact Hs; injection Hd as ->.
  - destruct literal as [| | | |lt' o| | | | | |]; try exact Hs. injection Hlt as ->.
    destruct lt as [| | | | | | | | | | | | | | | | |u| | | | | | | |]; try exact Hs.
    destruct u; try exact Hs. exfalso. auto.
  - destruct literal; try exact Hs. injection Hlt as <-. exfalso. auto.
Qed.

Lemma typeAssert_byte n b :
  typeAssert (S n) TUint8 (VInt TUint8 b) (Some (VInt TUint8 0)) = Ok (Some (VInt TUint8 b)).
Proof. reflexivity. Qed.

Lemma typeAssert_ip_bytes n ip :
  typeAssert (S (S n)) TIP (ip_value ip) (Some (VSlice TIP None)) = Ok (Some (ip_value ip)).
Proof.
  rewrite (typeAssert_fresh (S n) TIP TUint8 id _ TIP); try done; [| |by left|].
  - unfold ip_value. destruct ip as [|b ip]; [done|]. simpl. by rewrite list_fmap_id.
  - naive_solver.
  - intros l Hl. destruct ip as [|b ip]; [by apply elem_of_nil in Hl|].
    apply list_elem_of_fmap in Hl as (z & -> & _). apply typeAssert_byte.
Qed.

Lemma typeAssert_ip n s :
  typeAssert (S (S (S n))) TIP (VString s) (Some (VSlice TIP None)) = Ok (Some (ip_value (ParseIP s))).
Proof. exact (typeAssert_ip_bytes n (ParseIP s)). Qed.

(** A nil [[]net.IP] or [[]string] field given a JSON array of strings. *)
Lemma depth_jarr strs : (depth (jarr (jstr <$> strs)) <= 4)%nat.
Proof.
  cbn [jarr depth]. rewrite bool_decide_eq_false_2 by done.
  assert (max_list (depth <$> (jstr <$> strs)) <= 3)%nat; [|lia].
  induction strs as [|s strs IH]; [simpl; lia|]. rewrite !fmap_cons. cbn [max_list_with].
  unfold id at 1, jstr at 1. cbn [depth]. lia.
Qed.

Lemma typeAssert_addresses strs :
  typeAssert_top (TSlice TIP) (jarr (jstr <$> strs)) (VSlice (TSlice TIP) None)
  = Ok (VSlice (TSlice TIP) (match strs with [] => None | _ => Some (ip_value ∘ ParseIP <$> strs) end)).
Proof.
  unfold typeAssert_top. rewrite (typeAssert_fuel_agree _ 4) by (auto using depth_jarr).
  rewrite (typeAssert_fresh 3 (TSlice TIP) TIP
    (fun l => match l with VString s => ip_value (ParseIP s) | v => v end) _ (TSlice TAny));
    try done; [|naive_solver|by left|].
  - destruct strs as [|s strs]; [done|]. simpl. do 4 f_equal.
    by rewrite <- list_fmap_compose.
  - intros l (s & -> & _)%list_elem_of_fmap. apply (typeAssert_ip 0).
Qed.

Lemma typeAssert_strings strs :
  typeAssert_top (TSlice TString) (jarr (jstr <$> strs)) (VSlice (TSlice TString) None)
  = Ok (VSlice (TSlice TString) (match strs with [] => None | _ => Some (jstr <$> strs) end)).
Proof.
  unfold typeAssert_top. rewrite (typeAssert_fuel_agree _ 4) by (auto using depth_jarr).
  rewrite (typeAssert_fresh 3 (TSlice TString) TString id _ (TSlice TAny)); try done; [|naive_solver|by left|].
  - destruct strs as [|s strs]; [done|]. simpl. by rewrite list_fmap_id.
  - by intros l (s & -> & _)%list_elem_of_fmap.
Qed.

Lemma as_ip_value ip : as_ip (ip_value ip) = Some ip.
Proof.
  assert (forall l, mapM as_int (VInt TUint8 <$> l) = Some l) as H.
  { induction l as [|x l IH]; [done|]. rewrite fmap_cons. simpl. by rewrite IH. }
  destruct ip as [|b ip]; [done|exact (H (b :: ip))].
Qed.

Lemma as_list_of {X Y} (f : goval -> option X) (g : Y -> goval) (h : Y -> X) t l :
  (forall y, f (g y) = Some (h y)) ->
  as_list f (VSlice t (match l with [] => None | _ => Some (g <$> l) end)) = Some (h <$> l).
Proof.
  intros Hf. assert (mapM f (g <$> l) = Some (h <$> l)) as Hm.
  { induction l as [|y l IH]; [done|]. rewrite !fmap_cons. simpl. by rewrite Hf, IH. }
  destruct l; [done|exact Hm].
Qed.

(** The first field of a struct, then the others. *)
Lemma parseLiteral_present lit f fs v vals tag opt literal v' :
  split_tag <$> f_Tag f = Some (tag, opt) -> lit !! tag = Some literal ->
  typeAssert_top (f_Type f) literal v = Ok v' ->
  parseLiteral lit (f :: fs) (v :: vals) = (vs ← parseLiteral lit fs vals; Ok (v' :: vs)).
Proof.
  intros Ht Hl Hv. cbn [parseLiteral]. destruct (f_Tag f) as [full|]; [|done]. injection Ht as Ht.
  by rewrite Ht, Hl, Hv.
Qed.

Lemma parseLiteral_absent lit f fs v vals tag :
  split_tag <$> f_Tag f = Some (tag, true) -> lit !! tag = None ->
  parseLiteral lit (f :: fs) (v :: vals) = (vs ← parseLiteral lit fs vals; Ok (v :: vs)).
Proof.
  intros Ht Hl. cbn [parseLiteral]. destruct (f_Tag f) as [full|]; [|done]. injection Ht as Ht.
  by rewrite Ht, Hl.
Qed.

Lemma typeAssert_kind kind :
  typeAssert_top TString (jstr kind) (VString "") = Ok (VString kind).
Proof. reflexivity. Qed.

(** The value of an A record: a JSON array of strings under [addresses]
    becomes the parsed addresses in the same order, whatever the strings are
    (an unparseable one becomes the nil address); without [ttl] and
    [healthcheck] the record has the zone's minimum TTL and no checks. *)
Theorem parse_A_addresses (minTTL : Z) (lit : gmap string goval) (addresses : list string) :
  lit !! "addresses" = Some (jarr (jstr <$> addresses)) ->
  lit !! "ttl" = None -> lit !! "healthcheck" = None ->
  parse_A minTTL lit
  = Ok {| a_Addresses := ParseIP <$> addresses; a_TTL := minTTL; a_HealthCheck := [] |}.
Proof.
  intros Ha Ht Hh. unfold parse_A, A_fields, A_init.
  erewrite (parseLiteral_present _ _ _ _ _ "addresses" false); [|reflexivity|exact Ha|exact (typeAssert_addresses addresses)].
  erewrite (parseLiteral_absent _ _ _ _ _ "ttl"); [|reflexivity|exact Ht].
  erewrite (parseLiteral_absent _ _ _ _ _ "healthcheck"); [|reflexivity|exact Hh].
  cbn [parseLiteral mbind outcome_bind to_A].
  by rewrite (as_list_of as_ip (ip_value ∘ ParseIP) ParseIP) by (intros; apply as_ip_value).
Qed.

Lemma parse_A_addresses_witness :
  parse_A 30 {["addresses" := jarr (jstr <$> ["10.0.0.1"; "::1"])]}
  = Ok {| a_Addresses := ParseIP <$> ["10.0.0.1"; "::1"]; a_TTL := 30; a_HealthCheck := [] |}.
Proof. apply parse_A_addresses; reflexivity. Defined.

(** The value of an LB record: [listeners], [backends] and [kind] are copied,
    and every optional key that is absent keeps the default that
    [convertLiterals] put there before the literal is read. *)
Theorem parse_LB_strings (minTTL : Z) (lit : gmap string goval) (listeners backends : list string) (kind : string) :
  lit !! "listeners" = Some (jarr (jstr <$> listeners)) ->
  lit !! "kind" = Some (jstr kind) ->
  lit !! "backends" = Some (jarr (jstr <$> backends)) ->
  (forall key, key ∈ ["simultaneous_connections"; "max_connections_per_address"; "connection_timeout";
                      "ttl"; "tls"; "healthcheck"] -> lit !! key = None) ->
  parse_LB minTTL lit
  = Ok {| lb_Listeners := listeners; lb_Kind := kind; lb_Backends := backends;
          lb_SimultaneousConnections := DefaultSimultaneousConnections;
          lb_MaxConnectionsPerAddress := DefaultMaxConnectionsPerAddress;
          lb_ConnectionTimeout := 0; lb_TTL := minTTL; lb_TLS := None; lb_HealthCheck := [] |}.
Proof.
  intros Hl Hk Hb Hn. unfold parse_LB, LB_fields, LB_init.
  erewrite (parseLiteral_present _ _ _ _ _ "listeners" false); [|reflexivity|exact Hl|exact (typeAssert_strings listeners)].
  erewrite (parseLiteral_present _ _ _ _ _ "kind" false); [|reflexivity|exact Hk|exact (typeAssert_kind kind)].
  erewrite (parseLiteral_present _ _ _ _ _ "backends" false); [|reflexivity|exact Hb|exact (typeAssert_strings backends)].
  do 6 (erewrite parseLiteral_absent; [|reflexivity|by apply Hn; set_solver]).
  cbn [parseLiteral mbind outcome_bind to_LB].
  rewrite !(as_list_of as_string jstr id) by done. by rewrite !list_fmap_id.
Qed.

Lemma parse_LB_strings_witness :
  is_ok (parse_LB 30 {["listeners" := jarr (jstr <$> ["foo:80"]); "kind" := jstr "http";
                       "backends" := jarr (jstr <$> ["10.0.0.1:80"; "10.0.0.2:80"])]}) = true.
Proof.
  rewrite (parse_LB_strings 30 _ ["foo:80"] ["10.0.0.1:80"; "10.0.0.2:80"] "http"); [reflexivity..|].
  intros key Hk. repeat (apply elem_of_cons in Hk as [->|Hk]; [reflexivity|]). by apply elem_of_nil in Hk.
Defined.

(** ** The order of an object's entries *)

Lemma lookup_tag_Some fs key n ok b i :
  lookup_tag fs key n ok = (b, Some i) -> exists f, fs !! (i - n)%nat = Some f /\ f_Tag f = Some key /\ (n <= i)%nat.
Proof.
  revert n ok. induction fs as [|f fs IH]; intros n ok H; simpl in H; [done|].
  destruct (f_Tag f) as [rec|] eqn:Ef.
  - case_bool_decide; [|destruct (IH _ _ H) as (g & Hg & Ht & Hle)].
    + simplify_eq. exists f. rewrite Nat.sub_diag. auto.
    + exists g. split_and!; [|done|lia]. by replace (i - n)%nat with (S (i - S n)) by lia.
  - destruct (IH _ _ H) as (g & Hg & Ht & Hle). exists g. split_and!; [|done|lia].
    by replace (i - n)%nat with (S (i - S n)) by lia.
Qed.

Lemma lookup_tag_inj fs k1 k2 b1 b2 i :
  lookup_tag fs k1 0 true = (b1, Some i) -> lookup_tag fs k2 0 true = (b2, Some i) -> k1 = k2.
Proof.
  intros (f1 & Hf1 & Ht1 & _)%lookup_tag_Some (f2 & Hf2 & Ht2 & _)%lookup_tag_Some. congruence.
Qed.

(** One entry, and the remaining ones. *)
Definition entry ta fs (e : string * goval) (vals : list goval) : outcome (list goval) :=
  assert_entries ta fs [e] vals.

Lemma assert_entries_cons ta fs e es vals :
  assert_entries ta fs (e :: es) vals = (vals' ← entry ta fs e vals; assert_entries ta fs es vals').
Proof.
  unfold entry. destruct e as [k l]. cbn [assert_entries].
  destruct (lookup_tag fs k 0 true) as [ok m]. destruct (negb ok); [done|].
  destruct (typeof l) as [t|]; [|done]. destruct m as [i|].
  - destruct (vals !! i) as [v|]; [|done]. by destruct (ta t l (Some v)).
  - by destruct (ta t l None).
Qed.

Lemma entry_swap ta fs e1 e2 vals vals1 vals2 :
  e1.1 <> e2.1 -> entry ta fs e1 vals = Ok vals1 -> entry ta fs e2 vals1 = Ok vals2 ->
  exists vals', entry ta fs e2 vals = Ok vals' /\ entry ta fs e1 vals' = Ok vals2.
Proof.
  destruct e1 as [k1 l1], e2 as [k2 l2]. intros Hne. unfold entry. cbn [assert_entries fst] in *.
  destruct (lookup_tag fs k1 0 true) as [ok1 m1] eqn:E1, (lookup_tag fs k2 0 true) as [ok2 m2] eqn:E2.
  destruct (negb ok1); [done|]. destruct (negb ok2); [done|].
  destruct (typeof l1) as [t1|], (typeof l2) as [t2|]; try done.
  destruct m1 as [i|], m2 as [j|].
  - assert (i <> j) as Hij by (intros ->; eapply Hne, lookup_tag_inj; eauto).
    destruct (vals !! i) as [v|] eqn:Ei; [|done].
    intros (r1 & H1 & [= <-])%bind_ok. rewrite list_lookup_insert_ne by done.
    destruct (vals !! j) as [w|] eqn:Ej; [|done].
    intros (r2 & H2 & [= <-])%bind_ok. exists (<[j:=default w r2]> vals). rewrite H2. split; [done|].
    rewrite list_lookup_insert_ne, Ei, H1 by done. simpl. by rewrite list_insert_insert_ne.
  - destruct (vals !! i) as [v|] eqn:Ei; [|done].
    intros (r1 & H1 & [= <-])%bind_ok (r2 & H2 & [= <-])%bind_ok.
    exists vals. rewrite H2, Ei, H1. done.
  - intros (r1 & H1 & [= ->])%bind_ok Hr. destruct (vals1 !! j) as [w|] eqn:Ej; [|done].
    apply bind_ok in Hr as (r2 & H2 & [= <-]). rewrite H2. eexists. split; [done|]. by rewrite H1.
  - intros (r1 & H1 & [= ->])%bind_ok (r2 & H2 & [= ->])%bind_ok. exists vals2. by rewrite H1, H2.
Qed.

Lemma assert_entries_perm ta fs es es' :
  es ≡ₚ es' -> NoDup es.*1 -> forall vals vals',
  assert_entries ta fs es vals = Ok vals' -> assert_entries ta fs es' vals = Ok vals'.
Proof.
  induction 1 as [|e es es' Hp IH|e1 e2 es|es1 es2 es3 Hp1 IH1 Hp2 IH2]; intros Hnd vals vals' Hr; [done|..].
  - rewrite assert_entries_cons in *. apply bind_ok in Hr as (vals1 & He & Hr). rewrite He. simpl.
    apply NoDup_cons in Hnd as [_ Hnd]. by apply IH.
  - rewrite assert_entries_cons in Hr. apply bind_ok in Hr as (vals1 & He1 & Hr).
    rewrite assert_entries_cons in Hr. apply bind_ok in Hr as (vals2 & He2 & Hr).
    rewrite !fmap_cons in Hnd. apply NoDup_cons in Hnd as [Hn _]. apply not_elem_of_cons in Hn as [Hne _].
    destruct (entry_swap _ _ _ _ _ _ _ Hne He1 He2) as (vals3 & H1 & H2).
    rewrite assert_entries_cons, H1. cbn [mbind outcome_bind]. by rewrite assert_entries_cons, H2.
  - apply IH2; [|by apply IH1]. by rewrite <- Hp1.
Qed.

(** C30. Map order: a struct decoded from an object does not depend on the order in
    which Go ranges over the object's entries. *)
Theorem typeAssert_object_order (n : nat) (typ : gotype) (entries entries' : list (string * goval))
    (value r : option goval) :
  base_kind typ = KStruct -> entries ≡ₚ entries' -> NoDup entries.*1 ->
  typeAssert n typ (jobj entries) value = Ok r -> typeAssert n typ (jobj entries') value = Ok r.
Proof.
  intros Hk Hp Hnd. destruct n as [|n]; [done|]. unfold jobj. cbn [typeAssert]. rewrite Hk. cbn [default].
  pose proof (fun fs => assert_entries_perm (typeAssert n) fs entries entries' Hp Hnd) as He.
  destruct entries as [|e entries].
  { apply Permutation_nil_l in Hp as <-. done. }
  destruct entries' as [|e' entries']; [by apply Permutation_nil_r in Hp|].
  destruct value as [v|]; [|done].
  destruct v as [| | | | | |pt p| |nm vals| |]; try done.
  - destruct pt as [| | | | | | | | | | | | | | | | | | |pt| | | | | |]; try done. destruct pt; try done.
    destruct (default _ p); try done. intros (vals' & Hr & [= <-])%bind_ok.
    apply He in Hr. unfold id in *. by rewrite Hr.
  - intros (vals' & Hr & [= <-])%bind_ok. apply He in Hr. unfold id in *. by rewrite Hr.
Qed.

Lemma typeAssert_object_order_witness :
  exists r, typeAssert 9 (TPtr (TStruct "healthcheck.HealthCheck"))
    (jobj [("timeout", jstr "1s"); ("failures", jnum 3)])
    (Some (VPtr (TPtr (TStruct "healthcheck.HealthCheck")) None)) = Ok r.
Proof.
  eexists. eapply (typeAssert_object_order 9 _ [("failures", jnum 3); ("timeout", jstr "1s")]).
  - reflexivity.
  - apply Permutation_swap.
  - apply NoDup_cons; split; [set_solver|apply NoDup_singleton].
  - vm_compute. reflexivity.
Defined.

(** ** Keys that cannot be used *)

(** A [ttl] key in a JSON or YAML document (a [float64]) makes the loader
    panic: [literal.(uint32)] never holds for a decoded number. *)
Theorem json_ttl_panics (minTTL : Z) (lit : gmap string goval) (addresses : list string) (f : float64) :
  lit !! "addresses" = Some (jarr (jstr <$> addresses)) ->
  lit !! "ttl" = Some (VFloat TFloat64 f) ->
  parse_A minTTL lit = Panic.
Proof.
  intros Ha Ht. unfold parse_A, A_fields, A_init.
  erewrite (parseLiteral_present _ _ _ _ _ "addresses" false); [|reflexivity|exact Ha|apply typeAssert_addresses].
  cbn [parseLiteral tagged f_Tag f_Type]. change (split_tag "ttl,optional") with ("ttl", true).
  cbv beta iota. rewrite Ht. reflexivity.
Qed.

Lemma json_ttl_panics_witness :
  parse_A 60 {["addresses" := jarr (jstr <$> ["127.0.0.1"]); "ttl" := jnum 300]} = Panic.
Proof. apply (json_ttl_panics 60 _ ["127.0.0.1"] (float_of_Z 300)); reflexivity. Defined.

Lemma assert_entries_untagged ta fs entries key v :
  (key, v) ∈ entries -> lookup_tag fs key 0 true = (false, None) ->
  forall vals vals', assert_entries ta fs entries vals <> Ok vals'.
Proof.
  intros Hin Hk. induction entries as [|e es IH]; [by apply elem_of_nil in Hin|].
  intros vals vals' Hr. rewrite assert_entries_cons in Hr. apply bind_ok in Hr as (vals1 & He & Hr).
  apply elem_of_cons in Hin as [<-|Hin]; [|by eapply IH].
  unfold entry in He. cbn [assert_entries] in He. by rewrite Hk in He.
Qed.

(** The optional keys of a health check cannot be given: [typeAssert]
    compares the key with the whole tag ["type,optional"], so an object with the
    key [name] or [type] is never accepted as a [HealthCheck], and no configured
    check can be anything but a ping. *)
Theorem healthcheck_type_rejected (n : nat) (entries : list (string * goval)) (key : string) (v : goval)
    (p r : option goval) :
  key = "name" \/ key = "type" -> (key, v) ∈ entries ->
  typeAssert n (TPtr (TStruct "healthcheck.HealthCheck")) (jobj entries)
    (Some (VPtr (TPtr (TStruct "healthcheck.HealthCheck")) p)) <> Ok r.
Proof.
  intros Hk Hin Hr. destruct n as [|n]; [done|]. unfold jobj in Hr.
  cbn [typeAssert base_kind kind_of] in Hr. destruct (default _ p); try done.
  apply bind_ok in Hr as (vals' & Hr & _).
  eapply (assert_entries_untagged _ _ _ key v Hin); [|exact Hr]. by destruct Hk as [-> | ->].
Qed.

Lemma healthcheck_type_rejected_witness :
  typeAssert 9 (TPtr (TStruct "healthcheck.HealthCheck"))
    (jobj [("timeout", jstr "1s"); ("type", jstr "http")])
    (Some (VPtr (TPtr (TStruct "healthcheck.HealthCheck")) None)) <> Ok None.
Proof.
  apply (healthcheck_type_rejected 9 _ "type" (jstr "http")); [by right|]. right. left.
Defined.

(** A client CA certificate is silently dropped: an entry [ca_certificate] of
    [tls] leaves the struct as it was. *)
Theorem ca_certificate_ignored (n : nat) (pem : string) (entries : list (string * goval)) (p : option goval) :
  (0 < n)%nat ->
  typeAssert (S n) (TPtr (TStruct "dnsconfig.TLSLB")) (jobj (("ca_certificate", jstr pem) :: entries))
    (Some (VPtr (TPtr (TStruct "dnsconfig.TLSLB")) p))
  = typeAssert (S n) (TPtr (TStruct "dnsconfig.TLSLB")) (jobj entries)
    (Some (VPtr (TPtr (TStruct "dnsconfig.TLSLB")) p)).
Proof.
  intros Hn. destruct n as [|n]; [lia|]. unfold jobj. remember (S n) as m eqn:Em.
  cbn [typeAssert base_kind kind_of default]. destruct (default _ p); try done.
  unfold id. rewrite assert_entries_cons. unfold entry. subst m. reflexivity.
Qed.

Lemma ca_certificate_ignored_witness :
  typeAssert 5 (TPtr (TStruct "dnsconfig.TLSLB")) (jobj [("ca_certificate", jstr "PEM"); ("key", jstr "K")])
    (Some (VPtr (TPtr (TStruct "dnsconfig.TLSLB")) None))
  = typeAssert 5 (TPtr (TStruct "dnsconfig.TLSLB")) (jobj [("key", jstr "K")])
    (Some (VPtr (TPtr (TStruct "dnsconfig.TLSLB")) None)).
Proof. apply (ca_certificate_ignored 4). lia. Defined.
