(* ===== verification/Config.v ===== *)
(** * Component: configuration (pkg/config/config.go, pkg/config/record.go)

    The [Config] struct with its peers and zones, and the operations that read
    and change them.  Peers are immutable values in the program (only the slice
    that holds them changes), so they are values here.  Zones are shared: the
    DNS server, the health checks and the configuration hold pointers to the
    same [Zone]s, and [trimZones] changes them in place; they live in a [Heap]
    and [Zones] maps names to locations.  A location that is not in the heap is
    a nil pointer.  The hash chain is code of another module, so its type is a
    parameter.

    Ranging over a map takes an arbitrary order ([MapRange]). *)

From S2P Require Import Prelude GoNet GoTime HealthCheck DnsConfig Literal.

Local Open Scope Z_scope.

Definition ErrDump : error := errors_New "while dumping configuration to disk".
Definition ErrLoad : error := errors_New "while loading configuration from disk".
Definition ErrPeerNotFound : error := errors_New "peer not found".

(** The fields of [jose.JSONWebKey] the program reads. *)
Record JWK := { KeyID : string; KeyMaterial : string; Algorithm : string }.

Record ListenConfig := { listen_DNS : string; listen_Control : string }.

Record Peer := { IPs : list IP; ControlServer : string; Key : option JWK }.

#[export] Instance JWK_eq_dec : EqDecision JWK.
Proof. solve_decision. Defined.
#[export] Instance Peer_eq_dec : EqDecision Peer.
Proof. solve_decision. Defined.

(** [(p *Peer) Name()] dereferences the key. *)
Definition Name (p : Peer) : outcome string :=
  match Key p with Some k => Ok (KeyID k) | None => Panic end.

(** What [Record.Value] points to: nil until [convertLiterals] has run. *)
Inductive RecordValue := ValA (a : A) | ValLB (lb : LB).

#[export] Instance RecordValue_record : DnsRecord RecordValue := fun v name =>
  match v with ValA a => A_Convert a name | ValLB lb => LB_Convert lb name end.

Record Record_ := {
  rec_Type : string;
  rec_Name : string;
  rec_LiteralValue : gmap string goval;
  rec_Value : option RecordValue
}.

Record Zone := {
  z_SOA : option SOA;
  z_NS : option NS;
  z_Records : list Record_
}.

(** ** The heap of zones *)

Notation loc := positive.
Notation Heap := (gmap positive Zone).
Notation ZoneMap := (gmap string positive).

(** The zones a map of pointers leads to. *)
Definition view (h : Heap) (zs : ZoneMap) : gmap string Zone := omap (fun l => h !! l) zs.

Record Config (Chain : Type) := mkConfig {
  FilenamePrefix : string;
  Publisher : option Peer;
  ShutdownWait : Z;
  AuthKey : option JWK;
  Listen : ListenConfig;
  Peers : list Peer;
  Zones : ZoneMap;
  chain : Chain;
  reload : loc
}.
Arguments mkConfig {Chain}.
Arguments FilenamePrefix {Chain}.
Arguments Publisher {Chain}.
Arguments ShutdownWait {Chain}.
Arguments AuthKey {Chain}.
Arguments Listen {Chain}.
Arguments Peers {Chain}.
Arguments Zones {Chain}.
Arguments chain {Chain}.
Arguments reload {Chain}.

Section config.
Context {Chain : Type} `{MR : MapRange}.
Implicit Types c : Config Chain.

(** [New(chain)]; [r] is the location of the channel it makes. *)
Definition New (ch : Chain) (r : loc) : Config Chain :=
  mkConfig "" None 0 None {| listen_DNS := ""; listen_Control := "" |} [] ∅ ch r.

Definition SetChain c (ch : Chain) : Config Chain :=
  mkConfig (FilenamePrefix c) (Publisher c) (ShutdownWait c) (AuthKey c) (Listen c) (Peers c) (Zones c) ch (reload c).

Definition CopyFrom c (newConfig : Config Chain) : Config Chain :=
  mkConfig (FilenamePrefix c) (Publisher c) (ShutdownWait newConfig) (AuthKey newConfig) (Listen newConfig)
    (Peers newConfig) (Zones newConfig) (chain c) (reload c).

Definition SetPeers c (peers : list Peer) : Config Chain :=
  mkConfig (FilenamePrefix c) (Publisher c) (ShutdownWait c) (AuthKey c) (Listen c) peers (Zones c) (chain c) (reload c).

Definition SetZones c (zs : ZoneMap) : Config Chain :=
  mkConfig (FilenamePrefix c) (Publisher c) (ShutdownWait c) (AuthKey c) (Listen c) (Peers c) zs (chain c) (reload c).

Definition AddPeer c (peer : Peer) : Config Chain := SetPeers c (Peers c ++ [peer]).

Definition GetPublisher c : option Peer := Publisher c.

Definition SetPublisher c (publisher : option Peer) : Config Chain :=
  mkConfig (FilenamePrefix c) publisher (ShutdownWait c) (AuthKey c) (Listen c) (Peers c) (Zones c) (chain c) (reload c).

(** The loop of [FindPeer]. *)
Fixpoint find_peer (peers : list Peer) (name : string) : outcome Peer :=
  match peers with
  | [] => Err ErrPeerNotFound
  | peer :: peers' =>
      n ← Name peer;
      if bool_decide (n = name) then Ok peer else find_peer peers' name
  end.

Definition FindPeer c (name : string) : outcome Peer := find_peer (Peers c) name.

(** The first half of [RemovePeer], under the read lock: the peers to keep. *)
Definition without_peer (peer : Peer) (peers : list Peer) : outcome (list Peer) :=
  collect (fun origPeer =>
    n ← Name peer; n' ← Name origPeer;
    Ok (if bool_decide (n <> n') then [origPeer] else [])) peers.

(** [RemovePeer] when nothing runs between the read and the write. *)
Definition RemovePeer c (peer : Peer) : outcome (Config Chain) :=
  peers ← without_peer peer (Peers c); Ok (SetPeers c peers).

(** ** record.go *)

Definition trimDot (key : string) : string := TrimSuffix key ".".
Definition addDot (key : string) : string := if HasSuffix key "." then key else key +:+ ".".

(** The body of the loops of [trimZones] and [decorateZones] on one zone; they
    differ only in the function applied to the names. *)
Definition rename_zone (f : string -> string) (z : Zone) : outcome Zone :=
  match z_SOA z, z_NS z with
  | Some soa, Some ns =>
      Ok {| z_SOA := Some {| soa_Domain := f (soa_Domain soa); soa_Admin := f (soa_Admin soa);
                             soa_MinTTL := soa_MinTTL soa; soa_Serial := soa_Serial soa;
                             soa_Refresh := soa_Refresh soa; soa_Retry := soa_Retry soa;
                             soa_Expire := soa_Expire soa |};
            z_NS := Some {| ns_Servers := f <$> ns_Servers ns; ns_TTL := ns_TTL ns |};
            z_Records := (fun r => {| rec_Type := rec_Type r; rec_Name := f (rec_Name r);
                                      rec_LiteralValue := rec_LiteralValue r; rec_Value := rec_Value r |})
                         <$> z_Records z |}
  | _, _ => Panic
  end.

(** Changes the zone behind a pointer. *)
Definition update_zone (f : Zone -> outcome Zone) (l : loc) (h : Heap) : outcome Heap :=
  match h !! l with
  | Some z => z' ← f z; Ok (<[l := z']> h)
  | None => Panic
  end.

Definition rename_zones (f : string -> string) (h : Heap) (zs : ZoneMap) : outcome (Heap * ZoneMap) :=
  for_each (fun '(key, l) '(h, newZones) =>
      h' ← update_zone (rename_zone f) l h; Ok (h', <[f key := l]> newZones))
    (range zs) (h, ∅).

Definition trimZones (h : Heap) c : outcome (Heap * Config Chain) :=
  '(h', zs) ← rename_zones trimDot h (Zones c); Ok (h', SetZones c zs).

Definition decorateZones (h : Heap) c : outcome (Heap * Config Chain) :=
  '(h', zs) ← rename_zones addDot h (Zones c); Ok (h', SetZones c zs).

(** One record of [convertLiterals], in a zone with [z_SOA] [soa]. *)
Definition convert_record (soa : option SOA) (r : Record_) : outcome Record_ :=
  let set v := {| rec_Type := rec_Type r; rec_Name := rec_Name r;
                  rec_LiteralValue := rec_LiteralValue r; rec_Value := Some v |} in
  let wrap e := Errorf "Error parsing record %q: %v" [rec_Name r] in
  if bool_decide (rec_Type r = TypeA) then
    match soa with
    | Some soa => a ← map_err wrap (parse_A (soa_MinTTL soa) (rec_LiteralValue r)); Ok (set (ValA a))
    | None => Panic
    end
  else if bool_decide (rec_Type r = TypeLB) then
    match soa with
    | Some soa => lb ← map_err wrap (parse_LB (soa_MinTTL soa) (rec_LiteralValue r)); Ok (set (ValLB lb))
    | None => Panic
    end
  else Err (Errorf "invalid type for record %q" [rec_Name r]).

Definition convert_zone (z : Zone) : outcome Zone :=
  match z_NS z with
  | None => Panic
  | Some ns =>
      ns' ← (if bool_decide (ns_TTL ns = 0) then
               match z_SOA z with
               | Some soa => Ok {| ns_Servers := ns_Servers ns; ns_TTL := soa_MinTTL soa |}
               | None => Panic
               end
             else Ok ns);
      recs ← collect (fun r => r' ← convert_record (z_SOA z) r; Ok [r']) (z_Records z);
      Ok {| z_SOA := z_SOA z; z_NS := Some ns'; z_Records := recs |}
  end.

Definition convertLiterals (h : Heap) c : outcome Heap :=
  for_each (fun '(_, l) h => update_zone convert_zone l h) (range (Zones c)) h.
End config.
