(* ===== verification/ConfigZones.v ===== *)
(** * Configuration: laws of the peer list and of zone names

    [FindPeer], [RemovePeer] and [AddPeer] against the set of peer names, and
    the effect of [trimZones] and [decorateZones] on the zones the
    configuration points to. *)

From S2P Require Import Prelude GoNet GoTime HealthCheck DnsConfig Literal Config.

Local Open Scope Z_scope.

(** ** Peers *)

Definition named (p : Peer) : Prop := is_Some (Key p).
Definition peer_name (p : Peer) : string := match Key p with Some k => KeyID k | None => "" end.

Lemma Name_named p : named p -> Name p = Ok (peer_name p).
Proof. intros [k Hk]. unfold Name, peer_name. by rewrite Hk. Qed.

#[export] Hint Rewrite Name_named using done : border_rw.

Lemma find_peer_spec peers name :
  Forall named peers ->
  match find_peer peers name with
  | Ok p => exists l1 l2, peers = l1 ++ p :: l2 /\ peer_name p = name /\ name ∉ (peer_name <$> l1)
  | Err e => e = ErrPeerNotFound /\ name ∉ (peer_name <$> peers)
  | _ => False
  end.
Proof.
  induction 1 as [|p peers Hp Hps IH]; [split; [done|set_solver]|]. cbn [find_peer].
  rewrite Name_named by done. cbn [mbind outcome_bind]. case_bool_decide as Hn.
  { exists [], peers. split_and!; [done..|set_solver]. }
  destruct (find_peer peers name) as [q|e| |]; [|split; set_solver|done..].
  destruct IH as (l1 & l2 & -> & Hq & Hl1). exists (p :: l1), l2. split_and!; [done..|set_solver].
Qed.

Lemma without_peer_spec p peers :
  named p -> Forall named peers ->
  without_peer p peers = Ok (filter (fun q => peer_name q <> peer_name p) peers).
Proof.
  intros Hp. unfold without_peer. induction 1 as [|q peers Hq Hqs IH]; [done|]. cbn [collect].
  rewrite IH, !Name_named by done. cbn [mbind outcome_bind].
  rewrite filter_cons. case_bool_decide; case_decide; try done; congruence.
Qed.

Lemma Forall_filter_l {X} (P Q : X -> Prop) `{!forall x, Decision (P x)} l :
  Forall Q l -> Forall Q (filter P l).
Proof.
  rewrite !Forall_forall. intros HQ x [_ Hx]%list_elem_of_filter. auto.
Qed.

(** Peers for examples. *)
Definition key_of (name : string) : JWK := {| KeyID := name; KeyMaterial := name; Algorithm := "A256KW" |}.
Definition mkPeer (name addr : string) : Peer :=
  {| IPs := [ParseIP addr]; ControlServer := addr +:+ ":5309"; Key := Some (key_of name) |}.

Section peers.
Context {Chain : Type}.
Implicit Types c : Config Chain.

(** Removing a peer deletes every peer of that name, keeps all others in
    their order and the rest of the configuration, and after it [FindPeer] no
    longer finds the name but finds every other name as before. *)
Theorem RemovePeer_spec c (p : Peer) :
  named p -> Forall named (Peers c) ->
  exists c', RemovePeer c p = Ok c' /\
    Peers c' = filter (fun q => peer_name q <> peer_name p) (Peers c) /\
    c' = SetPeers c (Peers c') /\
    FindPeer c' (peer_name p) = Err ErrPeerNotFound /\
    (forall name, name <> peer_name p -> FindPeer c' name = FindPeer c name).
Proof.
  intros Hp Hps. unfold RemovePeer. rewrite (without_peer_spec p _ Hp Hps). eexists. split; [done|].
  unfold FindPeer. cbn [Peers SetPeers]. split_and!; [done..| |].
  - pose proof (find_peer_spec _ (peer_name p) (Forall_filter_l (fun q => peer_name q <> peer_name p) _ _ Hps)) as H.
    destruct (find_peer _ _) as [q|e| |]; [|by destruct H as [-> _]|done..].
    exfalso. destruct H as (l1 & l2 & E & Hq & _).
    assert (q ∈ filter (fun q => peer_name q <> peer_name p) (Peers c)) as [? _]%list_elem_of_filter
      by (rewrite E; set_solver). done.
  - intros name Hn. induction Hps as [|q qs Hq Hqs IH]; [done|]. rewrite filter_cons. cbn [find_peer].
    rewrite Name_named by done. cbn [mbind outcome_bind]. case_decide as Hd.
    + cbn [find_peer]. rewrite Name_named by done. cbn [mbind outcome_bind]. by rewrite IH.
    + rewrite bool_decide_eq_false_2; [done|]. intros <-. by apply Hn.
Qed.

(** [FindPeer] returns the first peer of the name, or [ErrPeerNotFound] when
    there is none; adding a peer whose name is new makes it findable and leaves
    every other lookup unchanged. *)
Theorem FindPeer_AddPeer c (p : Peer) (name : string) :
  named p -> Forall named (Peers c) -> peer_name p ∉ (peer_name <$> Peers c) ->
  FindPeer (AddPeer c p) name = (if bool_decide (name = peer_name p) then Ok p else FindPeer c name) /\
  (FindPeer c name = Err ErrPeerNotFound <-> name ∉ (peer_name <$> Peers c)).
Proof.
  intros Hp Hps Hnew. split.
  - unfold FindPeer, AddPeer. cbn [Peers SetPeers]. induction Hps as [|q qs Hq Hqs IH]; cbn [find_peer app].
    + rewrite Name_named by done. cbn [mbind outcome_bind]. do 2 case_bool_decide; congruence.
    + rewrite fmap_cons, not_elem_of_cons in Hnew. destruct Hnew as [Hne Hnew].
      rewrite Name_named by done. cbn [mbind outcome_bind]. rewrite IH by done.
      repeat case_bool_decide; congruence.
  - pose proof (find_peer_spec (Peers c) name Hps) as H. unfold FindPeer.
    destruct (find_peer (Peers c) name) as [q|e| |]; [|naive_solver|done..].
    destruct H as (l1 & l2 & -> & <- & _). split; [done|]. intros Hn. exfalso. apply Hn. set_solver.
Qed.
End peers.

Definition two_peers : Config unit :=
  SetPeers (New tt 1%positive) [mkPeer "alice" "10.0.0.1"; mkPeer "bob" "10.0.0.2"].

Lemma two_peers_named : Forall named (Peers two_peers).
Proof. repeat constructor; by eexists. Qed.

Lemma RemovePeer_spec_witness :
  exists c', RemovePeer two_peers (mkPeer "bob" "10.0.0.9") = Ok c' /\
    FindPeer c' "bob" = Err ErrPeerNotFound.
Proof.
  destruct (RemovePeer_spec two_peers (mkPeer "bob" "10.0.0.9")) as (c' & H1 & _ & _ & H2 & _);
    [by eexists|apply two_peers_named|]. exists c'. split; [exact H1|exact H2].
Defined.

Lemma FindPeer_AddPeer_witness :
  FindPeer (AddPeer two_peers (mkPeer "carol" "10.0.0.3")) "carol" = Ok (mkPeer "carol" "10.0.0.3").
Proof.
  apply (FindPeer_AddPeer two_peers (mkPeer "carol" "10.0.0.3") "carol");
    [by eexists|apply two_peers_named|]. vm_compute. set_solver.
Defined.

(** ** Zone names *)

Definition full_zone (z : Zone) : Prop := is_Some (z_SOA z) /\ is_Some (z_NS z).

(** Every name in a zone. *)
Definition zone_names (z : Zone) : list string :=
  match z_SOA z with Some soa => [soa_Domain soa; soa_Admin soa] | None => [] end ++
  match z_NS z with Some ns => ns_Servers ns | None => [] end ++
  (rec_Name <$> z_Records z).

Lemma rename_zone_full f z :
  full_zone z -> exists z', rename_zone f z = Ok z' /\ full_zone z' /\ zone_names z' = f <$> zone_names z.
Proof.
  intros [[soa Hs] [ns Hn]]. unfold rename_zone, zone_names. rewrite Hs, Hn. eexists. split; [done|].
  split; [split; by eexists|]. cbn [z_SOA z_NS z_Records]. rewrite !fmap_app. do 2 f_equal.
  by rewrite <- !list_fmap_compose.
Qed.

Lemma list_fmap_fixed {X} (f : X -> X) (l : list X) : (forall x, x ∈ l -> f x = x) -> f <$> l = l.
Proof. intros H. rewrite <- (list_fmap_id l) at 2. by apply list_fmap_ext; intros ?? ?%list_elem_of_lookup_2; apply H. Qed.

(** Renaming there and back. *)
Lemma rename_zone_inv f g z z1 z2 :
  (forall n, n ∈ zone_names z -> g (f n) = n) ->
  rename_zone f z = Ok z1 -> rename_zone g z1 = Ok z2 -> z2 = z.
Proof.
  intros Hgf. destruct z as [[soa|] [ns|] recs]; try done. unfold zone_names in Hgf.
  cbn [z_SOA z_NS z_Records] in Hgf. intros [= <-] [= <-]. simpl. f_equal.
  - rewrite !Hgf by set_solver. by destruct soa.
  - rewrite <- list_fmap_compose, list_fmap_fixed; [by destruct ns|].
    intros n Hn. apply Hgf. set_solver.
  - rewrite <- list_fmap_compose. apply list_fmap_fixed. intros r Hr. simpl. rewrite Hgf; [by destruct r|].
    rewrite !elem_of_app. right. right. by apply list_elem_of_fmap_2.
Qed.

Lemma rename_zone_id z : full_zone z -> rename_zone (fun n => n) z = Ok z.
Proof.
  destruct z as [soa ns recs]. intros [[[] Hs] [[] Hn]]. cbn [z_SOA z_NS] in Hs, Hn. subst. unfold rename_zone. cbn [z_SOA z_NS z_Records].
  rewrite list_fmap_id. do 2 f_equal. apply list_fmap_fixed. by intros [].
Qed.

(** No two names point to the same zone, and every zone has its SOA and NS. *)
Definition zones_ok (h : Heap) (zs : ZoneMap) : Prop :=
  (forall k1 k2 l, zs !! k1 = Some l -> zs !! k2 = Some l -> k1 = k2) /\
  (forall k l, zs !! k = Some l -> exists z, h !! l = Some z /\ full_zone z).

Definition renamed (f : string -> string) (h : Heap) (zs : ZoneMap) (h' : Heap) (zs' : ZoneMap) : Prop :=
  (forall k' l, zs' !! k' = Some l <-> exists k, k' = f k /\ zs !! k = Some l) /\
  (forall k l z, zs !! k = Some l -> h !! l = Some z -> exists z', rename_zone f z = Ok z' /\ h' !! l = Some z') /\
  (forall l, (forall k, zs !! k <> Some l) -> h' !! l = h !! l).

Lemma update_zone_full f l h z : h !! l = Some z -> update_zone f l h = (z' ← f z; Ok (<[l := z']> h)).
Proof. unfold update_zone. by intros ->. Qed.

Section zones.
Context `{MR : MapRange}.

Lemma rename_loop f kls : forall (h : Heap) (acc : ZoneMap),
  NoDup (f <$> kls.*1) -> NoDup kls.*2 ->
  (forall k l, (k, l) ∈ kls -> exists z, h !! l = Some z /\ full_zone z) ->
  exists h', for_each (fun '(key, l) '(h, newZones) =>
      h' ← update_zone (rename_zone f) l h; Ok (h', <[f key := l]> newZones)) kls (h, acc)
    = Ok (h', list_to_map (prod_map f id <$> kls) ∪ acc) /\
    (forall k l z, (k, l) ∈ kls -> h !! l = Some z -> exists z', rename_zone f z = Ok z' /\ h' !! l = Some z') /\
    (forall l, l ∉ kls.*2 -> h' !! l = h !! l).
Proof.
  induction kls as [|[k l] kls IH]; intros h acc Hk Hl Hz.
  { exists h. split_and!; [|set_solver|done]. simpl. by rewrite (left_id_L ∅ (∪)). }
  rewrite !fmap_cons in Hk. rewrite fmap_cons in Hl. cbn [fst snd] in *.
  apply NoDup_cons in Hk as [Hk Hks]. apply NoDup_cons in Hl as [Hl Hls].
  destruct (Hz k l) as (z & Hhl & Hfull); [left|].
  destruct (rename_zone_full f z Hfull) as (z' & Hz' & Hfull' & _).
  cbn [for_each]. rewrite (update_zone_full _ _ _ _ Hhl), Hz'. cbn [mbind outcome_bind].
  destruct (IH (<[l:=z']> h) (<[f k:=l]> acc) Hks Hls) as (h' & -> & H1 & H2).
  { intros k0 l0 Hin. destruct (decide (l0 = l)) as [->|Hne].
    - exfalso. apply Hl. by apply (list_elem_of_fmap_2 snd _ (k0, l)).
    - rewrite lookup_insert_ne by done. apply (Hz k0). by right. }
  exists h'. split_and!.
  - do 2 f_equal. rewrite fmap_cons. cbn [prod_map fst snd list_to_map foldr].
    change (id l) with l. rewrite <- insert_union_l. symmetry. apply insert_union_r.
    apply not_elem_of_list_to_map_1. rewrite <- list_fmap_compose.
    rewrite <- list_fmap_compose in Hk. exact Hk.
  - intros k0 l0 z0 [[= -> ->]|Hin]%elem_of_cons Hh0.
    + exists z'. rewrite H2, lookup_insert_eq by done. split; [congruence|done].
    + apply (H1 k0); [done|]. rewrite lookup_insert_ne; [done|]. intros ->.
      apply Hl. by apply (list_elem_of_fmap_2 snd _ (k0, l0)).
  - intros l0 Hn. rewrite fmap_cons, not_elem_of_cons in Hn. destruct Hn as [Hne Hn].
    rewrite H2 by done. by rewrite lookup_insert_ne.
Qed.

Lemma rename_zones_spec f h zs :
  zones_ok h zs -> (forall k1 k2, is_Some (zs !! k1) -> is_Some (zs !! k2) -> f k1 = f k2 -> k1 = k2) ->
  exists h' zs', rename_zones f h zs = Ok (h', zs') /\ renamed f h zs h' zs'.
Proof.
  intros [Hinj Hz] Hf. unfold rename_zones.
  assert (NoDup (f <$> (range zs).*1)) as Hnd.
  { apply NoDup_fmap_2_strong; [|apply range_keys_NoDup].
    intros k1 k2 H1 H2. apply Hf; [apply list_elem_of_fmap in H1|apply list_elem_of_fmap in H2];
      destruct H1 as ([] & -> & ?%elem_of_range) || destruct H2 as ([] & -> & ?%elem_of_range); by eexists. }
  destruct (rename_loop f (range zs) h ∅) as (h' & -> & H1 & H2); [done|..].
  - apply NoDup_fmap_2_strong; [|eapply NoDup_fmap_1, range_keys_NoDup].
    intros [k1 l1] [k2 l2] E1%elem_of_range E2%elem_of_range. simpl. intros ->. by rewrite (Hinj _ _ _ E1 E2).
  - intros k l ?%elem_of_range. eauto.
  - exists h'. eexists. split; [done|]. rewrite (right_id_L ∅ (∪)). split_and!.
    + intros k' l. rewrite <- elem_of_list_to_map.
      2: { by rewrite <- list_fmap_compose, <- list_fmap_compose in *. }
      rewrite list_elem_of_fmap. split.
      * intros ([k l'] & [= -> ->] & ?%elem_of_range). eauto.
      * intros (k & -> & ?%elem_of_range). by exists (k, l).
    + intros k l z ?%elem_of_range. eauto.
    + intros l Hn. apply H2. intros ([k ?] & -> & ?%elem_of_range)%list_elem_of_fmap. by eapply Hn.
Qed.
End zones.

(** A fully qualified name: exactly one trailing dot. *)
Definition dotted (n : string) : Prop := exists p, n = p +:+ "." /\ HasSuffix p "." = false.
(** A name as it is written in a document: no trailing dot. *)
Definition bare (n : string) : Prop := HasSuffix n "." = false.

Lemma trimDot_dotted n : dotted n -> bare (trimDot n) /\ addDot (trimDot n) = n.
Proof.
  intros (p & -> & Hp). unfold trimDot, addDot, bare. by rewrite TrimSuffix_app, Hp.
Qed.

Lemma addDot_bare n : bare n -> dotted (addDot n) /\ trimDot (addDot n) = n.
Proof.
  unfold bare, addDot, trimDot, dotted. intros Hn. rewrite Hn, TrimSuffix_app. eauto.
Qed.

Lemma trimDot_bare n : bare n -> trimDot n = n.
Proof. apply TrimSuffix_none. Qed.

#[export] Hint Resolve trimDot_dotted addDot_bare : border.

(** Every name of the zones and every key satisfies [P]. *)
Definition names_all (P : string -> Prop) (h : Heap) (zs : ZoneMap) : Prop :=
  forall k l, zs !! k = Some l -> P k /\ forall z, h !! l = Some z -> Forall P (zone_names z).

Lemma lookup_view h zs k z : view h zs !! k = Some z <-> exists l, zs !! k = Some l /\ h !! l = Some z.
Proof. unfold view. rewrite lookup_omap. destruct (zs !! k); simpl; naive_solver. Qed.

Lemma renamed_ok f h zs h' zs' :
  zones_ok h zs -> renamed f h zs h' zs' -> zones_ok h' zs'.
Proof.
  intros [Hinj Hz] (R1 & R2 & _). split.
  - intros k1 k2 l (j1 & -> & H1)%R1 (j2 & -> & H2)%R1. by rewrite (Hinj _ _ _ H1 H2).
  - intros k l (j & -> & H1)%R1. destruct (Hz _ _ H1) as (z & Hl & Hf).
    destruct (R2 _ _ _ H1 Hl) as (z' & Hr & Hl'). destruct (rename_zone_full f z Hf) as (z1 & Hr1 & Hf1 & _).
    exists z'. split; [done|]. congruence.
Qed.

Lemma renamed_names f (P Q : string -> Prop) h zs h' zs' :
  zones_ok h zs -> renamed f h zs h' zs' -> (forall n, P n -> Q (f n)) ->
  names_all P h zs -> names_all Q h' zs'.
Proof.
  intros [_ Hz] (R1 & R2 & _) HPQ Hn k' l (k & -> & H1)%R1.
  destruct (Hn _ _ H1) as [Hk Hns]. split; [auto|]. intros z' Hl'.
  destruct (Hz _ _ H1) as (z & Hl & Hf). destruct (R2 _ _ _ H1 Hl) as (z1 & Hr & Hl1). simplify_eq.
  destruct (rename_zone_full f z Hf) as (z2 & Hr2 & _ & Hnm). rewrite Hr in Hr2. injection Hr2 as <-.
  rewrite Hnm, Forall_fmap. eapply Forall_impl; [by apply Hns|exact HPQ].
Qed.

(** What renaming does to the zones seen through the map. *)
Definition view_renamed (f : string -> string) (v v' : gmap string Zone) : Prop :=
  forall k' z', v' !! k' = Some z' <-> exists k z, k' = f k /\ v !! k = Some z /\ rename_zone f z = Ok z'.

Lemma renamed_view f h zs h' zs' :
  zones_ok h zs -> renamed f h zs h' zs' -> view_renamed f (view h zs) (view h' zs').
Proof.
  intros [_ Hz] (R1 & R2 & _) k' z'. rewrite lookup_view. split.
  - intros (l & (k & -> & Hk)%R1 & Hl'). destruct (Hz _ _ Hk) as (z & Hl & _).
    destruct (R2 _ _ _ Hk Hl) as (z1 & Hr & Hl1). exists k, z. rewrite lookup_view. split_and!; [done|eauto|congruence].
  - intros (k & z & -> & (l & Hk & Hl)%lookup_view & Hr). exists l. split; [apply R1; eauto|].
    destruct (R2 _ _ _ Hk Hl) as (z1 & Hr1 & Hl1). congruence.
Qed.

(** Every key of the view and every name in its zones satisfies [P]. *)
Definition view_all (P : string -> Prop) (v : gmap string Zone) : Prop :=
  forall k z, v !! k = Some z -> P k /\ Forall P (zone_names z).

Lemma names_all_view P h zs : zones_ok h zs -> names_all P h zs <-> view_all P (view h zs).
Proof.
  intros [_ Hz]. split.
  - intros Hn k z (l & Hk & Hl)%lookup_view. destruct (Hn _ _ Hk). auto.
  - intros Hv k l Hk. destruct (Hz _ _ Hk) as (z & Hl & _).
    assert (view h zs !! k = Some z) as E by (apply lookup_view; eauto). destruct (Hv _ _ E). split; [done|].
    intros z' Hl'. by simplify_eq.
Qed.

Lemma view_renamed_unique f v u1 u2 : view_renamed f v u1 -> view_renamed f v u2 -> u1 = u2.
Proof. intros H1 H2. apply map_eq. intros k. apply option_eq. intros z. by rewrite (H1 k z), (H2 k z). Qed.

(** Renaming there and back. *)
Lemma view_renamed_undo f g v v1 :
  view_renamed f v v1 -> (forall k z, v !! k = Some z -> full_zone z) -> view_all (fun n => g (f n) = n) v -> view_renamed g v1 v.
Proof.
  intros H1 Hfull Hn k z2. split.
  - intros E0. destruct (Hn _ _ E0) as [Hk Hns].
    destruct (rename_zone_full f z2 (Hfull _ _ E0)) as (z1 & R1 & F1 & _).
    destruct (rename_zone_full g z1 F1) as (z3 & R3 & _ & _). exists (f k), z1. rewrite Hk. split_and!; [done|..].
    + apply H1. eauto.
    + rewrite R3. f_equal. eapply rename_zone_inv; [|exact R1|exact R3]. by apply Forall_forall.
  - intros (k1 & z1 & -> & (k0 & z0 & -> & E0 & R0)%H1 & R1). destruct (Hn _ _ E0) as [-> Hns].
    rewrite E0. f_equal. symmetry. eapply rename_zone_inv; [|exact R0|exact R1]. by apply Forall_forall.
Qed.

Lemma view_renamed_back f g v v1 v2 :
  view_renamed f v v1 -> view_renamed g v1 v2 ->
  (forall k z, v !! k = Some z -> full_zone z) -> view_all (fun n => g (f n) = n) v -> v2 = v.
Proof. intros H1 H2 Hfull Hn. eapply view_renamed_unique; [exact H2|]. by eapply view_renamed_undo. Qed.

Lemma view_all_impl (P Q : string -> Prop) v : (forall n, P n -> Q n) -> view_all P v -> view_all Q v.
Proof. intros HPQ HP k z Hk. destruct (HP k z Hk) as [H1 H2]. split; [auto|]. eapply Forall_impl; eauto. Qed.

(** Renaming with a function that fixes every name. *)
Lemma view_renamed_fixed f v v1 :
  view_renamed f v v1 -> (forall k z, v !! k = Some z -> full_zone z) -> view_all (fun n => f n = n) v -> v1 = v.
Proof.
  intros H1 Hfull Hn. eapply (view_renamed_back (fun n => n) f); [|exact H1|done|done].
  intros k z. split; [|intros (k0 & z0 & -> & Hk & Hr); rewrite rename_zone_id in Hr by eauto; congruence].
  intros Hk. exists k, z. split_and!; [done..|]. by apply rename_zone_id, (Hfull k).
Qed.

Lemma zones_ok_full h zs k z : zones_ok h zs -> view h zs !! k = Some z -> full_zone z.
Proof. intros [_ Hz] (l & Hk & Hl)%lookup_view. destruct (Hz _ _ Hk) as (z' & Hl' & Hf). congruence. Qed.

(** The value of a record is of the record's type. *)
Definition typed_record (r : Record_) : Prop :=
  match rec_Value r with
  | Some (ValA _) => rec_Type r = TypeA
  | Some (ValLB _) => rec_Type r = TypeLB
  | None => False
  end.
Definition typed_zone (z : Zone) : Prop := Forall typed_record (z_Records z).

Definition absolute (n : string) : Prop := HasSuffix n "." = true.

(** A zone as the services use it. *)
Definition served_zone (z : Zone) : Prop := full_zone z /\ typed_zone z /\ Forall absolute (zone_names z).

(** A zone of example.yaml, as it is in memory. *)
Definition example_zone : Zone :=
  {| z_SOA := Some {| soa_Domain := "test.home.arpa."; soa_Admin := "administrator.test.home.arpa.";
                      soa_MinTTL := 60; soa_Serial := 1; soa_Refresh := 60; soa_Retry := 1; soa_Expire := 120 |};
     z_NS := Some {| ns_Servers := ["test.home.arpa."]; ns_TTL := 60 |};
     z_Records := [{| rec_Type := TypeA; rec_Name := "foo.test.home.arpa."; rec_LiteralValue := example_A;
                      rec_Value := Some (ValA {| a_Addresses := [ParseIP "127.0.0.1"]; a_TTL := 60;
                                                 a_HealthCheck := [example_check] |}) |}] |}.

Definition example_heap : Heap := {[ 1%positive := example_zone ]}.
Definition example_zones : ZoneMap := {[ "test.home.arpa." := 1%positive ]}.

Lemma example_zones_ok : zones_ok example_heap example_zones.
Proof.
  unfold zones_ok, example_heap, example_zones. split.
  - intros k1 k2 l [<- _]%lookup_singleton_Some [<- _]%lookup_singleton_Some. done.
  - intros k l [_ <-]%lookup_singleton_Some. exists example_zone. split; [done|]. split; by eexists.
Qed.

Lemma dotted_dec n : (let m := trimDot n in bool_decide (n = m +:+ ".") && negb (HasSuffix m ".")) = true -> dotted n.
Proof.
  simpl. intros [H1%bool_decide_eq_true H2%negb_true_iff]%andb_true_iff. by exists (trimDot n).
Qed.

Lemma example_dotted : names_all dotted example_heap example_zones.
Proof.
  unfold names_all, example_heap, example_zones. intros k l [<- <-]%lookup_singleton_Some. split; [by apply dotted_dec|].
  intros z [_ <-]%lookup_singleton_Some. repeat (apply Forall_cons; split; [by apply dotted_dec|]).
  apply Forall_nil. done.
Qed.

Section roundtrip.
Context {Chain : Type} `{MR : MapRange}.

Lemma trimZones_spec (P : string -> Prop) h (c : Config Chain) :
  zones_ok h (Zones c) -> (forall n1 n2, P n1 -> P n2 -> trimDot n1 = trimDot n2 -> n1 = n2) ->
  names_all P h (Zones c) ->
  exists h' zs', trimZones h c = Ok (h', SetZones c zs') /\ renamed trimDot h (Zones c) h' zs'.
Proof.
  intros Hok Hinj HP. destruct (rename_zones_spec trimDot h (Zones c) Hok) as (h' & zs' & E & Hr).
  { intros k1 k2 [l1 H1] [l2 H2]. apply Hinj; [apply (HP _ _ H1)|apply (HP _ _ H2)]. }
  exists h', zs'. unfold trimZones. by rewrite E.
Qed.

Lemma decorateZones_spec (P : string -> Prop) h (c : Config Chain) :
  zones_ok h (Zones c) -> (forall n1 n2, P n1 -> P n2 -> addDot n1 = addDot n2 -> n1 = n2) ->
  names_all P h (Zones c) ->
  exists h' zs', decorateZones h c = Ok (h', SetZones c zs') /\ renamed addDot h (Zones c) h' zs'.
Proof.
  intros Hok Hinj HP. destruct (rename_zones_spec addDot h (Zones c) Hok) as (h' & zs' & E & Hr).
  { intros k1 k2 [l1 H1] [l2 H2]. apply Hinj; [apply (HP _ _ H1)|apply (HP _ _ H2)]. }
  exists h', zs'. unfold decorateZones. by rewrite E.
Qed.

Lemma dotted_inj n1 n2 : dotted n1 -> dotted n2 -> trimDot n1 = trimDot n2 -> n1 = n2.
Proof. intros [_ H1]%trimDot_dotted [_ H2]%trimDot_dotted. congruence. Qed.

Lemma bare_inj n1 n2 : bare n1 -> bare n2 -> addDot n1 = addDot n2 -> n1 = n2.
Proof. intros [_ H1]%addDot_bare [_ H2]%addDot_bare. congruence. Qed.

Lemma names_all_impl (P Q : string -> Prop) h zs :
  (forall n, P n -> Q n) -> names_all P h zs -> names_all Q h zs.
Proof.
  intros HPQ HP k l Hk. destruct (HP k l Hk) as [H1 H2]. split; [auto|].
  intros z Hz. eapply Forall_impl; eauto.
Qed.

(** Names on disk and in memory: when every zone name, server and record name
    is fully qualified, [trimZones] (done on saving) makes all of them bare, and
    [decorateZones] (done on loading) of the result gives back exactly the zones
    there were, under every iteration order of the maps. *)
Theorem trim_decorate_roundtrip (h : Heap) (c : Config Chain) :
  zones_ok h (Zones c) -> names_all dotted h (Zones c) ->
  exists h1 c1 h2 c2,
    trimZones h c = Ok (h1, c1) /\ names_all bare h1 (Zones c1) /\
    decorateZones h1 c1 = Ok (h2, c2) /\ names_all dotted h2 (Zones c2) /\
    view h2 (Zones c2) = view h (Zones c).
Proof.
  intros Hok Hd. destruct (trimZones_spec dotted h c Hok dotted_inj Hd) as (h1 & zs1 & E1 & R1).
  assert (names_all bare h1 zs1) as Hb by (eapply renamed_names; eauto; intros; by apply trimDot_dotted).
  destruct (decorateZones_spec bare h1 (SetZones c zs1)) as (h2 & zs2 & E2 & R2);
    [by eapply renamed_ok|apply bare_inj|done|].
  exists h1, (SetZones c zs1), h2, (SetZones (SetZones c zs1) zs2). split_and!; [done..| |].
  - eapply (renamed_names addDot bare); [by eapply renamed_ok|exact R2|..]; [|done].
    intros; by apply addDot_bare.
  - eapply view_renamed_back; [by eapply renamed_view|eapply renamed_view; [by eapply renamed_ok|done]|..].
    + intros k z. by apply zones_ok_full.
    + apply names_all_view; [done|]. eapply names_all_impl; [|exact Hd]. intros; by apply trimDot_dotted.
Qed.
End roundtrip.

Definition example_config : Config unit := SetZones two_peers example_zones.

Lemma trim_decorate_roundtrip_witness :
  exists h1 c1 h2 c2, trimZones (MR := canonical_range) example_heap example_config = Ok (h1, c1) /\
    decorateZones (MR := canonical_range) h1 c1 = Ok (h2, c2) /\ view h2 (Zones c2) = view example_heap example_zones.
Proof.
  destruct (@trim_decorate_roundtrip unit canonical_range example_heap example_config
    example_zones_ok example_dotted) as (h1 & c1 & h2 & c2 & H1 & _ & H2 & _ & H3).
  exists h1, c1, h2, c2. split; [exact H1|]. split; [exact H2|exact H3].
Defined.
