(* ===== verification/Prog.v ===== *)
(** * Stateful Go code: the monad [prog] and its laws

    A [prog S A] is Go code that works on a state [S]: it returns the state it
    leaves behind together with its outcome, so that what a failed call has
    already done is visible.  [within R m] says that whatever the outcome of [m],
    the state it leaves is related by [R] to the one it started in; the tactic
    [walk] proves it by following the code. *)

From S2P Require Import Prelude.

(** A stateful Go function: the state it leaves and its outcome. *)
Definition prog (S A : Type) : Type := S -> S * outcome A.

#[export] Instance prog_ret {S} : MRet (prog S) := fun A a s => (s, Ok a).
#[export] Instance prog_bind {S} : MBind (prog S) := fun A B f m s =>
  match m s with
  | (s', Ok a) => f a s'
  | (s', Err e) => (s', Err e)
  | (s', Panic) => (s', Panic)
  | (s', Fatal msg) => (s', Fatal msg)
  end.

Definition get {S} : prog S S := fun s => (s, Ok s).
Definition modify {S} (f : S -> S) : prog S unit := fun s => (f s, Ok tt).
Definition lift {S A} (m : outcome A) : prog S A := fun s => (s, m).
(** [if err != nil { return g(err) }] *)
Definition on_err {S A} (g : error -> error) (m : prog S A) : prog S A := fun s =>
  let '(s', r) := m s in (s', map_err g r).

(** [for ... range] over calls that change the state and append to a slice. *)
Fixpoint collect_prog {S X Y} (f : X -> prog S (list Y)) (l : list X) : prog S (list Y) :=
  match l with
  | [] => mret []
  | x :: l' => ys ← f x; zs ← collect_prog f l'; mret (ys ++ zs)
  end.

(** ** Inverting and running *)

Lemma map_err_ok {X} g (m : outcome X) x : map_err g m = Ok x <-> m = Ok x.
Proof. destruct m; simpl; naive_solver. Qed.

Section runs.
Context {S : Type}.

Lemma prog_bind_ok {X Y} (m : prog S X) (f : X -> prog S Y) s s' y :
  (m ≫= f) s = (s', Ok y) <-> exists s1 x, m s = (s1, Ok x) /\ f x s1 = (s', Ok y).
Proof.
  unfold mbind, prog_bind. destruct (m s) as [s1 [x|e| |msg]]; split; try naive_solver;
    intros (? & ? & ? & ?); naive_solver.
Qed.

Lemma on_err_ok {X} g (m : prog S X) s s' x : on_err g m s = (s', Ok x) <-> m s = (s', Ok x).
Proof. unfold on_err. destruct (m s) as [s1 [y|e| |msg]]; simpl; naive_solver. Qed.

Lemma lift_ok {X} (o : outcome X) (s s' : S) x : lift o s = (s', Ok x) <-> s' = s /\ o = Ok x.
Proof. unfold lift. naive_solver. Qed.

Lemma prog_bind_cases {X Y} (m : prog S X) (f : X -> prog S Y) s s' r :
  (m ≫= f) s = (s', r) ->
  (exists s1 x, m s = (s1, Ok x) /\ f x s1 = (s', r)) \/
  (exists r0, m s = (s', r0) /\ is_ok r0 = false /\ is_ok r = false).
Proof.
  unfold mbind, prog_bind. destruct (m s) as [s1 [x|e| |msg]] eqn:E; [eauto|..];
    intros [= <- <-]; right; eauto.
Qed.

Lemma prog_bind_run {X Y} (m : prog S X) (f : X -> prog S Y) s s' x :
  m s = (s', Ok x) -> (m ≫= f) s = f x s'.
Proof. unfold mbind, prog_bind. by intros ->. Qed.

Lemma collect_prog_elem {X Y} (f : X -> prog S (list Y)) l s s' zs x :
  collect_prog f l s = (s', Ok zs) -> x ∈ l ->
  exists s1 s2 ys, f x s1 = (s2, Ok ys) /\ forall y, y ∈ ys -> y ∈ zs.
Proof.
  revert s zs. induction l as [|x0 l IH]; intros s zs Hr Hx; [by apply elem_of_nil in Hx|]. cbn [collect_prog] in Hr.
  apply prog_bind_ok in Hr as (s1 & ys & H1 & (s2 & zs' & H2 & [= <- <-])%prog_bind_ok).
  apply elem_of_cons in Hx as [->|Hx].
  - exists s, s1, ys. split; [done|]. set_solver.
  - destruct (IH _ _ H2 Hx) as (s3 & s4 & ys' & H3 & Hsub). exists s3, s4, ys'. split; [done|]. set_solver.
Qed.

Lemma collect_prog_from {X Y} (f : X -> prog S (list Y)) l s s' zs y :
  collect_prog f l s = (s', Ok zs) -> y ∈ zs ->
  exists x s1 s2 ys, x ∈ l /\ f x s1 = (s2, Ok ys) /\ y ∈ ys.
Proof.
  revert s zs. induction l as [|x l IH]; intros s zs Hr Hy; cbn [collect_prog] in Hr.
  { injection Hr as _ <-. by apply elem_of_nil in Hy. }
  apply prog_bind_ok in Hr as (s1 & ys & H1 & (s2 & zs' & H2 & [= <- <-])%prog_bind_ok).
  apply elem_of_app in Hy as [Hy|Hy].
  - exists x, s, s1, ys. split_and!; [left|done|done].
  - destruct (IH _ _ H2 Hy) as (x' & s3 & s4 & ys' & Hx & ? & ?). exists x', s3, s4, ys'. split_and!; [by right|done|done].
Qed.

(** ** What code keeps *)

Definition within {A} (R : relation S) (m : prog S A) : Prop := forall s, R s (m s).1.

Section within.
Context (R : relation S) `{!PreOrder R}.

Lemma within_bind {A B} (m : prog S A) (k : A -> prog S B) :
  within R m -> (forall a, within R (k a)) -> within R (m ≫= k).
Proof.
  intros Hm Hk s. unfold mbind, prog_bind. specialize (Hm s).
  destruct (m s) as [s1 [a|e| |msg]]; simpl in *; [|done..]. etrans; [exact Hm|apply Hk].
Qed.

(** The state a run leaves. *)
Lemma within_run {A} (m : prog S A) s s' o : within R m -> m s = (s', o) -> R s s'.
Proof. intros Hm E. specialize (Hm s). by rewrite E in Hm. Qed.

Lemma within_lift {A} (o : outcome A) : within R (lift o).
Proof. by intros s. Qed.
Lemma within_ret {A} (a : A) : within R (mret a).
Proof. by intros s. Qed.
Lemma within_get : within R get.
Proof. by intros s. Qed.
Lemma within_on_err {A} g (m : prog S A) : within R m -> within R (on_err g m).
Proof. intros Hm s. unfold on_err. specialize (Hm s). by destruct (m s). Qed.
Lemma within_modify g : (forall s, R s (g s)) -> within R (modify g).
Proof. intros Hg s. apply Hg. Qed.
Lemma within_get_bind {A} (k : S -> prog S A) : (forall s, R s (k s s).1) -> within R (get ≫= k).
Proof. intros Hk s. apply Hk. Qed.
Lemma within_collect {X Y} (f : X -> prog S (list Y)) l : (forall x, within R (f x)) -> within R (collect_prog f l).
Proof.
  intros Hf. induction l as [|x l IH]; cbn [collect_prog]; [apply within_ret|].
  apply within_bind; [done|]. intros ys. apply within_bind; [done|]. intros zs. apply within_ret.
Qed.
End within.

(** Code that keeps a function of the state. *)
Definition same {X} (f : S -> X) : relation S := fun s s' => f s' = f s.
#[export] Instance same_preorder {X} (f : S -> X) : PreOrder (same f).
Proof. split; [done|]. intros x y z. unfold same. congruence. Qed.

End runs.

Notation keeps f m := (within (same f) m).

(** Follows the code: what is left are the calls it has no lemma for. *)
Create HintDb prog.
Ltac walk :=
  repeat first
    [ progress cbv beta zeta
    | match goal with
      | |- within _ (mbind _ _) => apply within_bind; [apply _| |intros ?]
      | |- within _ (lift _) => apply within_lift; apply _
      | |- within _ (mret _) => apply within_ret; apply _
      | |- within _ get => apply within_get; apply _
      | |- within _ (on_err _ _) => apply within_on_err
      | |- within _ (modify _) => apply within_modify; by intros ?
      | |- within _ (collect_prog _ _) => apply within_collect; [apply _|intros ?]
      | |- within _ (match ?x with _ => _ end) => destruct x
      end
    | solve [eauto with prog] ].
