(* ===== verification/Disk.v ===== *)
(** * Component: configuration on disk (pkg/config/disk.go, Reload of config.go)

    [Save] and [FromDisk] over a file system whose operations may fail.  The
    process state is a [World]: the heap of zones, the buffered reload channels,
    the files, the history of file operations and the configuration the process
    runs.  Code that changes it is a [prog]: it returns the state it leaves
    behind together with its outcome, so that what a failed [Save] has already
    done is visible.

    Encoding is code of encoding/json and ghodss/yaml: the class [Codec] holds
    the functions, and what is relied on is that decoding an encoded document
    gives it back.  A document holds the exported fields of [Config]; zones and
    records in it are not null.  The hash chain is the class [HashChain]. *)

From S2P Require Import Prelude GoNet GoTime HealthCheck DnsConfig Literal Config Prog.

Local Open Scope Z_scope.

(** The part of a configuration that is written: the fields with a JSON name.
    The records' [Value] has none. *)
Record Document := {
  d_ShutdownWait : Z;
  d_AuthKey : option JWK;
  d_Listen : ListenConfig;
  d_Peers : list Peer;
  d_Zones : gmap string Zone
}.

(** [Value dnsconfig.Record `json:"-"`] *)
Definition forget_values (z : Zone) : Zone :=
  {| z_SOA := z_SOA z; z_NS := z_NS z;
     z_Records := (fun r => {| rec_Type := rec_Type r; rec_Name := rec_Name r;
                               rec_LiteralValue := rec_LiteralValue r; rec_Value := None |}) <$> z_Records z |}.

Class Codec := {
  bytes : Type;
  no_bytes : bytes;
  json_Encode : Document -> outcome bytes;
  json_Decode : bytes -> outcome Document;
  yaml_Marshal : Document -> outcome bytes;
  yaml_Unmarshal : bytes -> outcome Document
}.

(** github.com/erikh/go-hashchain: [New(nil)], [Add], [AllSums], [Sum] *)
Class HashChain `{Codec} := {
  Chain : Type;
  chain_New : Chain;
  chain_Add : Chain -> bytes -> outcome Chain;
  AllSums : Chain -> list string;
  Sum : Chain -> outcome string
}.

(** ** The file system *)

Inductive fsop `{Codec} :=
| Create (file : string)
| Write (file : string) (b : bytes)
| Rename (from to : string)
| Sync (file : string).

(** Files and directories, and the operations the system refuses. *)
Record FS `{Codec} := {
  files : gmap string bytes;
  dirs : gset string;
  create_err : string -> option error;
  write_err : string -> option error;
  rename_err : string -> option error;
  open_err : string -> option error
}.

Definition put_files `{Codec} (fs : FS) (m : gmap string bytes) : FS :=
  {| files := m; dirs := dirs fs; create_err := create_err fs; write_err := write_err fs;
     rename_err := rename_err fs; open_err := open_err fs |}.

(** What every process sees once an operation is carried out: [os.Create]
    truncates, [os.Rename] replaces its target in one step.  This is the state that
    outlives the process, not what is on the medium: see [power_loss]. *)
Definition apply_op `{Codec} (op : fsop) (m : gmap string bytes) : gmap string bytes :=
  match op with
  | Create f => <[f := no_bytes]> m
  | Write f b => <[f := b]> m
  | Rename f g => match m !! f with Some b => <[g := b]> (delete f m) | None => m end
  | Sync _ => m
  end.

Definition apply_ops `{Codec} (ops : list fsop) (m : gmap string bytes) : gmap string bytes :=
  foldl (fun m op => apply_op op m) m ops.

(** What may be left of the operations when the machine stops: the data of a [Write]
    reaches the medium at the latest with a [Sync] of the file, and may be missing
    without one, although the file has been created or renamed. *)
Inductive power_loss `{Codec} : list fsop -> list fsop -> Prop :=
| loss_none : power_loss [] []
| loss_keep op ops ops' : power_loss ops ops' -> power_loss (op :: ops) (op :: ops')
| loss_data f b ops ops' : Sync f ∉ ops -> power_loss ops ops' -> power_loss (Write f b :: ops) ops'.

(** ** The process *)

(** The buffer of a [chan struct{}] of capacity 1: full or not. *)
Record World `{HC : HashChain} := mkWorld {
  w_heap : Heap;
  w_chans : gmap loc bool;
  w_fs : FS;
  w_trace : list fsop;
  w_config : Config Chain
}.

(** Decoding allocates the zones. *)
Fixpoint alloc_list (kzs : list (string * Zone)) (h : Heap) : Heap * ZoneMap :=
  match kzs with
  | [] => (h, ∅)
  | (k, z) :: kzs' =>
      let '(h', zs) := alloc_list kzs' h in
      let l := fresh (dom h') in (<[l := z]> h', <[k := l]> zs)
  end.
Definition alloc_zones (zones : gmap string Zone) (h : Heap) : Heap * ZoneMap := alloc_list (map_to_list zones) h.

Section world.
Context `{HC : HashChain} `{MR : MapRange}.

Definition set_heap (h : Heap) (w : World) : World := mkWorld _ _ h (w_chans w) (w_fs w) (w_trace w) (w_config w).
Definition set_chans (cs : gmap loc bool) (w : World) : World := mkWorld _ _ (w_heap w) cs (w_fs w) (w_trace w) (w_config w).
Definition set_config (c : Config Chain) (w : World) : World := mkWorld _ _ (w_heap w) (w_chans w) (w_fs w) (w_trace w) c.

(** Carries out a file operation and records it. *)
Definition do_op (op : fsop) : prog World unit :=
  modify (fun w => mkWorld _ _ (w_heap w) (w_chans w) (put_files (w_fs w) (apply_op op (files (w_fs w))))
                     (w_trace w ++ [op]) (w_config w)).

Definition refuse (o : option error) : prog World unit :=
  lift (match o with Some e => Err e | None => Ok tt end).

(** [make(chan struct{}, 1)] *)
Definition make_chan : prog World loc := fun w =>
  let r := fresh (dom (w_chans w)) in (set_chans (<[r := false]> (w_chans w)) w, Ok r).

(** The configuration a document decodes to, in a [Config] made by [New]. *)
Definition decoded (c : Config Chain) (d : Document) (zs : ZoneMap) : Config Chain :=
  mkConfig (FilenamePrefix c) (Publisher c) (d_ShutdownWait d) (d_AuthKey d) (d_Listen d) (d_Peers d) zs
    (chain c) (reload c).

Definition decode_into (c : Config Chain) (d : Document) : prog World (Config Chain) := fun w =>
  let '(h, zs) := alloc_zones d.(d_Zones) (w_heap w) in (set_heap h w, Ok (decoded c d zs)).

Definition LoadJSON (data : bytes) : prog World (Config Chain) :=
  r ← make_chan;
  d ← lift (json_Decode data);
  c ← decode_into (New chain_New r) d;
  ch ← lift (chain_Add chain_New data);
  mret (SetChain c ch).

Definition LoadYAML (data : bytes) : prog World (Config Chain) :=
  r ← make_chan;
  d ← lift (yaml_Unmarshal data);
  decode_into (New chain_New r) d.

(** [filepath.Ext]: from the last dot of the last path element. *)
Fixpoint ext_chars (rev acc : list ascii) : list ascii :=
  match rev with
  | [] => []
  | x :: rev' =>
      if Ascii.eqb x "/" then []
      else if Ascii.eqb x "." then x :: acc
      else ext_chars rev' (x :: acc)
  end.
Definition Ext (path : string) : string := str (ext_chars (rev (chars path)) []).

(** [c.postLoad(filename, chain, reload)] *)
Definition postLoad (c : Config Chain) (filename : string) (ch : Chain) (r : loc) : prog World (Config Chain) :=
  let c := mkConfig (TrimSuffix filename (Ext filename)) (Publisher c) (ShutdownWait c) (AuthKey c) (Listen c)
             (Peers c) (Zones c) ch r in
  if bool_decide (Peers c = []) then lift (Err (errors_New "You must specify at least one peer"))
  else
    w ← get;
    h ← lift (convertLiterals (w_heap w) c);
    _ ← modify (set_heap h);
    '(h', c') ← lift (decorateZones h c);
    _ ← modify (set_heap h');
    mret c'.

(** [c.FromDisk(filename, loaderFunc)] *)
Definition FromDisk (c : Config Chain) (filename : string) (loaderFunc : bytes -> prog World (Config Chain)) :
    prog World (Config Chain) :=
  w ← get;
  data ← on_err (Join ErrLoad)
    (_ ← refuse (open_err (w_fs w) filename);
     lift (match files (w_fs w) !! filename with
           | Some b => Ok b
           | None => Err (Errorf "open %s: no such file or directory" [filename])
           end));
  newConfig ← on_err (Join ErrLoad) (loaderFunc data);
  r ← make_chan;
  let initConfig := CopyFrom (New (chain c) r) newConfig in
  postLoad initConfig filename (chain c) (reload c).

(** The document [json.NewEncoder(w).Encode(c)] and [yaml.Marshal(c)] write. *)
Definition document (h : Heap) (c : Config Chain) : Document :=
  {| d_ShutdownWait := ShutdownWait c; d_AuthKey := AuthKey c; d_Listen := Listen c; d_Peers := Peers c;
     d_Zones := forget_values <$> view h (Zones c) |}.

(** [c.trimZones()] on the configuration of the process. *)
Definition trim_config : prog World unit :=
  w ← get;
  '(h, c) ← lift (trimZones (w_heap w) (w_config w));
  modify (fun w => set_config c (set_heap h w)).

Definition write_file (filename : string) (b : bytes) : prog World unit :=
  w ← get; _ ← refuse (write_err (w_fs w) filename); do_op (Write filename b).

Definition SaveJSON (filename : string) : prog World unit :=
  _ ← trim_config;
  w ← get;
  out ← lift (json_Encode (document (w_heap w) (w_config w)));
  write_file filename out.

Definition SaveYAML (filename : string) : prog World unit :=
  _ ← trim_config;
  w ← get;
  out ← lift (yaml_Marshal (document (w_heap w) (w_config w)));
  write_file filename out.

(** [ToDisk(filename, dumperFunc)] *)
Definition ToDisk (filename : string) (dumperFunc : string -> prog World unit) : prog World unit :=
  w ← get;
  _ ← on_err (Join ErrDump) (refuse (create_err (w_fs w) filename));
  _ ← do_op (Create filename);
  on_err (Join ErrDump) (dumperFunc filename).

(** [os.Rename] with the wrapping of [Save]. *)
Definition move (from to : string) : prog World unit :=
  w ← get;
  _ ← on_err (Wrapf "Could not move configuration file into place: %w" []) (refuse (rename_err (w_fs w) from));
  do_op (Rename from to).

Definition Save : prog World unit :=
  w ← get;
  let prefix := FilenamePrefix (w_config w) in
  if bool_decide (prefix = "") then lift (Err (errors_New "invalid filename prefix"))
  else if bool_decide (prefix ∈ dirs (w_fs w) \/ is_Some (files (w_fs w) !! prefix)) then
    lift (Err (Errorf "Filename prefix %q exists or is a directory, should not be" [prefix]))
  else
    _ ← ToDisk (prefix +:+ ".json.tmp") SaveJSON;
    _ ← move (prefix +:+ ".json.tmp") (prefix +:+ ".json");
    _ ← ToDisk (prefix +:+ ".yaml.tmp") SaveYAML;
    move (prefix +:+ ".yaml.tmp") (prefix +:+ ".yaml").

(** Whether a send has completed or the goroutine waits for a receiver. *)
Inductive sent := Sent | Blocked.

(** [c.reload <- struct{}{}] on a channel of capacity 1. *)
Definition send (r : loc) : prog World sent := fun w =>
  match w_chans w !! r with
  | Some false => (set_chans (<[r := true]> (w_chans w)) w, Ok Sent)
  | _ => (w, Ok Blocked)
  end.

(** [c.Reload()] on the configuration of the process. *)
Definition Reload : prog World sent :=
  w ← get;
  newConfig ← on_err (Wrapf "While reloading configuration: %w" [])
    (FromDisk (w_config w) (FilenamePrefix (w_config w) +:+ ".json") LoadJSON);
  w ← get;
  let c := w_config w in
  let publisher := Publisher c in
  let r := reload c in
  let ch := chain c in
  let c' := CopyFrom c newConfig in
  _ ← modify (set_config (mkConfig (FilenamePrefix c') publisher (ShutdownWait c') (AuthKey c') (Listen c')
                            (Peers c') (Zones c') ch r));
  send r.
End world.
