(* ===== verification/DiskSafety.v ===== *)
(** * Configuration on disk: crash safety of [Save]

    [Save] writes through a temporary file and a rename, so that at every moment
    every process finds a complete document in the configuration files, also when
    the one that saves is killed.  It does not sync what it has written, so that
    this does not extend to a stop of the machine. *)

From S2P Require Import Prelude GoNet GoTime HealthCheck DnsConfig Literal Config ConfigZones Prog Disk.

Local Open Scope Z_scope.

Section safety.
Context `{HC : HashChain} `{MR : MapRange}.

(** The file operations a run carried out. *)
Definition ran (w : World) (ops : list fsop) (w' : World) : Prop :=
  w_trace w' = w_trace w ++ ops /\ w_fs w' = put_files (w_fs w) (apply_ops ops (files (w_fs w))).

Lemma ran_refl w : ran w [] w.
Proof. split; [by rewrite app_nil_r|by destruct (w_fs w)]. Qed.

Lemma ran_trans w1 w2 w3 ops1 ops2 : ran w1 ops1 w2 -> ran w2 ops2 w3 -> ran w1 (ops1 ++ ops2) w3.
Proof.
  intros [Ht1 Hf1] [Ht2 Hf2]. split; [by rewrite Ht2, Ht1, app_assoc|].
  rewrite Hf2, Hf1. unfold put_files, apply_ops. simpl. by rewrite foldl_app.
Qed.

(** The state an encoder leaves and the document it wrote. *)
Definition encodes (enc : Document -> outcome bytes) (w : World) (b : bytes) (w' : World) : Prop :=
  exists h c, trimZones (w_heap w) (w_config w) = Ok (h, c) /\ enc (document h c) = Ok b /\
    w_heap w' = h /\ w_config w' = c.

Definition dump (enc : Document -> outcome bytes) (filename : string) : prog World unit :=
  _ ← trim_config; w ← get; out ← lift (enc (document (w_heap w) (w_config w))); write_file filename out.

(** A dumper writes the whole document at once or nothing. *)
Lemma dump_cases enc f w w' r :
  dump enc f w = (w', r) ->
  FilenamePrefix (w_config w') = FilenamePrefix (w_config w) /\
  ((is_ok r = false /\ w_trace w' = w_trace w /\ w_fs w' = w_fs w) \/
   (r = Ok tt /\ exists b, encodes enc w b w' /\ w_trace w' = w_trace w ++ [Write f b] /\
      w_fs w' = put_files (w_fs w) (apply_op (Write f b) (files (w_fs w))))).
Proof.
  unfold dump, trim_config, write_file, do_op, refuse, modify, get, lift, encodes, mbind, prog_bind.
  destruct (trimZones (w_heap w) (w_config w)) as [[h c]|e| |m] eqn:Et;
    [|intros [= <- <-]; split; [done|by left]..].
  assert (FilenamePrefix c = FilenamePrefix (w_config w)) as Hp.
  { unfold trimZones in Et. apply bind_ok in Et as ([h1 zs] & _ & [= _ <-]). done. }
  cbn [w_heap w_config set_heap set_config].
  destruct (enc (document h c)) as [b|e| |m] eqn:Ee; [|intros [= <- <-]; split; [done|by left]..].
  cbn [w_fs set_heap set_config]. destruct (write_err (w_fs w) f) as [e|]; intros [= <- <-]; split; try done; [by left|].
  right. split; [done|]. exists b. split_and!; [|done..]. by exists h, c.
Qed.

Lemma ToDisk_cases enc f w w' r :
  ToDisk f (dump enc) w = (w', r) ->
  FilenamePrefix (w_config w') = FilenamePrefix (w_config w) /\
  exists ops, ran w ops w' /\
    ((is_ok r = false /\ (ops = [] \/ ops = [Create f])) \/
     (r = Ok tt /\ exists b w0, w_heap w0 = w_heap w /\ w_config w0 = w_config w /\
        encodes enc w0 b w' /\ ops = [Create f; Write f b])).
Proof.
  unfold ToDisk, refuse, do_op, modify, get, lift, mbind, prog_bind. unfold on_err at 1.
  destruct (create_err (w_fs w) f) as [e|]; cbn [map_err].
  { intros [= <- <-]. split; [done|]. exists []. split; [apply ran_refl|]. left. auto. }
  unfold on_err. destruct (dump enc f _) as [w1 r1] eqn:Ed. intros [= -> <-].
  apply dump_cases in Ed as [Hp [(Hr & Ht & Hf)|(-> & b & He & Ht & Hf)]]; (split; [exact Hp|]).
  - exists [Create f]. unfold ran. rewrite Ht, Hf. split; [done|]. left. split; [by destruct r1|by right].
  - exists [Create f; Write f b]. unfold ran. rewrite Ht, Hf. simpl. rewrite <- app_assoc. split; [done|].
    right. split; [done|]. eexists b, _. split_and!; [..|exact He|done]; done.
Qed.

Lemma move_cases f g w w' r :
  move f g w = (w', r) ->
  w_heap w' = w_heap w /\ w_config w' = w_config w /\
  exists ops, ran w ops w' /\
    ((is_ok r = false /\ ops = []) \/ (r = Ok tt /\ ops = [Rename f g])).
Proof.
  unfold move, refuse, do_op, modify, get, lift, mbind, prog_bind, on_err.
  destruct (rename_err (w_fs w) f) as [e|]; cbn [map_err]; intros [= <- <-]; split_and!; try done.
  - exists []. split; [apply ran_refl|]. by left.
  - exists [Rename f g]. split; [done|]. by right.
Qed.

(** The operations of a complete save. *)
Definition save_ops (p : string) (b1 b2 : bytes) : list fsop :=
  [Create (p +:+ ".json.tmp"); Write (p +:+ ".json.tmp") b1; Rename (p +:+ ".json.tmp") (p +:+ ".json");
   Create (p +:+ ".yaml.tmp"); Write (p +:+ ".yaml.tmp") b2; Rename (p +:+ ".yaml.tmp") (p +:+ ".yaml")].

(** The documents [Save] writes: those of the configuration [w] runs, with its
    names trimmed once for JSON and once more for YAML. *)
Definition saved_json (w : World) (b : bytes) : Prop :=
  exists h c, trimZones (w_heap w) (w_config w) = Ok (h, c) /\ json_Encode (document h c) = Ok b.
Definition saved_yaml (w : World) (b : bytes) : Prop :=
  exists h c h' c', trimZones (w_heap w) (w_config w) = Ok (h, c) /\ trimZones h c = Ok (h', c') /\
    yaml_Marshal (document h' c') = Ok b.

(** The first [n] operations of a complete save were carried out. *)
Definition partial_save (w : World) (n : nat) (w' : World) : Prop :=
  exists b1 b2, ran w (take n (save_ops (FilenamePrefix (w_config w)) b1 b2)) w' /\
    ((2 <= n)%nat -> saved_json w b1) /\ ((5 <= n)%nat -> saved_yaml w b2).

Lemma Save_cases w w' r :
  Save w = (w', r) -> exists n, partial_save w n w' /\ (is_ok r = true -> n = 6%nat).
Proof.
  intros HS. unfold Save in HS. set (p := FilenamePrefix (w_config w)) in *.
  apply prog_bind_cases in HS as [(? & ? & [= <- <-] & HS)|(r0 & [= <- <-] & [=] & _)]. fold p in HS.
  assert (forall n w1, (n <= 1)%nat -> ran w (take n (save_ops p no_bytes no_bytes)) w1 -> partial_save w n w1) as Hearly.
  { intros n w1 Hn Hr. exists no_bytes, no_bytes. split_and!; [done|lia|lia]. }
  case_bool_decide as Hb0. { injection HS as <- <-. exists 0%nat. split; [|done]. apply Hearly; [lia|apply ran_refl]. }
  case_bool_decide as Hb1. { injection HS as <- <-. exists 0%nat. split; [|done]. apply Hearly; [lia|apply ran_refl]. }
  apply prog_bind_cases in HS as [(w1 & [] & H1 & HS)|(r0 & H1 & Hr0 & Hr)];
    apply (ToDisk_cases json_Encode) in H1 as (Hp1 & ops1 & R1 & [(Hf1 & Hops)|(Hok1 & b1 & w0 & Hh0 & Hc0 & He & ->)]); try done.
  2: { rewrite Hr. destruct Hops as [->| ->]; [exists 0%nat|exists 1%nat]; (split; [|done]); apply Hearly; auto. }
  2: { by rewrite Hok1 in Hr0. }
  assert (saved_json w b1) as Hj.
  { destruct He as (h & c & Ht & He & _). exists h, c. by rewrite <- Hh0, <- Hc0. }
  apply prog_bind_cases in HS as [(w2 & [] & H2 & HS)|(r0 & H2 & Hr0 & Hr)];
    apply move_cases in H2 as (Hh2 & Hc2 & ops2 & R2 & [(Hf2 & ->)|(Hok2 & ->)]); try done; try (by rewrite Hok2 in Hr0).
  2: { exists 2%nat. rewrite Hr. split; [|done]. exists b1, no_bytes. split_and!; [|done|lia].
       exact (ran_trans _ _ _ _ _ R1 R2). }
  pose proof (ran_trans _ _ _ _ _ R1 R2) as R12.
  apply prog_bind_cases in HS as [(w3 & [] & H3 & HS)|(r0 & H3 & Hr0 & Hr)];
    apply (ToDisk_cases yaml_Marshal) in H3 as (Hp3 & ops3 & R3 & [(Hf3 & Hops)|(Hok3 & b2 & w4 & Hh4 & Hc4 & Hy & ->)]);
    try done; try (by rewrite Hok3 in Hr0).
  2: { pose proof (ran_trans _ _ _ _ _ R12 R3) as R. rewrite Hr.
       destruct Hops as [->| ->]; [exists 3%nat|exists 4%nat]; (split; [|done]); exists b1, no_bytes;
         (split_and!; [exact R|done|lia]). }
  pose proof (ran_trans _ _ _ _ _ R12 R3) as R123.
  assert (saved_yaml w b2) as Hyaml.
  { destruct He as (h & c & Ht & He & Eh & Ec), Hy as (h' & c' & Ht' & Hy & _). exists h, c, h', c'.
    rewrite Hh4, Hc4, Hh2, Hc2, Eh, Ec in Ht'. rewrite Hh0, Hc0 in Ht. done. }
  apply move_cases in HS as (_ & _ & ops4 & R4 & [(Hf4 & ->)|(_ & ->)]);
    pose proof (ran_trans _ _ _ _ _ R123 R4) as R; [exists 5%nat|exists 6%nat].
  - rewrite Hf4. split; [|done]. exists b1, b2. split_and!; [exact R|done|done].
  - split; [|done]. exists b1, b2. split_and!; [exact R|done|done].
Qed.

(** Looking a file up by its suffix. *)
Lemma suffix_ne (p s t : string) : s <> t -> p +:+ s <> p +:+ t.
Proof. intros Hn E%(f_equal chars). rewrite !chars_app in E. by apply app_inv_head, (inj chars) in E. Qed.

Ltac file_lookup :=
  repeat first [rewrite lookup_insert_eq | rewrite lookup_delete_eq
    | rewrite lookup_insert_ne by (apply suffix_ne; done) | rewrite lookup_delete_ne by (apply suffix_ne; done)].

Lemma take_save_json p b1 b2 n (m : gmap string bytes) :
  apply_ops (take n (save_ops p b1 b2)) m !! (p +:+ ".json")
  = if (n <=? 2)%nat then m !! (p +:+ ".json") else Some b1.
Proof.
  unfold apply_ops, save_ops.
  do 6 (destruct n as [|n]; [simpl; file_lookup; reflexivity|]).
  rewrite take_ge by (simpl; lia). simpl. file_lookup. reflexivity.
Qed.

Lemma take_save_yaml p b1 b2 n (m : gmap string bytes) :
  apply_ops (take n (save_ops p b1 b2)) m !! (p +:+ ".yaml")
  = if (n <=? 5)%nat then m !! (p +:+ ".yaml") else Some b2.
Proof.
  unfold apply_ops, save_ops.
  do 6 (destruct n as [|n]; [simpl; file_lookup; reflexivity|]).
  rewrite take_ge by (simpl; lia). simpl. file_lookup. reflexivity.
Qed.

Definition save_files (p : string) : list string :=
  [p +:+ ".json"; p +:+ ".json.tmp"; p +:+ ".yaml"; p +:+ ".yaml.tmp"].

Lemma take_save_other p b1 b2 n (m : gmap string bytes) f :
  f ∉ save_files p -> apply_ops (take n (save_ops p b1 b2)) m !! f = m !! f.
Proof.
  unfold save_files. rewrite !not_elem_of_cons. intros (H1 & H2 & H3 & H4 & _). unfold apply_ops, save_ops.
  do 6 (destruct n as [|n];
    [simpl; file_lookup; repeat first [rewrite lookup_insert_ne by done|rewrite lookup_delete_ne by done]; reflexivity|]).
  rewrite take_ge by (simpl; lia). simpl. file_lookup.
  repeat first [rewrite lookup_insert_ne by done|rewrite lookup_delete_ne by done]. reflexivity.
Qed.

(** C1. Saving is safe against a stop of the process: whatever fails, and if the process
    is killed or panics between any two file operations of [Save], the JSON file as
    every other process sees it is what it was before or the complete document of the
    configuration, the same for the YAML file, and no other file but the two
    temporary ones has changed; a [Save] that returns no error has replaced both.
    (What a stop of the machine may leave is [Save_unsynced].) *)
Theorem Save_crash_safe (w w' : World) (r : outcome unit) :
  Save w = (w', r) ->
  let p := FilenamePrefix (w_config w) in
  exists ops, w_trace w' = w_trace w ++ ops /\ files (w_fs w') = apply_ops ops (files (w_fs w)) /\
    (forall k, let m := apply_ops (take k ops) (files (w_fs w)) in
       (m !! (p +:+ ".json") = files (w_fs w) !! (p +:+ ".json") \/
        exists b, saved_json w b /\ m !! (p +:+ ".json") = Some b) /\
       (m !! (p +:+ ".yaml") = files (w_fs w) !! (p +:+ ".yaml") \/
        exists b, saved_yaml w b /\ m !! (p +:+ ".yaml") = Some b) /\
       (forall f, f ∉ save_files p -> m !! f = files (w_fs w) !! f)) /\
    (r = Ok tt -> exists b1 b2, saved_json w b1 /\ saved_yaml w b2 /\
       files (w_fs w') !! (p +:+ ".json") = Some b1 /\ files (w_fs w') !! (p +:+ ".yaml") = Some b2).
Proof.
  intros HS p. destruct (Save_cases w w' r HS) as (n & (b1 & b2 & [Ht Hf] & Hj & Hy) & Hn). fold p in Ht, Hf.
  eexists. split; [exact Ht|]. split; [by rewrite Hf|]. split.
  - intros k m. subst m. rewrite take_take, take_save_json, take_save_yaml. split_and!.
    + destruct (Nat.leb_spec (k `min` n) 2); [by left|]. right. exists b1. split; [apply Hj; lia|done].
    + destruct (Nat.leb_spec (k `min` n) 5); [by left|]. right. exists b2. split; [apply Hy; lia|done].
    + intros f Hnf. by apply take_save_other.
  - intros ->. rewrite (Hn eq_refl) in *. exists b1, b2.
    split_and!; [apply Hj; lia|apply Hy; lia|..]; rewrite Hf; cbn [files put_files].
    + by rewrite take_save_json.
    + by rewrite take_save_yaml.
Qed.
(** The operations of a complete save of which the machine has lost the data. *)
Lemma save_ops_loss p b1 b2 :
  power_loss (save_ops p b1 b2)
    [Create (p +:+ ".json.tmp"); Rename (p +:+ ".json.tmp") (p +:+ ".json");
     Create (p +:+ ".yaml.tmp"); Rename (p +:+ ".yaml.tmp") (p +:+ ".yaml")].
Proof.
  unfold save_ops. apply loss_keep, loss_data; [set_solver|]. apply loss_keep, loss_keep, loss_data; [set_solver|].
  apply loss_keep, loss_none.
Qed.

(** C28. What a stop of the machine may leave: [ToDisk] does not sync the file it has
    written before [Save] renames it, so that after a [Save] that has returned no
    error a loss of power can leave both the JSON and the YAML file empty, with the
    documents they held before gone. *)
Theorem Save_unsynced (w w' : World) :
  Save w = (w', Ok tt) ->
  let p := FilenamePrefix (w_config w) in
  exists ops ops', w_trace w' = w_trace w ++ ops /\ power_loss ops ops' /\
    apply_ops ops' (files (w_fs w)) !! (p +:+ ".json") = Some no_bytes /\
    apply_ops ops' (files (w_fs w)) !! (p +:+ ".yaml") = Some no_bytes.
Proof.
  intros HS p. destruct (Save_cases _ _ _ HS) as (n & (b1 & b2 & [Ht _] & _) & Hn). rewrite (Hn eq_refl) in Ht.
  eexists _, _. split; [exact Ht|]. split; [apply save_ops_loss|]. unfold apply_ops. simpl. file_lookup.
  simpl. file_lookup. done.
Qed.
End safety.

(** A codec that writes documents as they are, for examples. *)
#[local] Instance plain_codec : Codec :=
  {| bytes := Document;
     no_bytes := {| d_ShutdownWait := 0; d_AuthKey := None; d_Listen := {| listen_DNS := ""; listen_Control := "" |};
                    d_Peers := []; d_Zones := ∅ |};
     json_Encode d := Ok d; json_Decode d := Ok d; yaml_Marshal d := Ok d; yaml_Unmarshal d := Ok d |}.

#[local] Instance plain_chain : HashChain :=
  {| Chain := unit; chain_New := tt; chain_Add c _ := Ok c; AllSums _ := []; Sum _ := Ok "" |}.

Definition plain_fs : FS :=
  {| files := ∅; dirs := {["/etc/border"]}; create_err _ := None; write_err _ := None;
     rename_err _ := None; open_err _ := None |}.

Definition plain_world : World :=
  mkWorld _ _ example_heap {[1%positive := false]} plain_fs []
    (mkConfig "/etc/border/config" None 0 None {| listen_DNS := ":53"; listen_Control := ":5309" |}
       (Peers two_peers) example_zones tt 1%positive).

Lemma Save_crash_safe_witness :
  exists b, files (w_fs (Save (MR := canonical_range) plain_world).1) !! "/etc/border/config.json" = Some b.
Proof.
  destruct (Save (MR := canonical_range) plain_world) as [w' r] eqn:E.
  destruct (@Save_crash_safe _ _ canonical_range plain_world w' r E) as (ops & _ & _ & _ & Hok).
  assert (r = Ok tt) as Hr by (vm_compute in E; injection E as _ <-; reflexivity).
  destruct (Hok Hr) as (b1 & b2 & _ & _ & H & _). exists b1. exact H.
Defined.

Lemma Save_unsynced_witness :
  exists ops', apply_ops ops' (files (w_fs plain_world)) !! "/etc/border/config.json" = Some no_bytes.
Proof.
  destruct (Save (MR := canonical_range) plain_world) as [w' r] eqn:E.
  assert (r = Ok tt) as -> by (vm_compute in E; injection E as _ <-; reflexivity).
  destruct (@Save_unsynced _ _ canonical_range plain_world w' E) as (ops & ops' & _ & _ & H & _). exists ops'. exact H.
Defined.
