(* ===== verification/DiskLoad.v ===== *)
(** * Configuration on disk: loading, and saving followed by loading

    The invariant of every configuration [FromDisk] returns, and the round trip
    [Save]; [Reload]. *)

From S2P Require Import Prelude GoNet GoTime HealthCheck DnsConfig Literal Config ConfigZones Prog Disk DiskSafety.

Local Open Scope Z_scope.

(** ** Loops over zones *)

Lemma convert_record_typed soa r r' : convert_record soa r = Ok r' -> typed_record r'.
Proof.
  unfold convert_record, typed_record. case_bool_decide; [|case_bool_decide; [|done]]; (destruct soa; [|done]);
    intros (v & _ & [= <-])%bind_ok; done.
Qed.

Lemma convert_zone_typed z z' : convert_zone z = Ok z' -> typed_zone z'.
Proof.
  unfold convert_zone, typed_zone. destruct (z_NS z) as [ns|]; [|done].
  intros (ns' & _ & (recs & Hr & [= <-])%bind_ok)%bind_ok. simpl. apply Forall_forall. intros r Hin.
  apply (collect_elem_of _ _ _ r Hr) in Hin as (r0 & rs & _ & H0 & Hin).
  apply bind_ok in H0 as (r1 & H1 & [= <-]). apply list_elem_of_singleton in Hin as ->.
  by eapply convert_record_typed.
Qed.

Lemma addDot_absolute n : absolute (addDot n).
Proof. unfold absolute, addDot. destruct (HasSuffix n ".") eqn:E; [done|apply HasSuffix_app]. Qed.

Lemma rename_zone_typed f z z' : rename_zone f z = Ok z' -> typed_zone z -> typed_zone z'.
Proof.
  unfold rename_zone, typed_zone. destruct (z_SOA z), (z_NS z); try done. intros [= <-] H. simpl.
  apply Forall_fmap. eapply Forall_impl; [exact H|]. done.
Qed.

Lemma rename_zone_inv_full f z z' : rename_zone f z = Ok z' -> full_zone z /\ full_zone z'.
Proof.
  unfold rename_zone, full_zone. destruct (z_SOA z), (z_NS z); try done. intros [= <-]. simpl. eauto 10.
Qed.

Lemma decorate_served z z' : rename_zone addDot z = Ok z' -> typed_zone z -> served_zone z'.
Proof.
  intros Hr Ht. destruct (rename_zone_inv_full _ _ _ Hr) as [Hf Hf']. split_and!; [done|by eapply rename_zone_typed|].
  destruct (rename_zone_full addDot z Hf) as (z1 & Hr1 & _ & Hn). rewrite Hr in Hr1. injection Hr1 as <-.
  rewrite Hn, Forall_fmap. apply Forall_true. intros n. apply addDot_absolute.
Qed.

(** A location whose zone satisfies [P]. *)
Definition at_loc (P : Zone -> Prop) (h : Heap) (l : loc) : Prop := exists z, h !! l = Some z /\ P z.

Lemma update_zone_at (P : Zone -> Prop) f l l0 h h' :
  update_zone f l h = Ok h' -> (forall z z', f z = Ok z' -> P z -> P z') -> at_loc P h l0 -> at_loc P h' l0.
Proof.
  unfold update_zone. destruct (h !! l) as [z|] eqn:El; [|done]. intros (z' & Hz & [= <-])%bind_ok HP (z0 & H0 & HP0).
  destruct (decide (l = l0)) as [->|Hne].
  - exists z'. rewrite lookup_insert_eq. split; [done|]. eapply HP; [done|]. congruence.
  - exists z0. by rewrite lookup_insert_ne.
Qed.

Lemma update_zone_new (P Q : Zone -> Prop) f l h h' :
  update_zone f l h = Ok h' -> at_loc P h l -> (forall z z', f z = Ok z' -> P z -> Q z') -> at_loc Q h' l.
Proof.
  unfold update_zone. destruct (h !! l) as [z|] eqn:El; [|done]. intros (z' & Hz & [= <-])%bind_ok (z0 & H0 & HP0) HPQ.
  exists z'. rewrite lookup_insert_eq. split; [done|]. eapply HPQ; [done|]. congruence.
Qed.

Lemma update_zone_some f l h h' : update_zone f l h = Ok h' -> at_loc (fun _ => True) h l.
Proof. unfold update_zone. destruct (h !! l) as [z|] eqn:El; [|done]. intros _. by exists z. Qed.

Section load.
Context `{HC : HashChain} `{MR : MapRange}.

Lemma convertLiterals_typed h (c : Config Chain) h' :
  convertLiterals h c = Ok h' -> forall k l, Zones c !! k = Some l -> at_loc typed_zone h' l.
Proof.
  unfold convertLiterals. intros Hc k l Hkl%elem_of_range.
  revert h h' Hc Hkl. generalize (range (Zones c)) as kls.
  induction kls as [|[k0 l0] kls IH]; intros h h' Hc Hin; [by apply elem_of_nil in Hin|]. cbn [for_each] in Hc.
  apply bind_ok in Hc as (h1 & H1 & Hc). apply elem_of_cons in Hin as [[= -> ->]|Hin]; [|by eapply IH].
  assert (at_loc typed_zone h1 l0) as H0.
  { eapply update_zone_new; [done|by eapply update_zone_some|]. intros z z' Hz _. by eapply convert_zone_typed. }
  clear IH H1. revert h1 Hc H0. induction kls as [|[k1 l1] kls IH2]; intros h1 Hc H0; cbn [for_each] in Hc.
  - by injection Hc as ->.
  - apply bind_ok in Hc as (h2 & H2 & Hc). eapply IH2; [done|].
    eapply update_zone_at; [done| |done]. intros. by eapply convert_zone_typed.
Qed.

(** Every zone in the map that [decorateZones] builds is decorated. *)
Lemma decorate_loop kls : forall (h : Heap) (acc : ZoneMap) h' zs',
  for_each (fun '(key, l) '(h, newZones) =>
      h' ← update_zone (rename_zone addDot) l h; Ok (h', <[addDot key := l]> newZones)) kls (h, acc) = Ok (h', zs') ->
  (forall k l, (k, l) ∈ kls -> at_loc typed_zone h l) ->
  (forall k l, acc !! k = Some l -> absolute k /\ at_loc served_zone h l) ->
  forall k l, zs' !! k = Some l -> absolute k /\ at_loc served_zone h' l.
Proof.
  induction kls as [|[k0 l0] kls IH]; intros h acc h' zs' Hr Ht Ha; cbn [for_each] in Hr.
  { injection Hr as -> ->. done. }
  apply bind_ok in Hr as ([h1 acc1] & H1 & Hr). apply bind_ok in H1 as (h2 & H1 & [= -> <-]).
  assert (forall z z', rename_zone addDot z = Ok z' -> served_zone z -> served_zone z') as Hsv.
  { intros z z' Hz Hs. eapply decorate_served; [done|apply Hs]. }
  eapply IH; [exact Hr|..].
  - intros k l Hin. eapply update_zone_at; [exact H1|intros; by eapply rename_zone_typed|]. eapply Ht. by right.
  - intros k l. rewrite lookup_insert_Some. intros [[<- <-]|[_ Hk]].
    + split; [apply addDot_absolute|]. eapply update_zone_new; [exact H1|eapply Ht; left|apply decorate_served].
    + destruct (Ha _ _ Hk). split; [done|]. eapply update_zone_at; [exact H1|exact Hsv|done].
Qed.

Lemma decorateZones_served h (c : Config Chain) h' c' :
  decorateZones h c = Ok (h', c') -> (forall k l, Zones c !! k = Some l -> at_loc typed_zone h l) ->
  c' = SetZones c (Zones c') /\ forall k l, Zones c' !! k = Some l -> absolute k /\ at_loc served_zone h' l.
Proof.
  unfold decorateZones. intros ([h1 zs] & Hr & [= <- <-])%bind_ok Ht. split; [done|]. cbn [Zones SetZones].
  eapply decorate_loop; [exact Hr| |by intros ??; rewrite lookup_empty].
  intros k l ?%elem_of_range. eauto.
Qed.

Lemma FromDisk_inv (c c' : Config Chain) (filename : string)
    (loader : bytes -> prog World (Config Chain)) (w w' : World) :
  FromDisk c filename loader w = (w', Ok c') ->
  Peers c' <> [] /\ chain c' = chain c /\ reload c' = reload c /\
  FilenamePrefix c' = TrimSuffix filename (Ext filename) /\
  forall k l, Zones c' !! k = Some l ->
    HasSuffix k "." = true /\ exists z, w_heap w' !! l = Some z /\ served_zone z.
Proof.
  unfold FromDisk. intros (w1 & ? & [= <- <-] & Hrun)%prog_bind_ok. apply prog_bind_ok in Hrun as (w2 & data & _ & Hrun).
  apply prog_bind_ok in Hrun as (w3 & nc & _ & Hrun). apply prog_bind_ok in Hrun as (w4 & r & _ & Hrun).
  unfold postLoad in Hrun. cbn [Peers] in Hrun. case_bool_decide as Hp; [done|].
  apply prog_bind_ok in Hrun as (w5 & ? & [= <- <-] & Hrun). apply prog_bind_ok in Hrun as (w6 & h & Hh & Hrun).
  injection Hh as <- Hh. apply prog_bind_ok in Hrun as (w7 & [] & [= <-] & Hrun).
  apply prog_bind_ok in Hrun as (w8 & [h' c1] & Hd & Hrun). injection Hd as <- Hd.
  apply prog_bind_ok in Hrun as (w9 & [] & [= <-] & Hrun). injection Hrun as <- <-.
  pose proof (convertLiterals_typed _ _ _ Hh) as Ht.
  destruct (decorateZones_served _ _ _ _ Hd Ht) as [-> Hz]. split_and!; [exact Hp|done..|].
  intros k l Hkl. exact (Hz k l Hkl).
Qed.

(** The invariant of loading: whatever the document, a configuration that
    [FromDisk] returns has at least one peer, keeps the hash chain and the reload
    channel of the configuration it is loaded for and takes its file prefix from
    the file name; every zone has its SOA and NS, every record has a value of its
    own type, and every name is fully qualified. *)
Theorem FromDisk_invariant (c c' : Config Chain) (filename : string)
    (loader : bytes -> prog World (Config Chain)) (w w' : World) :
  FromDisk c filename loader w = (w', Ok c') ->
  Peers c' <> [] /\ chain c' = chain c /\ reload c' = reload c /\
  FilenamePrefix c' = TrimSuffix filename (Ext filename) /\
  forall k l, Zones c' !! k = Some l ->
    HasSuffix k "." = true /\ exists z, w_heap w' !! l = Some z /\ served_zone z.
Proof. apply FromDisk_inv. Qed.
End load.

(** ** Saving, then loading *)

Lemma alloc_loop kzs : forall (h : Heap),
  NoDup kzs.*1 ->
  let '(h', zs) := alloc_list kzs h in
  (forall l, is_Some (h !! l) -> h' !! l = h !! l) /\
  (forall k l, zs !! k = Some l -> h !! l = None /\ exists z, (k, z) ∈ kzs /\ h' !! l = Some z) /\
  (forall k z, (k, z) ∈ kzs -> exists l, zs !! k = Some l /\ h' !! l = Some z) /\
  (forall k1 k2 l, zs !! k1 = Some l -> zs !! k2 = Some l -> k1 = k2).
Proof.
  induction kzs as [|[k z] kzs IH]; intros h Hnd; cbn [alloc_list].
  { split_and!; [done|by intros ??; rewrite lookup_empty|set_solver|by intros ???; rewrite lookup_empty]. }
  rewrite fmap_cons in Hnd. apply NoDup_cons in Hnd as [Hk Hnd]. specialize (IH h Hnd).
  destruct (alloc_list kzs h) as [h1 zs1]. destruct IH as (I1 & I2 & I3 & I4).
  set (l0 := fresh (dom h1)). assert (h1 !! l0 = None) as Hl0 by (apply not_elem_of_dom, is_fresh).
  assert (forall k' l, zs1 !! k' = Some l -> l <> l0) as Hne.
  { intros k' l (_ & z' & _ & Hz')%I2 ->. congruence. }
  assert (h !! l0 = None) as Hhl0.
  { destruct (h !! l0) as [z0|] eqn:E; [|done]. rewrite <- (I1 l0) in E by eauto. congruence. }
  split_and!.
  - intros l Hl. rewrite lookup_insert_ne; [auto|]. intros <-. rewrite Hhl0 in Hl. by destruct Hl.
  - intros k' l [[<- <-]|[Hne' Hk']]%lookup_insert_Some.
    + split; [done|]. exists z. rewrite lookup_insert_eq. split; [by left|done].
    + destruct (I2 _ _ Hk') as (Hl & z' & Hin & Hz'). split; [done|]. exists z'.
      rewrite lookup_insert_ne by (symmetry; eauto). split; [by right|done].
  - intros k' z' [[= -> ->]|Hin]%elem_of_cons.
    + exists l0. by rewrite !lookup_insert_eq.
    + destruct (I3 _ _ Hin) as (l & Hl & Hz'). exists l. rewrite !lookup_insert_ne; [done|symmetry; eauto|].
      intros ->. apply Hk. by apply (list_elem_of_fmap_2 fst _ (k', z')).
  - intros k1 k2 l [[<- <-]|[Hn1 H1]]%lookup_insert_Some [[<- E]|[Hn2 H2]]%lookup_insert_Some; try done; eauto.
    + by destruct (Hne _ _ H2).
    + subst. by destruct (Hne _ _ H1).
Qed.

Lemma alloc_zones_spec zones h h' zs :
  alloc_zones zones h = (h', zs) ->
  view h' zs = zones /\ (forall k1 k2 l, zs !! k1 = Some l -> zs !! k2 = Some l -> k1 = k2).
Proof.
  intros E. pose proof (alloc_loop (map_to_list zones) h (NoDup_fst_map_to_list zones)) as Hl.
  unfold alloc_zones in E. rewrite E in Hl. destruct Hl as (_ & I2 & I3 & I4). split; [|done].
  apply map_eq. intros k. apply option_eq. intros z. rewrite lookup_view. split.
  - intros (l & Hk & Hl). destruct (I2 _ _ Hk) as (_ & z' & Hin%elem_of_map_to_list & Hz'). congruence.
  - intros Hz%elem_of_map_to_list. destruct (I3 _ _ Hz) as (l & ? & ?). eauto.
Qed.

Section convert.
Context {Ch : Type} `{MR : MapRange}.

Lemma convert_loop (kls : list (string * loc)) : forall h,
  NoDup kls.*2 ->
  (forall k l, (k, l) ∈ kls -> exists z z', h !! l = Some z /\ convert_zone z = Ok z') ->
  exists h', for_each (fun '(_, l) h => update_zone convert_zone l h) kls h = Ok h' /\
    (forall k l z, (k, l) ∈ kls -> h !! l = Some z -> exists z', convert_zone z = Ok z' /\ h' !! l = Some z') /\
    (forall l, l ∉ kls.*2 -> h' !! l = h !! l).
Proof.
  induction kls as [|[k l] kls IH]; intros h Hl Hz.
  { exists h. split_and!; [done|set_solver|done]. }
  rewrite fmap_cons in Hl. cbn [snd] in *. apply NoDup_cons in Hl as [Hl Hls].
  destruct (Hz k l) as (z & z' & Hhl & Hz'); [left|].
  cbn [for_each]. rewrite (update_zone_full _ _ _ _ Hhl), Hz'. cbn [mbind outcome_bind].
  destruct (IH (<[l:=z']> h) Hls) as (h' & -> & H1 & H2).
  { intros k0 l0 Hin. rewrite lookup_insert_ne; [apply (Hz k0); by right|]. intros ->.
    apply Hl. by apply (list_elem_of_fmap_2 snd _ (k0, l0)). }
  exists h'. split_and!; [done|..].
  - intros k0 l0 z0 [[= -> ->]|Hin]%elem_of_cons Hh0.
    + exists z'. rewrite H2, lookup_insert_eq by done. split; [congruence|done].
    + apply (H1 k0); [done|]. rewrite lookup_insert_ne; [done|]. intros ->.
      apply Hl. by apply (list_elem_of_fmap_2 snd _ (k0, l0)).
  - intros l0 Hn. rewrite fmap_cons, not_elem_of_cons in Hn. destruct Hn as [Hne Hn].
    rewrite H2 by done. by rewrite lookup_insert_ne.
Qed.

(** [convertLiterals] converts each zone once. *)
Lemma convertLiterals_spec h (c : Config Ch) v :
  (forall k1 k2 l, Zones c !! k1 = Some l -> Zones c !! k2 = Some l -> k1 = k2) ->
  (forall k l, Zones c !! k = Some l -> is_Some (h !! l)) ->
  (forall k z, view h (Zones c) !! k = Some z -> exists z', v !! k = Some z' /\ convert_zone z = Ok z') ->
  (forall k, is_Some (v !! k) -> is_Some (view h (Zones c) !! k)) ->
  exists h', convertLiterals h c = Ok h' /\ view h' (Zones c) = v /\
    (forall k l, Zones c !! k = Some l -> is_Some (h' !! l)).
Proof.
  intros Hinj Hdom Hconv Hv. unfold convertLiterals.
  destruct (convert_loop (range (Zones c)) h) as (h' & -> & H1 & H2).
  - apply NoDup_fmap_2_strong; [|eapply NoDup_fmap_1, range_keys_NoDup].
    intros [k1 l1] [k2 l2] E1%elem_of_range E2%elem_of_range. simpl. intros ->. by rewrite (Hinj _ _ _ E1 E2).
  - intros k l Hk%elem_of_range. destruct (Hdom _ _ Hk) as [z Hl].
    destruct (Hconv k z) as (z' & _ & ?); [apply lookup_view; eauto|]. eauto.
  - assert (forall k l, Zones c !! k = Some l -> exists z', h' !! l = Some z' /\ v !! k = Some z') as H3.
    { intros k l Hk. destruct (Hdom _ _ Hk) as [z Hl].
      destruct (H1 k l z) as (z' & Hz' & Hl'); [by apply elem_of_range|done|].
      destruct (Hconv k z) as (z1 & Hv1 & Hz1); [apply lookup_view; eauto|]. exists z'. split; congruence. }
    exists h'. split_and!; [done| |by intros k l Hk; destruct (H3 _ _ Hk) as (? & ? & _); eauto].
    apply map_eq. intros k. apply option_eq. intros z. rewrite lookup_view. split.
    + intros (l & Hk & Hl). destruct (H3 _ _ Hk) as (z' & ? & ?). congruence.
    + intros Hz. destruct (Hv k) as [z0 (l & Hk & Hl)%lookup_view]; [eauto|].
      destruct (H3 _ _ Hk) as (z' & ? & ?). exists l. split; [done|congruence].
Qed.
End convert.

(** Nothing refuses a file operation. *)
Definition fs_ready `{Codec} (fs : FS) : Prop :=
  forall f, create_err fs f = None /\ write_err fs f = None /\ rename_err fs f = None /\ open_err fs f = None.

Section save_reload.
Context `{HC : HashChain} `{MR : MapRange}.

Lemma ToDisk_run enc f w h c b :
  fs_ready (w_fs w) -> trimZones (w_heap w) (w_config w) = Ok (h, c) -> enc (document h c) = Ok b ->
  ToDisk f (dump enc) w
  = (mkWorld _ _ h (w_chans w) (put_files (w_fs w) (<[f := b]> (<[f := no_bytes]> (files (w_fs w)))))
       ((w_trace w ++ [Create f]) ++ [Write f b]) c, Ok tt).
Proof.
  intros Hfs Ht He. destruct (Hfs f) as (Hc & Hw & _).
  unfold ToDisk, dump, trim_config, write_file, refuse, do_op, modify, get, lift, on_err, mbind, prog_bind.
  rewrite Hc. cbn [map_err w_heap w_config w_fs w_trace w_chans]. rewrite Ht.
  cbn [w_heap w_config set_heap set_config]. rewrite He. cbn [w_fs set_heap set_config write_err put_files].
  by rewrite Hw.
Qed.

Lemma move_run f g w :
  fs_ready (w_fs w) ->
  move f g w = (mkWorld _ _ (w_heap w) (w_chans w) (put_files (w_fs w) (apply_op (Rename f g) (files (w_fs w))))
                  (w_trace w ++ [Rename f g]) (w_config w), Ok tt).
Proof.
  intros Hfs. destruct (Hfs f) as (_ & _ & Hr & _).
  unfold move, refuse, do_op, modify, get, lift, on_err, mbind, prog_bind. by rewrite Hr.
Qed.

(** A save that nothing refuses. *)
Lemma Save_run w h1 c1 b1 h2 c2 b2 :
  let p := FilenamePrefix (w_config w) in
  p <> "" -> p ∉ dirs (w_fs w) -> files (w_fs w) !! p = None -> fs_ready (w_fs w) ->
  trimZones (w_heap w) (w_config w) = Ok (h1, c1) -> json_Encode (document h1 c1) = Ok b1 ->
  trimZones h1 c1 = Ok (h2, c2) -> yaml_Marshal (document h2 c2) = Ok b2 ->
  exists w1, Save w = (w1, Ok tt) /\ w_heap w1 = h2 /\ w_config w1 = c2 /\ w_chans w1 = w_chans w /\
    fs_ready (w_fs w1) /\ files (w_fs w1) !! (p +:+ ".json") = Some b1.
Proof.
  intros p Hp Hd Hf Hfs Ht1 He1 Ht2 He2.
  assert (exists w1, Save w = (w1, Ok tt) /\ w_heap w1 = h2 /\ w_config w1 = c2 /\ w_chans w1 = w_chans w /\
    fs_ready (w_fs w1)) as (w1 & HS & H1 & H2 & H3 & H4).
  { unfold Save. erewrite prog_bind_run; [|reflexivity]. fold p.
    rewrite bool_decide_eq_false_2 by done.
    rewrite bool_decide_eq_false_2 by (intros [?|[? E]]; [done|congruence]).
    erewrite prog_bind_run; [|by apply (ToDisk_run json_Encode)].
    erewrite prog_bind_run; [|by apply move_run].
    erewrite prog_bind_run; [|by apply (ToDisk_run yaml_Marshal)].
    rewrite move_run by done. by eexists. }
  exists w1. split_and!; [done..|].
  destruct (Save_cases _ _ _ HS) as (n & (b1' & b2' & [_ Hf'] & Hj & _) & Hn). rewrite (Hn eq_refl) in *.
  rewrite Hf'. cbn [files put_files]. fold p. rewrite take_save_json. cbn [Nat.leb].
  destruct Hj as (h & c & Ht & He); [lia|]. congruence.
Qed.

(** A loader that decodes [b] to the document [d], allocating its zones. *)
Definition loads (loader : bytes -> prog World (Config Chain)) (b : bytes) (d : Document) : Prop :=
  forall w h zs, alloc_zones (d_Zones d) (w_heap w) = (h, zs) ->
  let r := fresh (dom (w_chans w)) in
  exists ch, loader b w = (set_heap h (set_chans (<[r := false]> (w_chans w)) w),
                           Ok (SetChain (decoded (New chain_New r) d zs) ch)).

Lemma LoadJSON_loads b d ch : json_Decode b = Ok d -> chain_Add chain_New b = Ok ch -> loads LoadJSON b d.
Proof.
  intros Hd Hch w h zs Ea r. exists ch. unfold LoadJSON.
  erewrite (prog_bind_run make_chan _ w _ r) by reflexivity.
  erewrite prog_bind_run; [|unfold lift; by rewrite Hd].
  erewrite prog_bind_run; [|unfold decode_into; cbn [w_heap set_chans]; rewrite Ea; reflexivity].
  erewrite prog_bind_run; [|unfold lift; rewrite Hch; reflexivity]. reflexivity.
Qed.

Lemma LoadYAML_loads b d : yaml_Unmarshal b = Ok d -> loads LoadYAML b d.
Proof.
  intros Hd w h zs Ea r. exists chain_New. unfold LoadYAML.
  erewrite (prog_bind_run make_chan _ w _ r) by reflexivity.
  erewrite prog_bind_run; [|unfold lift; by rewrite Hd].
  unfold decode_into. cbn [w_heap set_chans]. by rewrite Ea.
Qed.

(** A load that nothing refuses: the zones are those of the document, converted
    to [v] and decorated. *)
Lemma FromDisk_run loader (c : Config Chain) filename w b d v :
  open_err (w_fs w) filename = None -> files (w_fs w) !! filename = Some b -> loads loader b d -> d_Peers d <> [] ->
  (forall k z, d_Zones d !! k = Some z -> exists z', v !! k = Some z' /\ convert_zone z = Ok z') ->
  (forall k, is_Some (v !! k) -> is_Some (d_Zones d !! k)) ->
  (forall k z, v !! k = Some z -> full_zone z) -> view_all bare v ->
  exists w' zs, FromDisk c filename loader w
    = (w', Ok (mkConfig (TrimSuffix filename (Ext filename)) None (d_ShutdownWait d) (d_AuthKey d) (d_Listen d)
                 (d_Peers d) zs (chain c) (reload c))) /\
    w_config w' = w_config w /\ w_fs w' = w_fs w /\ zones_ok (w_heap w') zs /\
    view_renamed addDot v (view (w_heap w') zs) /\
    (forall r x, w_chans w !! r = Some x -> w_chans w' !! r = Some x).
Proof.
  intros Ho Hf Hload Hp Hconv Hdom Hfull Hbare. unfold FromDisk.
  erewrite prog_bind_run; [|reflexivity].
  erewrite (prog_bind_run _ _ w w b).
  2: { unfold on_err, refuse, lift, mbind, prog_bind. by rewrite Ho, Hf. }
  set (r1 := fresh (dom (w_chans w))). set (w1 := set_chans (<[r1 := false]> (w_chans w)) w).
  destruct (alloc_zones (d_Zones d) (w_heap w)) as [h zs] eqn:Ea.
  destruct (alloc_zones_spec _ _ _ _ Ea) as [Hview Hinj].
  destruct (Hload w h zs Ea) as [ch Hch].
  erewrite (prog_bind_run _ _ w (set_heap h w1) (SetChain (decoded (New chain_New r1) d zs) ch)).
  2: { unfold on_err. by rewrite Hch. }
  set (w2 := set_heap h w1). set (r2 := fresh (dom (w_chans w2))).
  erewrite (prog_bind_run make_chan _ w2 (set_chans (<[r2 := false]> (w_chans w2)) w2) r2) by reflexivity.
  unfold postLoad. cbn [Peers CopyFrom SetChain decoded]. rewrite bool_decide_eq_false_2 by done.
  erewrite prog_bind_run; [|reflexivity].
  set (c1 := mkConfig _ _ _ _ _ _ _ _ _). assert (Zones c1 = zs) as Hzs by done.
  destruct (convertLiterals_spec h c1 v) as (h1 & Hc1 & Hv1 & Hs1).
  { by rewrite Hzs. }
  { rewrite Hzs. intros k l Hk. unfold alloc_zones in Ea.
    pose proof (alloc_loop (map_to_list (d_Zones d)) (w_heap w) (NoDup_fst_map_to_list _)) as Hl.
    rewrite Ea in Hl. destruct Hl as (_ & I2 & _). destruct (I2 _ _ Hk) as (_ & z & _ & ->). eauto. }
  { by rewrite Hzs, Hview. }
  { by rewrite Hzs, Hview. }
  erewrite prog_bind_run; [|unfold lift; cbn [w_heap set_chans]; change (w_heap w2) with h; rewrite Hc1; reflexivity].
  erewrite prog_bind_run; [|reflexivity].
  assert (zones_ok h1 (Zones c1)) as Hok.
  { split; [by rewrite Hzs|]. intros k l Hk. destruct (Hs1 _ _ Hk) as [z Hz]. exists z. split; [done|].
    apply (Hfull k). rewrite <- Hv1. apply lookup_view. eauto. }
  destruct (decorateZones_spec bare h1 c1 Hok bare_inj) as (h2 & zs2 & Hd2 & Hr2).
  { apply names_all_view; [done|]. by rewrite Hv1. }
  erewrite prog_bind_run; [|unfold lift; rewrite Hd2; reflexivity]. cbv beta iota.
  erewrite prog_bind_run; [|reflexivity].
  eexists _, zs2. split_and!; [reflexivity|reflexivity|reflexivity|by eapply renamed_ok|..].
  - cbn [w_heap set_heap]. rewrite <- Hv1. by apply renamed_view.
  - intros r x Hr. cbn [w_chans set_heap set_chans w2].
    assert (forall (m : gmap loc bool), m !! r = Some x -> <[fresh (dom m) := false]> m !! r = Some x) as Hfr.
    { intros m Hm. rewrite lookup_insert_ne; [done|]. intros E. pose proof (is_fresh (dom m)) as Hfr.
      rewrite E in Hfr. by apply Hfr, elem_of_dom. }
    apply Hfr. by apply Hfr.
Qed.

(** The values of a zone are those its literals describe: no health check has
    changed them since they were loaded. *)
Definition fresh_values (z : Zone) : Prop := convert_zone (forget_values z) = Ok z.

Definition forget_record (r : Record_) : Record_ :=
  {| rec_Type := rec_Type r; rec_Name := rec_Name r; rec_LiteralValue := rec_LiteralValue r; rec_Value := None |}.
Definition rename_record (f : string -> string) (r : Record_) : Record_ :=
  {| rec_Type := rec_Type r; rec_Name := f (rec_Name r); rec_LiteralValue := rec_LiteralValue r;
     rec_Value := rec_Value r |}.

Lemma convert_record_rename f soa soa' r r' :
  soa_MinTTL soa' = soa_MinTTL soa -> convert_record (Some soa) (forget_record r) = Ok r' ->
  convert_record (Some soa') (forget_record (rename_record f r)) = Ok (rename_record f r').
Proof.
  intros Hm. unfold convert_record, forget_record, rename_record. cbn [rec_Type rec_Name rec_LiteralValue rec_Value]. rewrite Hm.
  case_bool_decide; [|case_bool_decide; [|done]]; intros (v & Hv & [= <-])%bind_ok.
  - destruct (parse_A _ _); try done. by injection Hv as ->.
  - destruct (parse_LB _ _); try done. by injection Hv as ->.
Qed.

(** Reading a zone's literals commutes with changing its names. *)
Lemma convert_rename f z z1 u :
  rename_zone f z = Ok z1 -> convert_zone (forget_values z) = Ok u ->
  exists u1, rename_zone f u = Ok u1 /\ convert_zone (forget_values z1) = Ok u1.
Proof.
  destruct z as [[soa|] [ns|] recs]; try done. intros [= <-]. unfold convert_zone.
  cbn [forget_values z_NS z_SOA z_Records ns_TTL]. intros (ns' & Hns & (recs' & Hrecs & [= <-])%bind_ok)%bind_ok.
  eexists. split; [reflexivity|].
  assert ((if bool_decide (ns_TTL ns = 0) then Ok {| ns_Servers := f <$> ns_Servers ns; ns_TTL := soa_MinTTL soa |}
           else Ok {| ns_Servers := f <$> ns_Servers ns; ns_TTL := ns_TTL ns |})
          = Ok {| ns_Servers := f <$> ns_Servers ns'; ns_TTL := ns_TTL ns' |}) as Hns'.
  { case_bool_decide as Ht; by injection Hns as <-. }
  cbn [soa_MinTTL ns_Servers]. rewrite Hns'. cbn [mbind outcome_bind].
  set (soa' := Build_SOA _ _ _ _ _ _ _).
  assert (forall l l', collect (fun r => r' ← convert_record (Some soa) r; Ok [r']) (forget_record <$> l) = Ok l' ->
    collect (fun r => r' ← convert_record (Some soa') r; Ok [r']) (forget_record <$> (rename_record f <$> l))
    = Ok (rename_record f <$> l')) as Hc.
  { induction l as [|r l IH]; intros l' Hl; [by injection Hl as <-|].
    rewrite !fmap_cons in *. cbn [collect] in *.
    apply bind_ok in Hl as (ys & (r' & Hr & [= <-])%bind_ok & (zs & Hzs & [= <-])%bind_ok).
    rewrite (convert_record_rename f soa soa' r r') by done. cbn [mbind outcome_bind]. by rewrite (IH _ Hzs). }
  match goal with |- context [collect ?g ?l] =>
    replace (collect g l) with (Ok (rename_record f <$> recs')) by (symmetry; exact (Hc _ _ Hrecs)) end.
  reflexivity.
Qed.

Lemma fresh_values_rename f z z1 : rename_zone f z = Ok z1 -> fresh_values z -> fresh_values z1.
Proof. intros Hr Hf. destruct (convert_rename _ _ _ _ Hr Hf) as (u1 & Hu & Hc). unfold fresh_values. congruence. Qed.

(** The zones [u] are the zones [v] with the values their literals describe. *)
Definition parses (v u : gmap string Zone) : Prop :=
  (forall k z, v !! k = Some z -> exists z', u !! k = Some z' /\ convert_zone (forget_values z) = Ok z') /\
  (forall k, is_Some (u !! k) -> is_Some (v !! k)).

Lemma convert_zone_full z u : convert_zone (forget_values z) = Ok u -> full_zone z -> full_zone u /\ zone_names u = zone_names z.
Proof.
  unfold convert_zone, full_zone. destruct z as [[soa|] [ns|] recs]; intros Hc [[? Hs] [? Hn]]; try done.
  cbn [forget_values z_NS z_SOA z_Records] in Hc. apply bind_ok in Hc as (ns' & Hns & (recs' & Hr & [= <-])%bind_ok).
  cbn [z_SOA z_NS]. split; [eauto|]. unfold zone_names. cbn [z_SOA z_NS z_Records]. f_equal. f_equal.
  { case_bool_decide; by injection Hns as <-. }
  change (collect (fun r => r' ← convert_record (Some soa) r; Ok [r']) (forget_record <$> recs) = Ok recs') in Hr.
  clear Hs Hn Hns. revert recs' Hr. induction recs as [|r recs IH]; intros recs' Hr; [by injection Hr as <-|].
  rewrite fmap_cons in Hr. cbn [collect] in Hr. apply bind_ok in Hr as (ys & (r' & Hr' & [= <-])%bind_ok & (zs & Hzs & [= <-])%bind_ok).
  cbn [app]. rewrite !fmap_cons. f_equal; [|by apply IH]. revert Hr'. unfold convert_record.
  repeat (case_bool_decide; try done); by intros (v & _ & [= <-])%bind_ok.
Qed.

(** Renaming zones and reading their literals. *)
Lemma parses_renamed f v v1 u :
  view_renamed f v v1 -> parses v u -> (forall k1 k2, is_Some (v !! k1) -> is_Some (v !! k2) -> f k1 = f k2 -> k1 = k2) ->
  exists u1, view_renamed f u u1 /\ parses v1 u1.
Proof.
  intros Hv [Hp Hd] Hinj. exists (omap (fun z => match convert_zone (forget_values z) with Ok z' => Some z' | _ => None end) v1).
  assert (forall k z z1 z', v !! k = Some z -> rename_zone f z = Ok z1 -> u !! k = Some z' ->
    exists u1, rename_zone f z' = Ok u1 /\ convert_zone (forget_values z1) = Ok u1) as Hc.
  { intros k z z1 z' Hk Hr Hu. destruct (Hp _ _ Hk) as (z'' & Hu' & Hz). simplify_eq. by eapply convert_rename. }
  split; [|split].
  - intros k' z'. rewrite lookup_omap. split.
    + destruct (v1 !! k') as [z1|] eqn:E1; [|done]. apply Hv in E1 as (k & z & -> & Hk & Hr).
      destruct (Hp _ _ Hk) as (z0 & Hu & _). destruct (Hc _ _ _ _ Hk Hr Hu) as (u1 & Hr1 & Hc1). cbn. rewrite Hc1.
      intros [= <-]. eauto.
    + intros (k & z0 & -> & Hu & Hr). destruct (Hd k) as [z Hk]; [eauto|].
      destruct (rename_zone_inv_full f z0 z' Hr) as [Hf0 _].
      destruct (Hp _ _ Hk) as (z00 & Hu' & Hz). simplify_eq.
      assert (full_zone z) as Hfz.
      { revert Hz Hf0. unfold convert_zone, full_zone. destruct z as [[soa|] [ns|] recs]; try done; cbn [forget_values z_NS z_SOA].
        by intros (? & _ & (? & _ & [= <-])%bind_ok)%bind_ok [[? [=]] _]. }
      destruct (rename_zone_full f z Hfz) as (z1 & Hr1 & _). destruct (Hc _ _ _ _ Hk Hr1 Hu) as (u1 & Hru & Hc1).
      assert (v1 !! f k = Some z1) as -> by (apply Hv; eauto). cbn. rewrite Hc1. congruence.
  - intros k' z1 Hk1. pose proof Hk1 as (k & z & -> & Hk & Hr)%Hv. destruct (Hp _ _ Hk) as (z0 & Hu & _).
    destruct (Hc _ _ _ _ Hk Hr Hu) as (u1 & _ & Hc1). exists u1. rewrite lookup_omap, Hk1. cbn. by rewrite Hc1.
  - intros k [z Hz]. rewrite lookup_omap in Hz. destruct (v1 !! k); [eauto|done].
Qed.

Lemma document_peers h (c : Config Chain) zs :
  document h (SetZones c zs)
  = {| d_ShutdownWait := ShutdownWait c; d_AuthKey := AuthKey c; d_Listen := Listen c; d_Peers := Peers c;
       d_Zones := forget_values <$> view h zs |}.
Proof. reflexivity. Qed.

(** [Reload] after the file has been read. *)
Lemma Reload_run w w' d zs :
  let c := w_config w in
  FromDisk c (FilenamePrefix c +:+ ".json") LoadJSON w
  = (w', Ok (mkConfig (TrimSuffix (FilenamePrefix c +:+ ".json") (Ext (FilenamePrefix c +:+ ".json"))) None
               (d_ShutdownWait d) (d_AuthKey d) (d_Listen d) (d_Peers d) zs (chain c) (reload c))) ->
  w_config w' = c -> w_chans w' !! reload c = Some false ->
  Reload w = (mkWorld _ _ (w_heap w') (<[reload c := true]> (w_chans w')) (w_fs w') (w_trace w')
                (mkConfig (FilenamePrefix c) (Publisher c) (d_ShutdownWait d) (d_AuthKey d) (d_Listen d)
                   (d_Peers d) zs (chain c) (reload c)), Ok Sent).
Proof.
  intros c HF Hc Hr. unfold Reload. erewrite prog_bind_run; [|reflexivity]. fold c.
  erewrite prog_bind_run; [|unfold on_err; rewrite HF; reflexivity].
  erewrite prog_bind_run; [|reflexivity]. rewrite Hc. erewrite prog_bind_run; [|reflexivity].
  unfold send. cbn [w_chans set_config]. by rewrite Hr.
Qed.

(** Saving and reloading leaves the zones with the values of their literals. *)
Lemma Save_Reload_parses (w : World) (u : gmap string Zone) :
  let c := w_config w in let p := FilenamePrefix c in
  p <> "" -> p ∉ dirs (w_fs w) -> files (w_fs w) !! p = None -> fs_ready (w_fs w) ->
  Peers c <> [] -> w_chans w !! reload c = Some false ->
  zones_ok (w_heap w) (Zones c) -> names_all dotted (w_heap w) (Zones c) ->
  parses (view (w_heap w) (Zones c)) u ->
  (forall h1 c1 h2 c2, trimZones (w_heap w) c = Ok (h1, c1) -> trimZones h1 c1 = Ok (h2, c2) ->
     is_ok (yaml_Marshal (document h2 c2)) = true /\
     exists b ch, json_Encode (document h1 c1) = Ok b /\ json_Decode b = Ok (document h1 c1) /\
       chain_Add chain_New b = Ok ch) ->
  exists w1 w2, Save w = (w1, Ok tt) /\ Reload w1 = (w2, Ok Sent) /\ w_chans w2 !! reload c = Some true /\
    view (w_heap w2) (Zones (w_config w2)) = u /\
    w_config w2 = SetZones c (Zones (w_config w2)) /\
    exists b, saved_json w b /\ files (w_fs w2) !! (p +:+ ".json") = Some b.
Proof.
  intros c p Hp Hpd Hpf Hfs Hpeers Hchan Hok Hdot Hparse Hcodec.
  destruct (trimZones_spec dotted (w_heap w) c Hok dotted_inj Hdot) as (h1 & zs1 & Ht1 & R1).
  pose proof (renamed_ok _ _ _ _ _ Hok R1) as Hok1.
  assert (names_all bare h1 zs1) as Hb1.
  { eapply (renamed_names trimDot dotted); [exact Hok|exact R1| |exact Hdot]. intros; by apply trimDot_dotted. }
  destruct (trimZones_spec bare h1 (SetZones c zs1)) as (h2 & zs2 & Ht2 & _); [done| |done|].
  { intros n1 n2 E1%trimDot_bare E2%trimDot_bare. congruence. }
  destruct (Hcodec _ _ _ _ Ht1 Ht2) as (Hyaml & b & ch & He & Hd & Hch).
  destruct (yaml_Marshal (document h2 (SetZones (SetZones c zs1) zs2))) as [b2| | |] eqn:Ey; try done.
  destruct (Save_run w _ _ _ _ _ _ Hp Hpd Hpf Hfs Ht1 He Ht2 Ey) as (w1 & HS & Hh & Hc & Hcs & Hfs1 & Hf1).
  pose proof (renamed_view _ _ _ _ _ Hok R1) as V1. pose proof (proj1 (names_all_view dotted _ _ Hok) Hdot) as Hvd.
  destruct (parses_renamed trimDot _ _ u V1 Hparse) as (u1 & U1 & [P1 P2]).
  { intros k1 k2 [z1 E1] [z2 E2]. apply dotted_inj; [apply (Hvd _ _ E1)|apply (Hvd _ _ E2)]. }
  rewrite document_peers in Hd. set (d := Build_Document _ _ _ _ _) in Hd.
  assert (forall k z, u1 !! k = Some z -> exists z1, view h1 zs1 !! k = Some z1 /\ full_zone z /\ zone_names z = zone_names z1) as Hu1.
  { intros k z Hz. destruct (P2 k) as [z1 Hz1]; [eauto|]. destruct (P1 _ _ Hz1) as (z' & Hz' & Hcz). simplify_eq. exists z1.
    split; [done|]. apply convert_zone_full; [done|]. by eapply zones_ok_full. }
  destruct (FromDisk_run LoadJSON (w_config w1) (p +:+ ".json") w1 b d u1)
    as (w2 & zs & HF & Hc2 & Hfs2 & _ & Hv & Hchs).
  { apply Hfs1. } { done. } { by eapply LoadJSON_loads. } { done. }
  { intros k z. cbn [d_Zones d]. rewrite lookup_fmap. intros (z1 & Hz1 & ->)%fmap_Some. by apply P1. }
  { intros k. cbn [d_Zones d]. rewrite lookup_fmap, fmap_is_Some. apply P2. }
  { intros k z (z1 & _ & Hf & _)%Hu1. done. }
  { intros k z (z1 & Hz1 & _ & ->)%Hu1. revert k z1 Hz1. by apply names_all_view. }
  exists w1. eexists. split; [done|]. rewrite Hc in HF. split; [|split_and!].
  - apply (Reload_run w1 w2 d zs); rewrite ?Hc; [done..| |].
    + by rewrite Hc2, Hc.
    + apply Hchs. by rewrite Hcs.
  - cbn [w_chans]. rewrite Hc. apply lookup_insert_eq.
  - cbn [w_heap w_config Zones]. eapply view_renamed_back; [exact U1|exact Hv|..];
      (intros k z Hz; destruct Hparse as [Q1 Q2]; destruct (Q2 k) as [z0 Hz0]; [eauto|];
       destruct (Q1 _ _ Hz0) as (z' & Hz' & Hcz); simplify_eq;
       destruct (convert_zone_full _ _ Hcz) as [Hf Hn]; [exact (zones_ok_full _ _ _ _ Hok Hz0)|]).
    + done.
    + rewrite Hn. destruct (Hvd _ _ Hz0) as [Hdk Hdz]. split; [by destruct (trimDot_dotted k Hdk)|]. eapply Forall_impl; [done|]. intros n Hdn. by destruct (trimDot_dotted n Hdn).
  - cbn [w_config Zones]. rewrite Hc. reflexivity.
  - exists b. cbn [w_fs]. rewrite Hfs2. split; [by eexists _, _|exact Hf1].
Qed.

(** What is relied on of the codecs for one document: it can be written, and its
    JSON form can be read back and added to a hash chain. *)
Definition codec_for (D : Document) : Prop :=
  is_ok (yaml_Marshal D) = true /\
  exists b ch, json_Encode D = Ok b /\ json_Decode b = Ok D /\ chain_Add chain_New b = Ok ch.

(** The document [D] with the zones [v]. *)
Definition with_zones (D : Document) (v : gmap string Zone) : Document :=
  {| d_ShutdownWait := d_ShutdownWait D; d_AuthKey := d_AuthKey D; d_Listen := d_Listen D; d_Peers := d_Peers D;
     d_Zones := forget_values <$> v |}.

(** [Save] writes one document in both forms: the configuration with its names
    trimmed. *)
Lemma saved_json_document (w : World) (tv : gmap string Zone) :
  let c := w_config w in
  zones_ok (w_heap w) (Zones c) -> names_all dotted (w_heap w) (Zones c) ->
  view_renamed trimDot (view (w_heap w) (Zones c)) tv ->
  forall h1 c1, trimZones (w_heap w) c = Ok (h1, c1) -> document h1 c1 = with_zones (document (w_heap w) c) tv.
Proof.
  intros c Hok Hdot Htv h1 c1 Ht1.
  destruct (trimZones_spec dotted (w_heap w) c Hok dotted_inj Hdot) as (h1' & zs1 & E1 & R1). rewrite Ht1 in E1. injection E1 as <- ->.
  pose proof (renamed_view _ _ _ _ _ Hok R1) as V1. by rewrite document_peers, (view_renamed_unique _ _ _ _ V1 Htv).
Qed.

Lemma saved_document (w : World) (tv : gmap string Zone) :
  let c := w_config w in
  zones_ok (w_heap w) (Zones c) -> names_all dotted (w_heap w) (Zones c) ->
  view_renamed trimDot (view (w_heap w) (Zones c)) tv ->
  forall h1 c1 h2 c2, trimZones (w_heap w) c = Ok (h1, c1) -> trimZones h1 c1 = Ok (h2, c2) ->
    document h1 c1 = with_zones (document (w_heap w) c) tv /\ document h2 c2 = document h1 c1.
Proof.
  intros c Hok Hdot Htv h1 c1 h2 c2 Ht1 Ht2. split; [by apply saved_json_document|].
  destruct (trimZones_spec dotted (w_heap w) c Hok dotted_inj Hdot) as (h1' & zs1 & E1 & R1). rewrite Ht1 in E1. injection E1 as <- ->.
  pose proof (renamed_ok _ _ _ _ _ Hok R1) as Hok1.
  assert (names_all bare h1 zs1) as Hb1.
  { eapply (renamed_names trimDot dotted); [exact Hok|exact R1| |exact Hdot]. intros; by apply trimDot_dotted. }
  destruct (trimZones_spec bare h1 (SetZones c zs1)) as (h2' & zs2 & E2 & R2); [done| |done|].
  { intros n1 n2 X1%trimDot_bare X2%trimDot_bare. congruence. }
  rewrite Ht2 in E2. injection E2 as <- ->. rewrite !document_peers. do 2 f_equal.
  eapply view_renamed_fixed; [by apply renamed_view|intros k z; by apply zones_ok_full|].
  eapply view_all_impl; [apply trimDot_bare|]. by apply names_all_view.
Qed.

(** Saving and reloading, for the document that is written. *)
Lemma Save_Reload_document (w : World) (tv u : gmap string Zone) :
  let c := w_config w in let p := FilenamePrefix c in
  p <> "" -> p ∉ dirs (w_fs w) -> files (w_fs w) !! p = None -> fs_ready (w_fs w) ->
  Peers c <> [] -> w_chans w !! reload c = Some false ->
  zones_ok (w_heap w) (Zones c) -> names_all dotted (w_heap w) (Zones c) ->
  parses (view (w_heap w) (Zones c)) u ->
  view_renamed trimDot (view (w_heap w) (Zones c)) tv -> codec_for (with_zones (document (w_heap w) c) tv) ->
  exists w1 w2, Save w = (w1, Ok tt) /\ Reload w1 = (w2, Ok Sent) /\ w_chans w2 !! reload c = Some true /\
    view (w_heap w2) (Zones (w_config w2)) = u /\
    w_config w2 = SetZones c (Zones (w_config w2)) /\
    exists b, json_Encode (with_zones (document (w_heap w) c) tv) = Ok b /\ files (w_fs w2) !! (p +:+ ".json") = Some b.
Proof.
  intros c p ??????? Hdot Hparse Htv Hcodec.
  destruct (Save_Reload_parses w u) as (w1 & w2 & HS & HR & Hsig & Hv & Hc & b & (h1 & c1 & Ht1 & Hb) & Hf); try done.
  { intros h1 c1 h2 c2 Ht1 Ht2. destruct (saved_document w tv ltac:(done) Hdot Htv _ _ _ _ Ht1 Ht2) as [E1 E2]. rewrite E2, E1. exact Hcodec. }
  exists w1, w2. split_and!; try done. exists b. split; [|done].
  rewrite (saved_json_document w tv ltac:(done) Hdot Htv _ _ Ht1) in Hb. exact Hb.
Qed.

Lemma fresh_parses v : (forall k z, v !! k = Some z -> fresh_values z) -> parses v v.
Proof. intros Hf. split; [|done]. intros k z Hz. exists z. split; [done|]. by apply (Hf k). Qed.

(** C7. Saving and reloading is the identity on the configuration: when the
    document survives encoding, nothing refuses a file operation, the reload
    channel is empty and the record values are those of the literals, then
    [Save] and [Reload] succeed, signal a reload, and leave the peers, keys,
    listeners, publisher and chain and every zone, by name, exactly as before. *)
Theorem Save_Reload_identity (w : World) :
  let c := w_config w in let p := FilenamePrefix c in
  p <> "" -> p ∉ dirs (w_fs w) -> files (w_fs w) !! p = None -> fs_ready (w_fs w) ->
  Peers c <> [] -> w_chans w !! reload c = Some false ->
  zones_ok (w_heap w) (Zones c) -> names_all dotted (w_heap w) (Zones c) ->
  (forall k z, view (w_heap w) (Zones c) !! k = Some z -> fresh_values z) ->
  (forall h1 c1 h2 c2, trimZones (w_heap w) c = Ok (h1, c1) -> trimZones h1 c1 = Ok (h2, c2) ->
     is_ok (yaml_Marshal (document h2 c2)) = true /\
     exists b ch, json_Encode (document h1 c1) = Ok b /\ json_Decode b = Ok (document h1 c1) /\
       chain_Add chain_New b = Ok ch) ->
  exists w1 w2, Save w = (w1, Ok tt) /\ Reload w1 = (w2, Ok Sent) /\ w_chans w2 !! reload c = Some true /\
    view (w_heap w2) (Zones (w_config w2)) = view (w_heap w) (Zones c) /\
    w_config w2 = SetZones c (Zones (w_config w2)).
Proof.
  intros c p ???????? Hf%fresh_parses ?.
  destruct (Save_Reload_parses w (view (w_heap w) (Zones c))) as (w1 & w2 & ? & ? & ? & ? & ? & _); try done. by exists w1, w2.
Qed.
End save_reload.

(** ** Examples *)

#[local] Existing Instance plain_codec.
#[local] Existing Instance plain_chain.
#[local] Existing Instance canonical_range.

Lemma example_fresh : fresh_values example_zone.
Proof. vm_compute. reflexivity. Qed.

Lemma Save_Reload_identity_witness :
  exists w1 w2, Save plain_world = (w1, Ok tt) /\ Reload w1 = (w2, Ok Sent).
Proof.
  destruct (Save_Reload_identity plain_world) as (w1 & w2 & H1 & H2 & _).
  - done.
  - vm_compute. set_solver.
  - reflexivity.
  - intros f. done.
  - done.
  - reflexivity.
  - exact example_zones_ok.
  - exact example_dotted.
  - intros k z (l & H1 & H2)%lookup_view. change (example_zones !! k = Some l) in H1.
    change (example_heap !! l = Some z) in H2. unfold example_zones in H1. unfold example_heap in H2.
    apply lookup_singleton_Some in H1 as [_ <-]. apply lookup_singleton_Some in H2 as [_ <-]. exact example_fresh.
  - intros h1 c1 h2 c2 _ _. split; [reflexivity|]. exists (document h1 c1), tt. done.
  - exists w1, w2. split; [exact H1|exact H2].
Defined.

Definition saved_world : World := (Save plain_world).1.

Lemma FromDisk_invariant_witness :
  exists w' c', FromDisk (w_config saved_world) "/etc/border/config.json" LoadJSON saved_world = (w', Ok c') /\
    FilenamePrefix c' = TrimSuffix "/etc/border/config.json" (Ext "/etc/border/config.json").
Proof.
  destruct (FromDisk (w_config saved_world) "/etc/border/config.json" LoadJSON saved_world) as [w' r] eqn:E.
  destruct r as [c'| | |]; [|vm_compute in E; discriminate E..].
  exists w', c'. split; [reflexivity|].
  exact (proj1 (proj2 (proj2 (proj2 (FromDisk_invariant _ _ _ _ _ _ E))))).
Defined.
