(* ===== verification/DnsServer.v ===== *)
(** * Component: the DNS server (pkg/dnsserver/dnsserver.go)

    [ServeDNS] answers a query from the zones of the configuration, which it
    reaches through the shared heap.  The message type, [SetReply], [SetRcode]
    and [SplitDomainName] belong to github.com/miekg/dns: the class [DnsLib]
    holds the functions with what their documentation says of them.  A
    [ResponseWriter] receives exactly one message, the value returned here. *)

From S2P Require Import Prelude GoNet GoTime HealthCheck DnsConfig Literal Config ConfigZones.

Local Open Scope Z_scope.

Record Question := { q_Name : string; q_Qtype : rrtype }.

Inductive rcode := RcodeSuccess | RcodeNameError.

(** The fields of [dns.Msg] the program reads or writes. *)
Record Msg := {
  msg_Id : Z;
  msg_Response : bool;
  msg_Rcode : rcode;
  msg_Authoritative : bool;
  msg_RecursionAvailable : bool;
  msg_Question : list Question;
  msg_Answer : list RR
}.

Definition empty_Msg : Msg :=
  {| msg_Id := 0; msg_Response := false; msg_Rcode := RcodeSuccess; msg_Authoritative := false;
     msg_RecursionAvailable := false; msg_Question := []; msg_Answer := [] |}.

Class DnsLib := {
  SplitDomainName : string -> list string;
  SetReply : Msg -> Msg -> Msg;
  SetRcode : Msg -> Msg -> rcode -> Msg;
  (** "creates a reply message from a request message" *)
  SetReply_Id : forall m r, msg_Id (SetReply m r) = msg_Id r;
  SetReply_Response : forall m r, msg_Response (SetReply m r) = true;
  SetReply_Rcode : forall m r, msg_Rcode (SetReply m r) = RcodeSuccess;
  SetReply_Answer : forall m r, msg_Answer (SetReply m r) = msg_Answer m;
  SetReply_Authoritative : forall m r, msg_Authoritative (SetReply m r) = msg_Authoritative m;
  (** "creates an error message suitable for the request" *)
  SetRcode_reply : forall m r c, SetRcode m r c =
    {| msg_Id := msg_Id (SetReply m r); msg_Response := msg_Response (SetReply m r); msg_Rcode := c;
       msg_Authoritative := msg_Authoritative (SetReply m r);
       msg_RecursionAvailable := msg_RecursionAvailable (SetReply m r);
       msg_Question := msg_Question (SetReply m r); msg_Answer := msg_Answer (SetReply m r) |}
}.

(** A [dns.Server] that listens. *)
Record Listening := { srv_Addr : string; srv_Net : string }.

Record DNSServer := {
  ds_Zones : ZoneMap;
  ds_udpServer : option Listening;
  ds_tcpServer : option Listening
}.

(** The loop at the end of [Start]: the first two values received from [done]; nil
    is sent when a listener has started. *)
Definition await (first second : option error) : outcome unit :=
  match first, second with
  | Some e, _ => Err e
  | None, Some e => Err e
  | None, None => Ok tt
  end.

Definition Start (ds : DNSServer) (listenSpec : string) (first second : option error) : DNSServer * outcome unit :=
  ({| ds_Zones := ds_Zones ds; ds_udpServer := Some {| srv_Addr := listenSpec; srv_Net := "udp" |};
      ds_tcpServer := Some {| srv_Addr := listenSpec; srv_Net := "tcp" |} |}, await first second).

(** [Shutdown]; [stop] is what shutting a listener down returns. *)
Definition Shutdown (ds : DNSServer) (stop : Listening -> option error) : outcome unit :=
  match ds_udpServer ds, ds_tcpServer ds with
  | Some udp, Some tcp =>
      match stop udp with
      | Some e => Err (Join e (errors_New "unable to shutdown UDP server"))
      | None =>
          match stop tcp with
          | Some e => Err (Join e (errors_New "unable to shutdown TCP server"))
          | None => Ok tt
          end
      end
  | _, _ => Err (errors_New "cannot shutdown server; never started")
  end.

(** The loop of [findZone]: the labels, then the labels without the first, ... *)
Fixpoint find_zone (zones : ZoneMap) (names : list string) : option loc :=
  match names with
  | [] => None
  | _ :: names' =>
      match zones !! (Join_strings names "." +:+ ".") with
      | Some zone => Some zone
      | None => find_zone zones names'
      end
  end.

(** The answers of an LB record that have the type of the query. *)
Definition is_answer (typ : rrtype) (a : RR) : bool :=
  match a with RR_A h _ | RR_AAAA h _ => bool_decide (hdr_Rrtype h = typ) | _ => false end.
Definition lb_answers (typ : rrtype) (values : list RR) : list RR := filter (is_answer typ) values.

(** The record loop: only the first record of the name is used. *)
Fixpoint answer_records (recs : list Record_) (name : string) (typ : rrtype) : outcome (list RR) :=
  match recs with
  | [] => Ok []
  | rec :: recs' =>
      if bool_decide (rec_Name rec = name) then
        if bool_decide (rec_Type rec = TypeA) then
          if bool_decide (typ = dns_TypeA) then
            match rec_Value rec with Some v => Convert v name | None => Panic end
          else Ok []
        else if bool_decide (rec_Type rec = TypeLB) then
          match rec_Value rec with
          | Some v => values ← Convert v name; Ok (lb_answers typ values)
          | None => Panic
          end
        else Ok []
      else answer_records recs' name typ
  end.

Definition answer_zone (z : Zone) (name : string) (typ : rrtype) : outcome (list RR) :=
  match typ with
  | dns_TypeSOA => match z_SOA z with Some soa => Convert soa name | None => Panic end
  | dns_TypeNS => match z_NS z with Some ns => Convert ns name | None => Panic end
  | _ => answer_records (z_Records z) name typ
  end.

Section dnsserver.
Context `{DL : DnsLib}.

Definition findZone (ds : DNSServer) (name : string) : option loc :=
  find_zone (ds_Zones ds) (SplitDomainName name).

(** The answers to the first question; a nil zone is no zone. *)
Definition answers (h : Heap) (ds : DNSServer) (r : Msg) : outcome (list RR) :=
  match msg_Question r with
  | [] => Ok []
  | q :: _ =>
      match findZone ds (q_Name q) with
      | Some l => match h !! l with Some z => answer_zone z (q_Name q) (q_Qtype q) | None => Ok [] end
      | None => Ok []
      end
  end.

(** The message [ServeDNS] writes. *)
Definition ServeDNS (h : Heap) (ds : DNSServer) (r : Msg) : outcome Msg :=
  let m := SetReply empty_Msg r in
  ans ← answers h ds r;
  Ok (match ans with
      | [] => SetRcode m r RcodeNameError
      | _ => {| msg_Id := msg_Id m; msg_Response := msg_Response m; msg_Rcode := msg_Rcode m;
                msg_Authoritative := true; msg_RecursionAvailable := true;
                msg_Question := msg_Question m; msg_Answer := ans |}
      end).

(** ** Zone search *)

Lemma find_zone_spec zones names l :
  find_zone zones names = Some l <->
  exists i, (i < length names)%nat /\ zones !! (Join_strings (drop i names) "." +:+ ".") = Some l /\
    forall j, (j < i)%nat -> zones !! (Join_strings (drop j names) "." +:+ ".") = None.
Proof.
  induction names as [|n names IH]; [split; [done|intros (i & Hi & _); simpl in Hi; lia]|].
  cbn [find_zone]. destruct (zones !! _) as [z|] eqn:E.
  - split; [intros [= ->]; exists 0%nat; split_and!; [simpl; lia|done|lia]|].
    intros (i & _ & Hi & Hj). destruct i as [|i]; [rewrite drop_0 in Hi; congruence|].
    specialize (Hj 0%nat ltac:(lia)). rewrite drop_0 in Hj. congruence.
  - rewrite IH. split.
    + intros (i & Hi & Hz & Hj). exists (S i). split_and!; [simpl; lia|done|].
      intros [|j] Hlt; [done|]. apply Hj. lia.
    + intros (i & Hi & Hz & Hj). destruct i as [|i]; [rewrite drop_0 in Hz; congruence|].
      exists i. split_and!; [simpl in Hi; lia|done|]. intros j Hlt. apply (Hj (S j)). lia.
Qed.

(** C9. Zone selection is the longest match: [findZone] returns the zone named by
    the longest suffix of the query's labels that is a zone, and none exactly when
    no suffix is. *)
Theorem findZone_longest_suffix (ds : DNSServer) (name : string) :
  let names := SplitDomainName name in
  let suffix i := Join_strings (drop i names) "." +:+ "." in
  (forall l, findZone ds name = Some l <->
     exists i, (i < length names)%nat /\ ds_Zones ds !! suffix i = Some l /\
       forall j, (j < i)%nat -> ds_Zones ds !! suffix j = None) /\
  (findZone ds name = None <-> forall i, (i < length names)%nat -> ds_Zones ds !! suffix i = None).
Proof.
  intros names suffix. split; [intros l; apply find_zone_spec|]. unfold findZone. subst suffix. simpl.
  fold names. generalize names as ns. clear names. induction ns as [|n ns IH]; [split; [intros _ i Hi; simpl in Hi; lia|done]|].
  cbn [find_zone]. destruct (ds_Zones ds !! _) as [z|] eqn:E.
  - split; [done|]. intros H. specialize (H 0%nat ltac:(simpl; lia)). rewrite drop_0 in H. congruence.
  - rewrite IH. split; [intros H [|i] Hi; [done|apply H; simpl in Hi; lia]|].
    intros H i Hi. apply (H (S i)). simpl. lia.
Qed.

(** ** Answers *)

(** An answer to the question: owner and type are those asked for. *)
Definition answers_question (name : string) (typ : rrtype) (rr : RR) : Prop :=
  rr_matches name rr /\ hdr_Rrtype (Hdr rr) = typ.

Lemma answer_records_matches recs name typ rrs :
  Forall typed_record recs -> answer_records recs name typ = Ok rrs -> Forall (answers_question name typ) rrs.
Proof.
  induction 1 as [|r recs Hr Hrs IH]; cbn [answer_records]; [intros [= <-]; constructor|].
  case_bool_decide; [|done]. unfold typed_record in Hr. case_bool_decide as HA.
  - case_bool_decide as Ht; [|intros [= <-]; constructor]. destruct (rec_Value r) as [[a|lb]|]; [|by rewrite Hr in HA|done].
    intros [= <-]. apply Forall_fmap, Forall_true. by intros ip.
  - case_bool_decide; [|intros [= <-]; constructor].
    destruct (rec_Value r) as [[a|lb]|]; [congruence| |done]. intros (values & Hv & [= <-])%bind_ok.
    apply LB_Convert_matches in Hv. rewrite Forall_forall in Hv. apply Forall_forall.
    intros rr [Ht Hin]%list_elem_of_filter. split; [auto|].
    destruct rr; simpl in Ht; try done; by apply bool_decide_unpack in Ht.
Qed.

Lemma answer_zone_matches z name typ rrs :
  typed_zone z -> answer_zone z name typ = Ok rrs -> Forall (answers_question name typ) rrs.
Proof.
  intros Hz. unfold answer_zone. destruct typ; try by apply answer_records_matches.
  - destruct (z_NS z); [|done]. intros [= <-]. apply Forall_fmap, Forall_true. done.
  - destruct (z_SOA z); [|done]. intros [= <-]. by repeat constructor.
Qed.

(** The zones the server answers from are as loading leaves them. *)
Definition serves (h : Heap) (ds : DNSServer) : Prop :=
  forall k l, ds_Zones ds !! k = Some l -> exists z, h !! l = Some z /\ served_zone z.

Lemma findZone_served h ds name l :
  serves h ds -> findZone ds name = Some l -> exists z, h !! l = Some z /\ served_zone z.
Proof. intros Hs (i & _ & Hi & _)%find_zone_spec. eauto. Qed.

(** The answers a zone should give: every record of the right type, from the
    first record of that name. *)
Definition zone_answers (z : Zone) (name : string) (typ : rrtype) : outcome (list RR) :=
  match typ with
  | dns_TypeSOA => match z_SOA z with Some soa => SOA_Convert soa name | None => Ok [] end
  | dns_TypeNS => match z_NS z with Some ns => NS_Convert ns name | None => Ok [] end
  | _ =>
      match list_find (fun r => rec_Name r = name) (z_Records z) with
      | Some (_, r) =>
          match rec_Value r with
          | Some (ValA a) => if bool_decide (typ = dns_TypeA) then A_Convert a name else Ok []
          | Some (ValLB lb) => lb_answers typ <$> LB_Convert lb name
          | None => Ok []
          end
      | None => Ok []
      end
  end.

Lemma answer_records_find recs name typ :
  Forall typed_record recs ->
  answer_records recs name typ
  = match list_find (fun r => rec_Name r = name) recs with
    | Some (_, r) =>
        match rec_Value r with
        | Some (ValA a) => if bool_decide (typ = dns_TypeA) then A_Convert a name else Ok []
        | Some (ValLB lb) => lb_answers typ <$> LB_Convert lb name
        | None => Ok []
        end
    | None => Ok []
    end.
Proof.
  induction 1 as [|r recs Hr Hrs IH]; [done|]. cbn [answer_records list_find].
  destruct (decide (rec_Name r = name)) as [Hn|Hn]; [rewrite (bool_decide_eq_true_2 _ Hn)|rewrite (bool_decide_eq_false_2 _ Hn)].
  - unfold typed_record in Hr. destruct (rec_Value r) as [[a|lb]|]; [..|done]; rewrite Hr.
    + by rewrite bool_decide_eq_true_2.
    + rewrite (bool_decide_eq_false_2 (TypeLB = TypeA)), (bool_decide_eq_true_2 (TypeLB = TypeLB)) by done.
      change (Convert (ValLB lb) name) with (LB_Convert lb name). by destruct (LB_Convert lb name).
  - rewrite IH. by destruct (list_find _ recs) as [[??]|].
Qed.

Lemma answer_zone_spec z name typ : full_zone z -> typed_zone z -> answer_zone z name typ = zone_answers z name typ.
Proof.
  intros [[soa Hsoa] [ns Hns]] Ht. unfold answer_zone, zone_answers. rewrite Hsoa, Hns.
  destruct typ; try done; by apply answer_records_find.
Qed.

Lemma zone_answers_total z name typ e : zone_answers z name typ <> Err e /\ zone_answers z name typ <> Panic.
Proof.
  unfold zone_answers. destruct typ; try (by destruct (z_NS z)); try (by destruct (z_SOA z));
    (destruct (list_find _ _) as [[? r]|]; [|done]; destruct (rec_Value r) as [[a|lb]|]; [by case_bool_decide| |done];
     pose proof (LB_Convert_cases lb name) as Hc; by destruct (LB_Convert lb name)).
Qed.

(** A query that [LB.Convert] ends the process on: it is not for SOA or NS, and the
    first record of its name is a load balancer with a listener that is not an
    address and a port. *)
Definition fatal_question (z : Zone) (name : string) (typ : rrtype) : Prop :=
  typ <> dns_TypeSOA /\ typ <> dns_TypeNS /\
  exists i rec lb listener, list_find (fun r => rec_Name r = name) (z_Records z) = Some (i, rec) /\
    rec_Value rec = Some (ValLB lb) /\ listener ∈ lb_Listeners lb /\ listener_ip listener = None.

Definition ends_process (h : Heap) (ds : DNSServer) (r : Msg) : Prop :=
  exists q qs l z, msg_Question r = q :: qs /\ findZone ds (q_Name q) = Some l /\ h !! l = Some z /\
    fatal_question z (q_Name q) (q_Qtype q).

Lemma LB_Convert_fatal_iff lb name :
  (exists msg, LB_Convert lb name = Fatal msg) <-> exists listener, listener ∈ lb_Listeners lb /\ listener_ip listener = None.
Proof.
  split.
  - intros [msg Hm]. destruct (mapM listener_ip (lb_Listeners lb)) as [ips|] eqn:E; [by rewrite (LB_Convert_ok _ _ _ E) in Hm|].
    apply mapM_None in E. by apply Exists_exists in E.
  - intros (li & Hin & Hli). apply LB_Convert_fatal, mapM_None, Exists_exists. eauto.
Qed.

Lemma zone_answers_fatal z name typ : (exists msg, zone_answers z name typ = Fatal msg) <-> fatal_question z name typ.
Proof.
  unfold fatal_question. split.
  - intros [msg Hm]. unfold zone_answers in Hm.
    destruct typ; try (destruct (z_NS z)); try (destruct (z_SOA z)); try done; (split; [done|]; split; [done|]);
      (destruct (list_find _ _) as [[i r]|]; [|done]; destruct (rec_Value r) as [[a|lb]|] eqn:Ev; [by destruct (bool_decide _)| |done];
       destruct (LB_Convert lb name) as [|?| |m] eqn:El; try done;
       destruct (proj1 (LB_Convert_fatal_iff lb name) (ex_intro _ m El)) as (li & Hin & Hli); by exists i, r, lb, li).
  - intros (Hs & Hn & i & rec & lb & li & Hf & Hv & Hin & Hli).
    destruct (proj2 (LB_Convert_fatal_iff lb name)) as [msg Hm]; [eauto|]. exists msg.
    unfold zone_answers. destruct typ; try done; by rewrite Hf, Hv, Hm.
Qed.

(** C2. [ServeDNS] against its specification, from zones as loading leaves them.  It
    never panics and returns no error.  When it replies, the reply has the request's
    id and the answers the selected zone has for the first question, authoritatively,
    every one of them owned by the name and of the type asked for; and [NXDOMAIN] and
    no answers exactly when the zone has none (or there is no zone or no question).
    There is no reply, and the process ends in [logrus.Fatalf], exactly when the
    query is not for SOA or NS and the first record of its name is a load balancer
    with a listener that is not an address and a port, such as the peer name that
    [createBalancers] asks for and example.yaml has. *)
Theorem ServeDNS_spec (h : Heap) (ds : DNSServer) (r : Msg) :
  serves h ds ->
  let spec := match msg_Question r with
              | q :: _ =>
                  match findZone ds (q_Name q) ≫= (fun l => h !! l) with
                  | Some z => zone_answers z (q_Name q) (q_Qtype q)
                  | None => Ok []
                  end
              | [] => Ok []
              end in
  match ServeDNS h ds r with
  | Ok m =>
      spec = Ok (msg_Answer m) /\ msg_Id m = msg_Id r /\ msg_Response m = true /\
      (forall q qs, msg_Question r = q :: qs ->
         Forall (answers_question (q_Name q) (q_Qtype q)) (msg_Answer m)) /\
      (msg_Rcode m = RcodeNameError <-> msg_Answer m = []) /\
      (msg_Authoritative m = true <-> msg_Answer m <> []) /\ ~ ends_process h ds r
  | Fatal _ => ends_process h ds r
  | _ => False
  end.
Proof.
  intros Hs spec.
  assert ((exists msg, spec = Fatal msg) <-> ends_process h ds r) as Hfatal.
  { subst spec. unfold ends_process. destruct (msg_Question r) as [|q qs]; [naive_solver|].
    destruct (findZone ds (q_Name q)) as [l|] eqn:El; [cbn [mbind option_bind]|split; [by intros [? [=]]|intros (q' & qs' & l' & z' & [= <- <-] & El' & _); congruence]].
    destruct (findZone_served _ _ _ _ Hs El) as (z & Hz & _). rewrite Hz, zone_answers_fatal. split; [by exists q, qs, l, z|].
    intros (q' & qs' & l' & z' & [= <- <-] & El' & Hz' & Hf). rewrite El in El'. injection El' as <-. rewrite Hz in Hz'. by injection Hz' as <-. }
  assert (answers h ds r = spec) as Ha.
  { unfold answers. subst spec. destruct (msg_Question r) as [|q qs]; [done|].
    destruct (findZone ds (q_Name q)) as [l|] eqn:El; [|done]. simpl.
    destruct (findZone_served _ _ _ _ Hs El) as (z & -> & Hz). apply answer_zone_spec; apply Hz. }
  assert (forall rrs q qs, spec = Ok rrs -> msg_Question r = q :: qs ->
    Forall (answers_question (q_Name q) (q_Qtype q)) rrs) as Hm.
  { intros rrs q qs Hsp Hq. rewrite <- Ha in Hsp. unfold answers in Hsp. rewrite Hq in Hsp.
    destruct (findZone ds (q_Name q)) as [l|] eqn:El; [|by injection Hsp as <-; constructor].
    destruct (findZone_served _ _ _ _ Hs El) as (z & Hz & Hsv). rewrite Hz in Hsp.
    eapply answer_zone_matches; [apply Hsv|done]. }
  unfold ServeDNS. rewrite Ha. clear Ha.
  assert (forall e, spec <> Err e /\ spec <> Panic) as Hno.
  { intros e. subst spec. destruct (msg_Question r) as [|q qs]; [done|].
    destruct (_ ≫= _) as [z|]; [apply zone_answers_total|done]. }
  destruct spec as [rrs|e| |msg] eqn:Esp; cbn [mbind outcome_bind];
    [|by destruct (Hno e)|by destruct (Hno (errors_New ""))|by apply Hfatal; eexists].
  assert (~ ends_process h ds r) as Hend by (intros [msg ?]%Hfatal; done).
  destruct rrs as [|rr rrs].
  - rewrite SetRcode_reply. cbn [msg_Answer msg_Id msg_Response msg_Rcode msg_Authoritative].
    rewrite !SetReply_Id, !SetReply_Response, !SetReply_Answer, !SetReply_Authoritative.
    by split_and!.
  - cbn [msg_Answer msg_Id msg_Response msg_Rcode msg_Authoritative].
    rewrite SetReply_Id, SetReply_Response, SetReply_Rcode. split_and!; try done. intros q qs Hq. by eapply Hm.
Qed.

(** A query can end the process: when the first record of the queried name is
    a load balancer with a listener that is not an address and port (a peer name,
    as in example.yaml and as [createBalancers] requires), every query for it
    other than SOA and NS reaches [logrus.Fatalf]. *)
Theorem LB_query_fatal (h : Heap) (ds : DNSServer) (r : Msg) (q : Question) (qs : list Question)
    (l : loc) (z : Zone) (i : nat) (rec : Record_) (lb : LB) (listener : string) :
  msg_Question r = q :: qs -> q_Qtype q <> dns_TypeSOA -> q_Qtype q <> dns_TypeNS ->
  findZone ds (q_Name q) = Some l -> h !! l = Some z ->
  list_find (fun r => rec_Name r = q_Name q) (z_Records z) = Some (i, rec) -> typed_zone z ->
  rec_Value rec = Some (ValLB lb) -> listener ∈ lb_Listeners lb -> listener_ip listener = None ->
  exists msg, ServeDNS h ds r = Fatal msg.
Proof.
  intros Hq Hs Hn Hl Hz Hf Ht Hv Hin Hip. unfold ServeDNS, answers. rewrite Hq, Hl, Hz.
  assert (answer_zone z (q_Name q) (q_Qtype q) = answer_records (z_Records z) (q_Name q) (q_Qtype q)) as ->
    by (unfold answer_zone; by destruct (q_Qtype q)).
  rewrite answer_records_find by done. rewrite Hf, Hv.
  assert (mapM listener_ip (lb_Listeners lb) = None) as Hm.
  { apply eq_None_not_Some. intros Hsome%mapM_is_Some. rewrite Forall_forall in Hsome.
    destruct (Hsome _ Hin). congruence. }
  destruct (LB_Convert_fatal lb (q_Name q) Hm) as [msg ->]. by exists msg.
Qed.

Lemma answer_records_none recs name typ :
  name ∉ (rec_Name <$> recs) -> answer_records recs name typ = Ok [].
Proof.
  induction recs as [|r recs IH]; [done|]. rewrite fmap_cons, not_elem_of_cons. intros [Hne Hn].
  cbn [answer_records]. rewrite bool_decide_eq_false_2 by done. auto.
Qed.

(** C37. Saving breaks the running DNS server: [trimZones] renames the records of the
    zones the server answers from, so that after it every query for a fully
    qualified name, other than SOA and NS, gets [NXDOMAIN] from the zones the
    server was started with, whatever they hold. *)
Theorem Save_hides_records `{MR : MapRange} {Chain : Type} (h h' : Heap) (c c' : Config Chain)
    (ds : DNSServer) (r : Msg) (q : Question) (qs : list Question) :
  zones_ok h (Zones c) -> names_all dotted h (Zones c) -> ds_Zones ds = Zones c ->
  trimZones h c = Ok (h', c') ->
  msg_Question r = q :: qs -> dotted (q_Name q) -> q_Qtype q <> dns_TypeSOA -> q_Qtype q <> dns_TypeNS ->
  exists m, ServeDNS h' ds r = Ok m /\ msg_Rcode m = RcodeNameError /\ msg_Answer m = [].
Proof.
  intros Hok Hd Hds Ht Hq Hqd Hs Hn.
  destruct (trimZones_spec dotted h c Hok dotted_inj Hd) as (h1 & zs1 & Ht1 & (_ & R2 & _)).
  rewrite Ht in Ht1. injection Ht1 as <- _.
  assert (answers h' ds r = Ok []) as Ha.
  { unfold answers. rewrite Hq. destruct (findZone ds (q_Name q)) as [l|] eqn:El; [|done].
    apply find_zone_spec in El as (i & _ & Hl & _). rewrite Hds in Hl.
    destruct (proj2 Hok _ _ Hl) as (z & Hz & Hf). destruct (R2 _ _ _ Hl Hz) as (z' & Hr & Hz'). rewrite Hz'.
    assert (Forall bare (zone_names z')) as Hb.
    { destruct (rename_zone_full trimDot z Hf) as (z1 & Hr1 & _ & Hnm). rewrite Hr in Hr1. injection Hr1 as <-.
      rewrite Hnm, Forall_fmap. eapply Forall_impl; [by apply (Hd _ _ Hl)|]. intros n Hdn. by apply trimDot_dotted. }
    assert (answer_zone z' (q_Name q) (q_Qtype q) = answer_records (z_Records z') (q_Name q) (q_Qtype q)) as ->
      by (unfold answer_zone; by destruct (q_Qtype q)).
    apply answer_records_none. intros Hin. rewrite Forall_forall in Hb.
    assert (bare (q_Name q)) as Hbq by (apply Hb; unfold zone_names; rewrite !elem_of_app; auto).
    destruct Hqd as (p & Hp & _). unfold bare in Hbq. rewrite Hp, HasSuffix_app in Hbq. done. }
  exists (SetRcode (SetReply empty_Msg r) r RcodeNameError). unfold ServeDNS. rewrite Ha. split; [done|].
  rewrite SetRcode_reply. cbn [msg_Rcode msg_Answer]. by rewrite !SetReply_Answer.
Qed.
End dnsserver.

(** ** Examples *)

(** A library for names without escapes. *)
Definition split_name (s : string) : list string :=
  if bool_decide (s = ".") then [] else Split_string (trimDot s) ".".

#[local] Instance plain_dns : DnsLib.
Proof.
  refine {| SplitDomainName := split_name;
     SetReply m r :=
       {| msg_Id := msg_Id r; msg_Response := true; msg_Rcode := RcodeSuccess;
          msg_Authoritative := msg_Authoritative m; msg_RecursionAvailable := msg_RecursionAvailable m;
          msg_Question := take 1 (msg_Question r); msg_Answer := msg_Answer m |};
     SetRcode m r c :=
       {| msg_Id := msg_Id r; msg_Response := true; msg_Rcode := c;
          msg_Authoritative := msg_Authoritative m; msg_RecursionAvailable := msg_RecursionAvailable m;
          msg_Question := take 1 (msg_Question r); msg_Answer := msg_Answer m |} |}; reflexivity.
Defined.

Definition query (name : string) (typ : rrtype) : Msg :=
  {| msg_Id := 7; msg_Response := false; msg_Rcode := RcodeSuccess; msg_Authoritative := false;
     msg_RecursionAvailable := false; msg_Question := [{| q_Name := name; q_Qtype := typ |}]; msg_Answer := [] |}.

Definition example_server : DNSServer :=
  {| ds_Zones := example_zones; ds_udpServer := None; ds_tcpServer := None |}.

Lemma example_serves : serves example_heap example_server.
Proof.
  unfold serves, example_server, example_heap, example_zones. cbn [ds_Zones].
  intros k l [_ <-]%lookup_singleton_Some. exists example_zone. split; [done|]. split_and!.
  - split; by eexists.
  - by repeat constructor.
  - repeat (apply Forall_cons; split; [reflexivity|]). by apply Forall_nil.
Qed.

Lemma ServeDNS_spec_witness :
  exists m, ServeDNS example_heap example_server (query "foo.test.home.arpa." dns_TypeA) = Ok m /\
    msg_Authoritative m = true /\
    Forall (answers_question "foo.test.home.arpa." dns_TypeA) (msg_Answer m).
Proof.
  pose proof (ServeDNS_spec example_heap example_server (query "foo.test.home.arpa." dns_TypeA) example_serves) as H.
  destruct (ServeDNS example_heap example_server (query "foo.test.home.arpa." dns_TypeA)) as [m| | |] eqn:E;
    [|vm_compute in E; discriminate E..].
  exists m. split; [reflexivity|]. split; [vm_compute in E; injection E as <-; reflexivity|].
  destruct H as (_ & _ & _ & Hm & _). exact (Hm _ _ eq_refl).
Defined.

Definition lb_record : Record_ :=
  {| rec_Type := TypeLB; rec_Name := "bar.test.home.arpa."; rec_LiteralValue := example_LB;
     rec_Value := Some (ValLB {| lb_Listeners := ["foo:8000"]; lb_Kind := "tcp"; lb_Backends := ["127.0.0.1:8001"];
       lb_SimultaneousConnections := 16384; lb_MaxConnectionsPerAddress := 32768; lb_ConnectionTimeout := 0;
       lb_TTL := 60; lb_TLS := None; lb_HealthCheck := [] |}) |}.
Definition lb_heap : Heap := {[ 1%positive := {| z_SOA := None; z_NS := None; z_Records := [lb_record] |} ]}.

Lemma LB_query_fatal_witness :
  exists msg, ServeDNS lb_heap example_server (query "bar.test.home.arpa." dns_TypeA) = Fatal msg.
Proof.
  eapply (LB_query_fatal lb_heap example_server _ _ [] 1%positive _ 0 lb_record _ "foo:8000");
    try reflexivity; try done.
  - by repeat constructor.
  - by left.
Defined.

Lemma Save_hides_records_witness :
  exists h' c' m, trimZones (MR := canonical_range) example_heap example_config = Ok (h', c') /\
    ServeDNS h' example_server (query "foo.test.home.arpa." dns_TypeA) = Ok m /\ msg_Rcode m = RcodeNameError.
Proof.
  destruct (trimZones (MR := canonical_range) example_heap example_config) as [[h' c']| | |] eqn:E;
    [|vm_compute in E; discriminate E..].
  destruct (@Save_hides_records _ canonical_range unit example_heap h' example_config c' example_server
    (query "foo.test.home.arpa." dns_TypeA) _ [] example_zones_ok example_dotted eq_refl E eq_refl) as (m & H1 & H2 & _).
  - by apply dotted_dec.
  - done.
  - done.
  - exists h', c', m. split; [reflexivity|]. split; [exact H1|exact H2].
Defined.
