(* ===== verification/Balancer.v ===== *)
(** * Component: the load balancer (pkg/lb/lb.go, tcp.go, http.go)

    The pool of backends with its connection counts, the choice of a backend,
    the TCP forwarder as a step relation that interleaves the forwarding
    goroutine with the ends of connections, the queue of accepted connections
    before it, the HTTP proxy's treatment of requests and its counts.  [backendAddresses] is Go's [map[string]struct{}]; ranging over it
    takes an arbitrary order.  Certificates are parsed by encoding/pem and
    crypto/tls, the class [TlsLib]. *)

From S2P Require Import Prelude GoNet.

Local Open Scope Z_scope.

Definition BalanceTCP : string := "tcp".
Definition BalanceHTTP : string := "http".

Record TLSBalancerConfig := { CACertificate : list Z; Certificate : list Z; tls_PrivateKey : list Z }.

Record BalancerConfig := {
  bc_Kind : string;
  bc_Backends : list string;
  bc_SimultaneousConnections : Z;
  bc_MaxConnectionsPerAddress : Z;
  bc_ConnectionTimeout : Z;
  bc_TLS : option TLSBalancerConfig
}.

(** [tls.Certificate]: the chain, leaf first. *)
Notation TLSConfig := (list (list Z)).

Class TlsLib := {
  pem_Decode : list Z -> option (list Z);
  X509KeyPair : list Z -> list Z -> outcome TLSConfig
}.

Record Balancer := mkBalancer {
  listenSpec : string;
  listenerIP : string;
  kind : string;
  backendAddresses : gmap string unit;
  backendConns : gmap string Z;
  connBuffer : Z;
  maxConns : Z;
  timeout : Z;
  tlsConfig : option TLSConfig
}.

Definition set_pool (addrs : gmap string unit) (conns : gmap string Z) (b : Balancer) : Balancer :=
  mkBalancer (listenSpec b) (listenerIP b) (kind b) addrs conns (connBuffer b) (maxConns b) (timeout b) (tlsConfig b).
Definition set_conns (conns : gmap string Z) (b : Balancer) : Balancer := set_pool (backendAddresses b) conns b.

(** [b.backendConns[addr]], 0 when there is no entry. *)
Definition count (b : Balancer) (addr : string) : Z := default 0 (backendConns b !! addr).

(** A nil and an empty [CACertificate] are both [[]]; the one in a loaded record is
    always nil, since no literal sets it ([LiteralParse.ca_certificate_ignored]). *)
Definition makeTLSConfig `{TlsLib} (config : BalancerConfig) : outcome (option TLSConfig) :=
  match bc_TLS config with
  | None => Ok None
  | Some tls =>
      cacert ← match CACertificate tls with
               | [] => Ok None
               | pem => match pem_Decode pem with
                        | Some block => Ok (Some block)
                        | None => Fatal "Could not parse CA certificate as provided, is it formatted correctly?"
                        end
               end;
      cert ← match X509KeyPair (Certificate tls) (tls_PrivateKey tls) with
             | Err _ => Fatal "Could not load TLS certificate pair: %v"
             | o => o
             end;
      Ok (Some (match cacert with Some ca => cert ++ [ca] | None => cert end))
  end.

Definition Init `{TlsLib} (spec : string) (config : BalancerConfig) : outcome Balancer :=
  let '(conns, addrs) :=
    foldl (fun '(conns, addrs) addr => (<[addr := 0]> conns, <[addr := tt]> addrs)) (∅, ∅) (bc_Backends config) in
  match SplitHostPort spec with
  | Ok (host, _) =>
      tls ← makeTLSConfig config;
      Ok (mkBalancer spec host (bc_Kind config) addrs conns (bc_SimultaneousConnections config)
            (bc_MaxConnectionsPerAddress config) (bc_ConnectionTimeout config) tls)
  | Err _ => Fatal "Invalid address in listener %q: %v"
  | Panic => Panic
  | Fatal m => Fatal m
  end.

(** [Start]: [listen] is what [net.Listen]/[tls.Listen] returns, [served] what
    the goroutine reports. *)
Definition balancer_Start (b : Balancer) (listen served : option error) : outcome unit :=
  match listen with
  | Some e => Err (Wrapf "Error enabling load balancer: %w" [] e)
  | None =>
      if bool_decide (kind b = BalanceTCP) || bool_decide (kind b = BalanceHTTP) then
        match served with Some e => Err e | None => Ok tt end
      else Err (Errorf "Balancer type %q is unsupported" [kind b])
  end.

Section balancer.
Context `{MR : MapRange}.

(** One iteration of [getLowestBalancer]. *)
Definition lower (b : Balancer) (st : string * Z) (addr : string) : string * Z :=
  let '(lowestAddr, lowestCount) := st in
  let c := count b addr in
  if bool_decide (lowestAddr = "") && (c <? maxConns b) then (addr, c)
  else if (c <? maxConns b) && (c <=? lowestCount) then (addr, c)
  else (lowestAddr, lowestCount).

Definition getLowestBalancer (b : Balancer) : string :=
  (foldl (lower b) ("", 0) (range (backendAddresses b)).*1).1.

(** [decrementCount] once its context is done. *)
Definition decrementCount (b : Balancer) (addr : string) : Balancer :=
  match backendConns b !! addr with
  | Some n => set_conns (<[addr := n - 1]> (backendConns b)) b
  | None => b
  end.

(** [b.backendConns[addr]++] *)
Definition increment (b : Balancer) (addr : string) : Balancer :=
  set_conns (<[addr := count b addr + 1]> (backendConns b)) b.

(** The pool without a backend that could not be dialled. *)
Definition remove_backend (b : Balancer) (addr : string) : Balancer :=
  set_pool (delete addr (backendAddresses b)) (delete addr (backendConns b)) b.

(** The [retry] loop of [forwardTCPConn] for one connection when no other
    goroutine runs: the balancer and the backend the connection went to, [None]
    when [fuel] rounds were not enough. *)
Fixpoint forward (fuel : nat) (dial : string -> bool) (b : Balancer) : Balancer * option string :=
  match fuel with
  | O => (b, None)
  | S fuel' =>
      let lowestAddr := getLowestBalancer b in
      if bool_decide (lowestAddr = "") then forward fuel' dial b
      else
        let b' := increment b lowestAddr in
        if dial lowestAddr then (b', Some lowestAddr)
        else forward fuel' dial (remove_backend b' lowestAddr)
  end.

(** ** The HTTP proxy *)

(** [textproto.CanonicalMIMEHeaderKey]: a name made of token characters gets an
    upper-case letter at its start and after each hyphen, lower case elsewhere;
    any other name is returned as it is. *)
Definition is_upper (c : ascii) : bool := (65 <=? code c) && (code c <=? 90).
Definition is_lower (c : ascii) : bool := (97 <=? code c) && (code c <=? 122).
Definition is_token (c : ascii) : bool :=
  is_upper c || is_lower c || is_digit c ||
  bool_decide (c ∈ chars "!#$%&'*+-.^_`|~").
Definition shift (c : ascii) (d : Z) : ascii := ascii_of_N (Z.to_N (code c + d)).
Fixpoint canonical_chars (upper : bool) (l : list ascii) : list ascii :=
  match l with
  | [] => []
  | c :: l' =>
      (if upper && is_lower c then shift c (-32) else if negb upper && is_upper c then shift c 32 else c)
      :: canonical_chars (Ascii.eqb c "-") l'
  end.
Definition CanonicalHeaderKey (key : string) : string :=
  if forallb is_token (chars key) then str (canonical_chars true (chars key)) else key.

(** The header loop of [serveHTTP]: one header. *)
Definition forward_header (ip : string) (e : string * list string) (headers : gmap string (list string)) :
    outcome (gmap string (list string)) :=
  let '(header, values) := e in
  if bool_decide (CanonicalHeaderKey header = CanonicalHeaderKey "x-forwarded-for") then
    match values with
    | _ :: _ :: _ => Err (errors_New "Multiple X-Forwarded-For headers; failing this connection")
    | [] => Ok (<[header := [ip]]> headers)
    | [v] => Ok (<[header := [Join_strings (Split_string v "," ++ [ip]) ","]]> headers)
    end
  else Ok (<[header := values]> headers).

Definition forward_headers (ip : string) (headers : gmap string (list string)) : outcome (gmap string (list string)) :=
  for_each (forward_header ip) (range headers) ∅.

(** What the client receives. *)
Record Response := { status : Z; body : string }.
Definition http_Error (msg : string) : Response := {| status := 500; body := msg |}.

(** What the request to the backend came to: an error, or a status with what was
    copied of the body and the error that ended the copy. *)
Inductive exchange :=
| Failed_request (e : error)
| Answered (code : Z) (copied : string) (err : option error).

(** [net.ErrClosed] *)
Definition ErrClosed : error := errors_New "use of closed network connection".

(** [serveHTTP]: [cancelled] says whether the balancer's context is done, [Do addr
    headers] is the request to the backend; [None] while every backend is at its
    limit (the handler then retries).  A status is sent with the first byte of the
    body, so an error after that leaves it 200; a handler that writes nothing
    sends 200 and an empty body. *)
Definition serveHTTP (cancelled : bool) (b : Balancer) (headers : gmap string (list string))
    (Do : string -> gmap string (list string) -> exchange) : option Response :=
  match forward_headers (listenerIP b) headers with
  | Ok out =>
      let lowestAddr := getLowestBalancer b in
      if cancelled then Some {| status := 200; body := "" |}
      else if bool_decide (lowestAddr = "") then None
      else
        match Do lowestAddr out with
        | Failed_request _ => Some (http_Error "Proxy error: %v")
        | Answered code copied err =>
            if bool_decide (code <> 200) then Some {| status := code; body := "" |}
            else
              match err with
              | Some e =>
                  if errors_Is e ErrClosed then Some {| status := 200; body := copied |}
                  else Some {| status := if bool_decide (copied = "") then 500 else 200;
                               body := copied +:+ "Early close in body copy: %v" |}
              | None => Some {| status := 200; body := copied |}
              end
        end
  | _ => Some (http_Error "Multiple X-Forwarded-For headers; failing this connection")
  end.

(** ** All interleavings of the HTTP balancer

    A handler picks a backend under the read lock and then waits for its request
    ([waiting], by backend).  The transport either serves it on a kept-alive
    connection or calls [dialContext] ([dialed]).  While the request lasts the
    client may dial again, for the target of a redirect, which it follows (there is
    no [CheckRedirect]), or in place of a kept-alive connection that turned out to
    be dead; this may be any address at any time, and it also goes through
    [dialContext] ([redialed]).  Every dial counts the address it dials; the count
    goes down when the context of the request is done, although the transport may
    keep the connection for other requests. *)

(** net/http's [canonicalAddr] of [http://addr], for an ASCII host. *)
Definition canonicalAddr (addr : string) : string :=
  match SplitHostPort addr with
  | Ok (host, port) => JoinHostPort host (if bool_decide (port = "") then "80" else port)
  | _ => JoinHostPort addr "80"
  end.

Record HTTP := mkHTTP { hbal : Balancer; waiting : list string; dialed : list string; redialed : list string }.

(** [dialContext] up to the dial itself. *)
Definition dialContext (b : Balancer) (addr : string) : Balancer := increment b addr.

Inductive http_step : HTTP -> HTTP -> Prop :=
| http_choose b wt dl rd :
    getLowestBalancer b <> "" ->
    http_step (mkHTTP b wt dl rd) (mkHTTP b (getLowestBalancer b :: wt) dl rd)
| http_dial b wt1 addr wt2 dl rd :
    http_step (mkHTTP b (wt1 ++ addr :: wt2) dl rd)
              (mkHTTP (dialContext b (canonicalAddr addr)) (wt1 ++ wt2) (canonicalAddr addr :: dl) rd)
| http_reuse b wt1 addr wt2 dl rd :
    http_step (mkHTTP b (wt1 ++ addr :: wt2) dl rd) (mkHTTP b (wt1 ++ wt2) dl rd)
| http_redial b wt dl rd addr :
    http_step (mkHTTP b wt dl rd) (mkHTTP (dialContext b addr) wt dl (addr :: rd))
| http_done b wt dl1 addr dl2 rd :
    http_step (mkHTTP b wt (dl1 ++ addr :: dl2) rd) (mkHTTP (decrementCount b addr) wt (dl1 ++ dl2) rd)
| http_redial_done b wt dl rd1 addr rd2 :
    http_step (mkHTTP b wt dl (rd1 ++ addr :: rd2)) (mkHTTP (decrementCount b addr) wt dl (rd1 ++ rd2)).

(** [BalanceHTTP] has started. *)
Definition http_initial (b : Balancer) : HTTP := mkHTTP b [] [] [].

(** ** All interleavings of the TCP balancer

    The forwarder picks a backend under the read lock ([chosen]) and counts and
    dials under the write lock; in between, and at any other time, the context of a
    connection in service ([active], by backend) may be done: a copy ended, the
    timeout passed or the balancer was shut down.  That wakes two goroutines, which
    run in any order: [decrementCount] ([counting] are the connections it has yet to
    do) and the backend's [closeConn] ([closing] are the connections it has yet to
    close). *)
Record TCP := mkTCP {
  bal : Balancer;
  chosen : option string;
  active : list string;
  counting : list string;
  closing : list string
}.

Inductive step : TCP -> TCP -> Prop :=
| step_choose b act cnt cls :
    getLowestBalancer b <> "" ->
    step (mkTCP b None act cnt cls) (mkTCP b (Some (getLowestBalancer b)) act cnt cls)
| step_retry b act cnt cls :
    getLowestBalancer b = "" ->
    step (mkTCP b None act cnt cls) (mkTCP b None act cnt cls)
| step_dialed b addr act cnt cls :
    step (mkTCP b (Some addr) act cnt cls) (mkTCP (increment b addr) None (addr :: act) cnt cls)
| step_refused b addr act cnt cls :
    step (mkTCP b (Some addr) act cnt cls) (mkTCP (remove_backend (increment b addr) addr) None act cnt cls)
| step_done b ch addr act1 act2 cnt cls :
    step (mkTCP b ch (act1 ++ addr :: act2) cnt cls) (mkTCP b ch (act1 ++ act2) (addr :: cnt) (addr :: cls))
| step_decrement b ch addr act cnt1 cnt2 cls :
    step (mkTCP b ch act (cnt1 ++ addr :: cnt2) cls) (mkTCP (decrementCount b addr) ch act (cnt1 ++ cnt2) cls)
| step_close b ch addr act cnt cls1 cls2 :
    step (mkTCP b ch act cnt (cls1 ++ addr :: cls2)) (mkTCP b ch act cnt (cls1 ++ cls2)).

Definition initial (b : Balancer) : TCP := mkTCP b None [] [] [].

(** The connections to backends whose sockets are open. *)
Definition open_conns (s : TCP) : list string := active s ++ closing s.

(** ** The way of a connection through [dispatchTCP]

    [acceptTCPConns] puts what it accepts in a channel of [connBuffer] places,
    from which [forwardTCPConn] takes one connection at a time. *)

(** [make(chan net.Conn, b.connBuffer)] *)
Definition dispatchTCP (b : Balancer) : outcome (list nat) :=
  if bool_decide (connBuffer b < 0) then Panic else Ok [].

Record Pipe := mkPipe {
  accepted : list nat;      (** what [Accept] has returned, in order *)
  held : option nat;        (** what [acceptTCPConns] is sending *)
  queue : list nat;         (** the buffer of the channel *)
  current : option nat;     (** what [forwardTCPConn] has received *)
  connected : list nat;     (** what has been connected to a backend, in order *)
  listening : bool;
  cancelled : bool;
  accepting : bool;         (** [acceptTCPConns] has not returned *)
  forwarding : bool         (** [forwardTCPConn] has not returned *)
}.

Inductive pipe_step (b : Balancer) : Pipe -> Pipe -> Prop :=
| pipe_accept c acc q cur fwd ca fw :
    pipe_step b (mkPipe acc None q cur fwd true ca true fw) (mkPipe (acc ++ [c]) (Some c) q cur fwd true ca true fw)
| pipe_send c acc q cur fwd li ca ac fw :
    Z.of_nat (length q) < connBuffer b ->
    pipe_step b (mkPipe acc (Some c) q cur fwd li ca ac fw) (mkPipe acc None (q ++ [c]) cur fwd li ca ac fw)
| pipe_handover c acc fwd li ca ac :
    pipe_step b (mkPipe acc (Some c) [] None fwd li ca ac true) (mkPipe acc None [] (Some c) fwd li ca ac true)
| pipe_receive c acc hd q fwd li ca ac :
    pipe_step b (mkPipe acc hd (c :: q) None fwd li ca ac true) (mkPipe acc hd q (Some c) fwd li ca ac true)
| pipe_forward c acc hd q fwd li ca ac fw :
    pipe_step b (mkPipe acc hd q (Some c) fwd li ca ac fw) (mkPipe acc hd q None (fwd ++ [c]) li ca ac fw)
| pipe_Shutdown acc hd q cur fwd li ca ac fw :
    pipe_step b (mkPipe acc hd q cur fwd li ca ac fw) (mkPipe acc hd q cur fwd li true ac fw)
| pipe_monitorListen acc hd q cur fwd li ac fw :
    pipe_step b (mkPipe acc hd q cur fwd li true ac fw) (mkPipe acc hd q cur fwd false true ac fw)
| pipe_accept_closed acc q cur fwd ca fw :
    pipe_step b (mkPipe acc None q cur fwd false ca true fw) (mkPipe acc None q cur fwd false ca false fw)
| pipe_forward_done acc hd q fwd li ac :
    pipe_step b (mkPipe acc hd q None fwd li true ac true) (mkPipe acc hd q None fwd li true ac false).

(** [BalanceTCP] has started. *)
Definition pipe_initial : Pipe := mkPipe [] None [] None [] true false true true.

(** How many of the connections go to a backend. *)
Definition conns_to (addr : string) (act : list string) : Z := Z.of_nat (length (filter (fun a => a = addr) act)).
End balancer.
