(* ===== verification/BalancerSafety.v ===== *)
(** * The load balancer: choice, limits and liveness of the TCP forwarder *)

From S2P Require Import Prelude GoNet Balancer.

Local Open Scope Z_scope.

Section balancer.
Context `{MR : MapRange}.

(** No backend has the empty address. *)
Definition pool_ok (b : Balancer) : Prop := backendAddresses b !! "" = None.

Definition in_pool (b : Balancer) (addr : string) : Prop := is_Some (backendAddresses b !! addr).

Lemma elem_of_pool b addr : addr ∈ (range (backendAddresses b)).*1 <-> in_pool b addr.
Proof.
  unfold in_pool. rewrite list_elem_of_fmap. split.
  - intros ([a u] & -> & ?%elem_of_range). by exists u.
  - intros [u ?%elem_of_range]. by exists (addr, u).
Qed.

(** What the loop knows after visiting the backends in [l]. *)
Definition lowest_of (b : Balancer) (l : list string) (st : string * Z) : Prop :=
  (st.1 = "" /\ forall x, x ∈ l -> maxConns b <= count b x) \/
  (st.1 <> "" /\ st.1 ∈ l /\ st.2 = count b st.1 /\ count b st.1 < maxConns b /\
   forall x, x ∈ l -> count b x < maxConns b -> count b st.1 <= count b x).

Lemma lower_loop b todo : forall l st,
  "" ∉ todo -> lowest_of b l st -> lowest_of b (l ++ todo) (foldl (lower b) st todo).
Proof.
  induction todo as [|x todo IH]; intros l st Hne Hst; [by rewrite app_nil_r|].
  rewrite not_elem_of_cons in Hne. destruct Hne as [Hx Hne]. cbn [foldl].
  rewrite (cons_middle x), app_assoc. apply IH; [done|]. destruct st as [a c]. unfold lower, lowest_of in *. simpl in Hst.
  destruct Hst as [[-> Hall]|(Ha & Hin & -> & Hlt & Hmin)].
  - rewrite bool_decide_eq_true_2 by done. destruct (Z.ltb_spec (count b x) (maxConns b)); simpl.
    + right. split_and!; [done|set_solver|done|done|]. intros y [Hy| ->%list_elem_of_singleton]%elem_of_app Hc; [|lia].
      specialize (Hall _ Hy). lia.
    + left. split; [done|]. intros y [Hy| ->%list_elem_of_singleton]%elem_of_app; auto.
  - rewrite bool_decide_eq_false_2 by done. simpl.
    destruct (Z.ltb_spec (count b x) (maxConns b)), (Z.leb_spec (count b x) (count b a)); simpl; right.
    + split_and!; [done|set_solver|done|done|]. intros y [Hy| ->%list_elem_of_singleton]%elem_of_app Hc; [|lia].
      specialize (Hmin _ Hy Hc). lia.
    + split_and!; [done|set_solver|done|done|]. intros y [Hy| ->%list_elem_of_singleton]%elem_of_app Hc; [auto|lia].
    + split_and!; [done|set_solver|done|done|]. intros y [Hy| ->%list_elem_of_singleton]%elem_of_app Hc; [auto|lia].
    + split_and!; [done|set_solver|done|done|]. intros y [Hy| ->%list_elem_of_singleton]%elem_of_app Hc; [auto|lia].
Qed.

Lemma getLowest_cases b :
  pool_ok b ->
  (getLowestBalancer b = "" /\ forall x, in_pool b x -> maxConns b <= count b x) \/
  (getLowestBalancer b <> "" /\ in_pool b (getLowestBalancer b) /\ count b (getLowestBalancer b) < maxConns b /\
   forall x, in_pool b x -> count b x < maxConns b -> count b (getLowestBalancer b) <= count b x).
Proof.
  intros Hp. unfold getLowestBalancer.
  assert (lowest_of b [] ("", 0)) as H0 by (left; split; [done|set_solver]).
  apply (lower_loop b (range (backendAddresses b)).*1) in H0.
  2: { rewrite elem_of_pool. intros [u Hu]. unfold pool_ok in Hp. congruence. }
  destruct (foldl _ _ _) as [a c]. unfold lowest_of in H0. cbn [fst snd app] in *.
  destruct H0 as [[E Hall]|(Ha & Hin & _ & Hlt & Hmin)]; [left|right].
  - split; [done|]. intros x Hx%elem_of_pool. auto.
  - split_and!; [done|by apply elem_of_pool|done|]. intros x Hx%elem_of_pool. auto.
Qed.

(** C10. The choice of a backend: for every iteration order, [getLowestBalancer]
    returns a backend of the pool that is below the limit and has the fewest
    connections of all that are, and the empty string exactly when every backend
    has reached the limit. *)
Theorem getLowestBalancer_spec (b : Balancer) :
  pool_ok b ->
  (getLowestBalancer b = "" <-> forall x, in_pool b x -> maxConns b <= count b x) /\
  (getLowestBalancer b <> "" ->
     in_pool b (getLowestBalancer b) /\ count b (getLowestBalancer b) < maxConns b /\
     forall x, in_pool b x -> count b x < maxConns b -> count b (getLowestBalancer b) <= count b x).
Proof.
  intros Hp. destruct (getLowest_cases b Hp) as [[E Hall]|(Hne & Hin & Hlt & Hmin)].
  - split; [done|]. intros Hne. by destruct Hne.
  - split; [|done]. split; [done|]. intros Hall. specialize (Hall _ Hin). lia.
Qed.

(** ** The limit holds in every interleaving *)

(** Counts are kept exactly for the backends of the pool, and they are the
    numbers of connections in [l]. *)
Record counted (b : Balancer) (l : list string) : Prop := {
  counted_dom : forall a, is_Some (backendConns b !! a) <-> in_pool b a;
  counted_conns : forall a n, backendConns b !! a = Some n -> n = conns_to a l
}.

(** The connections that are counted: in service, or over and not yet taken off
    the count. *)
Definition counted_conns_of (s : TCP) : list string := active s ++ counting s.

Record Inv (max : Z) (s : TCP) : Prop := {
  inv_max : maxConns (bal s) = max;
  inv_pool : pool_ok (bal s);
  inv_counted : counted (bal s) (counted_conns_of s);
  inv_limit : forall a, conns_to a (counted_conns_of s) <= max;
  inv_chosen : forall a, chosen s = Some a -> in_pool (bal s) a /\ conns_to a (counted_conns_of s) < max
}.

Lemma conns_to_cons a x act : conns_to a (x :: act) = (if bool_decide (x = a) then 1 else 0) + conns_to a act.
Proof. unfold conns_to. rewrite filter_cons. case_decide; case_bool_decide; try done; simpl; lia. Qed.

Lemma conns_to_app a act1 act2 : conns_to a (act1 ++ act2) = conns_to a act1 + conns_to a act2.
Proof. unfold conns_to. rewrite filter_app, length_app. lia. Qed.

Lemma conns_to_remove a x act1 act2 :
  conns_to a (act1 ++ act2) = conns_to a (act1 ++ x :: act2) - (if bool_decide (x = a) then 1 else 0).
Proof. rewrite !conns_to_app, conns_to_cons. lia. Qed.

Lemma count_in_pool b l a : counted b l -> in_pool b a -> count b a = conns_to a l.
Proof. intros [Hd Hc] [n Hn]%Hd. unfold count. rewrite Hn. simpl. by apply Hc. Qed.

Lemma increment_counted b a l : in_pool b a -> counted b l -> counted (increment b a) (a :: l).
Proof.
  intros Hin Hcd. pose proof (count_in_pool b l a Hcd Hin) as Hn. destruct Hcd as [Hd Hc].
  split; cbn [increment set_conns set_pool backendConns].
  - intros x. change (in_pool (increment b a) x) with (in_pool b x). rewrite <- Hd.
    destruct (decide (a = x)) as [->|Hne]; [|by rewrite lookup_insert_ne].
    rewrite lookup_insert_eq. split; [by rewrite Hd|by eexists].
  - intros x n. rewrite conns_to_cons. intros [[-> <-]|[Hne Hx]]%lookup_insert_Some.
    + rewrite bool_decide_eq_true_2 by done. lia.
    + rewrite bool_decide_eq_false_2 by done. rewrite (Hc x n Hx). lia.
Qed.

Lemma decrement_same b a :
  backendAddresses (decrementCount b a) = backendAddresses b /\ maxConns (decrementCount b a) = maxConns b.
Proof. unfold decrementCount. by destruct (backendConns b !! a). Qed.

Lemma decrement_counted b a l1 l2 : counted b (l1 ++ a :: l2) -> counted (decrementCount b a) (l1 ++ l2).
Proof.
  intros [Hd Hc]. destruct (decrement_same b a) as [Ea _]. split.
  - intros x. unfold in_pool. rewrite Ea. fold (in_pool b x). rewrite <- Hd.
    unfold decrementCount. destruct (backendConns b !! a) as [n|] eqn:En; [|done]. cbn.
    destruct (decide (a = x)) as [->|Hne]; [rewrite lookup_insert_eq, En; by split; eauto|by rewrite lookup_insert_ne].
  - intros x n. rewrite (conns_to_remove x a). unfold decrementCount. destruct (backendConns b !! a) as [m|] eqn:En; cbn.
    + intros [[<- <-]|[Hne Hn]]%lookup_insert_Some.
      * rewrite bool_decide_eq_true_2 by done. rewrite (Hc a m En). lia.
      * rewrite bool_decide_eq_false_2 by done. rewrite (Hc x n Hn). lia.
    + intros Hn. rewrite bool_decide_eq_false_2 by congruence. rewrite (Hc x n Hn). lia.
Qed.

Lemma remove_counted b a l : counted b l -> counted (remove_backend (increment b a) a) l.
Proof.
  intros [Hd Hc]. split; cbn [remove_backend increment set_conns set_pool backendConns].
  - intros x. unfold in_pool. cbn. destruct (decide (a = x)) as [->|Hne].
    + rewrite !lookup_delete_eq. done.
    + rewrite !lookup_delete_ne, lookup_insert_ne by done. apply Hd.
  - intros x n [Hne Hn]%lookup_delete_Some. rewrite lookup_insert_ne in Hn by done. by apply Hc.
Qed.

(** Only the numbers of connections matter. *)
Lemma counted_same b l1 l2 : (forall a, conns_to a l1 = conns_to a l2) -> counted b l1 -> counted b l2.
Proof. intros E [Hd Hc]. split; [done|]. intros a n Hn. rewrite <- E. by apply Hc. Qed.

Lemma done_same a x act1 act2 cnt :
  conns_to a ((act1 ++ x :: act2) ++ cnt) = conns_to a ((act1 ++ act2) ++ x :: cnt).
Proof. rewrite !conns_to_app, !conns_to_cons. lia. Qed.

Lemma step_Inv max s s' : step s s' -> Inv max s -> Inv max s'.
Proof.
  intros Hs [Hm Hp Hcd Hl Hch]. unfold counted_conns_of in *.
  destruct Hs as [b act cnt cls Hne|b act cnt cls He|b addr act cnt cls|b addr act cnt cls|b ch addr act1 act2 cnt cls
                 |b ch addr act cnt1 cnt2 cls|b ch addr act cnt cls1 cls2]; cbn [bal active chosen counting] in *.
  - destruct (getLowest_cases b Hp) as [[? _]|(_ & Hin & Hlt & _)]; [done|].
    constructor; try done. intros a [= <-]. split; [done|].
    unfold counted_conns_of. cbn [active counting].
    rewrite <- (count_in_pool b (act ++ cnt) (getLowestBalancer b)) by done. lia.
  - by constructor.
  - destruct (Hch addr eq_refl) as [Hin Hlt]. constructor; try done.
    + by apply (increment_counted b addr (act ++ cnt)).
    + intros a. change (conns_to a (addr :: act ++ cnt) <= max). rewrite conns_to_cons. specialize (Hl a). case_bool_decide; subst; lia.
  - constructor; try done; [|by apply remove_counted].
    unfold pool_ok. cbn. destruct (decide (addr = "")) as [->|Hne]; [apply lookup_delete_eq|by rewrite lookup_delete_ne].
  - constructor; try done; unfold counted_conns_of; cbn [bal active chosen counting].
    + eapply counted_same, Hcd. intros a. apply done_same.
    + intros a. rewrite <- done_same. apply Hl.
    + intros a Ha. rewrite <- done_same. by apply Hch.
  - destruct (decrement_same b addr) as [Ea Em].
    constructor; unfold counted_conns_of; cbn [bal active chosen counting]; unfold pool_ok, in_pool; rewrite ?Ea, ?Em; try done;
      rewrite app_assoc in *.
    + by apply decrement_counted.
    + intros a. rewrite (conns_to_remove a addr). specialize (Hl a). case_bool_decide; lia.
    + intros a Ha. destruct (Hch a Ha) as [Hin Hlt]. rewrite (conns_to_remove a addr). split; [done|]. case_bool_decide; lia.
  - by constructor.
Qed.

Lemma Init_pool `{TlsLib} spec config b :
  Init spec config = Ok b ->
  maxConns b = bc_MaxConnectionsPerAddress config /\
  forall a, (in_pool b a <-> a ∈ bc_Backends config) /\
            backendConns b !! a = (if bool_decide (a ∈ bc_Backends config) then Some 0 else None).
Proof.
  unfold Init.
  assert (forall l (conns : gmap string Z) (addrs : gmap string unit), (forall a, (is_Some (addrs !! a) <-> is_Some (conns !! a)) /\ (forall n, conns !! a = Some n -> n = 0)) ->
    let '(conns', addrs') := foldl (fun '(conns, addrs) addr => (<[addr := 0]> conns, <[addr := tt]> addrs)) (conns, addrs) l in
    forall a, (is_Some (addrs' !! a) <-> a ∈ l \/ is_Some (addrs !! a)) /\
              (is_Some (conns' !! a) <-> a ∈ l \/ is_Some (addrs !! a)) /\ (forall n, conns' !! a = Some n -> n = 0)) as Hloop.
  { induction l as [|x l IH]; intros conns addrs Hz; cbn [foldl].
    { intros a. destruct (Hz a) as [Ha Hn]. split_and!; [set_solver|rewrite <- Ha; set_solver|done]. }
    specialize (IH (<[x := 0]> conns) (<[x := tt]> addrs)). destruct (foldl _ _ l) as [conns' addrs'].
    assert (forall a, is_Some (<[x:=tt]> addrs !! a) <-> x = a \/ is_Some (addrs !! a)) as Hins.
    { intros a. apply lookup_insert_is_Some'. }
    intros a. destruct (IH ltac:(
      intros a0; destruct (Hz a0) as [Ha Hn]; split;
        [rewrite !lookup_insert_is_Some'; tauto|intros n [[_ <-]|[_ ?]]%lookup_insert_Some; auto]) a) as (H1 & H2 & H3).
    rewrite H1, H2, Hins, elem_of_cons. split_and!; [|..|done]; intuition congruence. }
  specialize (Hloop (bc_Backends config) ∅ ∅). destruct (foldl _ _ _) as [conns addrs].
  destruct (SplitHostPort spec) as [[host port]|?| |?]; try done. intros (tls & _ & [= <-])%bind_ok. split; [done|].
  intros a. destruct (Hloop ltac:(intros a0; split; [by rewrite !lookup_empty|by intros n; rewrite lookup_empty]) a) as (H1 & H2 & H3).
  unfold in_pool. cbn. rewrite H1. rewrite lookup_empty in *. split; [naive_solver|].
  case_bool_decide as Hb.
  - destruct (proj2 H2 (or_introl Hb)) as [n Hn]. by rewrite Hn, (H3 n Hn).
  - apply eq_None_not_Some. rewrite H2. naive_solver.
Qed.

Lemma Init_counted `{TlsLib} spec config b : Init spec config = Ok b -> counted b [].
Proof.
  intros [_ Hp]%Init_pool. split.
  - intros a. destruct (Hp a) as [-> ->]. case_bool_decide; split; try done; intros [? [=]].
  - intros a n. destruct (Hp a) as [_ ->]. case_bool_decide; naive_solver.
Qed.

Lemma Init_Inv `{TlsLib} spec config b :
  Init spec config = Ok b -> "" ∉ bc_Backends config -> 0 <= bc_MaxConnectionsPerAddress config ->
  Inv (bc_MaxConnectionsPerAddress config) (initial b).
Proof.
  intros Hi Hne Hmax. pose proof (Init_pool _ _ _ Hi) as [Hm Hp]. constructor; cbn [initial bal active chosen]; try done.
  - unfold pool_ok. apply eq_None_not_Some. by intros ?%Hp.
  - by eapply Init_counted.
Qed.

Lemma rtc_Inv max s s' : rtc step s s' -> Inv max s -> Inv max s'.
Proof. induction 1; eauto using step_Inv. Qed.

(** C4. The connection limit: in every interleaving of the forwarder with the
    goroutines that count and close connections which are over, no backend ever has
    more connections in service (dialled, their context not done) than
    [MaxConnectionsPerAddress], and the count kept for a backend of the pool is
    exactly the number of its connections in service plus those whose
    [decrementCount] has yet to run.  Sockets are another matter: [closeConn] is a
    separate goroutine, so that a connection which is over may still be open when
    its place is taken ([tcp_open_exceeds]). *)
Theorem tcp_connection_limit `{TlsLib} (spec : string) (config : BalancerConfig) (b : Balancer) (s : TCP) :
  Init spec config = Ok b -> "" ∉ bc_Backends config -> 0 <= bc_MaxConnectionsPerAddress config ->
  rtc step (initial b) s ->
  forall a, conns_to a (active s) + conns_to a (counting s) <= bc_MaxConnectionsPerAddress config /\
    (in_pool (bal s) a -> backendConns (bal s) !! a = Some (conns_to a (active s) + conns_to a (counting s))).
Proof.
  intros Hi Hne Hmax Hr a. pose proof (rtc_Inv _ _ _ Hr (Init_Inv _ _ _ Hi Hne Hmax)) as HI.
  rewrite <- conns_to_app. split; [apply (inv_limit _ _ HI)|]. intros Hin. destruct (inv_counted _ _ HI) as [Hd Hc].
  destruct (proj2 (Hd a) Hin) as [n Hn]. by rewrite Hn, (Hc a n Hn).
Qed.

(** ** Progress *)

Lemma remove_pool b a x : in_pool (remove_backend (increment b a) a) x <-> x <> a /\ in_pool b x.
Proof.
  unfold in_pool. cbn. destruct (decide (a = x)) as [->|Hne].
  - rewrite lookup_delete_eq. split; [by intros [? ?]|naive_solver].
  - rewrite lookup_delete_ne by done. naive_solver.
Qed.

Lemma remove_count b a x : x <> a -> count (remove_backend (increment b a) a) x = count b x.
Proof. intros Hne. unfold count. cbn. by rewrite lookup_delete_ne, lookup_insert_ne by done. Qed.

(** C27. A connection is forwarded: when some backend below the limit can be
    dialled, the retry loop ends after at most one round per backend, on a backend
    that could be dialled, having counted the connection there; it removes from
    the pool only backends that could not be dialled, and changes no other count. *)
Theorem forward_progress (dial : string -> bool) (n : nat) (b : Balancer) (good : string) :
  pool_ok b -> in_pool b good -> dial good = true -> count b good < maxConns b ->
  (size (backendAddresses b) <= n)%nat ->
  exists b' addr, forward n dial b = (b', Some addr) /\ dial addr = true /\ in_pool b addr /\
    count b' addr = count b addr + 1 /\ count b addr < maxConns b /\
    (forall x, in_pool b' x -> in_pool b x /\ (x <> addr -> count b' x = count b x)) /\
    (forall x, in_pool b x -> dial x = true -> in_pool b' x).
Proof.
  revert b. induction n as [|n IH]; intros b Hp Hg Hd Hc Hn.
  { destruct Hg as [u Hu]. assert (backendAddresses b = ∅) as E by (apply map_size_empty_inv; lia).
    rewrite E in Hu. done. }
  cbn [forward]. destruct (getLowest_cases b Hp) as [[E Hall]|(Hne & Hin & Hlt & Hmin)].
  { specialize (Hall _ Hg). lia. }
  rewrite bool_decide_eq_false_2 by done. set (a := getLowestBalancer b) in *. destruct (dial a) eqn:Ed.
  { exists (increment b a), a. split_and!; try done; [unfold count at 1; cbn; by rewrite lookup_insert_eq|].
    intros x Hx. split; [done|]. intros Hxa. unfold count at 1. cbn. by rewrite lookup_insert_ne. }
  destruct (IH (remove_backend (increment b a) a)) as (b' & addr & -> & Hd' & Hin' & Hc' & Hlt' & Hpool & Hkeep).
  - unfold pool_ok. apply eq_None_not_Some. intros [_ Hx]%remove_pool. destruct Hx as [u Hu]. unfold pool_ok in Hp. congruence.
  - apply remove_pool. split; [congruence|done].
  - done.
  - rewrite remove_count by congruence. done.
  - cbn. rewrite map_size_delete_Some by done. lia.
  - apply remove_pool in Hin' as [Hna Hin']. rewrite remove_count in Hc', Hlt' by done. exists b', addr. split_and!; try done.
    + intros x Hx. destruct (Hpool x Hx) as [[Hxa Hxp]%remove_pool Hcx]. split; [done|]. intros Hxn.
      rewrite Hcx by done. by apply remove_count.
    + intros x Hx Hdx. apply Hkeep; [|done]. apply remove_pool. split; [congruence|done].
Qed.

Lemma step_pool s s' a : step s s' -> in_pool (bal s') a -> in_pool (bal s) a.
Proof.
  destruct 1; cbn [bal]; try done; [by intros [_ ?]%remove_pool|].
  unfold in_pool. by rewrite (proj1 (decrement_same _ _)).
Qed.

(** C40. Backends never come back: once every backend has been removed from the
    pool (each by a single dial error), no later step of any kind forwards a
    connection; the forwarder retries forever and the open connections can only
    end. *)
Theorem empty_pool_never_forwards (s s' : TCP) :
  (forall a, ~ in_pool (bal s) a) -> chosen s = None -> pool_ok (bal s) -> rtc step s s' ->
  (forall a, ~ in_pool (bal s') a) /\ chosen s' = None /\ sublist (active s') (active s).
Proof.
  intros Hnone Hch Hp Hr. induction Hr as [s|s1 s2 s3 Hs Hr IH]; [done|].
  assert (forall a, ~ in_pool (bal s2) a) as Hnone2 by (intros a Ha; eapply Hnone, step_pool; eauto).
  assert (pool_ok (bal s2)) as Hp2 by (apply eq_None_not_Some, Hnone2).
  destruct Hs as [b act cnt cls Hne|b act cnt cls He|b addr act cnt cls|b addr act cnt cls|b ch addr act1 act2 cnt cls
                 |b ch addr act cnt1 cnt2 cls|b ch addr act cnt cls1 cls2]; cbn [bal chosen active] in *; try done; try by apply IH.
  - destruct (getLowest_cases b Hp) as [[? _]|(_ & Hin & _)]; [done|]. by destruct (Hnone _ Hin).
  - destruct (IH Hnone2 Hch Hp2) as (? & ? & Hsub). split_and!; [done..|]. etrans; [exact Hsub|].
    apply sublist_app; [done|]. by apply sublist_cons.
Qed.
End balancer.

(** ** Examples *)

#[local] Existing Instance canonical_range.
#[local] Instance no_tls : TlsLib := {| pem_Decode _ := None; X509KeyPair _ _ := Err (errors_New "tls") |}.

Definition two_backends : BalancerConfig :=
  {| bc_Kind := BalanceTCP; bc_Backends := ["10.0.0.1:80"; "10.0.0.2:80"]; bc_SimultaneousConnections := 16;
     bc_MaxConnectionsPerAddress := 1; bc_ConnectionTimeout := 0; bc_TLS := None |}.
Definition fresh_balancer : Balancer :=
  match Init "127.0.0.1:8000" two_backends with Ok b => b | _ => mkBalancer "" "" "" ∅ ∅ 0 0 0 None end.

Lemma fresh_pool_ok : pool_ok fresh_balancer.
Proof. reflexivity. Qed.

Lemma getLowestBalancer_spec_witness :
  getLowestBalancer fresh_balancer <> "" /\ count fresh_balancer (getLowestBalancer fresh_balancer) < 1.
Proof.
  assert (getLowestBalancer fresh_balancer <> "") as H by (vm_compute; discriminate).
  split; [exact H|]. exact (proj1 (proj2 (proj2 (getLowestBalancer_spec fresh_balancer fresh_pool_ok) H))).
Defined.

(** Two connections at the limit of one per backend, the first of them over. *)
Definition two_served : TCP :=
  mkTCP (increment (increment fresh_balancer "10.0.0.2:80") "10.0.0.1:80") None ["10.0.0.1:80"] ["10.0.0.2:80"] [].

Lemma two_served_run : rtc step (initial fresh_balancer) two_served.
Proof.
  eapply rtc_l; [apply step_choose; vm_compute; discriminate|].
  change (getLowestBalancer fresh_balancer) with "10.0.0.2:80".
  eapply rtc_l; [apply step_dialed|].
  eapply rtc_l; [apply step_choose; vm_compute; discriminate|].
  change (getLowestBalancer (increment fresh_balancer "10.0.0.2:80")) with "10.0.0.1:80".
  eapply rtc_l; [apply step_dialed|].
  eapply rtc_l; [apply (step_done _ _ "10.0.0.2:80" ["10.0.0.1:80"] [])|].
  eapply rtc_l; [apply (step_close _ _ "10.0.0.2:80" _ _ [] [])|]. apply rtc_refl.
Qed.

Lemma tcp_connection_limit_witness :
  exists s, active s = ["10.0.0.1:80"] /\ counting s = ["10.0.0.2:80"] /\
    conns_to "10.0.0.1:80" (active s) + conns_to "10.0.0.1:80" (counting s) <= 1.
Proof.
  exists two_served. split; [reflexivity|]. split; [reflexivity|].
  apply (tcp_connection_limit "127.0.0.1:8000" two_backends fresh_balancer two_served); [reflexivity|set_solver|done|exact two_served_run].
Defined.

(** More sockets than the limit: with one connection allowed per backend, the
    count of a connection that is over can go down before its socket is closed, and
    a second connection to the same backend is dialled while the first is open. *)
Theorem tcp_open_exceeds :
  exists s, rtc step (initial (remove_backend fresh_balancer "10.0.0.2:80")) s /\
    maxConns (bal s) = 1 /\ conns_to "10.0.0.1:80" (open_conns s) = 2.
Proof.
  eexists. split.
  - eapply rtc_l; [apply step_choose; vm_compute; discriminate|].
    eapply rtc_l; [apply step_dialed|].
    eapply rtc_l; [apply (step_done _ _ _ [] [])|].
    eapply rtc_l; [apply (step_decrement _ _ _ _ [] [])|].
    eapply rtc_l; [apply step_choose; vm_compute; discriminate|].
    eapply rtc_l; [apply step_dialed|]. apply rtc_refl.
  - vm_compute. done.
Qed.

(** Only the second backend is up. *)
Definition one_up (addr : string) : bool := bool_decide (addr = "10.0.0.2:80").

Lemma forward_progress_witness :
  exists b' addr, forward 2 one_up fresh_balancer = (b', Some addr) /\ one_up addr = true.
Proof.
  destruct (forward_progress one_up 2 fresh_balancer "10.0.0.2:80") as (b' & addr & H1 & H2 & _);
    [exact fresh_pool_ok|by eexists|reflexivity|vm_compute; reflexivity|vm_compute; lia|].
  exists b', addr. split; [exact H1|exact H2].
Defined.

Lemma empty_pool_never_forwards_witness :
  let s := mkTCP (set_pool ∅ ∅ fresh_balancer) None ["10.0.0.1:80"; "10.0.0.2:80"] [] [] in
  exists s', rtc step s s' /\ active s' = ["10.0.0.2:80"] /\ chosen s' = None /\ sublist (active s') (active s).
Proof.
  intros s. exists (mkTCP (set_pool ∅ ∅ fresh_balancer) None ["10.0.0.2:80"] ["10.0.0.1:80"] ["10.0.0.1:80"]).
  assert (rtc step s (mkTCP (set_pool ∅ ∅ fresh_balancer) None ["10.0.0.2:80"] ["10.0.0.1:80"] ["10.0.0.1:80"])) as Hr.
  { eapply rtc_l; [apply step_retry; reflexivity|]. eapply rtc_l; [apply (step_done _ _ _ [] ["10.0.0.2:80"])|]. apply rtc_refl. }
  split; [exact Hr|]. split; [reflexivity|].
  apply (empty_pool_never_forwards s _); [|reflexivity|reflexivity|exact Hr].
  intros a [u Hu]. discriminate Hu.
Defined.

(** ** HTTP *)

Definition forwarded (ip key : string) (values : list string) : list string :=
  if bool_decide (CanonicalHeaderKey key = "X-Forwarded-For") then
    match values with v :: _ => [v +:+ "," +:+ ip] | [] => [ip] end
  else values.

Definition ambiguous (key : string) (values : list string) : Prop :=
  CanonicalHeaderKey key = "X-Forwarded-For" /\ (2 <= length values)%nat.

Lemma append_address v ip : Join_strings (Split_string v "," ++ [ip]) "," = v +:+ "," +:+ ip.
Proof.
  rewrite Join_strings_snoc.
  - change "," with (str [","%char]) at 2. by rewrite Join_Split.
  - unfold Split_string. destruct (split_chars _ _ _) eqn:E; [|done]. by apply split_chars_ne in E.
Qed.

Lemma forward_header_spec ip key values acc :
  (ambiguous key values -> exists e, forward_header ip (key, values) acc = Err e) /\
  (~ ambiguous key values -> forward_header ip (key, values) acc = Ok (<[key := forwarded ip key values]> acc)).
Proof.
  unfold forward_header, forwarded, ambiguous. change (CanonicalHeaderKey "x-forwarded-for") with "X-Forwarded-For".
  case_bool_decide as Hk; [|naive_solver]. destruct values as [|v [|v2 vs]].
  - split; [intros [_ Hl]; simpl in Hl; lia|done].
  - split; [intros [_ Hl]; simpl in Hl; lia|]. intros _. by rewrite append_address.
  - split; [by eexists|]. intros Hn. destruct Hn. split; [done|]. simpl. lia.
Qed.

Lemma forward_loop ip l : forall acc,
  NoDup l.*1 ->
  match for_each (forward_header ip) l acc with
  | Ok out => (forall key values, (key, values) ∈ l -> out !! key = Some (forwarded ip key values) /\ ~ ambiguous key values) /\
              (forall key, key ∉ l.*1 -> out !! key = acc !! key)
  | Err _ => exists key values, (key, values) ∈ l /\ ambiguous key values
  | _ => False
  end.
Proof.
  induction l as [|[key values] l IH]; intros acc Hnd; cbn [for_each]; [split; set_solver|].
  rewrite fmap_cons in Hnd. apply NoDup_cons in Hnd as [Hk Hnd].
  destruct (forward_header_spec ip key values acc) as [Hamb Hok].
  destruct (decide (CanonicalHeaderKey key = "X-Forwarded-For" /\ (2 <= length values)%nat)) as [Ha|Ha].
  { destruct (Hamb Ha) as [e ->]. simpl. exists key, values. split; [left|done]. }
  rewrite (Hok Ha). cbn [mbind outcome_bind]. specialize (IH (<[key := forwarded ip key values]> acc) Hnd).
  destruct (for_each _ l _) as [out|e| |]; [|naive_solver set_solver|done..].
  destruct IH as [I1 I2]. split.
  - intros k v [[= -> ->]|Hin]%elem_of_cons; [|auto]. split; [|done]. rewrite I2 by done. apply lookup_insert_eq.
  - intros k Hn. rewrite fmap_cons, not_elem_of_cons in Hn. destruct Hn as [Hne Hn].
    rewrite I2 by done. by apply lookup_insert_ne.
Qed.

(** C32. Proxied headers: when [serveHTTP] accepts the headers of a request, it puts every
    header of the client, with its values unchanged, on the request to the backend,
    except that the single [X-Forwarded-For] value has the listener's address appended
    after a comma, and no other header; it rejects exactly the requests with several
    [X-Forwarded-For] values, for every iteration order.  (The client of net/http adds
    its own headers on sending.) *)
Theorem forward_headers_spec (MR : MapRange) (ip : string) (headers : gmap string (list string)) :
  match forward_headers ip headers with
  | Ok out => out = map_imap (fun key values => Some (forwarded ip key values)) headers /\
              forall key values, headers !! key = Some values -> ~ ambiguous key values
  | Err _ => exists key values, headers !! key = Some values /\ ambiguous key values
  | _ => False
  end.
Proof.
  unfold forward_headers. pose proof (forward_loop ip (range headers) ∅ (range_keys_NoDup headers)) as H.
  destruct (for_each _ _ _) as [out|e| |]; [|by destruct H as (k & v & ?%elem_of_range & ?); eauto|done..].
  destruct H as [H1 H2]. split; [|intros k v ?%elem_of_range; by apply H1].
  apply map_eq. intros k. rewrite map_lookup_imap. destruct (headers !! k) as [v|] eqn:E; simpl.
  - apply elem_of_range in E. by apply H1.
  - rewrite H2; [apply lookup_empty|]. intros ([k' v] & -> & Hin%elem_of_range)%list_elem_of_fmap. simpl in E. congruence.
Qed.
