(* ===== verification/BalancerPipes.v ===== *)
(** * The load balancer: the HTTP balancer's counts and the TCP pipeline

    How far the connection limit holds for the HTTP balancer, whose handlers
    choose and count in separate critical sections, and the order and number of
    the connections on their way through the TCP balancer. *)

From S2P Require Import Prelude GoNet Balancer BalancerSafety.

Local Open Scope Z_scope.

Section http.
Context `{MR : MapRange}.

(** ** The HTTP balancer *)

(** Backends whose name is the address that is dialled. *)
Definition canonical_pool (b : Balancer) : Prop := forall a, in_pool b a -> canonicalAddr a = a.

(** At most [H] handlers are between choosing a backend and dialling it. *)
Definition http_step_upto (H : Z) (s s' : HTTP) : Prop := http_step s s' /\ Z.of_nat (length (waiting s')) <= H.

Lemma count_increment b a x : count (increment b a) x = count b x + (if bool_decide (a = x) then 1 else 0).
Proof.
  unfold count. cbn [increment set_conns set_pool backendConns]. case_bool_decide as E; [subst|].
  - by rewrite lookup_insert_eq.
  - rewrite lookup_insert_ne by done. lia.
Qed.

Lemma count_decrement b a x : 0 < count b a -> count (decrementCount b a) x = count b x - (if bool_decide (a = x) then 1 else 0).
Proof.
  unfold count, decrementCount. intros Hpos. destruct (backendConns b !! a) as [n|] eqn:En; [|done]. cbn.
  case_bool_decide as E; [subst|].
  - by rewrite lookup_insert_eq, En.
  - rewrite lookup_insert_ne by done. lia.
Qed.

(** Every dial of a request in progress is counted, under the address it dialled. *)
Record HInv (max H : Z) (s : HTTP) : Prop := {
  hinv_max : maxConns (hbal s) = max;
  hinv_pool : pool_ok (hbal s);
  hinv_canonical : canonical_pool (hbal s);
  hinv_counted : forall a, count (hbal s) a = conns_to a (dialed s) + conns_to a (redialed s);
  hinv_waiting : forall a, a ∈ waiting s -> in_pool (hbal s) a;
  hinv_sum : forall a, conns_to a (dialed s) + conns_to a (waiting s) <= max - 1 + H
}.

Lemma conns_to_length a l : 0 <= conns_to a l <= Z.of_nat (length l).
Proof. unfold conns_to. pose proof (length_filter (fun x => x = a) l). lia. Qed.

Lemma conns_to_mid a l1 l2 : 1 <= conns_to a (l1 ++ a :: l2).
Proof.
  rewrite conns_to_app, conns_to_cons, bool_decide_eq_true_2 by done.
  pose proof (conns_to_length a l1). pose proof (conns_to_length a l2). lia.
Qed.

Lemma http_step_HInv max H s s' : http_step_upto H s s' -> HInv max H s -> HInv max H s'.
Proof.
  intros [Hs HH] [Hm Hp Hcan Hcd Hw Hsum].
  destruct Hs as [b wt dl rd Hne|b wt1 addr wt2 dl rd|b wt1 addr wt2 dl rd|b wt dl rd addr|b wt dl1 addr dl2 rd
                 |b wt dl rd1 addr rd2]; cbn [hbal waiting dialed redialed] in *.
  - destruct (getLowest_cases b Hp) as [[? _]|(_ & Hin & Hlt & _)]; [done|].
    constructor; cbn [hbal waiting dialed redialed]; try done; [intros a [->|?]%elem_of_cons; auto|].
    intros a. destruct (decide (getLowestBalancer b = a)) as [<-|Hna].
    + rewrite Hcd in Hlt. pose proof (conns_to_length (getLowestBalancer b) (getLowestBalancer b :: wt)).
      pose proof (conns_to_length (getLowestBalancer b) rd). lia.
    + rewrite conns_to_cons, bool_decide_eq_false_2 by done. apply Hsum.
  - assert (in_pool b addr) as Hin by (apply Hw; set_solver). rewrite (Hcan addr Hin).
    constructor; cbn [hbal waiting dialed redialed]; try done; [|intros a Ha; apply Hw; set_solver|].
    + intros a. unfold dialContext. rewrite count_increment, conns_to_cons, Hcd. lia.
    + intros a. rewrite conns_to_cons, (conns_to_remove a addr). specialize (Hsum a). lia.
  - constructor; cbn [hbal waiting dialed redialed]; try done; [intros a Ha; apply Hw; set_solver|].
    intros a. rewrite (conns_to_remove a addr). specialize (Hsum a). case_bool_decide; lia.
  - constructor; try done. cbn [hbal dialed redialed]. intros a. unfold dialContext.
    rewrite count_increment, conns_to_cons, Hcd. lia.
  - destruct (decrement_same b addr) as [Ea Em].
    constructor; cbn [hbal waiting dialed redialed]; unfold pool_ok, canonical_pool, in_pool; rewrite ?Ea, ?Em; try done.
    + intros a. pose proof (conns_to_mid addr dl1 dl2). pose proof (conns_to_length addr rd).
      rewrite count_decrement, Hcd, (conns_to_remove a addr dl1 dl2) by (rewrite Hcd; lia). lia.
    + intros a. rewrite (conns_to_remove a addr). specialize (Hsum a). case_bool_decide; lia.
  - destruct (decrement_same b addr) as [Ea Em].
    constructor; cbn [hbal waiting dialed redialed]; unfold pool_ok, canonical_pool, in_pool; rewrite ?Ea, ?Em; try done.
    intros a. pose proof (conns_to_mid addr rd1 rd2). pose proof (conns_to_length addr dl).
    rewrite count_decrement, Hcd, (conns_to_remove a addr rd1 rd2) by (rewrite Hcd; lia). lia.
Qed.

Lemma http_rtc_HInv max H s s' : rtc (http_step_upto H) s s' -> HInv max H s -> HInv max H s'.
Proof. induction 1; eauto using http_step_HInv. Qed.

Lemma Init_HInv `{TlsLib} spec config b n :
  Init spec config = Ok b -> "" ∉ bc_Backends config -> 0 <= bc_MaxConnectionsPerAddress config -> 1 <= n ->
  Forall (fun a => canonicalAddr a = a) (bc_Backends config) ->
  HInv (bc_MaxConnectionsPerAddress config) n (http_initial b).
Proof.
  intros Hi Hne Hmax HH Hcan. pose proof (Init_pool _ _ _ Hi) as [Hm Hp].
  constructor; cbn [http_initial hbal waiting dialed redialed]; try done.
  - unfold pool_ok. apply eq_None_not_Some. by intros ?%Hp.
  - intros x Hx%Hp. rewrite Forall_forall in Hcan. auto.
  - intros x. unfold count. rewrite (proj2 (Hp x)). by case_bool_decide.
  - intros x Hx. by apply elem_of_nil in Hx.
  - intros x. unfold conns_to. simpl. lia.
Qed.

(** C20. The limit of the HTTP balancer: handlers choose a backend and count the
    connection in two critical sections, so the limit can be overshot, but by what
    handlers dial first only by the number of handlers that are between the two.
    For backends written as host and port, when there are never more than [n] such
    handlers, the requests in progress have dialled the backend chosen for them at
    most [MaxConnectionsPerAddress - 1 + n] times; the count of any address is these
    first dials plus the further dials of requests in progress (redirects, which
    the client follows, and dead connections), which no limit is applied to
    ([redirect_exceeds]).  A backend without a port is counted under another name
    and not limited at all ([portless_unlimited]). *)
Theorem http_overshoot_bound `{TlsLib} (spec : string) (config : BalancerConfig) (b : Balancer) (n : Z) (s : HTTP) :
  Init spec config = Ok b -> "" ∉ bc_Backends config -> 0 <= bc_MaxConnectionsPerAddress config -> 1 <= n ->
  Forall (fun a => canonicalAddr a = a) (bc_Backends config) ->
  rtc (http_step_upto n) (http_initial b) s ->
  forall a, 0 <= conns_to a (dialed s) <= bc_MaxConnectionsPerAddress config - 1 + n /\
    count (hbal s) a = conns_to a (dialed s) + conns_to a (redialed s).
Proof.
  intros Hi Hne Hmax HH Hcan Hr a. pose proof (http_rtc_HInv _ _ _ _ Hr (Init_HInv _ _ _ _ Hi Hne Hmax HH Hcan)) as HI.
  pose proof (hinv_sum _ _ _ HI a) as Hs. pose proof (conns_to_length a (dialed s)). pose proof (conns_to_length a (waiting s)).
  split; [lia|]. apply (hinv_counted _ _ _ HI).
Qed.
End http.

(** ** The TCP pipeline *)

(** Connections in order of acceptance: forwarded, being forwarded, buffered, and
    about to be buffered. *)
Record PInv (b : Balancer) (s : Pipe) : Prop := {
  pinv_order : accepted s = connected s ++ option_list (current s) ++ queue s ++ option_list (held s);
  pinv_buffer : Z.of_nat (length (queue s)) <= Z.max 0 (connBuffer b);
  pinv_closed : accepting s = false -> held s = None;
  pinv_done : forwarding s = false -> current s = None
}.

Lemma pipe_step_PInv b s s' : pipe_step b s s' -> PInv b s -> PInv b s'.
Proof.
  intros Hs [Ho Hb Hc Hd].
  destruct Hs; constructor; cbn [accepted held queue current connected listening cancelled accepting forwarding] in *;
    try done; try (simpl in *; lia); try (rewrite ?Ho; simpl; rewrite <- ?app_assoc; simpl; rewrite ?app_nil_r; done).
  rewrite length_app. simpl. lia.
Qed.

Lemma pipe_rtc_PInv b s : rtc (pipe_step b) pipe_initial s -> PInv b s.
Proof.
  intros Hr. assert (PInv b pipe_initial) as H0 by (constructor; try done; simpl; lia).
  revert Hr H0. generalize pipe_initial as s0. induction 1; eauto using pipe_step_PInv.
Qed.

(** A forwarder that has returned connects nothing any more. *)
Lemma pipe_stopped b s s' :
  pipe_step b s s' -> forwarding s = false /\ current s = None -> forwarding s' = false /\ current s' = None /\ connected s' = connected s.
Proof. intros [] [Hf Hc]; cbn [forwarding current connected] in *; by simplify_eq. Qed.

(** C21. The TCP balancer keeps connections in order and bounds their number: in
    every interleaving of accepting, buffering, forwarding and shutdown, the
    connections handed to backends are the first ones accepted, in that order, and
    at most [SimultaneousConnections + 2] accepted ones wait.  Once the forwarder
    has returned after a shutdown, those still waiting are never served. *)
Theorem tcp_pipeline_fifo (b : Balancer) (s : Pipe) :
  rtc (pipe_step b) pipe_initial s ->
  (exists backlog, accepted s = connected s ++ backlog /\ Z.of_nat (length backlog) <= Z.max 0 (connBuffer b) + 2) /\
  (forwarding s = false -> forall s', rtc (pipe_step b) s s' -> connected s' = connected s).
Proof.
  intros Hr. destruct (pipe_rtc_PInv b s Hr) as [Ho Hb _ Hd]. split.
  - eexists. split; [exact Ho|]. rewrite !length_app.
    assert (forall o : option nat, (length (option_list o) <= 1)%nat) as Hlen by (intros []; simpl; lia).
    pose proof (Hlen (current s)). pose proof (Hlen (held s)). lia.
  - intros Hf s' Hr'. specialize (Hd Hf). clear -Hf Hd Hr'. induction Hr' as [|s1 s2 s3 H12 _ IH]; [done|].
    destruct (pipe_stopped b _ _ H12 (conj Hf Hd)) as (Hf2 & Hc2 & <-). by apply IH.
Qed.

(** ** Examples *)

#[local] Existing Instance canonical_range.

Definition web : BalancerConfig :=
  {| bc_Kind := BalanceHTTP; bc_Backends := ["10.0.0.1:80"]; bc_SimultaneousConnections := 1;
     bc_MaxConnectionsPerAddress := 1; bc_ConnectionTimeout := 0; bc_TLS := None |}.
#[local] Instance no_tls : TlsLib := {| pem_Decode _ := None; X509KeyPair _ _ := Ok [] |}.
Definition web_balancer : Balancer :=
  mkBalancer "10.0.0.9:80" "10.0.0.9" BalanceHTTP {["10.0.0.1:80" := tt]} {["10.0.0.1:80" := 0]} 1 1 0 None.

(** The limit is overshot: with one connection allowed per backend, two handlers
    that choose before either of them dials both connect to the same backend. *)
Theorem http_limit_exceeded :
  Init "10.0.0.9:80" web = Ok web_balancer /\ bc_MaxConnectionsPerAddress web = 1 /\
  exists s, rtc http_step (http_initial web_balancer) s /\ conns_to "10.0.0.1:80" (dialed s) = 2.
Proof.
  split; [by vm_compute|]. split; [done|]. eexists. split.
  - eapply rtc_l; [apply http_choose; by vm_compute|]. eapply rtc_l; [apply http_choose; by vm_compute|].
    eapply rtc_l; [apply (http_dial _ [] _ _ [])|]. eapply rtc_l; [apply (http_dial _ [] _ [])|]. apply rtc_refl.
  - by vm_compute.
Qed.

(** A redirect is not limited: one handler is enough for two connections to a
    backend that allows one, when the backend redirects the request to itself. *)
Theorem redirect_exceeds :
  exists s, rtc (http_step_upto 1) (http_initial web_balancer) s /\ maxConns (hbal s) = 1 /\ count (hbal s) "10.0.0.1:80" = 2.
Proof.
  eexists. split.
  - eapply rtc_l; [split; [apply http_choose; by vm_compute|by vm_compute]|].
    eapply rtc_l; [split; [apply (http_dial _ [] _ [] [])|by vm_compute]|].
    eapply rtc_l; [split; [apply (http_redial _ _ _ _ "10.0.0.1:80")|by vm_compute]|]. apply rtc_refl.
  - by vm_compute.
Qed.

(** A backend without a port is never limited: what is dialled is counted under
    the address with the port, so the pool's own count stays 0. *)
Definition portless_balancer : Balancer :=
  mkBalancer "10.0.0.9:80" "10.0.0.9" BalanceHTTP {["10.0.0.1" := tt]} {["10.0.0.1" := 0]} 1 1 0 None.
Theorem portless_unlimited :
  exists s, rtc (http_step_upto 1) (http_initial portless_balancer) s /\ maxConns (hbal s) = 1 /\
    conns_to "10.0.0.1:80" (dialed s) = 2 /\ count (hbal s) "10.0.0.1" = 0.
Proof.
  eexists. split.
  - do 2 (eapply rtc_l; [split; [apply http_choose; by vm_compute|by vm_compute]|];
          eapply rtc_l; [split; [apply (http_dial _ [] _ [])|by vm_compute]|]). apply rtc_refl.
  - by vm_compute.
Qed.

Lemma one_handler_run :
  exists s, rtc (http_step_upto 1) (http_initial web_balancer) s /\ dialed s = ["10.0.0.1:80"].
Proof.
  eexists. split.
  - eapply rtc_l; [split; [apply http_choose; by vm_compute|by vm_compute]|].
    eapply rtc_l; [split; [apply (http_dial _ [] _ [] [])|by vm_compute]|]. apply rtc_refl.
  - by vm_compute.
Qed.

Lemma http_overshoot_bound_witness :
  exists s, dialed s = ["10.0.0.1:80"] /\ conns_to "10.0.0.1:80" (dialed s) <= 1.
Proof.
  destruct one_handler_run as (s & Hr & Hd). exists s. split; [exact Hd|].
  refine (proj2 (proj1 (http_overshoot_bound "10.0.0.9:80" web web_balancer 1 s _ _ _ _ _ Hr "10.0.0.1:80"))).
  - by vm_compute.
  - set_solver.
  - done.
  - done.
  - apply Forall_singleton. by vm_compute.
Defined.

Lemma served_run :
  rtc (pipe_step web_balancer) pipe_initial (mkPipe [1; 2]%nat None [2%nat] None [1%nat] true false true true).
Proof.
  eapply rtc_l; [apply (pipe_accept _ 1%nat)|]. eapply rtc_l; [apply pipe_handover|].
  eapply rtc_l; [apply (pipe_accept _ 2%nat)|]. eapply rtc_l; [by apply pipe_send|].
  eapply rtc_l; [apply pipe_forward|]. apply rtc_refl.
Qed.

Lemma tcp_pipeline_fifo_witness :
  exists backlog, [1; 2]%nat = [1%nat] ++ backlog /\ Z.of_nat (length backlog) <= 3.
Proof. exact (proj1 (tcp_pipeline_fifo web_balancer _ served_run)). Defined.
