(* ===== verification/Election.v ===== *)
(** * Component: leader election (pkg/election/election.go)

    [gatherUptimes] starts one goroutine per peer; each asks its peer for its
    uptime and records it, or prunes the peer with [Config.RemovePeer], which
    reads the peer list under the read lock and writes it later under the write
    lock.  All interleavings are the paths of the relation [step].  What a peer
    answers (an [Exchange] of an [UptimeRequest] through its control server) is
    the function [uptime], [None] when the exchange fails.  An exchange begins with
    [GetNonce], an [http.Get] without a timeout, so it need not return at all: the
    peers whose exchange never does are those with [hangs]. *)

From S2P Require Import Prelude GoNet GoTime HealthCheck DnsConfig Literal Config ConfigZones.

Local Open Scope Z_scope.

(** Where the goroutine of a peer is. *)
Inductive phase :=
| Asking
| Pruning (peers : list Peer)
| Finished.

Record Election := {
  e_peers : list Peer;
  e_uptimes : gmap string Z;
  e_goroutines : list (Peer * phase)
}.

(** [NewElection] and the loop of [gatherUptimes] that starts the goroutines. *)
Definition NewElection (peers : list Peer) : Election :=
  {| e_peers := peers; e_uptimes := ∅; e_goroutines := (fun p => (p, Asking)) <$> peers |}.

Section election.
Context `{MR : MapRange} (uptime : Peer -> option Z) (hangs : Peer -> bool).

Inductive step : Election -> Election -> Prop :=
| step_uptime peers ups gs1 p gs2 name u :
    hangs p = false -> uptime p = Some u -> Name p = Ok name ->
    step {| e_peers := peers; e_uptimes := ups; e_goroutines := gs1 ++ (p, Asking) :: gs2 |}
         {| e_peers := peers; e_uptimes := <[name := u]> ups; e_goroutines := gs1 ++ (p, Finished) :: gs2 |}
| step_read peers ups gs1 p gs2 kept :
    hangs p = false -> uptime p = None -> without_peer p peers = Ok kept ->
    step {| e_peers := peers; e_uptimes := ups; e_goroutines := gs1 ++ (p, Asking) :: gs2 |}
         {| e_peers := peers; e_uptimes := ups; e_goroutines := gs1 ++ (p, Pruning kept) :: gs2 |}
| step_write peers ups gs1 p gs2 kept :
    step {| e_peers := peers; e_uptimes := ups; e_goroutines := gs1 ++ (p, Pruning kept) :: gs2 |}
         {| e_peers := kept; e_uptimes := ups; e_goroutines := gs1 ++ (p, Finished) :: gs2 |}.

(** [wg.Wait()] returns. *)
Definition finished (e : Election) : Prop := Forall (fun g => g.2 = Finished) (e_goroutines e).

(** The loop of [Vote] over the uptimes. *)
Definition older (st : string * Z) (e : string * Z) : string * Z :=
  if st.2 <? e.2 then e else st.

Definition oldest (ups : gmap string Z) : string := (foldl older ("", 0) (range ups)).1.

(** [Vote] after [gatherUptimes]. *)
Definition Vote (e : Election) : outcome Peer := find_peer (e_peers e) (oldest (e_uptimes e)).

(** ** Invariant *)

Lemma oldest_loop todo : forall l st,
  ((st = ("", 0) /\ forall x, x ∈ l -> x.2 <= 0) \/ (st ∈ l /\ 0 < st.2 /\ forall x, x ∈ l -> x.2 <= st.2)) ->
  let st' := foldl older st todo in
  (st' = ("", 0) /\ forall x, x ∈ l ++ todo -> x.2 <= 0) \/
  (st' ∈ l ++ todo /\ 0 < st'.2 /\ forall x, x ∈ l ++ todo -> x.2 <= st'.2).
Proof.
  induction todo as [|y todo IH]; intros l st Hst; [by rewrite app_nil_r|]. cbn [foldl].
  rewrite (cons_middle y), app_assoc. apply IH. unfold older.
  destruct Hst as [[-> Hall]|(Hin & Hpos & Hmax)]; cbn [snd].
  - destruct (Z.ltb_spec 0 y.2); [right|left].
    + split_and!; [set_solver|done|]. intros x [Hx| ->%list_elem_of_singleton]%elem_of_app; [|lia].
      specialize (Hall _ Hx). lia.
    + split; [done|]. intros x [Hx| ->%list_elem_of_singleton]%elem_of_app; auto.
  - right. destruct (Z.ltb_spec st.2 y.2).
    + split_and!; [set_solver|lia|]. intros x [Hx| ->%list_elem_of_singleton]%elem_of_app; [|lia].
      specialize (Hmax _ Hx). lia.
    + split_and!; [set_solver|done|]. intros x [Hx| ->%list_elem_of_singleton]%elem_of_app; auto.
Qed.

Lemma oldest_spec ups :
  (oldest ups = "" /\ forall n u, ups !! n = Some u -> u <= 0) \/
  (exists u, ups !! oldest ups = Some u /\ 0 < u /\ forall n v, ups !! n = Some v -> v <= u).
Proof.
  unfold oldest. destruct (oldest_loop (range ups) [] ("", 0)) as [[-> Hall]|(Hin & Hpos & Hmax)].
  - left. split; [done|]. set_solver.
  - left. split; [done|]. intros n u Hn%elem_of_range. apply (Hall (n, u) Hn).
  - right. destruct (foldl older ("", 0) (range ups)) as [n u]. simpl in *. exists u. apply elem_of_range in Hin.
    split_and!; [done..|]. intros n' v Hn%elem_of_range. apply (Hmax (n', v) Hn).
Qed.

(** The peers that answer, when they are asked. *)
Definition reachable (p : Peer) : Prop := is_Some (uptime p).

(** A list the pruning may leave: peers of [ps], with every reachable one. *)
Definition keeps_reachable (ps l : list Peer) : Prop :=
  (forall p, p ∈ l -> p ∈ ps) /\ (forall p, p ∈ ps -> reachable p -> p ∈ l).

Record Inv (ps : list Peer) (e : Election) : Prop := {
  inv_peers : keeps_reachable ps (e_peers e);
  inv_gs : (e_goroutines e).*1 = ps;
  inv_prune : forall p l, (p, Pruning l) ∈ e_goroutines e -> uptime p = None /\ keeps_reachable ps l;
  inv_ups : forall n u, e_uptimes e !! n = Some u -> exists p, p ∈ ps /\ peer_name p = n /\ uptime p = Some u;
  inv_done : forall p u, (p, Finished) ∈ e_goroutines e -> uptime p = Some u -> e_uptimes e !! peer_name p = Some u
}.

Lemma NewElection_Inv ps : Inv ps (NewElection ps).
Proof.
  constructor; cbn [NewElection e_peers e_uptimes e_goroutines].
  - by split.
  - rewrite <- list_fmap_compose. by apply list_fmap_id.
  - intros p l (? & [=] & _)%list_elem_of_fmap.
  - intros n u. by rewrite lookup_empty.
  - intros p u (? & [=] & _)%list_elem_of_fmap.
Qed.

(** Replacing the phase of one goroutine. *)
Lemma goroutine_cases (gs1 gs2 : list (Peer * phase)) p ph q ph' :
  (q, ph') ∈ gs1 ++ (p, ph) :: gs2 -> q = p /\ ph' = ph \/ forall ph0, (q, ph') ∈ gs1 ++ (p, ph0) :: gs2.
Proof. set_solver. Qed.

Lemma election_step_Inv ps e e' :
  Forall named ps -> NoDup (peer_name <$> ps) -> step e e' -> Inv ps e -> Inv ps e'.
Proof.
  intros Hn Hnd Hs HI. pose proof Hs as Hs0.
  destruct Hs as [peers ups gs1 p gs2 name u Hh Hu Hname|peers ups gs1 p gs2 kept Hh Hu Hk|peers ups gs1 p gs2 kept];
    destruct HI as [Hp Hg Hpr Hups Hd]; cbn [e_peers e_uptimes e_goroutines] in *.
  all: assert (p ∈ ps) as Hin by (rewrite <- Hg, fmap_app, fmap_cons; set_solver).
  all: assert (named p) as Hnp by (rewrite Forall_forall in Hn; auto).
  all: assert (forall ph, (gs1 ++ (p, ph) :: gs2).*1 = ps) as Hg' by (intros ph; by rewrite <- Hg, !fmap_app).
  - rewrite Name_named in Hname by done. injection Hname as <-.
    constructor; cbn [e_peers e_uptimes e_goroutines]; auto.
    + intros q l [[_ ?]|?]%goroutine_cases; [done|eauto].
    + intros n v [[<- <-]|[_ ?]]%lookup_insert_Some; eauto.
    + intros q v [[-> _]|Hq]%goroutine_cases Hv; [rewrite lookup_insert_eq; congruence|].
      destruct (decide (peer_name p = peer_name q)) as [E|Hne]; [|rewrite lookup_insert_ne by done; eauto].
      assert (q ∈ ps) as Hqin by (rewrite <- (Hg' Asking); apply (list_elem_of_fmap_2 fst _ (q, Finished)); auto).
      rewrite E, lookup_insert_eq. rewrite (NoDup_fmap_eq peer_name ps q p) in Hv; auto; congruence.
  - constructor; cbn [e_peers e_uptimes e_goroutines]; auto.
    + intros q l [[-> [= ->]]|?]%goroutine_cases; [|eauto]. rewrite without_peer_spec in Hk; [|done|].
      2: { apply Forall_forall. intros x Hx. rewrite Forall_forall in Hn. apply Hn, Hp, Hx. }
      injection Hk as <-. split; [done|]. split; [intros x [_ Hx]%list_elem_of_filter; by apply Hp|].
      intros x Hx Hr. apply list_elem_of_filter. split; [|by apply Hp].
      intros E. rewrite (NoDup_fmap_eq peer_name ps x p) in Hr; auto. unfold reachable in Hr. rewrite Hu in Hr.
      by destruct Hr.
    + intros q v [[_ ?]|?]%goroutine_cases; [done|eauto].
  - constructor; cbn [e_peers e_uptimes e_goroutines]; auto.
    + apply (Hpr p). set_solver.
    + intros q l [[_ ?]|?]%goroutine_cases; [done|eauto].
    + intros q v [[-> _]|?]%goroutine_cases Hv; [|eauto]. destruct (Hpr p kept) as [Hnone _]; [set_solver|congruence].
Qed.

Lemma election_rtc_Inv ps e :
  Forall named ps -> NoDup (peer_name <$> ps) -> rtc step (NewElection ps) e -> Inv ps e.
Proof.
  intros Hn Hnd Hr. pose proof (NewElection_Inv ps) as HI. revert Hr HI. generalize (NewElection ps) as e0.
  induction 1; eauto using election_step_Inv.
Qed.

Lemma finished_ups ps e p u :
  Inv ps e -> finished e -> p ∈ ps -> uptime p = Some u -> e_uptimes e !! peer_name p = Some u.
Proof.
  intros HI Hf Hin Hu. rewrite <- (inv_gs ps e HI) in Hin. apply list_elem_of_fmap in Hin as ([q ph] & -> & Hg).
  unfold finished in Hf. rewrite Forall_forall in Hf. specialize (Hf _ Hg). simpl in Hf. subst ph.
  by apply (inv_done ps e HI).
Qed.

Lemma Vote_cases ps e :
  Forall named ps -> NoDup (peer_name <$> ps) -> "" ∉ (peer_name <$> ps) -> Inv ps e -> finished e ->
  match Vote e with
  | Ok p => p ∈ ps /\ exists u, uptime p = Some u /\ 0 < u /\ forall q v, q ∈ ps -> uptime q = Some v -> v <= u
  | Err err => err = ErrPeerNotFound /\ forall q v, q ∈ ps -> uptime q = Some v -> v <= 0
  | _ => False
  end.
Proof.
  intros Hn Hnd Hne HI Hf. unfold Vote.
  destruct (inv_peers ps e HI) as [Hsub Hkeep].
  assert (Forall named (e_peers e)) as Hne'.
  { apply Forall_forall. intros x Hx. rewrite Forall_forall in Hn. auto. }
  pose proof (find_peer_spec (e_peers e) (oldest (e_uptimes e)) Hne') as Hfind.
  destruct (oldest_spec (e_uptimes e)) as [[E Hall]|(u & Hu & Hpos & Hmax)].
  - rewrite E in *. destruct (find_peer (e_peers e) "") as [q|err| |]; [|split; [by destruct Hfind|]|done..].
    + destruct Hfind as (l1 & l2 & Hl & Hq & _). exfalso. apply Hne. rewrite <- Hq. apply list_elem_of_fmap_2.
      apply Hsub. rewrite Hl. set_solver.
    + intros q v Hq Hv. eapply Hall. by eapply finished_ups.
  - destruct (inv_ups ps e HI _ _ Hu) as (p & Hp & Hpn & Hpu).
    assert (p ∈ e_peers e) as Hpe by (apply Hkeep; [done|by eexists]).
    destruct (find_peer (e_peers e) (oldest (e_uptimes e))) as [q|err| |]; [| |done..].
    + destruct Hfind as (l1 & l2 & Hl & Hq & _).
      assert (q ∈ e_peers e) as Hqe by (rewrite Hl; set_solver).
      assert (q = p) as -> by (eapply (NoDup_fmap_eq peer_name); eauto; congruence).
      split; [done|]. exists u. split_and!; [done..|]. intros q v Hq' Hv. eapply Hmax. by eapply finished_ups.
    + destruct Hfind as [_ Hnin]. destruct Hnin. rewrite <- Hpn. by apply list_elem_of_fmap_2.
Qed.

(** What an election on a list of peers can come to. *)
Definition elected (ps : list Peer) (left : list Peer) (winner : outcome Peer) : Prop :=
  exists e, rtc step (NewElection ps) e /\ finished e /\ left = e_peers e /\ winner = Vote e.

(** C5. The election is correct under every interleaving of the goroutines and
    every iteration order: [Vote] returns a peer that answered and whose uptime
    no answering peer exceeds; it fails, with [ErrPeerNotFound], exactly when no
    peer reported a positive uptime. *)
Theorem Vote_elects_oldest (ps : list Peer) (e : Election) :
  Forall named ps -> NoDup (peer_name <$> ps) -> "" ∉ (peer_name <$> ps) ->
  rtc step (NewElection ps) e -> finished e ->
  match Vote e with
  | Ok p => p ∈ ps /\ exists u, uptime p = Some u /\ 0 < u /\ forall q v, q ∈ ps -> uptime q = Some v -> v <= u
  | Err err => err = ErrPeerNotFound /\ forall q v, q ∈ ps -> uptime q = Some v -> v <= 0
  | _ => False
  end.
Proof.
  intros Hn Hnd Hne Hr Hf. apply Vote_cases; [done..| |done]. by apply election_rtc_Inv.
Qed.

(** Every step brings a goroutine closer to its end. *)
Definition weight (g : Peer * phase) : nat := match g.2 with Asking => 2 | Pruning _ => 1 | Finished => 0 end.
Definition work (e : Election) : nat := sum_list_with weight (e_goroutines e).

Lemma step_work e e' : step e e' -> (work e' < work e)%nat.
Proof. destruct 1; unfold work; cbn [e_goroutines]; rewrite !sum_list_with_app; simpl; lia. Qed.

Lemma unfinished_step e :
  Forall named (e_goroutines e).*1 -> Forall named (e_peers e) -> Forall (fun p => hangs p = false) (e_goroutines e).*1 ->
  ~ finished e -> exists e', step e e'.
Proof.
  intros Hn Hp Hh Hf. destruct e as [peers ups gs]. unfold finished in Hf. cbn [e_goroutines e_peers] in *.
  apply not_Forall_Exists in Hf; [|intros [? [|?|]]; [right|right|left]; done].
  apply Exists_exists in Hf as ([p ph] & Hin & Hph). apply list_elem_of_split in Hin as (gs1 & gs2 & ->).
  rewrite fmap_app, Forall_app, fmap_cons, Forall_cons in Hn, Hh. destruct Hn as (_ & Hnp & _), Hh as (_ & Hhp & _). simpl in Hnp, Hhp.
  destruct ph as [|kept|]; [|by eexists; apply step_write|by destruct Hph].
  destruct (uptime p) as [u|] eqn:Hu.
  - eexists. eapply step_uptime; [done|done|by apply Name_named].
  - eexists. eapply step_read; [done|done|by apply without_peer_spec].
Qed.

#[export] Instance finished_dec e : Decision (finished e).
Proof. apply Forall_dec. intros [p [|kept|]]; [right|right|left]; done. Defined.

Lemma progress ps e :
  Forall named ps -> NoDup (peer_name <$> ps) -> Forall (fun p => hangs p = false) ps ->
  rtc step (NewElection ps) e -> ~ finished e -> exists e', step e e'.
Proof.
  intros Hn Hnd Hh Hr Hf. pose proof (election_rtc_Inv ps e Hn Hnd Hr) as HI. apply unfinished_step; [| | |done].
  - by rewrite (inv_gs ps e HI).
  - apply Forall_forall. intros p Hp. rewrite Forall_forall in Hn. by apply Hn, (inv_peers ps e HI).
  - by rewrite (inv_gs ps e HI).
Qed.

Lemma run_to_end ps e :
  Forall named ps -> NoDup (peer_name <$> ps) -> Forall (fun p => hangs p = false) ps ->
  rtc step (NewElection ps) e -> exists e', rtc step e e' /\ finished e'.
Proof.
  intros Hn Hnd Hh. remember (work e) as k eqn:Hk. revert e Hk. induction (lt_wf k) as [k _ IH]. intros e -> Hr.
  destruct (decide (finished e)) as [Hf|Hf]; [by exists e; split; [apply rtc_refl|]|].
  destruct (progress ps e Hn Hnd Hh Hr Hf) as [e1 H1]. destruct (IH _ (step_work _ _ H1) e1) as (e2 & H2 & Hf2); [done|by eapply rtc_r|].
  exists e2. split; [by eapply rtc_l|done].
Qed.

(** The goroutine of a peer that hangs never gets on. *)
Lemma hanging_step e e' p : hangs p = true -> step e e' -> (p, Asking) ∈ e_goroutines e -> (p, Asking) ∈ e_goroutines e'.
Proof.
  intros Hh Hs. destruct Hs; cbn [e_goroutines]; intros [[-> Ea]|Hin]%goroutine_cases; try congruence; set_solver.
Qed.

Lemma hanging_run e e' p : hangs p = true -> rtc step e e' -> (p, Asking) ∈ e_goroutines e -> (p, Asking) ∈ e_goroutines e'.
Proof. intros Hh. induction 1; eauto using hanging_step. Qed.

(** C29. When elections end: every run of the goroutines of [gatherUptimes] is
    finite; when no peer hangs, every run that cannot go on is one in which all
    goroutines are done, and such a state can be reached from every state of a run,
    so that [Vote] goes on; when the exchange with a single peer hangs, no run ever
    gets there, whatever the others answer: [wg.Wait] does not return, and neither
    does [Vote]. *)
Theorem election_terminates (ps : list Peer) (e : Election) :
  Forall named ps -> NoDup (peer_name <$> ps) -> rtc step (NewElection ps) e ->
  Acc (flip step) e /\
  (Forall (fun p => hangs p = false) ps ->
     (nf step e -> finished e) /\ exists e', rtc step e e' /\ finished e') /\
  (forall p, p ∈ ps -> hangs p = true -> forall e', rtc step e e' -> ~ finished e').
Proof.
  intros Hn Hnd Hr. split; [|split].
  - assert (well_founded (flip step)) as Hwf; [|apply Hwf]. apply (wf_projected lt work); [|apply lt_wf]. intros x y. apply step_work.
  - intros Hh. split; [|by apply (run_to_end ps)]. intros Hnf. destruct (decide (finished e)) as [|Hf]; [done|].
    destruct Hnf. by apply (progress ps).
  - intros p Hp Hh e' Hr' Hf. unfold finished in Hf. rewrite Forall_forall in Hf.
    enough ((p, Asking) ∈ e_goroutines e') as Hin by (by specialize (Hf _ Hin)).
    apply (hanging_run (NewElection ps)); [done|by etrans|]. apply list_elem_of_fmap. by exists p.
Qed.

(** Pruning is safe: under every interleaving, at every moment of an election, a
    peer that answers is still in the peer list, and the list has no peer that was
    not there at the start. *)
Theorem election_keeps_reachable (ps : list Peer) (e : Election) :
  Forall named ps -> NoDup (peer_name <$> ps) -> rtc step (NewElection ps) e ->
  (forall p u, p ∈ ps -> uptime p = Some u -> p ∈ e_peers e) /\ (forall p, p ∈ e_peers e -> p ∈ ps).
Proof.
  intros Hn Hnd Hr. destruct (inv_peers ps e (election_rtc_Inv ps e Hn Hnd Hr)) as [Hsub Hkeep].
  split; [|done]. intros p u Hp Hu. apply Hkeep; [done|by eexists].
Qed.
End election.

(** ** The race of two prunings *)

Definition alice : Peer := mkPeer "alice" "10.0.0.1".
Definition bob : Peer := mkPeer "bob" "10.0.0.2".
Definition carol : Peer := mkPeer "carol" "10.0.0.3".
Definition none_hangs (p : Peer) : bool := false.
Definition only_alice (p : Peer) : option Z := if bool_decide (p = alice) then Some 5 else None.

(** Pruning can be lost: there is a complete run in which a peer that did not
    answer is still in the peer list at the end, because [RemovePeer] writes a
    list it read before another goroutine's pruning. *)
Theorem pruning_lost_update :
  exists e, rtc (step only_alice none_hangs) (NewElection [alice; bob; carol]) e /\ finished e /\
    only_alice bob = None /\ bob ∈ e_peers e.
Proof.
  eexists {| e_peers := [alice; bob]; e_uptimes := {["alice" := 5]};
             e_goroutines := [(alice, Finished); (bob, Finished); (carol, Finished)] |}.
  split_and!; [|by repeat constructor|reflexivity|set_solver].
  eapply rtc_l; [apply (step_uptime only_alice none_hangs _ _ [] alice [(bob, Asking); (carol, Asking)] "alice" 5); reflexivity|].
  eapply rtc_l; [apply (step_read only_alice none_hangs _ _ [(alice, Finished)] bob [(carol, Asking)] [alice; carol]); reflexivity|].
  eapply rtc_l; [apply (step_read only_alice none_hangs _ _ [(alice, Finished); (bob, Pruning [alice; carol])] carol [] [alice; bob]); reflexivity|].
  eapply rtc_l; [apply (step_write only_alice none_hangs _ _ [(alice, Finished)] bob [(carol, Pruning [alice; bob])])|].
  eapply rtc_l; [apply (step_write only_alice none_hangs _ _ [(alice, Finished); (bob, Finished)] carol [])|].
  apply rtc_refl.
Qed.

Definition quorum_uptime (p : Peer) : option Z :=
  if bool_decide (p = alice) then Some 5 else if bool_decide (p = bob) then Some 9 else None.

Lemma quorum_run :
  exists e, rtc (step quorum_uptime none_hangs) (NewElection [alice; bob]) e /\ finished e.
Proof.
  eexists. split.
  - eapply rtc_l; [apply (step_uptime quorum_uptime none_hangs _ _ [(alice, Asking)] bob [] "bob" 9); reflexivity|].
    eapply rtc_l; [apply (step_uptime quorum_uptime none_hangs _ _ [] alice [(bob, Finished)] "alice" 5); reflexivity|].
    apply rtc_refl.
  - by repeat constructor.
Qed.

Lemma quorum_ok : Forall named [alice; bob] /\ NoDup (peer_name <$> [alice; bob]) /\ "" ∉ (peer_name <$> [alice; bob]).
Proof.
  split_and!; [repeat constructor; by eexists| |set_solver].
  apply NoDup_cons; split; [set_solver|apply NoDup_singleton].
Qed.

Lemma Vote_elects_oldest_witness :
  exists e, match Vote (MR := canonical_range) e with
            | Ok p => exists u, quorum_uptime p = Some u /\ 0 < u
            | Err err => err = ErrPeerNotFound
            | _ => False
            end.
Proof.
  destruct quorum_run as (e & Hr & Hf), quorum_ok as (H1 & H2 & H3). exists e.
  pose proof (@Vote_elects_oldest canonical_range quorum_uptime none_hangs [alice; bob] e H1 H2 H3 Hr Hf) as H.
  destruct (Vote (MR := canonical_range) e); [|exact (proj1 H)|exact H|exact H].
  destruct H as (_ & u & Hu & Hpos & _). exists u. split; [exact Hu|exact Hpos].
Defined.

Lemma election_keeps_reachable_witness :
  exists e, rtc (step quorum_uptime none_hangs) (NewElection [alice; bob]) e /\ bob ∈ e_peers e.
Proof.
  destruct quorum_run as (e & Hr & Hf), quorum_ok as (H1 & H2 & _). exists e. split; [exact Hr|].
  apply (proj1 (election_keeps_reachable quorum_uptime none_hangs [alice; bob] e H1 H2 Hr) bob 9); [set_solver|reflexivity].
Defined.

(** With bob hanging, an election of alice and bob never ends. *)
Definition bob_hangs (p : Peer) : bool := bool_decide (p = bob).

Lemma election_terminates_witness :
  (exists e', rtc (step quorum_uptime none_hangs) (NewElection [alice; bob]) e' /\ finished e') /\
  (forall e', rtc (step quorum_uptime bob_hangs) (NewElection [alice; bob]) e' -> ~ finished e').
Proof.
  destruct quorum_ok as (H1 & H2 & _). split.
  - apply (election_terminates quorum_uptime none_hangs [alice; bob] (NewElection [alice; bob]) H1 H2 (rtc_refl _ _)).
    by repeat constructor.
  - apply (proj2 (proj2 (election_terminates quorum_uptime bob_hangs [alice; bob] (NewElection [alice; bob]) H1 H2 (rtc_refl _ _))) bob);
      [set_solver|reflexivity].
Defined.
