(* ===== verification/ControlServer.v ===== *)
(** * Component: the control API (pkg/api, pkg/josekit, pkg/controlserver)

    The requests and responses of pkg/api, the nonces of the control server, the
    handlers and [handle], which authenticates a request and runs its handler.

    Encryption is code of github.com/go-jose (class [Jose]); the JSON encoding of
    messages is code of encoding/json (class [Wire]).  Unmarshalling decodes into
    the request object of the endpoint, which [handle] shares between requests:
    [json_Unmarshal old data] is the object after decoding [data] into [old].

    A message holds a configuration by value, as a [Document]: it has the fields
    with a JSON name and its own zones.  The code that uses it puts the zones into
    the memory of its process ([unmarshalled]). *)

From S2P Require Import Prelude GoNet GoTime HealthCheck DnsConfig Literal Config ConfigZones Prog Disk.

Local Open Scope Z_scope.

Definition NonceSize : nat := 128.

(** ** Messages (pkg/api/client.go, pkg/api/peer.go) *)

Inductive Request `{HC : HashChain} :=
| NonceRequest
| AuthCheck (nonce : string)
| ConfigUpdateRequest (NonceValue : string) (config : option Document)
| PeerRegistrationRequest (NonceValue : string) (peer : option Peer)
| ConfigReloadRequest (NonceValue : string)
| IdentifyPublisherRequest (NonceValue : string)
| PeerNonceRequest
| UptimeRequest (NonceValue : string)
| PingRequest (NonceValue : string)
| ConfigChainRequest (NonceValue : string)
| ConfigFetchRequest (NonceValue : string).

Inductive Message `{HC : HashChain} :=
| NilResponse
| AuthCheckMessage (nonce : string)
| UptimeResponse (uptime : Z)
| ConfigChainResponse (NonceValue : string) (sums : list string)
| ConfigFetchResponse (NonceValue : string) (config : option Document) (sums : list string)
| IdentifyPublisherResponse (NonceValue : string) (publisher : string).

(** The zero byte string [make(AuthCheck, NonceSize)]. *)
Definition zero_nonce : string := str (replicate NonceSize "000"%char).

(** [copy(dst, src)] on strings of bytes. *)
Definition copy (dst src : string) : string :=
  let n := (length (chars dst) `min` length (chars src))%nat in
  str (take n (chars src) ++ drop n (chars dst)).

Section messages.
Context `{HC : HashChain}.

Definition Endpoint (r : Request) : string :=
  match r with
  | NonceRequest => "nonce"
  | AuthCheck _ => "authCheck"
  | ConfigUpdateRequest _ _ => "configUpdate"
  | PeerRegistrationRequest _ _ => "peerRegister"
  | ConfigReloadRequest _ => "configReload"
  | IdentifyPublisherRequest _ => "identifyPublisher"
  | PeerNonceRequest => "peerNonce"
  | UptimeRequest _ => "uptime"
  | PingRequest _ => "ping"
  | ConfigChainRequest _ => "configChain"
  | ConfigFetchRequest _ => "configFetch"
  end.

Definition req_Nonce (r : Request) : string :=
  match r with
  | NonceRequest | PeerNonceRequest => ""
  | AuthCheck n | ConfigUpdateRequest n _ | PeerRegistrationRequest n _ | ConfigReloadRequest n
  | IdentifyPublisherRequest n | UptimeRequest n | PingRequest n | ConfigChainRequest n | ConfigFetchRequest n => n
  end.

Definition SetNonce (r : Request) (nonce : string) : Request :=
  match r with
  | NonceRequest => NonceRequest
  | PeerNonceRequest => PeerNonceRequest
  | AuthCheck n => AuthCheck (copy n nonce)
  | ConfigUpdateRequest _ c => ConfigUpdateRequest nonce c
  | PeerRegistrationRequest _ p => PeerRegistrationRequest nonce p
  | ConfigReloadRequest _ => ConfigReloadRequest nonce
  | IdentifyPublisherRequest _ => IdentifyPublisherRequest nonce
  | UptimeRequest _ => UptimeRequest nonce
  | PingRequest _ => PingRequest nonce
  | ConfigChainRequest _ => ConfigChainRequest nonce
  | ConfigFetchRequest _ => ConfigFetchRequest nonce
  end.

(** [req.New()] *)
Definition req_New (r : Request) : Request :=
  match r with
  | NonceRequest => NonceRequest
  | PeerNonceRequest => PeerNonceRequest
  | AuthCheck _ => AuthCheck zero_nonce
  | ConfigUpdateRequest _ _ => ConfigUpdateRequest "" None
  | PeerRegistrationRequest _ _ => PeerRegistrationRequest "" None
  | ConfigReloadRequest _ => ConfigReloadRequest ""
  | IdentifyPublisherRequest _ => IdentifyPublisherRequest ""
  | UptimeRequest _ => UptimeRequest ""
  | PingRequest _ => PingRequest ""
  | ConfigChainRequest _ => ConfigChainRequest ""
  | ConfigFetchRequest _ => ConfigFetchRequest ""
  end.

(** [req.Response()]: the message the answer is written to and read into. *)
Definition Response (r : Request) : Message :=
  match r with
  | NonceRequest | PeerNonceRequest => AuthCheckMessage ""
  | AuthCheck _ | ConfigUpdateRequest _ _ | PeerRegistrationRequest _ _ | ConfigReloadRequest _ | PingRequest _ => NilResponse
  | IdentifyPublisherRequest _ => IdentifyPublisherResponse "" ""
  | UptimeRequest _ => UptimeResponse 0
  | ConfigChainRequest _ => ConfigChainResponse "" []
  | ConfigFetchRequest _ => ConfigFetchResponse "" None []
  end.
End messages.

(** encoding/json on messages.  Decoding a request leaves an object behind even
    when it fails; the object keeps its type.  A response is decoded through a
    pointer and dropped when that fails. *)
Class Wire `{HC : HashChain} := {
  json_Marshal : Request -> outcome string;
  json_Unmarshal : Request -> string -> Request * option error;
  json_Unmarshal_Endpoint : forall r data, Endpoint (json_Unmarshal r data).1 = Endpoint r;
  json_Marshal_response : Message -> outcome string;
  json_Unmarshal_response : Message -> string -> outcome Message
}.

(** github.com/go-jose: [ParseEncrypted], [Decrypt], [CompactSerialize] and
    [NewEncrypter], whose encrypter is its [Encrypt] method. *)
Record Recipient := { rcpt_Algorithm : string; rcpt_Key : option JWK }.

Class Jose := {
  Jwe : Type;
  ParseEncrypted : string -> outcome Jwe;
  Decrypt : Jwe -> option JWK -> outcome string;
  CompactSerialize : Jwe -> outcome string;
  NewEncrypter : string -> Recipient -> outcome (string -> outcome Jwe)
}.

Definition A256GCM : string := "A256GCM".
Definition A256KW : string := "A256KW".

(** [josekit.GetEncrypter] *)
Definition GetEncrypter `{J : Jose} (authKey : option JWK) : outcome (string -> outcome Jwe) :=
  NewEncrypter A256GCM {| rcpt_Algorithm := A256KW; rcpt_Key := authKey |}.

(** [josekit.MakeKey]; [read] is the outcome of [rand.Read] on 32 bytes. *)
Definition MakeKey (kid : string) (read : outcome string) : outcome JWK :=
  key ← read; Ok {| KeyID := kid; KeyMaterial := key; Algorithm := A256KW |}.

Section api.
Context `{HC : HashChain} `{W : !Wire} `{J : Jose}.

(** [(r Request) Unmarshal(byt)] into the object [r]. *)
Definition Unmarshal (r : Request) (byt : string) : Request * option error :=
  match r with
  | NonceRequest => (NonceRequest, None)
  | PeerNonceRequest => (PeerNonceRequest, None)
  | AuthCheck n => (AuthCheck (copy n byt), None)
  | _ => json_Unmarshal r byt
  end.

Definition Marshal (r : Request) : outcome string :=
  match r with
  | NonceRequest | PeerNonceRequest => Ok "{}"
  | AuthCheck n => Ok n
  | _ => json_Marshal r
  end.

Definition Marshal_response (m : Message) : outcome string :=
  match m with
  | NilResponse => Ok "{}"
  | AuthCheckMessage n => Ok n
  | _ => json_Marshal_response m
  end.

(** [api.EncryptResponse] *)
Definition EncryptResponse (authKey : option JWK) (response : Message) : outcome string :=
  byt ← map_err (Wrapf "Could not marshal response: %w" []) (Marshal_response response);
  e ← map_err (Wrapf "Could not initialize encrypter: %w" []) (GetEncrypter authKey);
  cipherText ← map_err (Wrapf "Could not encrypt ciphertext: %w" []) (e byt);
  map_err (Wrapf "Could not serialize JWE: %w" []) (CompactSerialize cipherText).
End api.

(** ** Nonces (controlserver.go, handlers.go) *)

Notation Nonces := (gmap string Z).

(** The loop of [handleNonce]: [reads] are the results of [rand.Read], in order;
    [None] is a failed or short read.  It ends with the first that is not an
    outstanding nonce; when the list is used up, it is still looping. *)
Inductive drawn := Drew (nonce : string) | Entropy_error | Looping.

Fixpoint draw (nonces : Nonces) (reads : list (option string)) : drawn :=
  match reads with
  | [] => Looping
  | None :: _ => Entropy_error
  | Some n :: reads' => if bool_decide (is_Some (nonces !! n)) then draw nonces reads' else Drew n
  end.

(** [validateNonce] when nothing runs between its two critical sections. *)
Definition check_nonce (nonces : Nonces) (expireTime now : Z) (nonce : string) : outcome unit :=
  match nonces !! nonce with
  | None => Err (errors_New "Nonce provided does not exist")
  | Some t => if t <? now - expireTime then Err (errors_New "Nonce has expired") else Ok tt
  end.

Definition validateNonce (nonces : Nonces) (expireTime now : Z) (nonce : string) : Nonces * outcome unit :=
  match check_nonce nonces expireTime now nonce with
  | Ok _ => (delete nonce nonces, Ok tt)
  | o => (nonces, o)
  end.

(** One sweep of [expireNonces]. *)
Definition expireNonces `{MR : MapRange} (nonces : Nonces) (expireTime now : Z) : Nonces :=
  foldl (fun m '(n, t) => if t <? now - expireTime then delete n m else m) nonces (range nonces).

(** ** The server *)

Record Server `{HC : HashChain} := mkServer {
  s_world : World;
  s_me : Peer;
  s_authKey : option JWK;
  s_bootTime : Z;
  s_expireTime : Z;
  s_nonces : Nonces;
  s_requests : gmap string Request
}.

(** The clock and the entropy a request meets. *)
Record Moment := { now : Z; reads : list (option string) }.

Record HttpRequest := { r_Method : string; r_Body : outcome string }.
Record HttpResponse := { w_Code : Z; w_Body : string }.

(** What a request came to: a reply, a panic that [net/http] recovers from, or a
    handler that has not returned. *)
Inductive served := Reply (r : HttpResponse) | Panicked | Pending.

Section server.
Context `{HC : HashChain} `{MR : MapRange} `{W : !Wire} `{J : Jose}.

Definition put_world (w : World) (s : Server) : Server :=
  mkServer _ _ w (s_me s) (s_authKey s) (s_bootTime s) (s_expireTime s) (s_nonces s) (s_requests s).
Definition put_nonces (m : Nonces) (s : Server) : Server :=
  mkServer _ _ (s_world s) (s_me s) (s_authKey s) (s_bootTime s) (s_expireTime s) m (s_requests s).
Definition put_request (r : Request) (s : Server) : Server :=
  mkServer _ _ (s_world s) (s_me s) (s_authKey s) (s_bootTime s) (s_expireTime s) (s_nonces s)
    (<[Endpoint r := r]> (s_requests s)).

(** Code of the configuration, run on the server's configuration. *)
Definition on_world {A} (m : prog World A) : prog Server A := fun s =>
  let '(w, o) := m (s_world s) in (put_world w s, o).

(** [Start]: [listen] is the error of [net.Listen], [served] what [Serve] reports
    before [bootWait] has passed. *)
Definition server_Start (w : World) (me : Peer) (expireTime boot : Z) (listen served : option error) : outcome Server :=
  match AuthKey (w_config w) with
  | None => Err (errors_New "You must provide an auth_key to start the server")
  | Some k =>
      match listen, served with
      | Some e, _ => Err e
      | None, Some e => Err e
      | None, None => Ok (mkServer _ _ w me (Some k) boot expireTime ∅ ∅)
      end
  end.

Definition saveConfig : prog World sent :=
  _ ← on_err (fun _ => Errorf "Could not save configuration: %v" []) Save;
  on_err (fun _ => Errorf "While reloading configuration: %v" []) Reload.

(** The [Config] of a message.  Its chain and its channel are nil, and it has no
    prefix and no publisher; [ReplaceConfig] reads none of them. *)
Definition unmarshalled (d : Document) : prog World (Config Chain) :=
  w ← get; decode_into (New chain_New (reload (w_config w))) d.

Definition ReplaceConfig (newConfig : Config Chain) (newChain : Chain) : prog World sent :=
  _ ← modify (fun w => set_config (CopyFrom (w_config w) (SetChain newConfig newChain)) w);
  saveConfig.

(** The loop of [handlePeerRegister]. *)
Definition replace_peer (new : Peer) (peers : list Peer) : outcome (list Peer) :=
  collect (fun peer => n ← Name peer; n' ← Name new; Ok [if bool_decide (n = n') then new else peer]) peers.

(** The answer of a handler: a message, or it waits for the reload channel. *)
Inductive handled := Answer (m : Message) | Waiting.
Definition after (o : sent) (m : Message) : handled := match o with Sent => Answer m | Blocked => Waiting end.

Definition handleAuthCheck (r : Request) : prog Server handled := mret (Answer (Response r)).
Definition handlePing (r : Request) : prog Server handled := mret (Answer (Response r)).

Definition handleNonce (t : Moment) : prog Server handled :=
  s ← get;
  match draw (s_nonces s) (reads t) with
  | Drew nonce => _ ← modify (put_nonces (<[nonce := now t]> (s_nonces s))); mret (Answer (AuthCheckMessage nonce))
  | Entropy_error => lift (Err (Errorf "Invalid entropy read (size: %d, error: %v)" []))
  | Looping => mret Waiting
  end.

Definition handleConfigUpdate (config : option Document) : prog Server handled :=
  match config with
  | Some d =>
      newConfig ← on_world (unmarshalled d);
      s ← get;
      o ← on_world (ReplaceConfig newConfig (chain (w_config (s_world s))));
      mret (after o NilResponse)
  | None => lift Panic
  end.

Definition handlePeerRegister (peer : option Peer) : prog Server handled :=
  s ← get;
  let c := w_config (s_world s) in
  peers ← lift (match peer with
                | Some new => replace_peer new (Peers c)
                | None => if bool_decide (Peers c = []) then Ok [] else Panic
                end);
  _ ← on_world (modify (fun w => set_config (SetPeers (w_config w) peers) w));
  o ← on_world saveConfig;
  mret (after o NilResponse).

Definition handleConfigReload : prog Server handled :=
  o ← on_err (fun _ => Errorf "Error reloading configuration: %v" []) (on_world Reload);
  mret (after o NilResponse).

Definition handleIdentifyPublisher : prog Server handled :=
  s ← get;
  match GetPublisher (w_config (s_world s)) with
  | Some p => name ← lift (Name p); mret (Answer (IdentifyPublisherResponse "" name))
  | None => lift Panic
  end.

Definition handleUptime (t : Moment) : prog Server handled :=
  s ← get; mret (Answer (UptimeResponse (now t - s_bootTime s))).

Definition handleConfigChain : prog Server handled :=
  s ← get; mret (Answer (ConfigChainResponse "" (AllSums (chain (w_config (s_world s)))))).

Definition handleConfigFetch : prog Server handled :=
  s ← get;
  let c := w_config (s_world s) in
  mret (Answer (ConfigFetchResponse "" (Some (document (w_heap (s_world s)) c)) (AllSums (chain c)))).

(** [configureMux]: the handler of each endpoint, given its request object. *)
Definition handler (t : Moment) (r : Request) : prog Server handled :=
  match r with
  | NonceRequest | PeerNonceRequest => handleNonce t
  | AuthCheck _ => handleAuthCheck r
  | PingRequest _ => handlePing r
  | ConfigUpdateRequest _ c => handleConfigUpdate c
  | PeerRegistrationRequest _ p => handlePeerRegister p
  | ConfigReloadRequest _ => handleConfigReload
  | IdentifyPublisherRequest _ => handleIdentifyPublisher
  | UptimeRequest _ => handleUptime t
  | ConfigChainRequest _ => handleConfigChain
  | ConfigFetchRequest _ => handleConfigFetch
  end.

(** [configureMux]: the method and the key of each endpoint. *)
Definition method_of (r : Request) : string :=
  match r with NonceRequest | PeerNonceRequest => "GET" | _ => "PUT" end.
Definition key_of_endpoint (s : Server) (r : Request) : option JWK :=
  match r with
  | NonceRequest | AuthCheck _ | ConfigUpdateRequest _ _ | ConfigReloadRequest _
  | PeerRegistrationRequest _ _ | IdentifyPublisherRequest _ => s_authKey s
  | _ => Key (s_me s)
  end.

Definition handlePut (r : HttpRequest) (key : option JWK) : outcome string :=
  if bool_decide (r_Method r <> "PUT") then Err (errors_New "Invalid HTTP Method for Request")
  else
    byt ← map_err (Wrapf "Could not read body: %w" []) (r_Body r);
    o ← map_err (Wrapf "Could not parse JWE request: %w" []) (ParseEncrypted byt);
    Decrypt o key.

(** [handleValidateNonce]: the status code, or the request as decoded. *)
Definition handleValidateNonce (t : Moment) (r : HttpRequest) (req : Request) (key : option JWK) :
    prog Server (Z + Request) := fun s =>
  match handlePut r key with
  | Ok byt =>
      let '(req', err) := Unmarshal req byt in
      let s' := put_request req' s in
      match err with
      | Some _ => (s', Ok (inl 500))
      | None =>
          let '(nonces, o) := validateNonce (s_nonces s') (s_expireTime s') (now t) (req_Nonce req') in
          match o with
          | Ok _ => (put_nonces nonces s', Ok (inr req'))
          | _ => (put_nonces nonces s', Ok (inl 403))
          end
      end
  | Err _ => (s, Ok (inl 500))
  | Panic => (s, Panic)
  | Fatal m => (s, Fatal m)
  end.

(** The reply to the outcome of a handler. *)
Definition respond (key : option JWK) (o : outcome handled) : served :=
  match o with
  | Ok (Answer m) =>
      match EncryptResponse key m with
      | Ok serialized => Reply {| w_Code := 200; w_Body := serialized |}
      | Err _ => Reply {| w_Code := 500; w_Body := "Error encrypting response: %v" |}
      | _ => Panicked
      end
  | Ok Waiting => Pending
  | Err _ => Reply {| w_Code := 500; w_Body := "Error in request: %v" |}
  | _ => Panicked
  end.

(** [s.handle(method, req, key, f)]: the closure that serves an endpoint.  [proto]
    is the request the endpoint was registered with. *)
Definition handle (t : Moment) (proto : Request) (r : HttpRequest) (s : Server) : Server * served :=
  let req := default (req_New proto) (s_requests s !! Endpoint proto) in
  let key := key_of_endpoint s proto in
  if bool_decide (method_of proto = "PUT") then
    match handleValidateNonce t r req key s with
    | (s', Ok (inl code)) => (s', Reply {| w_Code := code; w_Body := "Nonce validation failed: %v" |})
    | (s', Ok (inr req')) => let '(s'', o) := handler t req' s' in (s'', respond key o)
    | (s', _) => (s', Panicked)
    end
  else let '(s', o) := handler t req s in (s', respond key o).
End server.
