(* ===== verification/ControlSafety.v ===== *)
(** * The control server: nonces, authentication and what handlers keep *)

From S2P Require Import Prelude GoNet GoTime HealthCheck DnsConfig Literal Config ConfigZones Prog Disk DiskSafety.
From S2P Require Import ControlServer.

Local Open Scope Z_scope.

(** ** The life of a nonce *)

Lemma draw_fresh nonces reads n : draw nonces reads = Drew n -> nonces !! n = None /\ Some n ∈ reads.
Proof.
  induction reads as [|[m|] reads IH]; [done|..|done]. cbn [draw]. case_bool_decide as Hm.
  - intros Hd%IH. set_solver.
  - intros [= ->]. split; [by apply eq_None_not_Some|left].
Qed.

Section nonces.
Context `{MR : MapRange}.

Lemma expire_loop (expireTime now : Z) l : forall (m : Nonces) n,
  foldl (fun m '(n, t) => if t <? now - expireTime then delete n m else m) m l !! n
  = if existsb (fun e => bool_decide (e.1 = n) && (e.2 <? now - expireTime)) l then None else m !! n.
Proof.
  induction l as [|[k t] l IH]; intros m n; [done|]. cbn [foldl existsb fst snd]. rewrite IH.
  destruct (existsb _ l); [by destruct (_ && _)|]. rewrite orb_false_r.
  destruct (t <? now - expireTime); [|by rewrite andb_false_r]. rewrite andb_true_r. case_bool_decide as Hk.
  - subst. apply lookup_delete_eq.
  - by apply lookup_delete_ne.
Qed.

(** A sweep removes the expired nonces and nothing else. *)
Lemma expireNonces_lookup m (expireTime now : Z) n t :
  expireNonces m expireTime now !! n = Some t <-> m !! n = Some t /\ now - expireTime <= t.
Proof.
  unfold expireNonces. rewrite expire_loop. destruct (existsb _ _) eqn:E.
  - apply existsb_exists in E as ([k t'] & Hin%list_elem_of_In%elem_of_range & Hk). simpl in Hk.
    apply andb_true_iff in Hk as [->%bool_decide_eq_true Ht%Z.ltb_lt]. split; [done|]. intros [Hm Hle].
    rewrite Hin in Hm. injection Hm as ->. lia.
  - split; [|naive_solver]. intros Hm. split; [done|].
    destruct (Z.le_gt_cases (now - expireTime) t) as [|Hlt]; [done|]. exfalso.
    assert (existsb (fun e => bool_decide (e.1 = n) && (e.2 <? now - expireTime)) (range m) = true) as E'; [|congruence].
    apply existsb_exists. exists (n, t). split; [by apply list_elem_of_In, elem_of_range|].
    simpl. rewrite bool_decide_eq_true_2 by done. by apply Z.ltb_lt.
Qed.

End nonces.

(** ** All interleavings of the nonces

    The map of nonces is shared by the handlers and [expireNonces], which look at
    it in one critical section and change it in another.  In between are the nonces
    drawn by [handleNonce] and not yet stored ([ns_drawn]), the requests that have
    passed the checks of [validateNonce] and not yet deleted their nonce
    ([ns_found]), and the nonces [expireNonces] found too old and has yet to delete
    ([ns_stale]). *)

(** What has happened, in the order of the critical sections.  A request has a
    number of its own. *)
Inductive nonce_event :=
| Issued (nonce : string) (time : Z)
| Found (request : nat) (nonce : string) (time : Z)
| Accepted (request : nat) (nonce : string)
| Swept (nonce : string).

Record NonceState := mkNonceState {
  ns_nonces : Nonces;
  ns_drawn : list string;
  ns_found : list (nat * string);
  ns_stale : list string;
  ns_log : list nonce_event
}.

Definition nonces_initial : NonceState := mkNonceState ∅ [] [] [] [].

(** One critical section.  A lookup that refuses the request changes nothing. *)
Inductive nonce_step (expireTime : Z) : NonceState -> NonceState -> Prop :=
| nonce_draw m dr fo st log rds n :
    draw m rds = Drew n ->
    nonce_step expireTime (mkNonceState m dr fo st log) (mkNonceState m (n :: dr) fo st log)
| nonce_issue m dr1 n dr2 fo st log now :
    nonce_step expireTime (mkNonceState m (dr1 ++ n :: dr2) fo st log)
      (mkNonceState (<[n := now]> m) (dr1 ++ dr2) fo st (log ++ [Issued n now]))
| nonce_find m dr fo st log r n now :
    check_nonce m expireTime now n = Ok tt -> (forall n' now', Found r n' now' ∉ log) ->
    nonce_step expireTime (mkNonceState m dr fo st log) (mkNonceState m dr ((r, n) :: fo) st (log ++ [Found r n now]))
| nonce_accept m dr fo1 r n fo2 st log :
    nonce_step expireTime (mkNonceState m dr (fo1 ++ (r, n) :: fo2) st log)
      (mkNonceState (delete n m) dr (fo1 ++ fo2) st (log ++ [Accepted r n]))
| nonce_expired m dr fo st log n t now :
    m !! n = Some t -> t < now - expireTime ->
    nonce_step expireTime (mkNonceState m dr fo st log) (mkNonceState m dr fo (n :: st) log)
| nonce_sweep m dr fo st1 n st2 log :
    nonce_step expireTime (mkNonceState m dr fo (st1 ++ n :: st2) log)
      (mkNonceState (delete n m) dr fo (st1 ++ st2) (log ++ [Swept n])).

(** The event begins or ends the life of a nonce. *)
Definition concerns (n : string) (e : nonce_event) : bool :=
  match e with Issued m _ | Accepted _ m | Swept m => bool_decide (m = n) | Found _ _ _ => false end.

Definition untouched (n : string) (l : list nonce_event) : Prop := forall e, e ∈ l -> concerns n e = false.

(** The nonce was issued at [t], and has neither been used, swept nor issued since. *)
Definition issued_last (n : string) (t : Z) (log : list nonce_event) : Prop :=
  exists l1 l2, log = l1 ++ Issued n t :: l2 /\ untouched n l2.

(** The request looked the nonce up while it was outstanding and young enough. *)
Definition entitled (expireTime : Z) (r : nat) (n : string) (log : list nonce_event) : Prop :=
  exists l1 t0 l2 t l3, log = l1 ++ Issued n t0 :: l2 ++ Found r n t :: l3 /\ t - expireTime <= t0 /\ untouched n l2.

Record nonces_inv (expireTime : Z) (s : NonceState) : Prop := {
  ni_map : forall n t, ns_nonces s !! n = Some t -> issued_last n t (ns_log s);
  ni_found : forall r n, (r, n) ∈ ns_found s -> entitled expireTime r n (ns_log s);
  ni_accepted : forall l r n l', ns_log s = l ++ Accepted r n :: l' -> entitled expireTime r n l
}.

Lemma issued_last_snoc n t log e : issued_last n t log -> concerns n e = false -> issued_last n t (log ++ [e]).
Proof.
  intros (l1 & l2 & -> & Hl) He. exists l1, (l2 ++ [e]). rewrite <- app_assoc. split; [done|].
  intros x [Hx| ->%list_elem_of_singleton]%elem_of_app; auto.
Qed.

Lemma entitled_snoc expireTime r n log e : entitled expireTime r n log -> entitled expireTime r n (log ++ [e]).
Proof.
  intros (l1 & t0 & l2 & t & l3 & -> & Ht & Hl). exists l1, t0, l2, t, (l3 ++ [e]). split_and!; [|done..].
  by rewrite <- !app_assoc, <- !app_comm_cons, <- !app_assoc.
Qed.

(** The invariant, one event later. *)
Lemma nonces_inv_snoc expireTime m dr fo st log e m' dr' fo' st' :
  nonces_inv expireTime (mkNonceState m dr fo st log) ->
  (forall n t, m' !! n = Some t -> issued_last n t (log ++ [e])) ->
  (forall r n, (r, n) ∈ fo' -> (r, n) ∈ fo \/ entitled expireTime r n (log ++ [e])) ->
  (forall r n, e = Accepted r n -> (r, n) ∈ fo) ->
  nonces_inv expireTime (mkNonceState m' dr' fo' st' (log ++ [e])).
Proof.
  intros [Hm Hf Ha] Hm' Hf' He. split; cbn [ns_nonces ns_found ns_log] in *; [done| |].
  - intros r n [Hin|?]%Hf'; [|done]. by apply entitled_snoc, Hf.
  - intros l r n l' E. destruct l' as [|x l' _] using rev_ind.
    + apply app_inj_tail in E as [<- ->]. by apply Hf, He.
    + rewrite app_comm_cons, app_assoc in E. apply app_inj_tail in E as [-> _]. by eapply Ha.
Qed.

Lemma nonce_step_inv expireTime s s' : nonce_step expireTime s s' -> nonces_inv expireTime s -> nonces_inv expireTime s'.
Proof.
  intros Hs HI.
  destruct Hs as [m dr fo st log rds n Hd|m dr1 n dr2 fo st log now|m dr fo st log r n now Hc Hr|m dr fo1 r n fo2 st log
                 |m dr fo st log n t now Hn Ht|m dr fo st1 n st2 log];
    pose proof HI as [Hm Hf Ha]; cbn [ns_nonces ns_found ns_log] in *.
  - by split.
  - eapply nonces_inv_snoc; [exact HI|..|by left|done]. intros k t [[<- <-]|[Hne Hk]]%lookup_insert_Some.
    + exists log, []. split; [done|]. by intros e He%elem_of_nil.
    + apply issued_last_snoc; [auto|]. simpl. by rewrite bool_decide_eq_false_2.
  - eapply nonces_inv_snoc; [exact HI|..|done].
    + intros k t Hk. apply issued_last_snoc; [auto|done].
    + intros r' n' [[= -> ->]|?]%elem_of_cons; [right|by left].
      unfold check_nonce in Hc. destruct (m !! n) as [t0|] eqn:En; [|done]. destruct (Z.ltb_spec t0 (now - expireTime)); [done|].
      destruct (Hm n t0 En) as (l1 & l2 & -> & Hl). exists l1, t0, l2, now, []. split_and!; [|done..].
      by rewrite <- app_assoc, <- app_comm_cons.
  - eapply nonces_inv_snoc; [exact HI|..].
    + intros k t [Hne Hk]%lookup_delete_Some. apply issued_last_snoc; [auto|]. simpl. by rewrite bool_decide_eq_false_2.
    + intros r' n' Hin. left. set_solver.
    + intros ?? [= <- <-]. set_solver.
  - by split.
  - eapply nonces_inv_snoc; [exact HI|..|by left|done].
    intros k t [Hne Hk]%lookup_delete_Some. apply issued_last_snoc; [auto|]. simpl. by rewrite bool_decide_eq_false_2.
Qed.

Lemma nonces_reachable expireTime s : rtc (nonce_step expireTime) nonces_initial s -> nonces_inv expireTime s.
Proof.
  assert (nonces_inv expireTime nonces_initial) as H0.
  { split; cbn [nonces_initial ns_nonces ns_found ns_log].
    - intros n t. by rewrite lookup_empty.
    - intros r n Hin. by apply elem_of_nil in Hin.
    - intros [|? ?] ???; discriminate. }
  revert H0. generalize nonces_initial. induction 2; eauto using nonce_step_inv.
Qed.

(** An event of one splitting of a list, in another. *)
Lemma event_before {A} (x z : A) la lb l2 l3 :
  la ++ x :: lb = l2 ++ z :: l3 -> x <> z -> x ∈ l2 \/ z ∈ la.
Proof.
  revert l2. induction la as [|a la IH]; intros [|b l2] E Hne; cbn [app] in E; injection E as <- E; [done|set_solver|set_solver|].
  destruct (IH _ E Hne); set_solver.
Qed.

Lemma event_between {A} (x y z : A) la lb l1 l2 l3 :
  la ++ x :: lb = l1 ++ y :: l2 ++ z :: l3 -> x <> y -> x <> z -> y ∈ lb \/ x ∈ l2 \/ z ∈ la.
Proof.
  revert l1. induction la as [|a la IH]; intros [|b l1] E Hy Hz; cbn [app] in E; injection E as <- E; [done|rewrite E; set_solver| |].
  - destruct (event_before _ _ _ _ _ _ E Hz); set_solver.
  - destruct (IH _ E Hy Hz) as [?|[?|?]]; set_solver.
Qed.

(** C3. Nonces are for one use and expire, as far as the two critical sections of
    [validateNonce] allow: in every interleaving of issuing, validating and sweeping,
    an accepted request has looked its nonce up when the nonce was outstanding, that
    is, issued no longer ago than the expiration time and since then neither used,
    swept nor issued again.  So if the nonce was accepted before, it has been issued
    again in between, or the request looked it up before that acceptance: requests
    that do not overlap never use one nonce twice ([nonce_replay_race] is about those
    that do). *)
Theorem nonce_single_use (expireTime : Z) (s : NonceState) (l l' : list nonce_event) (r : nat) (n : string) :
  rtc (nonce_step expireTime) nonces_initial s -> ns_log s = l ++ Accepted r n :: l' ->
  (exists l1 t0 l2 t l3, l = l1 ++ Issued n t0 :: l2 ++ Found r n t :: l3 /\ t - expireTime <= t0 /\
     forall e, e ∈ l2 -> concerns n e = false) /\
  (forall la r1 lb, l = la ++ Accepted r1 n :: lb -> (exists t, Issued n t ∈ lb) \/ (exists t, Found r n t ∈ la)).
Proof.
  intros HI%nonces_reachable E. pose proof (ni_accepted _ _ HI _ _ _ _ E) as Hent. split; [exact Hent|].
  intros la r1 lb El. destruct Hent as (l1 & t0 & l2 & t & l3 & El' & _ & Hl). rewrite El in El'.
  destruct (event_between _ _ _ _ _ _ _ _ El') as [?|[Hin|?]]; [done|done|eauto| |eauto].
  specialize (Hl _ Hin). simpl in Hl. by rewrite bool_decide_eq_true_2 in Hl.
Qed.

(** ** Interleaved validation *)

(** A request between the two critical sections of [validateNonce]. *)
Inductive validation := Unchecked | Checked | Granted | Denied.

Record Validating := { v_nonces : Nonces; v_requests : list (string * validation) }.

(** The steps that concurrent requests take at the time [now]. *)
Inductive validate_step (expireTime now : Z) : Validating -> Validating -> Prop :=
| validate_check nonces rs1 n rs2 :
    check_nonce nonces expireTime now n = Ok tt ->
    validate_step expireTime now
      {| v_nonces := nonces; v_requests := rs1 ++ (n, Unchecked) :: rs2 |}
      {| v_nonces := nonces; v_requests := rs1 ++ (n, Checked) :: rs2 |}
| validate_deny nonces rs1 n rs2 e :
    check_nonce nonces expireTime now n = Err e ->
    validate_step expireTime now
      {| v_nonces := nonces; v_requests := rs1 ++ (n, Unchecked) :: rs2 |}
      {| v_nonces := nonces; v_requests := rs1 ++ (n, Denied) :: rs2 |}
| validate_delete nonces rs1 n rs2 :
    validate_step expireTime now
      {| v_nonces := nonces; v_requests := rs1 ++ (n, Checked) :: rs2 |}
      {| v_nonces := delete n nonces; v_requests := rs1 ++ (n, Granted) :: rs2 |}.

(** C39. Concurrent replay: because [validateNonce] looks the nonce up and deletes it
    in two critical sections, two requests that carry the same outstanding nonce
    can both be granted. *)
Theorem nonce_replay_race (expireTime now t : Z) (nonces : Nonces) (n : string) :
  nonces !! n = Some t -> now - expireTime <= t ->
  rtc (validate_step expireTime now)
    {| v_nonces := nonces; v_requests := [(n, Unchecked); (n, Unchecked)] |}
    {| v_nonces := delete n (delete n nonces); v_requests := [(n, Granted); (n, Granted)] |}.
Proof.
  intros Hn Ht. assert (check_nonce nonces expireTime now n = Ok tt) as Hc.
  { unfold check_nonce. rewrite Hn. by rewrite (proj2 (Z.ltb_ge _ _) Ht). }
  eapply rtc_l; [by apply (validate_check expireTime now nonces [] n [(n, Unchecked)])|].
  eapply rtc_l; [by apply (validate_check expireTime now nonces [(n, Checked)] n [])|].
  eapply rtc_l; [apply (validate_delete expireTime now nonces [] n [(n, Checked)])|].
  eapply rtc_l; [apply (validate_delete expireTime now (delete n nonces) [(n, Granted)] n [])|]. apply rtc_refl.
Qed.

(** ** Handlers *)

Section server.
Context `{HC : HashChain} `{MR : MapRange} `{W : !Wire} `{J : Jose}.

(** What no request changes: the file the configuration is saved to, the elected
    publisher, the hash chain and the reload channel. *)
Definition identity_of (w : World) : string * option Peer * Chain * loc :=
  let c := w_config w in (FilenamePrefix c, Publisher c, chain c, reload c).

Lemma trim_config_keeps : keeps identity_of trim_config.
Proof.
  apply within_get_bind. intros w. unfold lift, mbind, prog_bind.
  destruct (trimZones (w_heap w) (w_config w)) as [[h c]| | |] eqn:E; try done.
  unfold trimZones in E. apply bind_ok in E as ([h' zs] & _ & [= _ <-]). done.
Qed.
#[local] Hint Resolve trim_config_keeps : prog.

Lemma SaveJSON_keeps f : keeps identity_of (SaveJSON f).
Proof. unfold SaveJSON, write_file, refuse, do_op. walk. Qed.
Lemma SaveYAML_keeps f : keeps identity_of (SaveYAML f).
Proof. unfold SaveYAML, write_file, refuse, do_op. walk. Qed.
#[local] Hint Resolve SaveJSON_keeps SaveYAML_keeps : prog.

Lemma Save_keeps : keeps identity_of Save.
Proof. unfold Save, ToDisk, move, refuse, do_op. walk. Qed.
#[local] Hint Resolve Save_keeps : prog.

(** Loading a file does not touch the configuration of the process at all. *)
Lemma decode_into_keeps c d : keeps w_config (decode_into c d).
Proof. intros w. unfold decode_into. by destruct (alloc_zones _ _). Qed.
Lemma make_chan_keeps : keeps w_config make_chan.
Proof. by intros w. Qed.
#[local] Hint Resolve decode_into_keeps make_chan_keeps : prog.

Lemma FromDisk_keeps c filename : keeps w_config (FromDisk c filename LoadJSON).
Proof. unfold FromDisk, refuse, LoadJSON, postLoad. walk. Qed.

Lemma Reload_keeps : keeps identity_of Reload.
Proof.
  apply within_bind; [apply _|walk|]. intros w0. apply within_bind; [apply _| |].
  - apply within_on_err. intros w. unfold same, identity_of. by rewrite (FromDisk_keeps _ _ w).
  - intros nc. apply within_get_bind. intros w. unfold modify, send, mbind, prog_bind. cbn [w_chans set_config].
    destruct (w_chans w !! _) as [[]|]; reflexivity.
Qed.
#[local] Hint Resolve Reload_keeps : prog.

Lemma saveConfig_keeps : keeps identity_of saveConfig.
Proof. unfold saveConfig. walk. Qed.

Lemma on_world_keeps {A} (m : prog World A) : keeps identity_of m -> keeps (identity_of ∘ s_world) (on_world m).
Proof. intros Hm s. unfold on_world. specialize (Hm (s_world s)). by destruct (m (s_world s)). Qed.
#[local] Hint Resolve saveConfig_keeps on_world_keeps : prog.

Lemma unmarshalled_keeps d : keeps identity_of (unmarshalled d).
Proof. intros w. unfold unmarshalled, decode_into, get, mbind, prog_bind. by destruct (alloc_zones _ _). Qed.
#[local] Hint Resolve unmarshalled_keeps : prog.

Lemma handler_keeps t r : keeps (identity_of ∘ s_world) (handler t r).
Proof.
  unfold handler, handleAuthCheck, handlePing, handleNonce, handleConfigUpdate, handlePeerRegister, handleConfigReload, handleIdentifyPublisher,
    handleUptime, handleConfigChain, handleConfigFetch, ReplaceConfig.
  walk; apply on_world_keeps; walk.
Qed.

Lemma handleValidateNonce_world t r req key s s' o :
  handleValidateNonce t r req key s = (s', o) -> s_world s' = s_world s.
Proof.
  unfold handleValidateNonce. destruct (handlePut r key) as [byt|?| |?]; try (by intros [= <- _]).
  destruct (Unmarshal req byt) as [req' [e|]]; [by intros [= <- _]|].
  destruct (validateNonce _ _ _ _) as [nonces [?|?| |?]]; by intros [= <- _].
Qed.

Lemma handle_identity t proto r s s' o :
  handle t proto r s = (s', o) -> identity_of (s_world s') = identity_of (s_world s).
Proof.
  intros Hh. unfold handle in Hh. case_bool_decide.
  - destruct (handleValidateNonce _ _ _ _ s) as [s1 o1] eqn:Ev.
    pose proof (handleValidateNonce_world _ _ _ _ _ _ _ Ev) as Hw.
    destruct o1 as [[code|req']|?| |?]; try (injection Hh as <- _; by rewrite Hw).
    pose proof (handler_keeps t req' s1 : _ = _) as Hk. destruct (handler t req' s1) as [s2 o2]. injection Hh as <- _.
    simpl in Hk. by rewrite Hk, Hw.
  - pose proof (handler_keeps t (default (req_New proto) (s_requests s !! Endpoint proto)) s) as Hk.
    destruct (handler t _ s) as [s2 o2]. injection Hh as <- _. exact Hk.
Qed.

(** What requests cannot change: no request, authenticated or not and however it
    ends, changes the file prefix, the publisher, the hash chain or the reload
    channel of the configuration.  In particular the hash chain stays what the
    process started with, through every [configUpdate] and [configReload]. *)
Theorem handle_keeps_identity (t : Moment) (proto : Request) (r : HttpRequest) (s s' : Server) (o : served) :
  handle t proto r s = (s', o) ->
  let c := w_config (s_world s) in let c' := w_config (s_world s') in
  chain c' = chain c /\ Publisher c' = Publisher c /\ FilenamePrefix c' = FilenamePrefix c /\ reload c' = reload c.
Proof. intros E%handle_identity. cbv zeta. unfold identity_of in E. injection E as ????. done. Qed.

(** One request, whatever it is. *)
Definition request_step (s s' : Server) : Prop := exists t proto r o, handle t proto r s = (s', o).

Lemma requests_identity s s' : rtc request_step s s' -> identity_of (s_world s') = identity_of (s_world s).
Proof. induction 1 as [|s1 s2 s3 (t & proto & r & o & Hh) _ IH]; [done|]. by rewrite IH, (handle_identity _ _ _ _ _ _ Hh). Qed.


(** ** The request objects *)

(** The object of an endpoint is a request of that endpoint, and the bytes of an
    [AuthCheck] are as many as [New] made. *)
Definition object_ok (e : string) (r : Request) : Prop :=
  Endpoint r = e /\ match r with AuthCheck n => length (chars n) = NonceSize | _ => True end.
Definition requests_ok (s : Server) : Prop := forall e r, s_requests s !! e = Some r -> object_ok e r.

Lemma req_New_ok r : object_ok (Endpoint r) (req_New r).
Proof. split; by destruct r. Qed.

Lemma copy_length dst src : length (chars (copy dst src)) = length (chars dst).
Proof. unfold copy. rewrite chars_str, length_app, length_take, length_drop. lia. Qed.

Lemma Unmarshal_ok e r byt : object_ok e r -> object_ok e (Unmarshal r byt).1.
Proof.
  intros [<- Hr]. assert (Endpoint (Unmarshal r byt).1 = Endpoint r) as E by (destruct r; try done; apply json_Unmarshal_Endpoint).
  split; [done|]. destruct r; try done; [cbn [Unmarshal fst]; by rewrite copy_length|..]; by destruct (Unmarshal _ byt).1.
Qed.

(** The object of an endpoint, before its first request and after. *)
Lemma object_at s proto : requests_ok s -> object_ok (Endpoint proto) (default (req_New proto) (s_requests s !! Endpoint proto)).
Proof. intros Hs. destruct (s_requests s !! Endpoint proto) as [r|] eqn:E; [by apply Hs|]. apply req_New_ok. Qed.

Lemma put_request_ok e r s : object_ok e r -> requests_ok s -> requests_ok (put_request r s).
Proof.
  intros [<- Hr] Hs e' r'. cbn [put_request s_requests]. intros [[<- <-]|[_ He]]%lookup_insert_Some; [by split|by apply Hs].
Qed.

Lemma on_world_requests {A} (m : prog World A) : keeps s_requests (on_world m).
Proof. intros s. unfold on_world. by destruct (m (s_world s)). Qed.
#[local] Hint Resolve on_world_requests : prog.

Lemma handler_requests t r : keeps s_requests (handler t r).
Proof.
  unfold handler, handleAuthCheck, handlePing, handleNonce, handleConfigUpdate, handlePeerRegister, handleConfigReload, handleIdentifyPublisher,
    handleUptime, handleConfigChain, handleConfigFetch. walk.
Qed.

Lemma handleValidateNonce_requests t r e req key s s' o :
  handleValidateNonce t r req key s = (s', o) -> object_ok e req -> requests_ok s -> requests_ok s'.
Proof.
  unfold handleValidateNonce. intros Hv Hq Hs. destruct (handlePut r key) as [byt|?| |?]; try (by injection Hv as <- _).
  pose proof (Unmarshal_ok e req byt Hq) as Hu. destruct (Unmarshal req byt) as [req' err]. cbn [fst] in Hu.
  pose proof (put_request_ok e req' s Hu Hs) as Hp.
  destruct err as [x|]; [by injection Hv as <- _|].
  destruct (validateNonce _ _ _ _) as [nonces [?|?| |?]]; injection Hv as <- _; exact Hp.
Qed.

(** Every request keeps the objects in order, and a new server has none. *)
Lemma handle_requests_ok t proto r s s' o : handle t proto r s = (s', o) -> requests_ok s -> requests_ok s'.
Proof.
  unfold handle. intros Hh Hs. case_bool_decide.
  - destruct (handleValidateNonce _ _ _ _ s) as [s1 o1] eqn:Ev.
    pose proof (handleValidateNonce_requests _ _ _ _ _ _ _ _ Ev (object_at s proto Hs) Hs) as H1.
    destruct o1 as [[code|req']|?| |?]; try (by injection Hh as <- _).
    destruct (handler t req' s1) as [s2 o2] eqn:Eh. injection Hh as <- _.
    pose proof (within_run _ _ _ _ _ (handler_requests t req') Eh) as E. intros e x. rewrite E. apply H1.
  - destruct (handler t _ s) as [s2 o2] eqn:Eh. injection Hh as <- _.
    pose proof (within_run _ _ _ _ _ (handler_requests t _) Eh) as E. intros e x. rewrite E. apply Hs.
Qed.

Lemma fresh_requests_ok s : s_requests s = ∅ -> requests_ok s.
Proof. intros He e r. by rewrite He, lookup_empty. Qed.

Lemma requests_reachable s s' : s_requests s = ∅ -> rtc request_step s s' -> requests_ok s'.
Proof.
  intros Hs%fresh_requests_ok Hr. induction Hr as [|s1 s2 s3 (t & proto & r & o & Hh) _ IH]; [done|].
  by eapply IH, handle_requests_ok.
Qed.

Lemma replace_peer_names new peers peers' :
  replace_peer new peers = Ok peers' -> peer_name <$> peers' = peer_name <$> peers.
Proof.
  unfold replace_peer. revert peers'. induction peers as [|p peers IH]; intros peers' Hr; cbn [collect] in Hr.
  { by injection Hr as <-. }
  apply bind_ok in Hr as (ys & Hy & (zs & Hz & [= <-])%bind_ok).
  apply bind_ok in Hy as (n & Hn & (n' & Hn' & [= <-])%bind_ok). cbn [app]. rewrite !fmap_cons, (IH _ Hz). f_equal.
  unfold Name in Hn, Hn'. unfold peer_name. case_bool_decide as E; [|done].
  destruct (Key p), (Key new); try done. congruence.
Qed.

(** [addpeer] adds no peer: whatever peer is registered, the peer list that
    [handlePeerRegister] puts in the configuration and saves has the same names as
    before, in the same order; a peer whose name is new is dropped. *)
Theorem peer_registration_adds_nothing (new : Peer) (c : Config Chain) (peers : list Peer) :
  replace_peer new (Peers c) = Ok peers ->
  peer_name <$> peers = peer_name <$> Peers c /\ (peer_name new ∉ (peer_name <$> Peers c) -> new ∉ peers).
Proof.
  intros Hr%replace_peer_names. split; [done|]. rewrite <- Hr. intros Hn Hin. by apply Hn, list_elem_of_fmap_2.
Qed.

(** Asking for the publisher before an election has succeeded panics. *)
Theorem identifyPublisher_panics (t : Moment) (nonce : string) (s : Server) :
  Publisher (w_config (s_world s)) = None ->
  handler t (IdentifyPublisherRequest nonce) s = (s, Panic).
Proof.
  intros Hp. cbn [handler]. unfold handleIdentifyPublisher, get, lift, mbind, prog_bind, GetPublisher. by rewrite Hp.
Qed.
End server.

(** ** Examples *)

#[local] Existing Instance plain_codec.
#[local] Existing Instance plain_chain.
#[local] Existing Instance canonical_range.

Lemma SetNonce_Endpoint `{HC : HashChain} (r : Request) (nonce : string) : Endpoint (SetNonce r nonce) = Endpoint r.
Proof. by destruct r. Qed.

(** Keys are prefixes of what they encrypt; requests are sent as their nonce. *)
#[local] Instance plain_jose : Jose :=
  {| Jwe := string; ParseEncrypted s := Ok s;
     Decrypt j k := match k with
                    | Some k => if bool_decide (take (length (chars (KeyMaterial k))) (chars j) = chars (KeyMaterial k))
                                then Ok (str (drop (length (chars (KeyMaterial k))) (chars j)))
                                else Err (errors_New "square/go-jose: error in cryptographic primitive")
                    | None => Err (errors_New "no key")
                    end;
     CompactSerialize j := Ok j;
     NewEncrypter _ r := match rcpt_Key r with
                         | Some k => Ok (fun m => Ok (KeyMaterial k +:+ m))
                         | None => Err (errors_New "no key")
                         end |}.

#[local] Instance plain_wire : Wire :=
  {| json_Marshal r := Ok (req_Nonce r);
     json_Unmarshal old data := (SetNonce old data, None);
     json_Unmarshal_Endpoint r data := SetNonce_Endpoint r data;
     json_Marshal_response m := match m with IdentifyPublisherResponse _ p => Ok p | _ => Ok "{}" end;
     json_Unmarshal_response old data := match old with IdentifyPublisherResponse n _ => Ok (IdentifyPublisherResponse n data) | _ => Ok old end |}.

Definition plain_server (publisher : option Peer) : Server :=
  mkServer _ _ (set_config (SetPublisher (w_config plain_world) publisher) plain_world)
    (mkPeer "alice" "10.0.0.1") (Some (key_of "auth")) 0 30 ∅ ∅.

Definition moment (now : Z) : Moment := {| now := now; reads := [Some "n1"] |}.

(** A nonce that two overlapping requests use. *)
Definition replay_log : list nonce_event := [Issued "n1" 5; Found 1 "n1" 20; Found 2 "n1" 21; Accepted 1 "n1"].

Lemma replay_run :
  rtc (nonce_step 30) nonces_initial (mkNonceState (delete "n1" (delete "n1" (<["n1" := 5]> ∅))) [] [] [] (replay_log ++ [Accepted 2 "n1"])).
Proof.
  eapply rtc_l; [apply (nonce_draw 30 _ _ _ _ _ [Some "n1"] "n1"); reflexivity|].
  eapply rtc_l; [apply (nonce_issue 30 _ [] "n1" [] _ _ _ 5)|].
  eapply rtc_l; [apply (nonce_find 30 _ _ _ _ _ 1 "n1" 20); [by vm_compute|set_solver]|].
  eapply rtc_l; [apply (nonce_find 30 _ _ _ _ _ 2 "n1" 21); [by vm_compute|set_solver]|].
  eapply rtc_l; [apply (nonce_accept 30 _ _ [(2%nat, "n1")] 1 "n1" [])|].
  eapply rtc_l; [apply (nonce_accept 30 _ _ [] 2 "n1" [])|]. apply rtc_refl.
Qed.

Lemma nonce_single_use_witness :
  (exists l1 t0 l2 t l3, replay_log = l1 ++ Issued "n1" t0 :: l2 ++ Found 2 "n1" t :: l3 /\ t - 30 <= t0) /\
  ((exists t, Issued "n1" t ∈ @nil nonce_event) \/ exists t, Found 2 "n1" t ∈ [Issued "n1" 5; Found 1 "n1" 20; Found 2 "n1" 21]).
Proof.
  destruct (nonce_single_use 30 _ replay_log [] 2 "n1" replay_run eq_refl) as [(l1 & t0 & l2 & t & l3 & H1 & H2 & _) H3].
  split; [exists l1, t0, l2, t, l3; split; [exact H1|exact H2]|]. apply (H3 _ 1%nat []). reflexivity.
Defined.

Lemma nonce_replay_race_witness :
  rtc (validate_step 30 20) {| v_nonces := {["n1" := 5]}; v_requests := [("n1", Unchecked); ("n1", Unchecked)] |}
    {| v_nonces := delete "n1" (delete "n1" {["n1" := 5]}); v_requests := [("n1", Granted); ("n1", Granted)] |}.
Proof. apply (nonce_replay_race 30 20 5); [reflexivity|lia]. Defined.

Lemma handle_keeps_identity_witness :
  exists s' o, handle (moment 5) (ConfigReloadRequest "") {| r_Method := "PUT"; r_Body := Ok "auth" |} (plain_server None)
    = (s', o) /\ Publisher (w_config (s_world s')) = None.
Proof.
  destruct (handle (moment 5) (ConfigReloadRequest "") {| r_Method := "PUT"; r_Body := Ok "auth" |} (plain_server None))
    as [s' o] eqn:E.
  exists s', o. split; [reflexivity|]. exact (proj1 (proj2 (handle_keeps_identity _ _ _ _ _ _ E))).
Defined.


Lemma peer_registration_adds_nothing_witness :
  mkPeer "carol" "10.0.0.3" ∉ Peers two_peers.
Proof.
  refine (proj2 (peer_registration_adds_nothing (mkPeer "carol" "10.0.0.3") two_peers (Peers two_peers) _) _).
  - reflexivity.
  - vm_compute. set_solver.
Defined.

Lemma identifyPublisher_panics_witness :
  handler (moment 5) (IdentifyPublisherRequest "n1") (plain_server None) = (plain_server None, Panic).
Proof. apply identifyPublisher_panics. reflexivity. Defined.
