(* ===== verification/ControlClient.v ===== *)
(** * Component: the control client (pkg/controlclient/controlclient.go)

    [GetNonce], [PrepareRequest], [SendRequest] and [Exchange] over a network
    given as a function, and the protocol they run with the control server: the
    network of [transport] delivers requests to [handle]. *)

From S2P Require Import Prelude GoNet GoTime HealthCheck DnsConfig Literal Config ConfigZones Prog Disk DiskSafety.
From S2P Require Import DiskLoad ControlServer ControlSafety.

Local Open Scope Z_scope.

Definition ErrAcquireNonce : error := errors_New "Could not acquire nonce".
Definition ErrMarshal : error := errors_New "Could not marshal payload".
Definition ErrBadResponse : error := errors_New "Invalid response from API server".
Definition ErrDecrypt : error := errors_New "Could not decrypt response".
Definition ErrEncrypt : error := errors_New "Could not encrypt payload".

Record Client := { cl_AuthKey : option JWK; BaseURL : string }.

Definition FromPeer (peer : Peer) : Client :=
  {| cl_AuthKey := Key peer; BaseURL := "http://" +:+ ControlServer peer |}.

(** [Load]: [read] is the outcome of [os.ReadFile], decoded by ghodss/yaml. *)
Definition Load (yaml_Unmarshal_client : string -> outcome Client) (read : outcome string) : outcome Client :=
  byt ← map_err (Wrapf "Could not read client configuration: %w" []) read;
  map_err (Wrapf "Could not unmarshal client configuration: %w" []) (yaml_Unmarshal_client byt).

Section client.
Context `{HC : HashChain} `{W : !Wire} `{J : Jose}.
(** The network, and what [url.Parse] says of a base URL. *)
Context {S : Type} (http : string -> string -> string -> prog S HttpResponse) (url_Parse : string -> option error).

Definition parse_base (c : Client) : prog S unit :=
  lift (match url_Parse (BaseURL c) with
        | Some e => Err (Wrapf "Base URL %q is invalid: %w" [BaseURL c] e)
        | None => Ok tt
        end).

(** [jose.ParseEncrypted] and [Decrypt] with the client's key. *)
Definition decrypt (c : Client) (data : string) : outcome string :=
  map_err (Join ErrDecrypt) (enc ← ParseEncrypted data; Decrypt enc (cl_AuthKey c)).

Definition GetNonce (c : Client) (peer : bool) : prog S string :=
  _ ← parse_base c;
  resp ← on_err (Join ErrAcquireNonce) (http "GET" (if peer then "peerNonce" else "nonce") "");
  if bool_decide (w_Code resp <> 200) then
    lift (Err (Errorf "Status was not OK after nonce call, status was %v: %v" [str (decimal (w_Code resp)); w_Body resp]))
  else lift (decrypt c (w_Body resp)).

(** [PrepareRequest] also sets the nonce of [msg], which is returned with it. *)
Definition PrepareRequest (c : Client) (msg : Request) (peer : bool) : prog S (Request * string) :=
  nonce ← on_err (Wrapf "Failed to retrieve nonce: %w" []) (GetNonce c peer);
  let msg := SetNonce msg nonce in
  encrypter ← lift (map_err (Join ErrEncrypt) (GetEncrypter (cl_AuthKey c)));
  byt ← lift (map_err (Join ErrMarshal) (Marshal msg));
  cipherText ← lift (map_err (Join ErrEncrypt) (encrypter byt));
  out ← lift (map_err (Join ErrEncrypt) (CompactSerialize cipherText));
  mret (msg, out).

Definition SendRequest (c : Client) (msg : Request) (peer : bool) : prog S HttpResponse :=
  _ ← parse_base c;
  '(msg, out) ← PrepareRequest c msg peer;
  resp ← on_err (Join ErrBadResponse) (http "PUT" (Endpoint msg) out);
  if bool_decide (w_Code resp <> 200) then
    lift (Err (Errorf "Status was not OK after %T call, status was %v: %v" [Endpoint msg; str (decimal (w_Code resp)); w_Body resp]))
  else mret resp.

(** [json.Unmarshal(byt, res)] refuses a [res] that is not a pointer. *)
Definition decode_response (res : Message) (byt : string) : outcome Message :=
  match res with
  | AuthCheckMessage _ => Err (errors_New "json: Unmarshal(non-pointer api.AuthCheck)")
  | _ => json_Unmarshal_response res byt
  end.

Definition Exchange (c : Client) (msg : Request) (peer : bool) : prog S Message :=
  resp ← on_err (Wrapf "Failed to deliver request: %w" []) (SendRequest c msg peer);
  byt ← lift (decrypt c (w_Body resp));
  lift (map_err (Join ErrBadResponse) (decode_response (Response msg) byt)).
End client.

Section protocol.
Context `{HC : HashChain} `{MR : MapRange} `{W : !Wire} `{J : Jose}.

(** The endpoints of [configureMux]. *)
Definition endpoints : list Request :=
  [NonceRequest; AuthCheck ""; ConfigUpdateRequest "" None; ConfigReloadRequest ""; PeerRegistrationRequest "" None;
   IdentifyPublisherRequest ""; PeerNonceRequest; UptimeRequest ""; PingRequest ""; ConfigChainRequest "";
   ConfigFetchRequest ""].

Definition route (path : string) : option Request := snd <$> list_find (fun r => Endpoint r = path) endpoints.

(** The server with the moments at which it will receive the next requests. *)
Definition Net : Type := Server * list Moment.

Definition transport (method path body : string) : prog Net HttpResponse := fun '(s, ts) =>
  match ts, route path with
  | t :: ts', Some proto =>
      match handle t proto {| r_Method := method; r_Body := Ok body |} s with
      | (s', Reply r) => ((s', ts'), Ok r)
      | (s', Panicked) => ((s', ts'), Err (errors_New "EOF"))
      | (s', Pending) => ((s', ts'), Err (errors_New "context deadline exceeded"))
      end
  | _ :: ts', None => ((s, ts'), Ok {| w_Code := 404; w_Body := "404 page not found" |})
  | [], _ => ((s, []), Err (errors_New "connection refused"))
  end.

Definition nonce_endpoint (peer : bool) : Request := if peer then PeerNonceRequest else NonceRequest.

(** What is relied on of go-jose: what the key encrypts, the key decrypts. *)
Definition jose_ok (k : JWK) : Prop :=
  exists enc, GetEncrypter (Some k) = Ok enc /\
    forall m, exists o c j, enc m = Ok o /\ CompactSerialize o = Ok c /\ ParseEncrypted c = Ok j /\ Decrypt j (Some k) = Ok m.

Lemma EncryptResponse_ok k m b :
  jose_ok k -> Marshal_response m = Ok b ->
  exists c, EncryptResponse (Some k) m = Ok c /\ (forall cl, cl_AuthKey cl = Some k -> decrypt cl c = Ok b) /\
    exists o, GetEncrypter (Some k) ≫= (fun enc => enc b) = Ok o /\ CompactSerialize o = Ok c.
Proof.
  intros (enc & He & Hk) Hm. destruct (Hk b) as (o & c & j & Ho & Hc & Hp & Hd). exists c. unfold EncryptResponse, decrypt.
  rewrite Hm, He. cbn [map_err mbind outcome_bind]. rewrite Ho. cbn [map_err mbind outcome_bind]. rewrite Hc.
  split_and!; [done| |by exists o]. intros cl ->. rewrite Hp. simpl. by rewrite Hd.
Qed.

Lemma SetNonce_kind r n : Endpoint (SetNonce r n) = Endpoint r /\ req_New (SetNonce r n) = req_New r.
Proof. by destruct r. Qed.

Lemma route_endpoint r :
  method_of r = "PUT" ->
  exists proto, route (Endpoint r) = Some proto /\ Endpoint proto = Endpoint r /\ req_New proto = req_New r /\
    method_of proto = "PUT" /\ forall s, key_of_endpoint s proto = key_of_endpoint s r.
Proof. destruct r; try done; intros _; eexists; split_and!; reflexivity. Qed.

(** The object of a nonce endpoint is what the endpoint was registered with. *)
Lemma nonce_object s peer :
  requests_ok s -> default (req_New (nonce_endpoint peer)) (s_requests s !! Endpoint (nonce_endpoint peer)) = nonce_endpoint peer.
Proof. intros Hs. destruct (object_at s (nonce_endpoint peer) Hs) as [E _]. destruct (default _ _), peer; done. Qed.

(** The server hands out a nonce. *)
Lemma transport_nonce peer s t ts k n c :
  key_of_endpoint s (nonce_endpoint peer) = Some k -> EncryptResponse (Some k) (AuthCheckMessage n) = Ok c ->
  requests_ok s -> draw (s_nonces s) (reads t) = Drew n ->
  transport "GET" (if peer then "peerNonce" else "nonce") "" (s, t :: ts)
  = ((put_nonces (<[n := now t]> (s_nonces s)) s, ts), Ok {| w_Code := 200; w_Body := c |}).
Proof.
  intros Hk Hc Hr Hd.
  assert (route (if peer then "peerNonce" else "nonce") = Some (nonce_endpoint peer)) as Hroute by (by destruct peer).
  unfold transport. rewrite Hroute. unfold handle. rewrite (nonce_object s peer Hr).
  replace (bool_decide (method_of (nonce_endpoint peer) = "PUT")) with false by (by destruct peer).
  replace (handler t (nonce_endpoint peer)) with (handleNonce t) by (by destruct peer).
  unfold handleNonce, get, modify, mret, prog_ret, mbind, prog_bind. rewrite Hd. unfold respond. by rewrite Hk, Hc.
Qed.

(** The client decrypts it, or not. *)
Lemma GetNonce_gets cl peer s t ts k n c :
  key_of_endpoint s (nonce_endpoint peer) = Some k -> EncryptResponse (Some k) (AuthCheckMessage n) = Ok c ->
  requests_ok s -> draw (s_nonces s) (reads t) = Drew n ->
  GetNonce transport (fun _ => None) cl peer (s, t :: ts)
  = ((put_nonces (<[n := now t]> (s_nonces s)) s, ts), decrypt cl c).
Proof.
  intros Hk Hc Hr Hd. unfold GetNonce. erewrite prog_bind_run; [|reflexivity].
  erewrite prog_bind_run; [|unfold on_err; erewrite transport_nonce by done; reflexivity].
  cbn [w_Code w_Body]. by rewrite bool_decide_eq_false_2 by (intros H0; by apply H0).
Qed.

(** What a client and a server need for a request to be served: the client holds
    the key of both endpoints, the server's next random string is [n], which the
    request carries, [b] is the encoding of the request, and decoding it into the
    object of the endpoint, which an earlier request may have filled, gives the
    request.  encoding/json overwrites the fields that are in the data: this holds
    of requests that only have a nonce, and of a peer, whatever the object holds; of
    a configuration it holds when the object is new ([Updates.refused_update_is_merged]
    is what happens when it is not). *)
Record exchange_ok (cl : Client) (k : JWK) (peer : bool) (req : Request) (s : Server) (t1 t2 : Moment)
    (n b : string) : Prop := {
  eo_key : cl_AuthKey cl = Some k;
  eo_jose : jose_ok k;
  eo_put : method_of req = "PUT";
  eo_nonce_key : key_of_endpoint s (nonce_endpoint peer) = Some k;
  eo_req_key : key_of_endpoint s req = Some k;
  eo_objects : requests_ok s;
  eo_draw : draw (s_nonces s) (reads t1) = Drew n;
  eo_in_time : now t2 - s_expireTime s <= now t1;
  eo_carried : req_Nonce (SetNonce req n) = n;
  eo_encode : Marshal (SetNonce req n) = Ok b;
  eo_decode : Unmarshal (default (req_New req) (s_requests s !! Endpoint req)) b = (SetNonce req n, None)
}.

Lemma PrepareRequest_run cl k peer req s t1 t2 n b :
  exchange_ok cl k peer req s t1 t2 n b ->
  exists ct j, ParseEncrypted ct = Ok j /\ Decrypt j (Some k) = Ok b /\
    PrepareRequest transport (fun _ => None) cl req peer (s, [t1; t2])
      = ((put_nonces (<[n := now t1]> (s_nonces s)) s, [t2]), Ok (SetNonce req n, ct)).
Proof.
  intros [Hcl Hj Hput Hk1 Hk2 Hreq Hd Ht HN Hb Hu].
  pose proof Hj as (enc & Henc & Hkey). destruct (Hkey b) as (o & ct & j & Ho & Hct & Hp & Hdj).
  exists ct, j. split_and!; [done..|]. unfold PrepareRequest. erewrite prog_bind_run.
  2: { destruct (EncryptResponse_ok k (AuthCheckMessage n) n Hj eq_refl) as (c & Hc & Hdec & _).
       unfold on_err. rewrite (GetNonce_gets cl peer s t1 [t2] k n c), (Hdec cl Hcl); [reflexivity|done..]. }
  erewrite prog_bind_run; [|unfold lift; rewrite Hcl, Henc; reflexivity].
  erewrite prog_bind_run; [|unfold lift; rewrite Hb; reflexivity].
  erewrite prog_bind_run; [|unfold lift; rewrite Ho; reflexivity].
  erewrite prog_bind_run; [|unfold lift; rewrite Hct; reflexivity]. reflexivity.
Qed.

(** The server takes the encrypted request and runs its handler on it. *)
Lemma transport_run cl k peer req s t1 t2 n b ct j s2 m c :
  exchange_ok cl k peer req s t1 t2 n b -> ParseEncrypted ct = Ok j -> Decrypt j (Some k) = Ok b ->
  handler t2 (SetNonce req n) (put_nonces (s_nonces s) (put_request (SetNonce req n) s)) = (s2, Ok (Answer m)) ->
  EncryptResponse (Some k) m = Ok c ->
  transport "PUT" (Endpoint req) ct (put_nonces (<[n := now t1]> (s_nonces s)) s, [t2])
    = ((s2, []), Ok {| w_Code := 200; w_Body := c |}).
Proof.
  intros [Hcl Hj Hput Hk1 Hk2 Hreq Hd Ht HN Hb Hu] Hp Hdj Hh Hc.
  destruct (route_endpoint req Hput) as (proto & Hroute & HPE & HPN & HPM & HPK).
  unfold transport. rewrite Hroute. unfold handle. rewrite HPM, bool_decide_eq_true_2 by done.
  cbn [s_requests put_nonces]. rewrite HPE, HPN, HPK.
  change (key_of_endpoint (put_nonces _ s) req) with (key_of_endpoint s req). rewrite Hk2.
  unfold handleValidateNonce, handlePut. cbn [r_Method r_Body]. rewrite bool_decide_eq_false_2 by (intros H0; by apply H0).
  cbn [map_err mbind outcome_bind]. rewrite Hp. cbn [map_err mbind outcome_bind]. rewrite Hdj.
  rewrite Hu. unfold validateNonce, check_nonce. cbn [s_nonces s_expireTime put_request put_nonces].
  rewrite HN, lookup_insert_eq. rewrite (proj2 (Z.ltb_ge _ _) Ht).
  rewrite delete_insert_id by (by eapply draw_fresh).
  change (put_nonces (s_nonces s) (put_request _ (put_nonces _ s)))
    with (put_nonces (s_nonces s) (put_request (SetNonce req n) s)).
  rewrite Hh. cbn [respond]. by rewrite Hc.
Qed.

(** The client's side: the server's answer comes back, encrypted. *)
Lemma SendRequest_run cl k peer req s t1 t2 n b s2 m mb :
  exchange_ok cl k peer req s t1 t2 n b ->
  handler t2 (SetNonce req n) (put_nonces (s_nonces s) (put_request (SetNonce req n) s)) = (s2, Ok (Answer m)) ->
  Marshal_response m = Ok mb ->
  exists c, SendRequest transport (fun _ => None) cl req peer (s, [t1; t2]) = ((s2, []), Ok {| w_Code := 200; w_Body := c |}) /\
    decrypt cl c = Ok mb.
Proof.
  intros Hok Hh Hm. destruct (EncryptResponse_ok k m mb (eo_jose _ _ _ _ _ _ _ _ _ Hok) Hm) as (c & Hc & Hdec & _).
  destruct (PrepareRequest_run _ _ _ _ _ _ _ _ _ Hok) as (ct & j & Hp & Hd & Hprep).
  pose proof (transport_run _ _ _ _ _ _ _ _ _ _ _ _ _ _ Hok Hp Hd Hh Hc) as Ht.
  exists c. split; [|by apply Hdec, (eo_key _ _ _ _ _ _ _ _ _ Hok)].
  unfold SendRequest. erewrite prog_bind_run; [|reflexivity]. erewrite prog_bind_run; [|exact Hprep].
  cbv beta iota. rewrite (proj1 (SetNonce_kind req n)). by erewrite prog_bind_run; [|unfold on_err; rewrite Ht; reflexivity].
Qed.

Lemma Exchange_run cl k peer req s t1 t2 n b s2 m mb :
  exchange_ok cl k peer req s t1 t2 n b ->
  handler t2 (SetNonce req n) (put_nonces (s_nonces s) (put_request (SetNonce req n) s)) = (s2, Ok (Answer m)) ->
  Marshal_response m = Ok mb -> decode_response (Response req) mb = Ok m ->
  Exchange transport (fun _ => None) cl req peer (s, [t1; t2]) = ((s2, []), Ok m).
Proof.
  intros Hok Hh Hm Hdm. destruct (SendRequest_run _ _ _ _ _ _ _ _ _ _ _ _ Hok Hh Hm) as (c & Hsend & Hdec).
  unfold Exchange. erewrite prog_bind_run; [|unfold on_err; rewrite Hsend; reflexivity].
  cbn [w_Body]. rewrite Hdec. erewrite prog_bind_run; [|reflexivity]. by rewrite Hdm.
Qed.

(** The protocol works: a client that has the key of the endpoint gets a nonce,
    and its request, presented before the nonce expires, passes authentication:
    the handler of the endpoint runs on exactly the request the client sent, with
    the nonce used up, and [Exchange] returns the handler's message to the client. *)
Theorem Exchange_authenticates (cl : Client) (k : JWK) (peer : bool) (req : Request) (b : string)
    (s s2 : Server) (t1 t2 : Moment) (n : string) (m : Message) (mb : string) :
  exchange_ok cl k peer req s t1 t2 n b ->
  handler t2 (SetNonce req n) (put_nonces (s_nonces s) (put_request (SetNonce req n) s)) = (s2, Ok (Answer m)) ->
  Marshal_response m = Ok mb -> decode_response (Response req) mb = Ok m ->
  Exchange transport (fun _ => None) cl req peer (s, [t1; t2]) = ((s2, []), Ok m).
Proof. by apply Exchange_run. Qed.
End protocol.

(** ** Example *)

#[local] Existing Instance plain_codec.
#[local] Existing Instance plain_chain.
#[local] Existing Instance canonical_range.
#[local] Existing Instance plain_jose.
#[local] Existing Instance plain_wire.

Lemma plain_jose_ok k : jose_ok k.
Proof.
  eexists. split; [reflexivity|]. intros m. eexists _, _, _. split_and!; [reflexivity..|].
  cbn [Decrypt plain_jose]. rewrite chars_app, take_app_length, drop_app_length, str_chars.
  by rewrite bool_decide_eq_true_2.
Qed.

Definition operator : Client := {| cl_AuthKey := Some (key_of "auth"); BaseURL := "http://127.0.0.1:5309" |}.

Lemma operator_exchange_ok :
  exchange_ok operator (key_of "auth") false (IdentifyPublisherRequest "")
    (plain_server (Some (mkPeer "bob" "10.0.0.2"))) (moment 5) (moment 6) "n1" "n1".
Proof. split; try reflexivity; [apply plain_jose_ok|by apply fresh_requests_ok|by vm_compute]. Qed.

Lemma Exchange_authenticates_witness :
  exists s2, Exchange transport (fun _ => None) operator (IdentifyPublisherRequest "") false
    (plain_server (Some (mkPeer "bob" "10.0.0.2")), [moment 5; moment 6])
    = ((s2, []), Ok (IdentifyPublisherResponse "" "bob")).
Proof.
  eexists. eapply (Exchange_authenticates operator (key_of "auth") false (IdentifyPublisherRequest "") "n1"
    (plain_server (Some (mkPeer "bob" "10.0.0.2"))) _ (moment 5) (moment 6) "n1" (IdentifyPublisherResponse "" "bob") "bob");
    [apply operator_exchange_ok|reflexivity..].
Defined.
