(* ===== verification/ControlLocks.v ===== *)
(** * Component: the mutex of the control server (pkg/controlserver)

    [configMutex] is locked for writing around the change of the configuration in
    [ReplaceConfig] and [handlePeerRegister], without a deferred unlock, and for
    reading in [handlePut] before the body of a request is decrypted.  net/http
    recovers from a panic in a handler, so a panic between [Lock] and [Unlock]
    leaves the mutex locked: [lk_dead].

    The requests of one endpoint are decoded into one object, which is kept; Updates
    shows what that means for an update of the configuration. *)

From S2P Require Import Prelude GoNet GoTime HealthCheck DnsConfig Literal Config ConfigZones Prog Disk DiskSafety.
From S2P Require Import DiskLoad ControlServer ControlSafety ControlClient.

Local Open Scope Z_scope.

Section locks.
Context `{HC : HashChain} `{MR : MapRange} `{W : !Wire} `{J : Jose}.

(** The server, and whether [configMutex] is held by a goroutine that is gone. *)
Record Locked := mkLocked { lk_server : Server; lk_dead : bool }.

(** Whether the code between [configMutex.Lock()] and [configMutex.Unlock()]
    panics: [newConfig.SetChain] of a nil configuration, [Name] of a nil peer or key. *)
Definition section_panics (r : Request) (s : Server) : bool :=
  match r with
  | ConfigUpdateRequest _ None => true
  | PeerRegistrationRequest _ (Some new) =>
      match replace_peer new (Peers (w_config (s_world s))) with Panic => true | _ => false end
  | PeerRegistrationRequest _ None => negb (bool_decide (Peers (w_config (s_world s)) = []))
  | _ => false
  end.

(** A request gets as far as [configMutex.RLock()]. *)
Definition reaches_lock (proto : Request) (r : HttpRequest) : bool :=
  bool_decide (method_of proto = "PUT") && bool_decide (r_Method r = "PUT") && is_ok (r_Body r ≫= ParseEncrypted).

(** [handle] with the mutex. *)
Definition handle_locked (t : Moment) (proto : Request) (r : HttpRequest) (st : Locked) : Locked * served :=
  let s := lk_server st in
  if lk_dead st && reaches_lock proto r then (st, Pending)
  else
    let req := default (req_New proto) (s_requests s !! Endpoint proto) in
    let died := bool_decide (method_of proto = "PUT") &&
                match handleValidateNonce t r req (key_of_endpoint s proto) s with
                | (s1, Ok (inr req')) => section_panics req' s1
                | _ => false
                end in
    let '(s', o) := handle t proto r s in (mkLocked s' (lk_dead st || died), o).

Definition locked_step (st st' : Locked) : Prop := exists t proto r o, handle_locked t proto r st = (st', o).

(** The section's panic is the handler's. *)
Lemma section_panics_handler t r s : section_panics r s = true -> handler t r s = (s, Panic).
Proof.
  destruct r as [| |n [c|]|n [new|]| | | | | | |]; try done; intros Hp; cbn [handler section_panics] in *;
    unfold handlePeerRegister; (erewrite prog_bind_run; [|reflexivity]); cbv zeta; unfold lift, mbind, prog_bind.
  - by destruct (replace_peer new _).
  - by destruct (bool_decide _).
Qed.

(** ** A dead lock *)

(** The endpoints without authentication hand out nonces and do nothing else. *)
Lemma handle_get t proto r s s' o :
  method_of proto <> "PUT" -> requests_ok s -> handle t proto r s = (s', o) ->
  s_world s' = s_world s /\ requests_ok s'.
Proof.
  intros Hm Hs Hh. split; [|by eapply handle_requests_ok]. unfold handle in Hh. rewrite bool_decide_eq_false_2 in Hh by done.
  assert (handler t (default (req_New proto) (s_requests s !! Endpoint proto)) = handleNonce t) as E.
  { destruct (s_requests s !! Endpoint proto) as [req|] eqn:Er; [apply Hs in Er as [Er _]|]; destruct proto; try done; by destruct req. }
  rewrite E in Hh. destruct (handleNonce t s) as [s2 o2] eqn:En. injection Hh as <- _.
  assert (keeps s_world (handleNonce t)) as Hk by (unfold handleNonce; walk). exact (within_run _ _ _ _ _ Hk En).
Qed.

(** A request that does not reach the lock is not decrypted. *)
Lemma handle_malformed t proto r s s' o :
  method_of proto = "PUT" -> reaches_lock proto r = false -> handle t proto r s = (s', o) ->
  s' = s /\ forall body, o <> Reply {| w_Code := 200; w_Body := body |}.
Proof.
  intros Hm Hl Hh. unfold handle in Hh. rewrite bool_decide_eq_true_2 in Hh by done. unfold handleValidateNonce in Hh.
  assert (forall b, handlePut r (key_of_endpoint s proto) <> Ok b) as Hno.
  { intros b. unfold reaches_lock in Hl. rewrite (bool_decide_eq_true_2 _ Hm) in Hl. cbn [andb] in Hl. unfold handlePut.
    destruct (decide (r_Method r = "PUT")) as [Hme|Hme]; [|by rewrite bool_decide_eq_true_2].
    rewrite bool_decide_eq_false_2 by (intros Hn; by apply Hn). rewrite (bool_decide_eq_true_2 _ Hme) in Hl. cbn [andb] in Hl.
    destruct (r_Body r) as [byt|?| |?]; try done. cbn [map_err mbind outcome_bind] in *. by destruct (ParseEncrypted byt). }
  destruct (handlePut r _) as [b|?| |?]; [by destruct (Hno b)|injection Hh as <- <-; done..].
Qed.

Lemma dead_step t proto r st st' o :
  lk_dead st = true -> requests_ok (lk_server st) -> handle_locked t proto r st = (st', o) ->
  lk_dead st' = true /\ requests_ok (lk_server st') /\ s_world (lk_server st') = s_world (lk_server st) /\
  (method_of proto = "PUT" -> forall body, o <> Reply {| w_Code := 200; w_Body := body |}).
Proof.
  intros Hd Hs. unfold handle_locked. rewrite Hd. cbn [andb orb]. destruct (reaches_lock proto r) eqn:Hl.
  { intros [= <- <-]. done. }
  destruct (handle t proto r (lk_server st)) as [s' o'] eqn:Hh. intros [= <- <-]. cbn [lk_dead lk_server]. split; [done|].
  destruct (decide (method_of proto = "PUT")) as [Hm|Hm].
  - destruct (handle_malformed _ _ _ _ _ _ Hm Hl Hh) as [-> Ho]. done.
  - destruct (handle_get _ _ _ _ _ _ Hm Hs Hh). done.
Qed.

(** C34. One request can disable the control API.  When an authenticated configUpdate
    request carries no configuration (or a peerRegister request no peer), its
    handler panics while it holds [configMutex]; net/http drops the connection and
    the process goes on, but whatever requests arrive from then on, no request to an
    authenticated endpoint is ever served, and the configuration never changes
    through the API again. *)
Theorem null_update_disables_api (s0 s s1 : Server) (t : Moment) (proto req' : Request) (r : HttpRequest) :
  s_requests s0 = ∅ -> rtc request_step s0 s -> method_of proto = "PUT" ->
  handleValidateNonce t r (default (req_New proto) (s_requests s !! Endpoint proto)) (key_of_endpoint s proto) s
    = (s1, Ok (inr req')) ->
  section_panics req' s1 = true ->
  exists st, handle_locked t proto r (mkLocked s false) = (st, Panicked) /\
    forall st', rtc locked_step st st' ->
      s_world (lk_server st') = s_world s /\
      forall t' proto' r' st'' o, method_of proto' = "PUT" -> handle_locked t' proto' r' st' = (st'', o) ->
        forall body, o <> Reply {| w_Code := 200; w_Body := body |}.
Proof.
  intros H0 Hr Hm Hv Hp. pose proof (requests_reachable _ _ H0 Hr) as Hs.
  pose proof (handleValidateNonce_world _ _ _ _ _ _ _ Hv) as Hw.
  exists (mkLocked s1 true). split.
  { unfold handle_locked, handle. cbn [lk_dead lk_server andb orb]. rewrite (bool_decide_eq_true_2 _ Hm), Hv. cbn [andb].
    rewrite (section_panics_handler t req' s1 Hp), Hp. done. }
  assert (lk_dead (mkLocked s1 true) = true /\ requests_ok (lk_server (mkLocked s1 true))) as Hinv
    by (split; [done|by eapply handleValidateNonce_requests, Hs; [exact Hv|apply object_at]]).
  rewrite <- Hw. change s1 with (lk_server (mkLocked s1 true)) at 2. generalize dependent (mkLocked s1 true). clear -Hm.
  intros st Hinv st' Hrun. induction Hrun as [st|st st1 st2 (t1 & proto1 & r1 & o1 & H1) _ IH].
  - split; [done|]. destruct Hinv as [Hd Hs]. intros t' proto' r' st'' o Hm' Hh. by eapply dead_step.
  - destruct Hinv as [Hd Hs]. destruct (dead_step _ _ _ _ _ _ Hd Hs H1) as (Hd1 & Hs1 & <- & _). by apply IH.
Qed.
End locks.

(** ** Example *)

#[local] Existing Instance plain_codec.
#[local] Existing Instance plain_chain.
#[local] Existing Instance canonical_range.
#[local] Existing Instance plain_jose.
#[local] Existing Instance plain_wire.

(** The server after it gave out the nonce ["n1"], and an update without a configuration. *)
Definition serving : Server :=
  mkServer _ _ plain_world (mkPeer "alice" "10.0.0.1") (Some (key_of "auth")) 0 30 {["n1" := 5]} ∅.
Definition null_update : HttpRequest := {| r_Method := "PUT"; r_Body := Ok "authn1" |}.

Lemma null_update_disables_api_witness :
  exists st, handle_locked (moment 6) (ConfigUpdateRequest "" None) null_update (mkLocked serving false) = (st, Panicked) /\
    forall t' st'' o, handle_locked t' (ConfigReloadRequest "") null_update st = (st'', o) ->
      forall body, o <> Reply {| w_Code := 200; w_Body := body |}.
Proof.
  destruct (null_update_disables_api serving serving
    (put_nonces ∅ (put_request (ConfigUpdateRequest "n1" None) serving)) (moment 6) (ConfigUpdateRequest "" None)
    (ConfigUpdateRequest "n1" None) null_update) as (st & H1 & H2).
  - reflexivity.
  - apply rtc_refl.
  - reflexivity.
  - vm_compute. reflexivity.
  - reflexivity.
  - exists st. split; [exact H1|]. intros t' st'' o Hh. refine (proj2 (H2 st _) _ _ _ _ _ _ Hh); [apply rtc_refl|reflexivity].
Defined.
