(* ===== verification/Launcher.v ===== *)
(** * Component: the launcher (pkg/launcher/launcher.go)

    [buildHealthChecks] and the closures it registers, [holdElection] and the
    rounds of [monitorConfig]; Lifecycle.v has the rest.  The health checks act on
    the configuration and, through pointers, on the records of the zones: an
    action's world is a [Services], and a record is named by its zone's location
    and its index.

    The module is built with Go 1.20, where the variable of a [for ... range]
    loop is one variable for the whole loop: the closures that mention [backend]
    and [listener] all see its last value, [last_of], when they run. *)

From S2P Require Import Prelude GoNet GoTime HealthCheck DnsConfig Literal Config ConfigZones Prog Disk.
From S2P Require Import ControlServer.

Local Open Scope Z_scope.

(** What the health checks of a server act on. *)
Record Services (Chain : Type) := mkServices { sv_heap : Heap; sv_config : Config Chain }.
Arguments mkServices {Chain}.
Arguments sv_heap {Chain}.
Arguments sv_config {Chain}.

(** [%q] of a name without characters that need escaping. *)
Definition quote (s : string) : string := str ["034"%char] +:+ s +:+ str ["034"%char].

Definition PathPing : string := "ping".

(** The value of a loop variable after its loop. *)
Definition last_of (l : list string) : string := default "" (last l).

Definition set_value_at (i : nat) (v : RecordValue) (z : Zone) : Zone :=
  {| z_SOA := z_SOA z; z_NS := z_NS z;
     z_Records := alter (fun r => {| rec_Type := rec_Type r; rec_Name := rec_Name r;
                                     rec_LiteralValue := rec_LiteralValue r; rec_Value := Some v |}) i (z_Records z) |}.

(** The value of record [i] of the zone at [l]. *)
Definition value_at (h : Heap) (l : loc) (i : nat) : option RecordValue :=
  z ← h !! l; r ← z_Records z !! i; rec_Value r.

Definition set_Addresses (ips : list IP) (a : A) : A :=
  {| a_Addresses := ips; a_TTL := a_TTL a; a_HealthCheck := a_HealthCheck a |}.
Definition set_Backends (bs : list string) (lb : LB) : LB :=
  {| lb_Listeners := lb_Listeners lb; lb_Kind := lb_Kind lb; lb_Backends := bs;
     lb_SimultaneousConnections := lb_SimultaneousConnections lb;
     lb_MaxConnectionsPerAddress := lb_MaxConnectionsPerAddress lb;
     lb_ConnectionTimeout := lb_ConnectionTimeout lb; lb_TTL := lb_TTL lb; lb_TLS := lb_TLS lb;
     lb_HealthCheck := lb_HealthCheck lb |}.
Definition set_Listeners (ls : list string) (lb : LB) : LB :=
  {| lb_Listeners := ls; lb_Kind := lb_Kind lb; lb_Backends := lb_Backends lb;
     lb_SimultaneousConnections := lb_SimultaneousConnections lb;
     lb_MaxConnectionsPerAddress := lb_MaxConnectionsPerAddress lb;
     lb_ConnectionTimeout := lb_ConnectionTimeout lb; lb_TTL := lb_TTL lb; lb_TLS := lb_TLS lb;
     lb_HealthCheck := lb_HealthCheck lb |}.

Section launcher.
Context {Chain : Type} `{MR : MapRange}.
(** The outcome of [NewElection(c).Vote()], with the configuration it leaves: an
    election depends on the network and on the schedule of its goroutines.  This is
    the case in which it ends: with a peer that hangs, [Vote] and its caller wait
    forever ([Election.election_terminates]). *)
Context (elect : Config Chain -> Config Chain * outcome Peer).
(** The outcome of [client.PrepareRequest(&api.PingRequest{}, true)] for a peer. *)
Context (prepare : Peer -> outcome string).

Notation W := (Services Chain).

(** [holdElection] *)
Definition holdElection (w : W) : outcome (W * option error) :=
  let '(c, o) := elect (sv_config w) in
  match o with
  | Ok peer => _ ← Name peer; Ok (mkServices (sv_heap w) (SetPublisher c (Some peer)), None)
  | Err e => Ok (mkServices (sv_heap w) c, Some e)
  | Panic => Panic
  | Fatal m => Fatal m
  end.

(** Writes through the pointer to a record's value. *)
Definition on_A (l : loc) (i : nat) (f : A -> A) (w : W) : outcome (W * option error) :=
  match sv_heap w !! l, value_at (sv_heap w) l i with
  | Some z, Some (ValA a) => Ok (mkServices (<[l := set_value_at i (ValA (f a)) z]> (sv_heap w)) (sv_config w), None)
  | _, _ => Panic
  end.
Definition on_LB (l : loc) (i : nat) (f : LB -> LB) (w : W) : outcome (W * option error) :=
  match sv_heap w !! l, value_at (sv_heap w) l i with
  | Some z, Some (ValLB lb) => Ok (mkServices (<[l := set_value_at i (ValLB (f lb)) z]> (sv_heap w)) (sv_config w), None)
  | _, _ => Panic
  end.

(** The request transformer of a peer's check; on an error the body is empty. *)
Definition ping_request (peer : Peer) (r : HealthCheck.HttpRequest) : HealthCheck.HttpRequest :=
  {| req_Method := "PUT"; req_URL := req_URL r;
     req_Body := match prepare peer with Ok out => out | _ => "" end |}.

(** The check of a peer. *)
Definition peer_check (peer : Peer) : outcome (list (HealthCheckAction W)) :=
  name ← Name peer;
  let check := {| hc_Name := quote name +:+ " peer check"; hc_Type := TypeHTTP; hc_Timeout := Second; hc_Failures := 3;
                  hc_requestTransformer := None; hc_target := ""; hc_failed := false |} in
  let check := SetTarget ("http://" +:+ ControlServer peer +:+ "/" +:+ PathPing) check in
  let check := SetRequestTransformer (ping_request peer) check in
  Ok [{| Check := check;
         FailedAction _ w := c ← RemovePeer (sv_config w) peer; holdElection (mkServices (sv_heap w) c);
         ReviveAction _ w := holdElection (mkServices (sv_heap w) (AddPeer (sv_config w) peer)) |}].

(** [newCheck]: a copy of a configured check for one target. *)
Definition target_check (rec : Record_) (check : HealthCheck) (target : string) : HealthCheck :=
  let newCheck := SetTarget target (Copy check) in
  let newCheck := if bool_decide (hc_Name newCheck = "") then set_Name (rec_Name rec) newCheck else newCheck in
  if bool_decide (hc_Type newCheck = "") then set_Type TypePing newCheck else newCheck.

(** The check of one address of an A record. *)
Definition address_check (l : loc) (i : nat) (rec : Record_) (check : HealthCheck) (ip : IP) : HealthCheckAction W :=
  {| Check := target_check rec check (IP_String ip);
     FailedAction check' :=
       on_A l i (fun a => set_Addresses (filter (fun ip => IP_String ip <> Target check') (a_Addresses a)) a);
     ReviveAction check' :=
       on_A l i (fun a => set_Addresses (a_Addresses a ++ [ParseIP (Target check')]) a) |}.

(** The check of one backend; [captured] is what [backend] holds when the actions run. *)
Definition backend_check (l : loc) (i : nat) (rec : Record_) (check : HealthCheck) (captured backend : string) :
    outcome (list (HealthCheckAction W)) :=
  '(host, _) ← map_err (Wrapf "While computing healthcheck records for load balancer backend %q: %w" [backend])
                 (SplitHostPort backend);
  Ok [{| Check := target_check rec check host;
         FailedAction _ := on_LB l i (fun lb => set_Backends (filter (fun be => be <> captured) (lb_Backends lb)) lb);
         ReviveAction _ := on_LB l i (fun lb => set_Backends (lb_Backends lb ++ [captured]) lb) |}].

(** The checks of one listener; [FindPeer]'s nil peer is dereferenced for the message. *)
Definition listener_checks (c : Config Chain) (l : loc) (i : nat) (rec : Record_) (check : HealthCheck)
    (captured listener : string) : outcome (list (HealthCheckAction W)) :=
  '(host, _) ← map_err (Wrapf "While computing healthcheck records for load balancer listener %q: %w" [listener])
                 (SplitHostPort listener);
  match FindPeer c host with
  | Ok peer =>
      Ok ((fun ip =>
        {| Check := target_check rec check (IP_String ip);
           FailedAction _ := on_LB l i (fun lb => set_Listeners (filter (fun lis => lis <> captured) (lb_Listeners lb)) lb);
           ReviveAction _ := on_LB l i (fun lb => set_Listeners (lb_Listeners lb ++ [captured]) lb) |}) <$> IPs peer)
  | Err _ => Panic
  | Panic => Panic
  | Fatal m => Fatal m
  end.

Definition record_checks (c : Config Chain) (l : loc) (i : nat) (rec : Record_) : outcome (list (HealthCheckAction W)) :=
  if bool_decide (rec_Type rec = TypeA) then
    match rec_Value rec with
    | Some (ValA a) =>
        collect (fun check => Ok (address_check l i rec check <$> a_Addresses a)) (a_HealthCheck a)
    | _ => Panic
    end
  else if bool_decide (rec_Type rec = TypeLB) then
    match rec_Value rec with
    | Some (ValLB lb) =>
        collect (fun check =>
          bs ← collect (backend_check l i rec check (last_of (lb_Backends lb))) (lb_Backends lb);
          ls ← collect (listener_checks c l i rec check (last_of (lb_Listeners lb))) (lb_Listeners lb);
          Ok (bs ++ ls)) (lb_HealthCheck lb)
    | _ => Panic
    end
  else Ok [].

Definition zone_checks (c : Config Chain) (h : Heap) (e : string * loc) : outcome (list (HealthCheckAction W)) :=
  match h !! e.2 with
  | Some z => collect (fun '(i, rec) => record_checks c e.2 i rec) (imap pair (z_Records z))
  | None => Panic
  end.

Definition buildHealthChecks (h : Heap) (c : Config Chain) : outcome (HealthChecker W) :=
  peers ← collect peer_check (Peers c);
  zones ← collect (zone_checks c h) (range (Zones c));
  Ok (HealthCheck.Init (peers ++ zones)).
End launcher.

(** ** [monitorConfig] *)

Section monitor.
Context `{HC : HashChain} `{MR : MapRange}.
(** github.com/erikh/go-hashchain *)
Context (NewFromString : list string -> outcome Chain) (LastMatch : Chain -> Chain -> outcome unit).
(** The outcome of [controlclient.FromPeer(peer).Exchange(req, true)]. *)
Context (exchange : Peer -> Request -> outcome Message).

(** The state of the process and the requests the monitor has sent. *)
Definition Monitor : Type := World * list Request.

Definition ask (peer : Peer) (req : Request) : prog Monitor Message := fun '(w, log) =>
  ((w, log ++ [req]), exchange peer req).

Definition on_process {A} (m : prog World A) : prog Monitor A := fun '(w, log) =>
  let '(w', o) := m w in ((w', log), o).

(** An error is logged and ends the round. *)
Definition or_continue {A} (m : prog Monitor A) (k : A -> prog Monitor sent) : prog Monitor sent := fun st =>
  match m st with
  | (st', Ok a) => k a st'
  | (st', Err _) => (st', Ok Sent)
  | (st', Panic) => (st', Panic)
  | (st', Fatal msg) => (st', Fatal msg)
  end.

(** What follows when the publisher's chain differs from ours. *)
Definition fetchConfig (publisher : Peer) : prog Monitor sent :=
  or_continue (ask publisher (ConfigFetchRequest "")) (fun resp =>
    match resp with
    | ConfigFetchResponse _ config sums =>
        or_continue (lift (NewFromString sums)) (fun newChain =>
          match config with
          | Some d => or_continue (on_process (newConfig ← unmarshalled d; ReplaceConfig newConfig newChain)) (fun o => mret o)
          | None => lift Panic
          end)
    | _ => lift Panic
    end).

(** One round of the loop; [Blocked] when it waits for the reload channel. *)
Definition monitorConfig (peerName : string) : prog Monitor sent :=
  st ← get;
  let c := w_config st.1 in
  match GetPublisher c with
  | None => mret Sent
  | Some publisher =>
      name ← lift (Name publisher);
      if bool_decide (name = peerName) then mret Sent
      else
        or_continue (ask publisher (ConfigChainRequest "")) (fun resp =>
          match resp with
          | ConfigChainResponse _ sums =>
              or_continue (lift (NewFromString sums)) (fun publisherChain =>
              or_continue (lift (Sum (chain c))) (fun chainSum =>
              or_continue (lift (Sum publisherChain)) (fun publisherSum =>
                if bool_decide (chainSum = publisherSum) then mret Sent
                else or_continue (lift (LastMatch publisherChain (chain c))) (fun _ => fetchConfig publisher))))
          | _ => lift Panic
          end)
  end.
End monitor.
