(* ===== verification/LauncherChecks.v ===== *)
(** * The launcher: what the health checks and the configuration monitor do *)

From S2P Require Import Prelude GoNet GoTime HealthCheck DnsConfig Literal Config ConfigZones Prog Disk DiskSafety DiskLoad.
From S2P Require Import Election ControlServer ControlSafety Launcher.

Local Open Scope Z_scope.

(** An IPv4 address as [net.ParseIP] returns it. *)
Definition v4_address (ip : IP) : Prop :=
  exists a b c d, byte_ok a /\ byte_ok b /\ byte_ok c /\ byte_ok d /\ ip = v4_prefix ++ [a; b; c; d].

Lemma v4_String_inj ip1 ip2 : v4_address ip1 -> v4_address ip2 -> IP_String ip1 = IP_String ip2 -> ip1 = ip2.
Proof.
  intros (a & b & c & d & ? & ? & ? & ? & ->) (a' & b' & c' & d' & ? & ? & ? & ? & ->) E.
  rewrite <- (ParseIP_String_v4 a b c d), <- (ParseIP_String_v4 a' b' c' d') by done. by rewrite E.
Qed.

Lemma v4_ParseIP_String ip : v4_address ip -> ParseIP (IP_String ip) = ip.
Proof. intros (a & b & c & d & ? & ? & ? & ? & ->). by apply ParseIP_String_v4. Qed.

Lemma filter_ext_in {X} (P Q : X -> Prop) `{!forall x, Decision (P x)} `{!forall x, Decision (Q x)} (l : list X) :
  (forall x, x ∈ l -> P x <-> Q x) -> filter P l = filter Q l.
Proof.
  induction l as [|x l IH]; intros HPQ; [done|]. rewrite !filter_cons, IH by (intros; apply HPQ; by right).
  pose proof (HPQ x ltac:(left)). repeat case_decide; naive_solver.
Qed.

Section checks.
Context {Chain : Type}.
Notation W := (Services Chain).

Lemma value_at_set h l i v v' z :
  h !! l = Some z -> value_at h l i = Some v -> value_at (<[l := set_value_at i v' z]> h) l i = Some v'.
Proof.
  intros Hz. unfold value_at. rewrite Hz, lookup_insert_eq. cbn [mbind option_bind set_value_at z_Records].
  rewrite list_lookup_alter_eq. destruct (z_Records z !! i); simpl; [done|done].
Qed.

Lemma value_at_other h l i v' z l' i' :
  h !! l = Some z -> (l', i') <> (l, i) -> value_at (<[l := set_value_at i v' z]> h) l' i' = value_at h l' i'.
Proof.
  intros Hz Hne. unfold value_at. destruct (decide (l' = l)) as [->|Hl]; [|by rewrite lookup_insert_ne].
  rewrite lookup_insert_eq, Hz. cbn [mbind option_bind set_value_at z_Records].
  rewrite list_lookup_alter_ne; [done|congruence].
Qed.

Lemma value_at_zone h l i v : value_at h l i = Some v -> exists z, h !! l = Some z.
Proof. unfold value_at. destruct (h !! l); [eauto|done]. Qed.

Lemma on_A_run l i f (w : W) a :
  value_at (sv_heap w) l i = Some (ValA a) ->
  exists w', on_A l i f w = Ok (w', None) /\ value_at (sv_heap w') l i = Some (ValA (f a)) /\
    sv_config w' = sv_config w /\
    forall l' i', (l', i') <> (l, i) -> value_at (sv_heap w') l' i' = value_at (sv_heap w) l' i'.
Proof.
  intros Hv. destruct (value_at_zone _ _ _ _ Hv) as [z Hz]. unfold on_A. rewrite Hz, Hv. eexists. split; [done|].
  split_and!; [by eapply value_at_set|done|]. intros l' i' Hne. by apply value_at_other.
Qed.

Lemma on_LB_run l i f (w : W) lb :
  value_at (sv_heap w) l i = Some (ValLB lb) ->
  exists w', on_LB l i f w = Ok (w', None) /\ value_at (sv_heap w') l i = Some (ValLB (f lb)) /\
    sv_config w' = sv_config w /\
    forall l' i', (l', i') <> (l, i) -> value_at (sv_heap w') l' i' = value_at (sv_heap w) l' i'.
Proof.
  intros Hv. destruct (value_at_zone _ _ _ _ Hv) as [z Hz]. unfold on_LB. rewrite Hz, Hv. eexists. split; [done|].
  split_and!; [by eapply value_at_set|done|]. intros l' i' Hne. by apply value_at_other.
Qed.

Lemma target_check_target rec check t : Target (target_check rec check t) = t.
Proof. unfold target_check, Target. by do 2 case_bool_decide. Qed.

Lemma filter_perm_restore (x : IP) (l : list IP) :
  NoDup l -> x ∈ l -> filter (fun y => y <> x) l ++ [x] ≡ₚ l.
Proof.
  induction l as [|y l IH]; [by intros _ ?%elem_of_nil|]. rewrite NoDup_cons. intros [Hy Hl] Hx. rewrite filter_cons.
  case_decide as Hd.
  - apply elem_of_cons in Hx as [->|Hx]; [done|]. simpl. by rewrite IH.
  - subst y. rewrite Permutation_app_comm. simpl. f_equiv.
    clear IH Hl Hx. induction l as [|z l IH]; [done|]. rewrite not_elem_of_cons in Hy. destruct Hy as [Hz Hy].
    rewrite filter_cons_True by done. by rewrite IH.
Qed.

(** C31. Pruning and reviving an address: when the check of an address of an A record
    fails, exactly that address leaves the record; when it revives, the record has
    its original addresses again; no other record changes. *)
Theorem address_check_prunes_and_restores (w : W) (l : loc) (i : nat) (rec : Record_) (check : HealthCheck) (ip : IP) (a : A) :
  value_at (sv_heap w) l i = Some (ValA a) ->
  Forall v4_address (a_Addresses a) -> NoDup (a_Addresses a) -> ip ∈ a_Addresses a ->
  let act := address_check l i rec check ip in
  exists w1 w2 a1 a2,
    FailedAction act (Check act) w = Ok (w1, None) /\ value_at (sv_heap w1) l i = Some (ValA a1) /\
    a_Addresses a1 = filter (fun x => x <> ip) (a_Addresses a) /\
    ReviveAction act (Check act) w1 = Ok (w2, None) /\ value_at (sv_heap w2) l i = Some (ValA a2) /\
    a_Addresses a2 ≡ₚ a_Addresses a /\
    forall l' i', (l', i') <> (l, i) ->
      value_at (sv_heap w1) l' i' = value_at (sv_heap w) l' i' /\ value_at (sv_heap w2) l' i' = value_at (sv_heap w) l' i'.
Proof.
  intros Hv H4 Hnd Hin act. cbn [act address_check FailedAction ReviveAction Check]. rewrite target_check_target.
  set (f1 := fun a => set_Addresses _ a). set (f2 := fun a => set_Addresses _ a).
  destruct (on_A_run l i f1 w a Hv) as (w1 & E1 & V1 & _ & O1).
  destruct (on_A_run l i f2 w1 _ V1) as (w2 & E2 & V2 & _ & O2).
  assert (a_Addresses (f1 a) = filter (fun x => x <> ip) (a_Addresses a)) as Hf1.
  { unfold f1. cbn [a_Addresses set_Addresses]. apply filter_ext_in. rewrite Forall_forall in H4.
    intros x Hx. split; intros Hne E; apply Hne; [by subst|]. by apply v4_String_inj; [apply H4|apply H4|]. }
  exists w1, w2, (f1 a), (f2 (f1 a)). split_and!; try done.
  - unfold f2. cbn [a_Addresses set_Addresses]. rewrite Hf1, v4_ParseIP_String.
    + by apply filter_perm_restore.
    + rewrite Forall_forall in H4. auto.
  - intros l' i' Hne. rewrite O2, O1 by done. done.
Qed.

(** C36. A failing backend takes another one down: the actions of all backend checks of
    a load balancer capture the loop variable, which holds the last backend when
    they run.  When the check of a backend fails, the last backend is removed from
    the record and the failing one stays, unless it is the last itself. *)
Theorem backend_check_prunes_last (w : W) (l : loc) (i : nat) (rec : Record_) (check : HealthCheck) (lb : LB)
    (acts : list (HealthCheckAction W)) (j : nat) (act : HealthCheckAction W) (backend : string) :
  collect (backend_check l i rec check (last_of (lb_Backends lb))) (lb_Backends lb) = Ok acts ->
  acts !! j = Some act -> lb_Backends lb !! j = Some backend ->
  value_at (sv_heap w) l i = Some (ValLB lb) ->
  exists host port w' lb', SplitHostPort backend = Ok (host, port) /\ Target (Check act) = host /\
    FailedAction act (Check act) w = Ok (w', None) /\ value_at (sv_heap w') l i = Some (ValLB lb') /\
    lb_Backends lb' = filter (fun be => be <> last_of (lb_Backends lb)) (lb_Backends lb) /\
    (backend <> last_of (lb_Backends lb) -> backend ∈ lb_Backends lb').
Proof.
  intros Hc Hj Hb Hv. set (cap := last_of (lb_Backends lb)) in *.
  assert (exists host port, SplitHostPort backend = Ok (host, port) /\
    act = {| Check := target_check rec check host;
             FailedAction _ := on_LB l i (fun lb => set_Backends (filter (fun be => be <> cap) (lb_Backends lb)) lb);
             ReviveAction _ := on_LB l i (fun lb => set_Backends (lb_Backends lb ++ [cap]) lb) |}) as (host & port & Hs & ->).
  { clear Hv. revert acts j Hc Hj Hb. generalize (lb_Backends lb) as bs.
    induction bs as [|b bs IH]; intros acts j Hc Hj Hb; [done|]. cbn [collect] in Hc.
    apply bind_ok in Hc as (ys & Hy & (zs & Hz & [= <-])%bind_ok).
    unfold backend_check in Hy. apply bind_ok in Hy as ([host port] & Hs & [= <-]).
    destruct (SplitHostPort b) as [hp|?| |?] eqn:Eb; try done. injection Hs as ->.
    destruct j as [|j]; [|exact (IH zs j Hz Hj Hb)]. injection Hb as <-. injection Hj as <-. eauto. }
  cbn [FailedAction Check]. rewrite target_check_target.
  destruct (on_LB_run l i (fun lb => set_Backends (filter (fun be => be <> cap) (lb_Backends lb)) lb) w lb Hv)
    as (w' & E & V & _). exists host, port, w', (set_Backends (filter (fun be => be <> cap) (lb_Backends lb)) lb).
  split_and!; try done. intros Hne. cbn [lb_Backends set_Backends]. apply list_elem_of_filter. split; [done|].
  by apply list_elem_of_lookup_2 in Hb.
Qed.
End checks.

(** ** Failover *)

Section failover.
Context {Chain : Type} `{MR : MapRange}.
Context (uptime : Peer -> option Z) (hangs : Peer -> bool) (elect : Config Chain -> Config Chain * outcome Peer) (prepare : Peer -> outcome string).

(** The peers other than [peer]. *)
Definition others (peer : Peer) (c : Config Chain) : list Peer :=
  filter (fun q => peer_name q <> peer_name peer) (Peers c).

Lemma others_ok peer c :
  Forall named (Peers c) -> NoDup (peer_name <$> Peers c) -> "" ∉ (peer_name <$> Peers c) ->
  Forall named (others peer c) /\ NoDup (peer_name <$> others peer c) /\ "" ∉ (peer_name <$> others peer c).
Proof.
  intros Hn Hnd Hne. unfold others. split_and!; [by apply Forall_filter_l| |].
  - eapply sublist_NoDup; [done|apply fmap_sublist, sublist_filter].
  - intros (q & Hq & Hin)%list_elem_of_fmap. apply Hne. rewrite Hq. apply list_elem_of_fmap_2.
    by apply list_elem_of_filter in Hin as [_ ?].
Qed.

(** C26. Failover: when the health check of a peer fails, its action drops the peer
    from the configuration and holds an election.  The new publisher is a peer
    other than the failed one, it answers, and no other remaining peer has a
    greater uptime; every other peer that answers stays in the configuration.
    When no remaining peer has a positive uptime the action reports an error and
    the publisher stays what it was. *)
Theorem peer_failover (peer : Peer) (act : HealthCheckAction (Services Chain)) (w : Services Chain)
    (left : list Peer) (winner : outcome Peer) :
  let c := sv_config w in
  elected uptime hangs (others peer c) left winner -> elect (SetPeers c (others peer c)) = (SetPeers c left, winner) ->
  named peer -> Forall named (Peers c) -> NoDup (peer_name <$> Peers c) -> "" ∉ (peer_name <$> Peers c) ->
  peer_check elect prepare peer = Ok [act] ->
  exists w' err, FailedAction act (Check act) w = Ok (w', err) /\ sv_heap w' = sv_heap w /\
    (forall q, q ∈ Peers (sv_config w') -> q ∈ others peer c) /\
    (forall q, q ∈ others peer c -> is_Some (uptime q) -> q ∈ Peers (sv_config w')) /\
    match err with
    | None => exists p u, Publisher (sv_config w') = Some p /\ p ∈ others peer c /\ uptime p = Some u /\
        forall q v, q ∈ others peer c -> uptime q = Some v -> v <= u
    | Some e => e = ErrPeerNotFound /\ Publisher (sv_config w') = Publisher c /\
        forall q v, q ∈ others peer c -> uptime q = Some v -> v <= 0
    end.
Proof.
  intros c (e & Hr & Hf & -> & ->) Hel Hp Hn Hnd Hne Hact. destruct (others_ok peer c Hn Hnd Hne) as (Hn' & Hnd' & Hne').
  unfold peer_check in Hact. rewrite Name_named in Hact by done. injection Hact as <-. cbn [FailedAction Check].
  unfold RemovePeer. fold c. rewrite without_peer_spec by done. fold (others peer c). cbn [mbind outcome_bind].
  unfold holdElection. cbn [sv_config sv_heap].
  rewrite Hel.
  pose proof (election_rtc_Inv uptime hangs _ _ Hn' Hnd' Hr) as HI. destruct (inv_peers _ _ _ HI) as [Hsub Hkeep].
  pose proof (Vote_cases uptime hangs _ _ Hn' Hnd' Hne' HI Hf) as Hv. destruct (Vote e) as [p|err| |msg]; [| |done..].
  - destruct Hv as (Hin & u & Hu & _ & Hmax). assert (named p) as Hnp by (rewrite Forall_forall in Hn'; auto).
    rewrite Name_named by done. eexists _, None. split; [reflexivity|]. split; [done|].
    split_and!; [exact Hsub|exact Hkeep|]. by exists p, u.
  - destruct Hv as [-> Hall]. eexists _, (Some _). split; [reflexivity|]. split; [done|].
    split_and!; [exact Hsub|exact Hkeep|done|done|exact Hall].
Qed.
End failover.

(** ** The configuration monitor *)

Section monitor.
Context `{HC : HashChain} `{MR : MapRange} `{WI : !Wire} `{J : Jose}.
Context (NewFromString : list string -> outcome Chain) (LastMatch : Chain -> Chain -> outcome unit).
Context (exchange : Peer -> Request -> outcome Message).

(** Code that comes back with a value or an error. *)
Definition returns {A} (o : outcome A) : Prop := match o with Ok _ | Err _ => True | _ => False end.

(** C38. Configurations are never fetched from the publisher: two processes that start
    with the same hash chain (the empty one) keep it through any requests, so the
    chain a publisher reports always has the sum of one's own, and a round of
    [monitorConfig] asks for the chain at most and changes nothing, however the
    publisher's configuration was updated. *)
Theorem monitorConfig_never_fetches (mine mine' theirs theirs' theirs'' : Server) (t : Moment)
    (nonce peerName : string) (publisher : Peer) (m : Message) (log : list Request) :
  (forall c c', NewFromString (AllSums c) = Ok c' -> Sum c' = Sum c) ->
  (forall sums, returns (NewFromString sums)) -> (forall c, returns (Sum c)) ->
  chain (w_config (s_world mine)) = chain (w_config (s_world theirs)) ->
  rtc request_step mine mine' -> rtc request_step theirs theirs' ->
  Publisher (w_config (s_world mine')) = Some publisher -> named publisher ->
  handler t (ConfigChainRequest nonce) theirs' = (theirs'', Ok (Answer m)) ->
  exchange publisher (ConfigChainRequest "") = Ok m ->
  exists log', monitorConfig NewFromString LastMatch exchange peerName (s_world mine', log)
      = ((s_world mine', log ++ log'), Ok Sent) /\ (log' = [] \/ log' = [ConfigChainRequest ""]).
Proof.
  intros Hlaw Htot HSum Hch Hm Ht Hp Hn Hh He. apply requests_identity in Hm, Ht. unfold identity_of in Hm, Ht.
  assert (chain (w_config (s_world mine')) = chain (w_config (s_world theirs'))) as Ec by congruence.
  cbn [handler] in Hh. unfold handleConfigChain, get, mret, prog_ret, mbind, prog_bind in Hh.
  injection Hh as _ <-. unfold monitorConfig. erewrite prog_bind_run; [|reflexivity]. cbn [fst].
  unfold GetPublisher. rewrite Hp. erewrite prog_bind_run; [|unfold lift; rewrite Name_named by done; reflexivity].
  case_bool_decide; [exists []; rewrite app_nil_r; by split; [|left]|].
  exists [ConfigChainRequest ""]. split; [|by right]. unfold or_continue at 1, ask. rewrite He.
  unfold or_continue at 1, lift. pose proof (Htot (AllSums (chain (w_config (s_world theirs'))))) as Hret.
  destruct (NewFromString _) as [c'|?| |?] eqn:E; [|done..].
  apply Hlaw in E. unfold or_continue. rewrite Ec, E. pose proof (HSum (chain (w_config (s_world theirs')))) as Hsum.
  clear E. destruct (Sum (chain (w_config (s_world theirs')))) as [x|?| |?]; [|done..]. by rewrite (bool_decide_eq_true_2 (x = x)).
Qed.
End monitor.

(** ** Examples *)

#[local] Existing Instance canonical_range.
#[local] Existing Instance plain_codec.
#[local] Existing Instance plain_chain.
#[local] Existing Instance plain_wire.
#[local] Existing Instance plain_jose.

Definition two_addresses : A :=
  {| a_Addresses := [ParseIP "10.0.0.1"; ParseIP "10.0.0.2"]; a_TTL := 60; a_HealthCheck := [] |}.
Definition record_of (v : RecordValue) : Record_ :=
  {| rec_Type := match v with ValA _ => TypeA | ValLB _ => TypeLB end; rec_Name := "foo.";
     rec_LiteralValue := ∅; rec_Value := Some v |}.
Definition services_of (v : RecordValue) : Services unit :=
  mkServices {[1%positive := {| z_SOA := None; z_NS := None; z_Records := [record_of v] |}]} two_peers.

Lemma two_addresses_v4 : Forall v4_address (a_Addresses two_addresses).
Proof.
  apply Forall_cons; split; [exists 10, 0, 0, 1|apply Forall_singleton; exists 10, 0, 0, 2]; unfold byte_ok; by split_and!.
Qed.

Lemma address_check_witness :
  exists w1 a1, FailedAction (address_check 1%positive 0 (record_of (ValA two_addresses)) (Build_HealthCheck "" "" 1 1 None "" false) (ParseIP "10.0.0.2"))
      (Check (address_check (Chain := unit) 1%positive 0 (record_of (ValA two_addresses)) (Build_HealthCheck "" "" 1 1 None "" false) (ParseIP "10.0.0.2")))
      (services_of (ValA two_addresses)) = Ok (w1, None) /\
    value_at (sv_heap w1) 1%positive 0 = Some (ValA a1) /\
    a_Addresses a1 = filter (fun x => x <> ParseIP "10.0.0.2") (a_Addresses two_addresses).
Proof.
  destruct (address_check_prunes_and_restores (services_of (ValA two_addresses)) 1%positive 0 (record_of (ValA two_addresses))
    (Build_HealthCheck "" "" 1 1 None "" false) (ParseIP "10.0.0.2") two_addresses)
    as (w1 & w2 & a1 & a2 & H1 & H2 & H3 & _).
  - reflexivity.
  - exact two_addresses_v4.
  - apply NoDup_cons; split; [vm_compute; set_solver|apply NoDup_singleton].
  - right. left.
  - exists w1, a1. split; [exact H1|]. split; [exact H2|exact H3].
Defined.

Definition two_backend_lb : LB :=
  {| lb_Listeners := []; lb_Kind := "tcp"; lb_Backends := ["10.0.0.1:80"; "10.0.0.2:80"];
     lb_SimultaneousConnections := 1; lb_MaxConnectionsPerAddress := 1; lb_ConnectionTimeout := 0; lb_TTL := 60;
     lb_TLS := None; lb_HealthCheck := [] |}.

Lemma backend_check_prunes_last_witness :
  exists (acts : list (HealthCheckAction (Services unit))) act w' lb',
    collect (backend_check 1%positive 0 (record_of (ValLB two_backend_lb)) (Build_HealthCheck "" "" 1 1 None "" false)
               (last_of (lb_Backends two_backend_lb))) (lb_Backends two_backend_lb) = Ok acts /\
    acts !! 0%nat = Some act /\
    FailedAction act (Check act) (services_of (ValLB two_backend_lb)) = Ok (w', None) /\
    value_at (sv_heap w') 1%positive 0 = Some (ValLB lb') /\ "10.0.0.1:80" ∈ lb_Backends lb'.
Proof.
  assert (match collect (backend_check (Chain := unit) 1%positive 0 (record_of (ValLB two_backend_lb))
    (Build_HealthCheck "" "" 1 1 None "" false) (last_of (lb_Backends two_backend_lb))) (lb_Backends two_backend_lb)
    with Ok (_ :: _) => true | _ => false end = true) as Hw by (vm_compute; reflexivity).
  destruct (collect _ _) as [[|act acts]| | |] eqn:E; [discriminate Hw| |discriminate Hw..].
  pose proof (eq_refl : (act :: acts) !! 0%nat = Some act) as Ea.
  destruct (backend_check_prunes_last (services_of (ValLB two_backend_lb)) _ _ _ _ two_backend_lb (act :: acts) 0 act "10.0.0.1:80"
    E Ea eq_refl eq_refl) as (host & port & w' & lb' & _ & _ & H1 & H2 & _ & H3).
  exists (act :: acts), act, w', lb'. split; [reflexivity|]. split; [exact Ea|]. split; [exact H1|]. split; [exact H2|].
  apply H3. vm_compute. discriminate.
Defined.

Definition plain_NewFromString (sums : list string) : outcome (@Chain plain_codec plain_chain) := Ok tt.
Definition plain_LastMatch (c1 c2 : @Chain plain_codec plain_chain) : outcome unit := Ok tt.
Definition plain_exchange (p : Peer) (r : Request) : outcome Message := Ok (ConfigChainResponse "" []).

Lemma monitorConfig_never_fetches_witness :
  exists log', monitorConfig plain_NewFromString plain_LastMatch plain_exchange "alice"
      (s_world (plain_server (Some bob)), []) = ((s_world (plain_server (Some bob)), [] ++ log'), Ok Sent) /\
    (log' = [] \/ log' = [ConfigChainRequest ""]).
Proof.
  eapply (monitorConfig_never_fetches plain_NewFromString plain_LastMatch plain_exchange
    (plain_server (Some bob)) (plain_server (Some bob)) (plain_server None) (plain_server None) _ (moment 5) "n1" "alice"
    bob (ConfigChainResponse "" []) []); try reflexivity; try apply rtc_refl; try done.
  by eexists.
Defined.

Definition two_services : Services unit := mkServices ∅ (SetPeers two_peers [alice; bob]).
Definition alice_wins (c : Config unit) : Config unit * outcome Peer := (c, Ok alice).
Definition no_ping (p : Peer) : outcome string := Ok "".

Lemma alice_elected : elected only_alice none_hangs [alice] [alice] (Ok alice).
Proof.
  exists {| e_peers := [alice]; e_uptimes := {["alice" := 5]}; e_goroutines := [(alice, Finished)] |}. split_and!.
  - eapply rtc_l; [apply (step_uptime only_alice none_hangs _ _ [] alice [] "alice" 5); reflexivity|]. apply rtc_refl.
  - by repeat constructor.
  - reflexivity.
  - by vm_compute.
Qed.

Lemma peer_failover_witness :
  exists act w' err, peer_check alice_wins no_ping bob = Ok [act] /\
    FailedAction act (Check act) two_services = Ok (w', err) /\ bob ∉ Peers (sv_config w').
Proof.
  destruct quorum_ok as (H1 & H2 & H3).
  destruct (peer_failover only_alice none_hangs alice_wins no_ping bob _ two_services [alice] (Ok alice)
    alice_elected eq_refl (ltac:(by eexists)) H1 H2 H3 eq_refl) as (w' & err & E & _ & Hsub & _).
  eexists _, w', err. split_and!; [reflexivity|exact E|]. intros Hb. specialize (Hsub _ Hb).
  apply list_elem_of_filter in Hsub as [Hne _]. by destruct Hne.
Defined.
