(* ===== verification/Lifecycle.v ===== *)
(** * Component: starting and stopping the services (pkg/launcher/launcher.go)

    [Launch], [Shutdown], [createBalancers] and [monitorReload] of the launcher
    with the [Start] and [Shutdown] of the control server, the DNS server and the
    balancers, over the process's listening sockets.  A [Process] is the [World] of
    the configuration with the multiset of open sockets, the sockets whose closing
    goroutine has been woken, and the goroutines that wait for reloads, monitor
    the publisher and run health checks.

    The operating system is the class [Sockets]: what [net.Listen] says to a new
    socket given the open ones, and the errors that serving and shutting down
    report.  Between the calls of one [Launch] no request changes the
    configuration. *)

From stdpp Require Import gmultiset.
From S2P Require Import Prelude GoNet GoTime HealthCheck DnsConfig Literal Config ConfigZones Prog Disk DnsServer Balancer.
From S2P Require Import ControlServer Launcher.

Local Open Scope Z_scope.

#[export] Instance Listening_eq_dec : EqDecision Listening.
Proof. solve_decision. Defined.
#[export] Instance Listening_countable : Countable Listening.
Proof.
  refine (inj_countable' (fun s => (srv_Addr s, srv_Net s)) (fun '(a, n) => {| srv_Addr := a; srv_Net := n |}) _).
  by intros [].
Defined.

Definition tcp (addr : string) : Listening := {| srv_Addr := addr; srv_Net := "tcp" |}.
Definition udp (addr : string) : Listening := {| srv_Addr := addr; srv_Net := "udp" |}.

Class Sockets := {
  (** the error of listening on a socket when some are open *)
  listen_err : gmultiset Listening -> Listening -> option error;
  (** what [http.Server.Serve] reports while its caller still waits *)
  serve_err : Listening -> option error;
  (** whether the UDP listener of the DNS server reports before the TCP one *)
  udp_first : bool;
  (** the errors of shutting down a DNS listener and the control server *)
  dns_stop : Listening -> option error;
  http_stop : option error
}.

Record Process `{HC : HashChain} := mkProcess {
  p_world : World;
  p_open : gmultiset Listening;
  p_closing : gmultiset Listening;
  p_reloaders : nat;
  p_monitors : nat;
  p_checkers : nat
}.

(** The control server: its listener, and its state in a world. *)
Record Control `{HC : HashChain} := { ctl_listener : Listening; ctl_server : World -> ControlServer.Server }.

(** The launcher's [Server] after a successful [Launch]. *)
Record Launched `{HC : HashChain} := {
  l_control : Control;
  l_dns : DNSServer;
  l_balancers : list Balancer;
  l_checker : HealthChecker (Services Chain);
  l_peerName : string
}.

(** [NonceExpiration] of controlserver.go *)
Definition NonceExpiration : Z := 30 * Second.

Section lifecycle.
Context `{HC : HashChain} `{MR : MapRange} `{TL : TlsLib} `{SK : Sockets}.
Context (elect : Config Chain -> Config Chain * outcome Peer) (prepare : Peer -> outcome string).
(** [time.Now()] when the control server starts. *)
Context (boot : Z).

Definition set_open (f : gmultiset Listening -> gmultiset Listening) (p : Process) : Process :=
  mkProcess _ _ (p_world p) (f (p_open p)) (p_closing p) (p_reloaders p) (p_monitors p) (p_checkers p).
Definition set_world (w : World) (p : Process) : Process :=
  mkProcess _ _ w (p_open p) (p_closing p) (p_reloaders p) (p_monitors p) (p_checkers p).

Definition opens (s : Listening) : prog Process unit := modify (set_open (fun o => {[+ s +]} ⊎ o)).
Definition closes (s : Listening) : prog Process unit := modify (set_open (fun o => o ∖ {[+ s +]})).

(** ** The control server *)

(** [controlserver.Start]; a listener whose [Serve] fails is closed by it. *)
Definition control_Start (me : Peer) (listenSpec : string) : prog Process Control :=
  p ← get;
  let l := tcp listenSpec in
  s ← lift (server_Start (p_world p) me NonceExpiration boot (listen_err (p_open p) l) (serve_err l));
  _ ← opens l;
  mret {| ctl_listener := l; ctl_server := fun w => put_world w s |}.

(** [(s *Server) Shutdown]: the listener is closed whatever follows. *)
Definition control_Shutdown (c : Control) : prog Process unit :=
  _ ← closes (ctl_listener c);
  lift (match http_stop with Some e => Err e | None => Ok tt end).

(** ** The DNS server *)

(** [ds.Start]: each listener that can be opened is, whatever the other reports. *)
Definition dns_Start (zones : ZoneMap) (listenSpec : string) : prog Process DNSServer :=
  p ← get;
  let udp_err := listen_err (p_open p) (udp listenSpec) in
  let tcp_err := listen_err (p_open p) (tcp listenSpec) in
  let '(ds, o) := DnsServer.Start {| ds_Zones := zones; ds_udpServer := None; ds_tcpServer := None |} listenSpec
                    (if udp_first then udp_err else tcp_err) (if udp_first then tcp_err else udp_err) in
  _ ← (match udp_err with None => opens (udp listenSpec) | Some _ => mret tt end);
  _ ← (match tcp_err with None => opens (tcp listenSpec) | Some _ => mret tt end);
  _ ← lift o;
  mret ds.

(** [ds.Shutdown]: the TCP listener is not reached when the UDP one fails. *)
Definition dns_Shutdown (ds : DNSServer) : prog Process unit :=
  _ ← (match ds_udpServer ds, ds_tcpServer ds with
       | Some u, Some t =>
           match dns_stop u, dns_stop t with
           | Some _, _ => mret tt
           | None, Some _ => closes u
           | None, None => _ ← closes u; closes t
           end
       | _, _ => mret tt
       end);
  lift (DnsServer.Shutdown ds dns_stop).

(** ** The balancers *)

(** [balancer.Start]; a listener that was opened is closed when [BalanceTCP] or
    [BalanceHTTP] reports an error, but not when the kind is unknown. *)
Definition balancer_start (b : Balancer) : prog Process unit :=
  p ← get;
  let l := tcp (listenSpec b) in
  match listen_err (p_open p) l with
  | Some e => lift (balancer_Start b (Some e) None)
  | None =>
      _ ← opens l;
      if bool_decide (kind b = BalanceTCP) then
        _ ← lift (dispatchTCP b); lift (balancer_Start b None None)
      else if bool_decide (kind b = BalanceHTTP) then
        _ ← (match serve_err l with Some _ => closes l | None => mret tt end);
        lift (balancer_Start b None (serve_err l))
      else lift (balancer_Start b None None)
  end.

(** [balancer.Shutdown] cancels the balancer's context: it wakes [monitorListen],
    which [BalanceTCP] has started and [BalanceHTTP] has not. *)
Definition balancer_Shutdown (b : Balancer) : prog Process unit :=
  if bool_decide (kind b = BalanceTCP) then
    modify (fun p => mkProcess _ _ (p_world p) (p_open p) ({[+ tcp (listenSpec b) +]} ⊎ p_closing p)
                       (p_reloaders p) (p_monitors p) (p_checkers p))
  else mret tt.

(** The woken [monitorListen] goroutines close their listeners. *)
Definition settle (p : Process) : Process :=
  mkProcess _ _ (p_world p) (p_open p ∖ p_closing p) ∅ (p_reloaders p) (p_monitors p) (p_checkers p).

(** The balancer configuration of an LB record. *)
Definition balancer_config (lb : LB) : BalancerConfig :=
  {| bc_Kind := lb_Kind lb; bc_Backends := lb_Backends lb;
     bc_SimultaneousConnections := lb_SimultaneousConnections lb;
     bc_MaxConnectionsPerAddress := lb_MaxConnectionsPerAddress lb;
     bc_ConnectionTimeout := lb_ConnectionTimeout lb;
     bc_TLS := (fun tls => {| CACertificate := tls_CACertificate tls; Certificate := tls_Certificate tls;
                              tls_PrivateKey := tls_Key tls |}) <$> lb_TLS lb |}.

Definition address_balancer (rec : Record_) (lb : LB) (port : string) (ip : IP) : prog Process (list Balancer) :=
  b ← lift (Balancer.Init (JoinHostPort (IP_String ip) port) (balancer_config lb));
  _ ← on_err (fun _ => Errorf "Could not start balancer %q: %v" [rec_Name rec]) (balancer_start b);
  mret [b].

(** The balancers of one listener: one per address of the peer it names. *)
Definition listener_balancers (c : Config Chain) (rec : Record_) (lb : LB) (listener : string) :
    prog Process (list Balancer) :=
  '(host, port) ← lift (map_err (fun _ => Errorf "Invalid listener %q: could not parse: %v" [listener]) (SplitHostPort listener));
  peer ← lift (map_err (Wrapf "Host %q is not a peer: %w" [host]) (FindPeer c host));
  collect_prog (address_balancer rec lb port) (IPs peer).

Definition record_balancers (c : Config Chain) (rec : Record_) : prog Process (list Balancer) :=
  if bool_decide (rec_Type rec = TypeLB) then
    match rec_Value rec with
    | Some (ValLB lb) => collect_prog (listener_balancers c rec lb) (lb_Listeners lb)
    | _ => lift (Err (Errorf "LB record for %q was not parsed correctly" [rec_Name rec]))
    end
  else mret [].

Definition zone_balancers (c : Config Chain) (h : Heap) (e : string * loc) : prog Process (list Balancer) :=
  match h !! e.2 with
  | Some z => collect_prog (record_balancers c) (z_Records z)
  | None => lift Panic
  end.

Definition createBalancers (c : Config Chain) : prog Process (list Balancer) :=
  p ← get; collect_prog (zone_balancers c (w_heap (p_world p))) (range (Zones c)).

(** ** The launcher *)

(** An action on the configuration and the zones, run on the process. *)
Definition on_services (f : Services Chain -> outcome (Services Chain * option error)) : prog Process unit := fun p =>
  let w := p_world p in
  match f (mkServices (w_heap w) (w_config w)) with
  | Ok (sv, err) =>
      (set_world (Disk.set_config (sv_config sv) (set_heap (sv_heap sv) w)) p,
       match err with Some e => Err e | None => Ok tt end)
  | Err e => (p, Err e)
  | Panic => (p, Panic)
  | Fatal msg => (p, Fatal msg)
  end.

(** [s.Launch(peerName, c)] on the configuration of the process. *)
Definition Launch (peerName : string) : prog Process Launched :=
  p ← get;
  let c := w_config (p_world p) in
  peer ← on_err (Wrapf "Could not find the name of this peer: %q: %w" [peerName]) (lift (FindPeer c peerName));
  cs ← on_err (Wrapf "Error while starting control server: %w" []) (control_Start peer (listen_Control (Listen c)));
  dns ← dns_Start (Zones c) (listen_DNS (Listen c));
  balancers ← createBalancers c;
  healthchecker ← on_err (Wrapf "While constructing health check subsystem: %w" [])
    (lift (buildHealthChecks elect prepare (w_heap (p_world p)) c));
  _ ← modify (fun p => mkProcess _ _ (p_world p) (p_open p) (p_closing p) (S (p_reloaders p)) (S (p_monitors p))
                         (S (p_checkers p)));
  _ ← on_err (Wrapf "Error while holding election: %w" []) (on_services (holdElection elect));
  mret {| l_control := cs; l_dns := dns; l_balancers := balancers; l_checker := healthchecker; l_peerName := peerName |}.

(** [s.Shutdown(ctx)] *)
Definition Shutdown (s : Launched) : prog Process unit :=
  _ ← modify (fun p => mkProcess _ _ (p_world p) (p_open p) (p_closing p) (p_reloaders p) (p_monitors p) (pred (p_checkers p)));
  _ ← on_err (fun _ => Errorf "While terminating DNS server: %v" []) (dns_Shutdown (l_dns s));
  _ ← on_err (fun _ => Errorf "While terminating control server: %v" []) (control_Shutdown (l_control s));
  _ ← collect_prog (fun b => _ ← balancer_Shutdown b; mret (@nil unit)) (l_balancers s);
  mret tt.

(** [monitorReload] of [s] once a value is in the reload channel: the services that
    run afterwards, [None] when [Launch] has failed.  The goroutine ends.  The
    listeners that [Shutdown] has told to close are closed by the time [Launch]
    opens new ones: starting the control server alone takes 100 ms. *)
Definition monitorReload (s : Launched) : prog Process (option Launched) := fun p =>
  let w := p_world p in
  let r := reload (w_config w) in
  match w_chans w !! r with
  | Some true =>
      let p1 := set_world (set_chans (<[r := false]> (w_chans w)) w) p in
      let '(p2, o) := Shutdown s p1 in
      match o with
      | Panic => (p2, Panic)
      | Fatal msg => (p2, Fatal msg)
      | _ =>
          let p3 := settle p2 in
          let p4 := mkProcess _ _ (p_world p3) (p_open p3) (p_closing p3) (pred (p_reloaders p3)) (p_monitors p3) (p_checkers p3) in
          match Launch (l_peerName s) p4 with
          | (p5, Ok s2) => (p5, Ok (Some s2))
          | (p5, Err _) => (p5, Ok None)
          | (p5, Panic) => (p5, Panic)
          | (p5, Fatal msg) => (p5, Fatal msg)
          end
      end
  | _ => (p, Ok (Some s))
  end.
End lifecycle.
