(* ===== verification/LifecycleSafety.v ===== *)
(** * Starting and stopping: which sockets are open

    What [Launch] opens, what [Shutdown] and a reload leave open, and why a
    failed launch or a reload with an HTTP balancer cannot be repaired. *)

From stdpp Require Import gmultiset.
From S2P Require Import Prelude GoNet GoTime HealthCheck DnsConfig Literal Config ConfigZones Prog Disk DiskSafety DnsServer Balancer.
From S2P Require Import Election ControlServer Launcher LauncherChecks Lifecycle.

Local Open Scope Z_scope.

(** The listener of a balancer, and those of several. *)
Definition socket (b : Balancer) : Listening := tcp (listenSpec b).
Definition sockets (bs : list Balancer) : gmultiset Listening := list_to_set_disj (socket <$> bs).

Lemma sockets_nil : sockets [] = ∅.
Proof. done. Qed.
Lemma sockets_cons b bs : sockets (b :: bs) = {[+ socket b +]} ⊎ sockets bs.
Proof. done. Qed.
Lemma sockets_app bs1 bs2 : sockets (bs1 ++ bs2) = sockets bs1 ⊎ sockets bs2.
Proof. unfold sockets. by rewrite fmap_app, list_to_set_disj_app. Qed.
Lemma elem_of_sockets b bs : b ∈ bs -> socket b ∈ sockets bs.
Proof. intros Hb. apply elem_of_list_to_set_disj, list_elem_of_fmap_2, Hb. Qed.

(** Balancers that stop listening when they are shut down, and those that do not. *)
Definition tcp_balancers (bs : list Balancer) : list Balancer := filter (fun b => kind b = BalanceTCP) bs.
Definition http_balancers (bs : list Balancer) : list Balancer := filter (fun b => kind b <> BalanceTCP) bs.

Lemma sockets_split bs : sockets bs = sockets (tcp_balancers bs) ⊎ sockets (http_balancers bs).
Proof.
  induction bs as [|b bs IH]; [done|]. unfold tcp_balancers, http_balancers in *. rewrite !filter_cons, sockets_cons, IH.
  repeat case_decide; rewrite ?sockets_cons; try done; multiset_solver.
Qed.

Section lifecycle.
Context `{HC : HashChain} `{MR : MapRange} `{TL : TlsLib} `{SK : Sockets}.
Context (elect : Config Chain -> Config Chain * outcome Peer) (prepare : Peer -> outcome string) (boot : Z).

Definition optional (o : option Listening) : gmultiset Listening := match o with Some l => {[+ l +]} | None => ∅ end.

(** The sockets of a launched server. *)
Definition sockets_of (s : Launched) : gmultiset Listening :=
  {[+ ctl_listener (l_control s) +]} ⊎ optional (ds_udpServer (l_dns s)) ⊎ optional (ds_tcpServer (l_dns s)) ⊎ sockets (l_balancers s).

(** ** What the parts open *)

Definition grown (x : gmultiset Listening) (p : Process) : Process := set_open (fun o => x ⊎ o) p.

Ltac process := unfold grown, set_open; cbn [p_world p_open p_closing p_reloaders p_monitors p_checkers].

(** [bs] were started between [p] and [p']. *)
Definition started (p : Process) (bs : list Balancer) (p' : Process) : Prop :=
  p' = grown (sockets bs) p /\
  forall b, b ∈ bs -> exists o, p_open p ⊆ o /\ listen_err o (socket b) = None.

Lemma grown_empty p : grown ∅ p = p.
Proof. destruct p. process. by rewrite gmultiset_disj_union_left_id. Qed.
Lemma grown_grown x y p : grown y (grown x p) = grown (x ⊎ y) p.
Proof.
  process. rewrite gmultiset_disj_union_assoc, (gmultiset_disj_union_comm y x). done.
Qed.

Lemma started_nil p : started p [] p.
Proof. split; [by rewrite sockets_nil, grown_empty|]. intros b Hb. by apply elem_of_nil in Hb. Qed.

Lemma started_app p bs1 p1 bs2 p2 : started p bs1 p1 -> started p1 bs2 p2 -> started p (bs1 ++ bs2) p2.
Proof.
  intros [-> H1] [-> H2]. split; [by rewrite grown_grown, sockets_app|].
  intros b [Hb|Hb]%elem_of_app; [by apply H1|]. destruct (H2 b Hb) as (o & Ho & Hl). exists o. split; [|done].
  unfold grown, set_open in Ho; cbn [p_world p_open p_closing p_reloaders p_monitors p_checkers] in Ho. multiset_solver.
Qed.

Lemma control_Start_ok me spec p p' c :
  control_Start boot me spec p = (p', Ok c) ->
  p' = grown {[+ tcp spec +]} p /\ ctl_listener c = tcp spec /\ listen_err (p_open p) (tcp spec) = None /\
  exists k, AuthKey (w_config (p_world p)) = Some k /\
    forall w, ctl_server c w = mkServer _ _ w me (Some k) boot NonceExpiration ∅ ∅.
Proof.
  unfold control_Start. intros (p1 & ? & [= <- <-] & (p2 & s & Hs & (p3 & [] & [= <-] & [= <- <-])%prog_bind_ok)%prog_bind_ok)%prog_bind_ok.
  apply lift_ok in Hs as [-> Hs]. unfold server_Start in Hs. destruct (AuthKey _) as [k|] eqn:Ek; [|done].
  destruct (listen_err _ _) as [e|] eqn:El; [done|]. destruct (serve_err _); [done|]. injection Hs as <-.
  split_and!; try done. by exists k.
Qed.

Lemma dns_Start_ok zones spec p p' ds :
  dns_Start zones spec p = (p', Ok ds) ->
  p' = grown ({[+ udp spec +]} ⊎ {[+ tcp spec +]}) p /\
  ds = {| ds_Zones := zones; ds_udpServer := Some (udp spec); ds_tcpServer := Some (tcp spec) |}.
Proof.
  unfold dns_Start. intros (p1 & ? & [= <- <-] & Hr)%prog_bind_ok. cbv zeta in Hr. cbn [DnsServer.Start ds_Zones] in Hr.
  destruct (listen_err (p_open p) (udp spec)) as [e1|], (listen_err (p_open p) (tcp spec)) as [e2|], udp_first;
    apply prog_bind_ok in Hr as (p2 & [] & [= <-] & (p3 & [] & [= <-] & (p4 & [] & [-> Ho]%lift_ok & [= <- <-])%prog_bind_ok)%prog_bind_ok);
    try discriminate Ho; (split; [|done]); process; f_equal; multiset_solver.
Qed.

Lemma balancer_start_ok b p p' u : balancer_start b p = (p', Ok u) -> started p [b] p'.
Proof.
  unfold balancer_start. intros (p1 & ? & [= <- <-] & Hr)%prog_bind_ok. cbv zeta in Hr.
  destruct (listen_err _ _) as [e|] eqn:El; [by apply lift_ok in Hr as [_ ?]|].
  assert (p' = grown {[+ socket b +]} p) as ->.
  { apply prog_bind_ok in Hr as (p2 & [] & [= <-] & Hr). case_bool_decide as Ht.
    - by apply prog_bind_ok in Hr as (p3 & l & [-> _]%lift_ok & [-> _]%lift_ok).
    - case_bool_decide as Hh.
      + destruct (serve_err _); apply prog_bind_ok in Hr as (p3 & [] & [= <-] & [-> Ho]%lift_ok); [|done].
        unfold balancer_Start in Ho. by rewrite (bool_decide_eq_true_2 (kind b = BalanceHTTP)), orb_true_r in Ho.
      + by apply lift_ok in Hr as [-> _]. }
  split; [by rewrite sockets_cons, sockets_nil, right_id_L by apply _|].
  intros x ->%list_elem_of_singleton. by exists (p_open p).
Qed.

Lemma address_balancer_ok rec lb port ip p p' bs :
  address_balancer rec lb port ip p = (p', Ok bs) ->
  started p bs p' /\ exists b, bs = [b] /\ Balancer.Init (JoinHostPort (IP_String ip) port) (balancer_config lb) = Ok b.
Proof.
  unfold address_balancer.
  intros (p1 & b & [-> Hi]%lift_ok & (p2 & [] & Hs%on_err_ok & [= <- <-])%prog_bind_ok)%prog_bind_ok.
  split; [by eapply balancer_start_ok|eauto].
Qed.

Lemma collect_started {X} (f : X -> prog Process (list Balancer)) l p p' bs :
  (forall x p p' bs, f x p = (p', Ok bs) -> started p bs p') -> collect_prog f l p = (p', Ok bs) -> started p bs p'.
Proof.
  intros Hf. revert p p' bs. induction l as [|x l IH]; intros p p' bs Hr; cbn [collect_prog] in Hr.
  { injection Hr as <- <-. apply started_nil. }
  apply prog_bind_ok in Hr as (p1 & bs1 & H1 & (p2 & bs2 & H2 & [= <- <-])%prog_bind_ok).
  eapply started_app; eauto.
Qed.

Lemma createBalancers_started c p p' bs : createBalancers c p = (p', Ok bs) -> started p bs p'.
Proof.
  unfold createBalancers. intros (p1 & ? & [= <- <-] & Hr)%prog_bind_ok. revert Hr. apply collect_started.
  intros [k l] p1 p1' bs1. unfold zone_balancers. cbn [snd]. destruct (_ !! l) as [z|]; [|done].
  apply collect_started. intros rec p2 p2' bs2. unfold record_balancers. case_bool_decide; [|intros [= <- <-]; apply started_nil].
  destruct (rec_Value rec) as [[a|lb]|]; [done| |done]. apply collect_started. intros listener p3 p3' bs3.
  unfold listener_balancers. intros (p4 & [host port] & [-> _]%lift_ok & (p5 & peer & [-> _]%lift_ok & Hr)%prog_bind_ok)%prog_bind_ok.
  revert Hr. apply collect_started. intros ip p6 p6' bs6 Hr. by apply address_balancer_ok in Hr as [? _].
Qed.

(** An LB record of the configuration asks for a balancer at an address. *)
Definition wants (h : Heap) (c : Config Chain) (lb : LB) (spec : string) : Prop :=
  exists k l z rec listener host port peer ip,
    Zones c !! k = Some l /\ h !! l = Some z /\ rec ∈ z_Records z /\ rec_Type rec = TypeLB /\
    rec_Value rec = Some (ValLB lb) /\ listener ∈ lb_Listeners lb /\ SplitHostPort listener = Ok (host, port) /\
    FindPeer c host = Ok peer /\ ip ∈ IPs peer /\ spec = JoinHostPort (IP_String ip) port.

Lemma createBalancers_wants c p p' bs lb spec :
  createBalancers c p = (p', Ok bs) -> wants (w_heap (p_world p)) c lb spec ->
  exists b, b ∈ bs /\ Balancer.Init spec (balancer_config lb) = Ok b.
Proof.
  intros Hr (k & l & z & rec & listener & host & port & peer & ip & Hk & Hz & Hrec & Ht & Hv & Hl & Hs & Hp & Hip & ->).
  unfold createBalancers in Hr. apply prog_bind_ok in Hr as (p1 & ? & [= <- <-] & Hr).
  apply elem_of_range in Hk. destruct (collect_prog_elem _ _ _ _ _ _ Hr Hk) as (p2 & p2' & bs2 & H2 & Hsub2).
  unfold zone_balancers in H2. cbn [snd] in H2. rewrite Hz in H2.
  destruct (collect_prog_elem _ _ _ _ _ _ H2 Hrec) as (p3 & p3' & bs3 & H3 & Hsub3).
  unfold record_balancers in H3. rewrite bool_decide_eq_true_2, Hv in H3 by done.
  destruct (collect_prog_elem _ _ _ _ _ _ H3 Hl) as (p4 & p4' & bs4 & H4 & Hsub4).
  unfold listener_balancers in H4.
  apply prog_bind_ok in H4 as (p5 & [host' port'] & [-> Hs']%lift_ok & (p6 & peer' & [-> Hp']%lift_ok & H5)%prog_bind_ok).
  rewrite Hs in Hs'. injection Hs' as <- <-. rewrite Hp in Hp'. injection Hp' as <-.
  destruct (collect_prog_elem _ _ _ _ _ _ H5 Hip) as (p7 & p7' & bs7 & H7 & Hsub7).
  apply address_balancer_ok in H7 as (_ & b & -> & Hb). exists b. split; [|done]. apply Hsub2, Hsub3, Hsub4, Hsub7. set_solver.
Qed.

(** Nothing else is balanced. *)
Lemma createBalancers_only c p p' bs b :
  createBalancers c p = (p', Ok bs) -> b ∈ bs ->
  exists lb spec, wants (w_heap (p_world p)) c lb spec /\ Balancer.Init spec (balancer_config lb) = Ok b.
Proof.
  unfold createBalancers. intros (p1 & ? & [= <- <-] & Hr)%prog_bind_ok Hb.
  destruct (collect_prog_from _ _ _ _ _ _ Hr Hb) as ([k l] & p2 & p2' & bs2 & Hk%elem_of_range & H2 & Hb2).
  unfold zone_balancers in H2. cbn [snd] in H2. destruct (_ !! l) as [z|] eqn:Hz; [|done].
  destruct (collect_prog_from _ _ _ _ _ _ H2 Hb2) as (rec & p3 & p3' & bs3 & Hrec & H3 & Hb3).
  unfold record_balancers in H3. case_bool_decide as Ht; [|injection H3 as _ <-; by apply elem_of_nil in Hb3].
  destruct (rec_Value rec) as [[a|lb]|] eqn:Hv; [done| |done].
  destruct (collect_prog_from _ _ _ _ _ _ H3 Hb3) as (listener & p4 & p4' & bs4 & Hl & H4 & Hb4).
  unfold listener_balancers in H4.
  apply prog_bind_ok in H4 as (p5 & [host port] & [-> Hs]%lift_ok & (p6 & peer & [-> Hp]%lift_ok & H5)%prog_bind_ok).
  apply map_err_ok in Hs, Hp.
  destruct (collect_prog_from _ _ _ _ _ _ H5 Hb4) as (ip & p7 & p7' & bs7 & Hip & H7 & Hb7).
  apply address_balancer_ok in H7 as (_ & b' & -> & Hi). apply list_elem_of_singleton in Hb7 as ->.
  exists lb, (JoinHostPort (IP_String ip) port). split; [|done]. exists k, l, z, rec, listener, host, port, peer, ip. done.
Qed.

(** ** [Launch] *)

Lemma on_services_ok f p p' u :
  on_services f p = (p', Ok u) ->
  exists sv, f (mkServices (w_heap (p_world p)) (w_config (p_world p))) = Ok (sv, None) /\
    p' = set_world (Disk.set_config (sv_config sv) (set_heap (sv_heap sv) (p_world p))) p.
Proof.
  unfold on_services. destruct (f _) as [[sv [e|]]|?| |?]; try done. intros [= <- _]. by exists sv.
Qed.

Record launched (peerName : string) (p : Process) (s : Launched) (p' : Process) : Prop := {
  la_open : p_open p' = sockets_of s ⊎ p_open p;
  la_closing : p_closing p' = p_closing p;
  la_reloaders : p_reloaders p' = S (p_reloaders p);
  la_monitors : p_monitors p' = S (p_monitors p);
  la_checkers : p_checkers p' = S (p_checkers p);
  la_name : l_peerName s = peerName;
  la_dns : l_dns s = {| ds_Zones := Zones (w_config (p_world p));
                        ds_udpServer := Some (udp (listen_DNS (Listen (w_config (p_world p)))));
                        ds_tcpServer := Some (tcp (listen_DNS (Listen (w_config (p_world p))))) |};
  la_peer : exists me k, FindPeer (w_config (p_world p)) peerName = Ok me /\ AuthKey (w_config (p_world p)) = Some k /\
    forall w, s_world (ctl_server (l_control s) w) = w /\ s_me (ctl_server (l_control s) w) = me /\
      s_authKey (ctl_server (l_control s) w) = Some k /\ s_nonces (ctl_server (l_control s) w) = ∅;
  la_control : ctl_listener (l_control s) = tcp (listen_Control (Listen (w_config (p_world p)))) /\
    listen_err (p_open p) (ctl_listener (l_control s)) = None;
  la_balancers : forall lb spec, wants (w_heap (p_world p)) (w_config (p_world p)) lb spec ->
    exists b, b ∈ l_balancers s /\ Balancer.Init spec (balancer_config lb) = Ok b;
  la_only : forall b, b ∈ l_balancers s ->
    exists lb spec, wants (w_heap (p_world p)) (w_config (p_world p)) lb spec /\ Balancer.Init spec (balancer_config lb) = Ok b;
  la_bound : forall b, b ∈ l_balancers s -> exists o, p_open p ⊆ o /\ listen_err o (socket b) = None;
  la_publisher : exists c pub, elect (w_config (p_world p)) = (c, Ok pub) /\
    w_config (p_world p') = SetPublisher c (Some pub);
  la_heap : w_heap (p_world p') = w_heap (p_world p);
  la_chans : w_chans (p_world p') = w_chans (p_world p);
  la_checker : buildHealthChecks elect prepare (w_heap (p_world p)) (w_config (p_world p)) = Ok (l_checker s);
  la_new : exists me k b0, AuthKey (w_config (p_world p)) = Some k /\
    forall w, ctl_server (l_control s) w = mkServer _ _ w me (Some k) b0 NonceExpiration ∅ ∅
}.

Lemma Launch_ok peerName p p' s : Launch elect prepare boot peerName p = (p', Ok s) -> launched peerName p s p'.
Proof.
  unfold Launch. intros (p0 & ? & [= <- <-] & Hr)%prog_bind_ok.
  apply prog_bind_ok in Hr as (p1 & me & H1 & Hr). apply on_err_ok, lift_ok in H1 as [-> Hme].
  apply prog_bind_ok in Hr as (p2 & cs & H2 & Hr). apply on_err_ok, control_Start_ok in H2 as (-> & Hl & Hlerr & k & Hk & Hcs).
  apply prog_bind_ok in Hr as (p3 & ds & H3 & Hr). apply dns_Start_ok in H3 as [-> ->].
  apply prog_bind_ok in Hr as (p4 & bs & H4 & Hr). pose proof (createBalancers_started _ _ _ _ H4) as [-> Hb].
  pose proof (fun lb spec => createBalancers_wants _ _ _ _ lb spec H4) as Hw.
  pose proof (fun b => createBalancers_only _ _ _ _ b H4) as Honly.
  apply prog_bind_ok in Hr as (p5 & hcr & H5 & Hr). apply on_err_ok, lift_ok in H5 as [-> Hhc].
  apply prog_bind_ok in Hr as (p6 & [] & [= <-] & Hr).
  apply prog_bind_ok in Hr as (p7 & [] & H7 & [= <- <-]). apply on_err_ok, on_services_ok in H7 as (sv & Hsv & ->).
  unfold holdElection in Hsv. cbn [sv_config sv_heap grown set_open p_world] in Hsv.
  destruct (elect (w_config (p_world p))) as [c o] eqn:He. destruct o as [pub|?| |?]; [|done..].
  apply bind_ok in Hsv as (n & _ & [= <-]).
  constructor; cbn [l_control l_dns l_balancers l_peerName set_world grown set_open p_open p_closing p_reloaders p_monitors
    p_checkers p_world]; try done.
  - unfold sockets_of. cbn [l_control l_dns l_balancers ds_udpServer ds_tcpServer optional]. rewrite Hl.
    multiset_solver.
  - exists me, k. split_and!; [done..|]. intros w. by rewrite Hcs.
  - split; [done|by rewrite Hl].
  - intros b (o & Ho & Hlo)%Hb. exists o. split; [|done]. revert Ho. process. multiset_solver.
  - by exists c, pub.
  - by exists me, k, boot.
Qed.
(** ** [Shutdown] *)

Definition woken (x : gmultiset Listening) (p : Process) : Process :=
  mkProcess _ _ (p_world p) (p_open p) (x ⊎ p_closing p) (p_reloaders p) (p_monitors p) (p_checkers p).

Lemma balancers_Shutdown bs p :
  collect_prog (fun b => _ ← balancer_Shutdown b; mret (@nil unit)) bs p = (woken (sockets (tcp_balancers bs)) p, Ok []).
Proof.
  revert p. induction bs as [|b bs IH]; intros p; cbn [collect_prog].
  - unfold tcp_balancers. rewrite filter_nil, sockets_nil. destruct p. unfold woken, mret, prog_ret. process.
    by rewrite (left_id_L ∅ (⊎)).
  - rewrite (prog_bind_run _ _ _ (woken (sockets (tcp_balancers [b])) p) []).
    + erewrite prog_bind_run; [|apply IH].
      assert (sockets (tcp_balancers (b :: bs)) = sockets (tcp_balancers [b]) ⊎ sockets (tcp_balancers bs)) as ->
        by (unfold tcp_balancers; by rewrite <- sockets_app, <- filter_app).
      unfold mret, prog_ret, woken. process. do 2 f_equal. multiset_solver.
    + unfold balancer_Shutdown, tcp_balancers. rewrite filter_cons. case_bool_decide; case_decide; try done.
      * unfold modify, mret, prog_ret, mbind, prog_bind, woken. process. do 2 f_equal.
        rewrite filter_nil, sockets_cons, sockets_nil. unfold socket. multiset_solver.
      * destruct p. unfold mret, prog_ret, mbind, prog_bind, woken. process. do 2 f_equal.
        rewrite filter_nil, sockets_nil. multiset_solver.
Qed.

Record stopped (s : Launched) (x : gmultiset Listening) (p p' : Process) (o : outcome unit) : Prop := {
  st_world : p_world p' = p_world p;
  st_reloaders : p_reloaders p' = p_reloaders p;
  st_checkers : p_checkers p' = pred (p_checkers p);
  st_monitors : p_monitors p' = p_monitors p;
  st_left : sockets (http_balancers (l_balancers s)) ⊎ x ⊆ p_open (settle p');
  st_exact : o = Ok tt -> p_open (settle p') = sockets (http_balancers (l_balancers s)) ⊎ x;
  st_returns : o = Ok tt \/ exists e, o = Err e
}.

(** A [Shutdown] that has returned early. *)
Ltac stop_failed :=
  match goal with
  | Hr : _ = (_, _), Ho : p_open _ = _, Hc : p_closing _ = ∅ |- _ =>
      injection Hr as <- <-; constructor; unfold settle; process; rewrite ?Ho, ?Hc;
      [reflexivity|reflexivity|reflexivity|reflexivity|multiset_solver|intros [=]|eauto]
  end.

Lemma Shutdown_stops s x p p' o :
  Shutdown s p = (p', o) -> p_open p = sockets_of s ⊎ x -> p_closing p = ∅ -> stopped s x p p' o.
Proof.
  intros Hr Ho Hc. pose proof (sockets_split (l_balancers s)) as Hsplit. unfold sockets_of in Ho. rewrite Hsplit in Ho.
  unfold Shutdown in Hr. erewrite prog_bind_run in Hr; [|reflexivity].
  unfold dns_Shutdown, DnsServer.Shutdown in Hr.
  destruct (ds_udpServer (l_dns s)) as [u|], (ds_tcpServer (l_dns s)) as [t|]; cbn [optional] in Ho.
  2-4: stop_failed.
  destruct (dns_stop u) as [e|]; [|destruct (dns_stop t) as [e|]].
  1-2: stop_failed.
  erewrite prog_bind_run in Hr; [|reflexivity].
  unfold control_Shutdown in Hr. destruct http_stop as [e|].
  { stop_failed. }
  erewrite prog_bind_run in Hr; [|reflexivity]. erewrite prog_bind_run in Hr; [|apply balancers_Shutdown].
  injection Hr as <- <-. constructor; unfold settle, woken; process; rewrite ?Ho, ?Hc;
    [reflexivity|reflexivity|reflexivity|reflexivity|multiset_solver|intros _; multiset_solver|eauto].
Qed.
(** ** Launches that fail *)

(** No socket is closed that was open before. *)
Definition wider : relation Process := fun p p' => p_open p ⊆ p_open p' /\ p_world p' = p_world p.
#[local] Instance wider_preorder : PreOrder wider.
Proof. split; [done|]. intros p1 p2 p3 [? ?] [? ?]. split; [by etrans|congruence]. Qed.

Lemma opens_wider l : within wider (opens l).
Proof. intros p. split; [|done]. unfold opens, modify. cbn [fst]. process. multiset_solver. Qed.
#[local] Hint Resolve opens_wider : prog.

Lemma dns_Start_wider zones spec : within wider (dns_Start zones spec).
Proof. unfold dns_Start. cbn [DnsServer.Start]. walk. Qed.

Lemma balancer_start_wider b : within wider (balancer_start b).
Proof.
  unfold balancer_start. intros p. unfold get, mbind at 1, prog_bind at 1. destruct (listen_err _ _) as [e|]; [done|].
  unfold opens, modify, lift, mbind, prog_bind. repeat case_bool_decide.
  - destruct (dispatchTCP b); (split; [|done]); process; multiset_solver.
  - destruct (serve_err _); (split; [|done]); cbn [mret prog_ret closes modify fst]; process; multiset_solver.
  - split; [|done]. process. multiset_solver.
Qed.
#[local] Hint Resolve dns_Start_wider balancer_start_wider : prog.

Lemma createBalancers_wider c : within wider (createBalancers c).
Proof. unfold createBalancers, zone_balancers, record_balancers, listener_balancers, address_balancer. walk. Qed.

(** The long-running goroutines. *)
Definition goroutines (p : Process) : nat * nat * nat := (p_reloaders p, p_monitors p, p_checkers p).

Lemma opens_keeps l : keeps goroutines (opens l).
Proof. by intros p. Qed.
Lemma closes_keeps l : keeps goroutines (closes l).
Proof. by intros p. Qed.
#[local] Hint Resolve opens_keeps closes_keeps : prog.

Lemma createBalancers_keeps c : keeps goroutines (createBalancers c).
Proof.
  unfold createBalancers, zone_balancers, record_balancers, listener_balancers, address_balancer, balancer_start. walk.
Qed.
Lemma dns_Start_keeps zones spec : keeps goroutines (dns_Start zones spec).
Proof. unfold dns_Start. cbn [DnsServer.Start]. walk. Qed.

Lemma control_Start_fails me spec p p' o : control_Start boot me spec p = (p', o) -> is_ok o = false -> p' = p.
Proof.
  unfold control_Start. intros [(? & ? & [= <- <-] & Hr)|(? & [= <- <-] & _)]%prog_bind_cases Ho; [|done].
  apply prog_bind_cases in Hr as [(? & ? & [-> _]%lift_ok & [= <- <-])|(? & Hl & _)]; [done|].
  unfold lift in Hl. by injection Hl as <- _.
Qed.

(** What follows the balancers in [Launch] opens nothing. *)
Lemma on_services_open f : keeps p_open (on_services f).
Proof. intros p. unfold on_services. by destruct (f _) as [[sv err]|?| |?]. Qed.
#[local] Hint Resolve on_services_open : prog.

(** How a launch that has not succeeded may have ended: before the control server
    listened, before all balancers had started, or later. *)
Lemma Launch_cases peerName p p' o :
  Launch elect prepare boot peerName p = (p', o) ->
  let c := w_config (p_world p) in
  p' = p \/
  ({[+ tcp (listen_Control (Listen c)) +]} ⊎ p_open p ⊆ p_open p' /\
   listen_err (p_open p) (tcp (listen_Control (Listen c))) = None /\
   (goroutines p' = goroutines p \/ exists p1 p2 bs, wider p p1 /\ createBalancers c p1 = (p2, Ok bs))).
Proof.
  unfold Launch. intros [(p0 & ? & [= <- <-] & Hr)|(r0 & [= <- <-] & ? & _)]%prog_bind_cases; [|done].
  cbv zeta. set (c := w_config (p_world p)) in *.
  apply prog_bind_cases in Hr as [(p1 & me & [-> _]%on_err_ok%lift_ok & Hr)|(r0 & Hr0 & _)].
  2: { unfold on_err, lift in Hr0. injection Hr0 as <- _. by left. }
  apply prog_bind_cases in Hr as [(p2 & cs & H2 & Hr)|(r0 & Hr0 & E & _)].
  2: { left. unfold on_err in Hr0. destruct (control_Start _ _ _ p) as [p2 o2] eqn:E2. injection Hr0 as <- <-.
       eapply control_Start_fails; [exact E2|]. by destruct o2. }
  right. apply on_err_ok, control_Start_ok in H2 as (-> & _ & Hl & _). fold c in Hr. set (p1 := grown _ p) in *.
  assert (p_open p1 = {[+ tcp (listen_Control (Listen c)) +]} ⊎ p_open p /\ goroutines p1 = goroutines p) as [Eo Er] by done.
  assert (wider p p1) as Hw1 by (split; [rewrite Eo; multiset_solver|done]). clearbody p1. rewrite <- Eo, <- Er.
  apply prog_bind_cases in Hr as [(p2 & ds & H2 & Hr)|(r0 & H2 & _)];
    pose proof (within_run _ _ _ _ _ (dns_Start_wider _ _) H2) as Hw2;
    pose proof (within_run _ _ _ _ _ (dns_Start_keeps _ _) H2) as Hk2; unfold same in Hk2; [|by destruct Hw2; eauto].
  apply prog_bind_cases in Hr as [(p3 & bs & H3 & Hr)|(r0 & H3 & _)];
    pose proof (within_run _ _ _ _ _ (createBalancers_wider c) H3) as Hw3.
  2: { pose proof (within_run _ _ _ _ _ (createBalancers_keeps c) H3) as Hk3. unfold same in Hk3.
       split_and!; [destruct Hw2, Hw3; by etrans|done|left; congruence]. }
  assert (p_open p' = p_open p3) as ->.
  { revert Hr. eapply (within_run (same p_open)). walk. }
  split_and!; [destruct Hw2, Hw3; by etrans|done|right]. exists p2, p3, bs. split; [by etrans|done].
Qed.
(** ** The contract of starting and stopping *)

(** C12. What a successful [Launch] has done.  It has opened the control listener, the
    UDP and the TCP listener of the DNS server and one listener per balancer, and
    nothing else, and closed nothing.  The DNS server serves the zones of the
    configuration; the control server listens on the configured address, answers as
    the peer that was named, with the configuration's authentication key and no
    outstanding nonce.  There is a balancer for every address of every peer that a
    listener of an LB record names, configured from that record, and no other one.
    The publisher is the elected peer, and one more goroutine each waits for a
    reload, monitors the publisher and runs the health checks. *)
Theorem Launch_serves (peerName : string) (p p' : Process) (s : Launched) :
  Launch elect prepare boot peerName p = (p', Ok s) ->
  let c := w_config (p_world p) in
  let h := w_heap (p_world p) in
  p_open p' = sockets_of s ⊎ p_open p /\
  l_dns s = {| ds_Zones := Zones c; ds_udpServer := Some (udp (listen_DNS (Listen c)));
               ds_tcpServer := Some (tcp (listen_DNS (Listen c))) |} /\
  ctl_listener (l_control s) = tcp (listen_Control (Listen c)) /\
  (exists me k, FindPeer c peerName = Ok me /\ AuthKey c = Some k /\ forall w,
    s_world (ctl_server (l_control s) w) = w /\ s_me (ctl_server (l_control s) w) = me /\
    s_authKey (ctl_server (l_control s) w) = Some k /\ s_nonces (ctl_server (l_control s) w) = ∅) /\
  (forall lb spec, wants h c lb spec -> exists b, b ∈ l_balancers s /\ Balancer.Init spec (balancer_config lb) = Ok b) /\
  (forall b, b ∈ l_balancers s -> exists lb spec, wants h c lb spec /\ Balancer.Init spec (balancer_config lb) = Ok b) /\
  (exists c' pub, elect c = (c', Ok pub) /\ w_config (p_world p') = SetPublisher c' (Some pub)) /\
  p_reloaders p' = S (p_reloaders p) /\ p_monitors p' = S (p_monitors p) /\ p_checkers p' = S (p_checkers p).
Proof.
  intros []%Launch_ok. cbv zeta. split_and!; try done. apply la_control0.
Qed.

Section no_errors.
(** Nothing refuses to be shut down. *)
Hypothesis dns_stops : forall l, dns_stop l = None.
Hypothesis http_stops : http_stop = None.

Lemma Shutdown_succeeds s p p' o :
  Shutdown s p = (p', o) -> is_Some (ds_udpServer (l_dns s)) -> is_Some (ds_tcpServer (l_dns s)) -> o = Ok tt.
Proof.
  intros Hr [u Hu] [t Ht]. unfold Shutdown in Hr. erewrite prog_bind_run in Hr; [|reflexivity].
  unfold dns_Shutdown, DnsServer.Shutdown, control_Shutdown in Hr. rewrite Hu, Ht, !dns_stops, http_stops in Hr.
  erewrite prog_bind_run in Hr; [|reflexivity]. erewrite prog_bind_run in Hr; [|reflexivity].
  erewrite prog_bind_run in Hr; [|apply balancers_Shutdown]. by injection Hr as _ <-.
Qed.

(** C16. Starting and stopping: when no listener refuses to stop, [Shutdown] of a
    launched server succeeds, and once the goroutines it has woken are done the
    open sockets are those from before [Launch] with the listeners of the HTTP
    balancers, which nothing closes. *)
Theorem Launch_Shutdown_sockets (peerName : string) (p p1 : Process) (s : Launched) :
  Launch elect prepare boot peerName p = (p1, Ok s) -> p_closing p = ∅ ->
  exists p2, Shutdown s p1 = (p2, Ok tt) /\
    p_open (settle p2) = sockets (http_balancers (l_balancers s)) ⊎ p_open p /\ p_checkers p2 = p_checkers p.
Proof.
  intros Hl%Launch_ok Hc. destruct (Shutdown s p1) as [p2 o] eqn:Hs.
  assert (o = Ok tt) as -> by (eapply Shutdown_succeeds; [done|by rewrite (la_dns _ _ _ _ Hl)..]).
  destruct (Shutdown_stops _ _ _ _ _ Hs (la_open _ _ _ _ Hl)); [by rewrite (la_closing _ _ _ _ Hl)|].
  exists p2. split_and!; [done|auto|]. by rewrite st_checkers0, (la_checkers _ _ _ _ Hl).
Qed.

End no_errors.

(** ** Reloads *)

Lemma Shutdown_world s : keeps p_world (Shutdown s).
Proof. unfold Shutdown, dns_Shutdown, control_Shutdown, closes, balancer_Shutdown. walk. Qed.

(** The reload signal has been consumed. *)
Definition drained (w : World) : World := set_chans (<[reload (w_config w) := false]> (w_chans w)) w.

(** A reload, seen from the configuration: the services are launched with the
    signal consumed. *)
Lemma monitorReload_world s p p' s2 :
  w_chans (p_world p) !! reload (w_config (p_world p)) = Some true ->
  monitorReload elect prepare boot s p = (p', Ok (Some s2)) ->
  exists p4, p_world p4 = drained (p_world p) /\ Launch elect prepare boot (l_peerName s) p4 = (p', Ok s2).
Proof.
  unfold monitorReload. intros ->.
  fold (drained (p_world p)). set (p1 := set_world _ p). destruct (Shutdown s p1) as [p2 o2] eqn:Hs.
  pose proof (within_run _ _ _ _ _ (Shutdown_world s) Hs) as Hw. unfold same in Hw. intros Hr.
  set (p4 := mkProcess _ _ _ _ _ _ _ _) in Hr.
  assert (match Launch elect prepare boot (l_peerName s) p4 with
          | (p5, Ok s2) => (p5, Ok (Some s2)) | (p5, Err _) => (p5, Ok None)
          | (p5, Panic) => (p5, Panic) | (p5, Fatal m) => (p5, Fatal m) end = (p', Ok (Some s2))) as Hl by (by destruct o2).
  exists p4. split; [exact Hw|]. destruct (Launch _ _ _ _ p4) as [p5 [s5|?| |?]]; try done. by injection Hl as <- <-.
Qed.

(** What a reload finds when it launches the services again. *)
Record reloading (s : Launched) (x : gmultiset Listening) (p p4 : Process) : Prop := {
  re_world : p_world p4 = drained (p_world p);
  re_reloaders : p_reloaders p4 = pred (p_reloaders p);
  re_monitors : p_monitors p4 = p_monitors p;
  re_checkers : p_checkers p4 = pred (p_checkers p);
  re_left : sockets (http_balancers (l_balancers s)) ⊎ x ⊆ p_open p4
}.

(** What [monitorReload] makes of the outcome of [Launch]: an error is logged. *)
Definition reloaded (o : outcome Launched) : outcome (option Launched) :=
  match o with Ok s2 => Ok (Some s2) | Err _ => Ok None | Panic => Panic | Fatal m => Fatal m end.

Lemma monitorReload_launches s x p p' o :
  monitorReload elect prepare boot s p = (p', o) -> w_chans (p_world p) !! reload (w_config (p_world p)) = Some true ->
  p_open p = sockets_of s ⊎ x -> p_closing p = ∅ ->
  exists p4 o4, Launch elect prepare boot (l_peerName s) p4 = (p', o4) /\ reloading s x p p4 /\
    (forall s2, o = Ok (Some s2) -> o4 = Ok s2) /\ o = reloaded o4 /\
    (forall p2, Shutdown s (set_world (drained (p_world p)) p) = (p2, Ok tt) ->
       p_open p4 = sockets (http_balancers (l_balancers s)) ⊎ x).
Proof.
  unfold monitorReload. intros Hr Hch Ho Hc. rewrite Hch in Hr. fold (drained (p_world p)) in Hr.
  set (p1 := set_world _ p) in *. destruct (Shutdown s p1) as [p2 o2] eqn:Hs.
  pose proof (Shutdown_stops s x p1 p2 o2 Hs Ho Hc) as [Hw Hre Hck Hmo Hleft Hex Hret].
  cbv zeta in Hr. set (p4 := mkProcess _ _ _ _ _ _ _ _) in Hr.
  assert (reloading s x p p4) as H4 by (split; [exact Hw|by subst p4; cbn [p_reloaders settle]; rewrite Hre|exact Hmo|exact Hck|exact Hleft]).
  assert (forall p3, (p2, o2) = (p3, Ok tt) -> p_open p4 = sockets (http_balancers (l_balancers s)) ⊎ x) as H5
    by (intros p3 [= _ ->]; auto).
  assert ((let '(p5, o5) := Launch elect prepare boot (l_peerName s) p4 in
           (p5, reloaded o5)) = (p', o)) as Hl.
  { rewrite <- Hr. destruct Hret as [-> | [e ->]]; by destruct (Launch _ _ _ _ p4) as [p5 []]. }
  clearbody p4. destruct (Launch _ _ _ _ p4) as [p5 o5] eqn:E. injection Hl as <- <-. exists p4, o5.
  split_and!; [done|done|intros s2|done|done]; destruct o5; naive_solver.
Qed.

(** C18. A reload that succeeds: the sockets of the services it stops are replaced by
    those of the services it starts, except that the listeners of the HTTP
    balancers stay open; the new services serve the zones the configuration has
    when the signal arrives, under the same peer name.  The signal is consumed and
    one goroutine waits for the next one, but every reload leaves a further
    [monitorConfig] behind: nothing ends the old one. *)
Theorem reload_replaces_services (s s2 : Launched) (x : gmultiset Listening) (p p' : Process) :
  (forall l, dns_stop l = None) -> http_stop = None ->
  is_Some (ds_udpServer (l_dns s)) -> is_Some (ds_tcpServer (l_dns s)) ->
  p_open p = sockets_of s ⊎ x -> p_closing p = ∅ -> p_reloaders p = 1%nat ->
  w_chans (p_world p) !! reload (w_config (p_world p)) = Some true ->
  monitorReload elect prepare boot s p = (p', Ok (Some s2)) ->
  p_open p' = sockets_of s2 ⊎ (sockets (http_balancers (l_balancers s)) ⊎ x) /\
  ds_Zones (l_dns s2) = Zones (w_config (p_world p)) /\ l_peerName s2 = l_peerName s /\
  p_reloaders p' = 1%nat /\ p_monitors p' = S (p_monitors p).
Proof.
  intros Hd Hh Hu Ht Ho Hc Hn Hch Hr.
  destruct (monitorReload_launches _ _ _ _ _ Hr Hch Ho Hc) as (p4 & o4 & Hl & [Ew Er Em _ _] & Hok & _ & Hex).
  rewrite (Hok s2 eq_refl) in Hl. apply Launch_ok in Hl.
  destruct (Shutdown s (set_world (drained (p_world p)) p)) as [p2 o] eqn:Hs.
  assert (o = Ok tt) as -> by (by eapply Shutdown_succeeds).
  rewrite (la_open _ _ _ _ Hl), (la_dns _ _ _ _ Hl), (la_reloaders _ _ _ _ Hl), (la_monitors _ _ _ _ Hl), Er, Em, Hn, (Hex p2), Ew by done.
  split_and!; try done. apply (la_name _ _ _ _ Hl).
Qed.

(** [Launch] with a configuration that does not name this peer, or has no key. *)
Lemma Launch_refused peerName p :
  (exists e, FindPeer (w_config (p_world p)) peerName = Err e) \/
  (is_ok (FindPeer (w_config (p_world p)) peerName) = true /\ AuthKey (w_config (p_world p)) = None) ->
  exists e, Launch elect prepare boot peerName p = (p, Err e).
Proof.
  unfold Launch. erewrite prog_bind_run; [|reflexivity]. cbv zeta. intros [[e He]|[Hok Hk]].
  - unfold on_err, lift, mbind, prog_bind. rewrite He. by eexists.
  - destruct (FindPeer _ peerName) as [me|?| |?]; [|done..].
    erewrite prog_bind_run; [|reflexivity].
    unfold on_err, control_Start, server_Start, lift, get, mbind, prog_bind. rewrite Hk. by eexists.
Qed.

(** C33. A configuration can strand a peer.  When a reload is signalled for a
    configuration that does not list this peer, or has no authentication key (the
    checks of loading accept both), the services are stopped and not started again:
    what is left are the listeners of the HTTP balancers.  The control server is
    among what has stopped, so no request can repair the configuration, and no
    goroutine waits for a reload. *)
Theorem update_strands_peer (s : Launched) (x : gmultiset Listening) (p : Process) :
  (forall l, dns_stop l = None) -> http_stop = None ->
  is_Some (ds_udpServer (l_dns s)) -> is_Some (ds_tcpServer (l_dns s)) ->
  p_open p = sockets_of s ⊎ x -> p_closing p = ∅ -> p_reloaders p = 1%nat -> p_checkers p = 1%nat ->
  w_chans (p_world p) !! reload (w_config (p_world p)) = Some true ->
  (exists e, FindPeer (w_config (p_world p)) (l_peerName s) = Err e) \/
  (is_ok (FindPeer (w_config (p_world p)) (l_peerName s)) = true /\ AuthKey (w_config (p_world p)) = None) ->
  exists p', monitorReload elect prepare boot s p = (p', Ok None) /\
    p_open p' = sockets (http_balancers (l_balancers s)) ⊎ x /\ p_reloaders p' = 0%nat /\ p_checkers p' = 0%nat.
Proof.
  intros Hd Hh Hu Ht Ho Hc Hn Hnc Hch Hbad. destruct (monitorReload elect prepare boot s p) as [p' o] eqn:Hr.
  destruct (monitorReload_launches _ _ _ _ _ Hr Hch Ho Hc) as (p4 & o4 & Hl & [Ew Er _ Eck _] & _ & Heq & Hex).
  destruct (Shutdown s (set_world (drained (p_world p)) p)) as [p2 o2] eqn:Hs.
  assert (o2 = Ok tt) as -> by (by eapply Shutdown_succeeds).
  destruct (Launch_refused (l_peerName s) p4) as [e He]; [by rewrite Ew|]. rewrite He in Hl. injection Hl as <- <-.
  exists p4. split; [by rewrite Heq|]. split; [by eapply Hex|]. by rewrite Er, Eck, Hn, Hnc.
Qed.

Section exclusive.
(** An address that is listened on cannot be listened on again. *)
Hypothesis in_use : forall o l, l ∈ o -> is_Some (listen_err o l).

Lemma Init_listenSpec spec c b : Balancer.Init spec c = Ok b -> listenSpec b = spec.
Proof.
  unfold Balancer.Init. destruct (foldl _ _ _) as [conns addrs], (SplitHostPort spec) as [[host ?]|?| |?]; try done.
  by intros (t & _ & [= <-])%bind_ok.
Qed.

(** Balancers cannot be created at an address that is in use. *)
Lemma createBalancers_in_use c p p' bs lb spec :
  createBalancers c p = (p', Ok bs) -> wants (w_heap (p_world p)) c lb spec -> tcp spec ∉ p_open p.
Proof.
  intros Hr Hw Hin. destruct (createBalancers_wants _ _ _ _ _ _ Hr Hw) as (b & Hb & <-%Init_listenSpec).
  destruct (proj2 (createBalancers_started _ _ _ _ Hr) b Hb) as (o & Ho & Hl).
  destruct (in_use o (socket b)) as [e He]; [|congruence]. by eapply gmultiset_elem_of_subseteq.
Qed.

(** C17. [BalanceHTTP] does not start [monitorListen], so an HTTP balancer keeps its
    listener through [Shutdown].  On a reload of a configuration that still has a
    balancer at that address, [Launch] therefore never succeeds, whatever else
    happens: the health checks that were stopped do not run again, and no goroutine
    is left to wait for another reload. *)
Theorem http_reload_fails (s : Launched) (b : Balancer) (lb : LB) (x : gmultiset Listening) (p p' : Process)
    (o : outcome (option Launched)) :
  b ∈ l_balancers s -> kind b = BalanceHTTP ->
  p_open p = sockets_of s ⊎ x -> p_closing p = ∅ -> p_reloaders p = 1%nat -> p_checkers p = 1%nat ->
  w_chans (p_world p) !! reload (w_config (p_world p)) = Some true ->
  wants (w_heap (p_world p)) (w_config (p_world p)) lb (listenSpec b) ->
  monitorReload elect prepare boot s p = (p', o) ->
  (forall s2, o <> Ok (Some s2)) /\ p_reloaders p' = 0%nat /\ p_checkers p' = 0%nat /\ socket b ∈ p_open p'.
Proof.
  intros Hb Hk Ho Hc Hn Hnc Hch Hw Hr.
  destruct (monitorReload_launches _ _ _ _ _ Hr Hch Ho Hc) as (p4 & o4 & Hl & [Ew Er _ Eck Hleft] & Hok & _).
  assert (socket b ∈ p_open p4) as Hin.
  { eapply gmultiset_elem_of_subseteq; [|exact Hleft]. apply gmultiset_elem_of_disj_union. left. apply elem_of_sockets.
    apply list_elem_of_filter. split; [by rewrite Hk|done]. }
  assert (forall p5 p6 bs, wider p4 p5 -> createBalancers (w_config (p_world p4)) p5 = (p6, Ok bs) -> False) as Hno.
  { intros p5 p6 bs [Ho5 Hw5] H6. eapply (createBalancers_in_use _ _ _ _ lb (listenSpec b)); [exact H6|by rewrite Hw5, Ew|].
    by eapply gmultiset_elem_of_subseteq. }
  assert (goroutines p' = goroutines p4 /\ socket b ∈ p_open p') as [[= Hre Hmo Hck] Hin'].
  { destruct (Launch_cases _ _ _ _ Hl) as [-> | (Hsub & _ & [Hre|(p5 & p6 & bs & Hw5 & H6)])]; [done| |by destruct (Hno _ _ _ Hw5 H6)].
    split; [done|]. eapply gmultiset_elem_of_subseteq; [|exact Hsub]. apply gmultiset_elem_of_disj_union. by right. }
  split_and!; [|by rewrite Hre, Er, Hn|by rewrite Hck, Eck, Hnc|done]. intros s2 Eo. rewrite (Hok _ Eo) in Hl.
  apply Launch_ok, la_reloaders in Hl. lia.
Qed.

(** A [Launch] that fails after it has opened a socket does not close it: the
    control server keeps its address, so no later [Launch] with that control
    address can succeed in the process. *)
Theorem failed_launch_blocks_retry (peerName peerName' : string) (p p' q q' : Process) (e : error) (o : outcome Launched) :
  Launch elect prepare boot peerName p = (p', Err e) -> p_open p' <> p_open p ->
  p_open p' ⊆ p_open q -> listen_Control (Listen (w_config (p_world q))) = listen_Control (Listen (w_config (p_world p))) ->
  Launch elect prepare boot peerName' q = (q', o) -> p_open q' = p_open q /\ is_ok o = false.
Proof.
  intros H1 Hne Hsub Hc H2. assert (is_Some (listen_err (p_open q) (tcp (listen_Control (Listen (w_config (p_world q))))))) as [e' He].
  { apply in_use. rewrite Hc. eapply gmultiset_elem_of_subseteq; [|exact Hsub].
    destruct (Launch_cases _ _ _ _ H1) as [-> | (Ho & _)]; [done|].
    eapply gmultiset_elem_of_subseteq; [|exact Ho]. apply gmultiset_elem_of_disj_union. left. by apply gmultiset_elem_of_singleton. }
  split.
  - destruct (Launch_cases _ _ _ _ H2) as [-> | (_ & ? & _)]; congruence.
  - destruct o; try done. apply Launch_ok, la_control in H2 as [E1 E2]. rewrite E1 in E2. congruence.
Qed.

End exclusive.
End lifecycle.

(** ** Examples *)

#[local] Existing Instance plain_codec.
#[local] Existing Instance plain_chain.
#[local] Existing Instance canonical_range.

(** A system that refuses addresses in use, and nothing else. *)
#[local] Instance busy_sockets : Sockets :=
  {| listen_err o l := if decide (l ∈ o) then Some (errors_New "bind: address already in use") else None;
     serve_err _ := None; udp_first := true; dns_stop _ := None;
     http_stop := None |}.
#[local] Instance no_tls : TlsLib := {| pem_Decode _ := None; X509KeyPair _ _ := Err (errors_New "tls") |}.

Definition web_lb (kind : string) : LB :=
  {| lb_Listeners := ["alice:80"]; lb_Kind := kind; lb_Backends := ["10.0.0.9:80"];
     lb_SimultaneousConnections := 1; lb_MaxConnectionsPerAddress := 1; lb_ConnectionTimeout := 0; lb_TTL := 60;
     lb_TLS := None; lb_HealthCheck := [] |}.
Definition web_zone (kind : string) : Zone :=
  {| z_SOA := None; z_NS := None;
     z_Records := [{| rec_Type := TypeLB; rec_Name := "www.example.com."; rec_LiteralValue := ∅;
                      rec_Value := Some (ValLB (web_lb kind)) |}] |}.

(** A process that has not launched anything; a reload is signalled. *)
Definition idle (kind dns : string) : Process :=
  mkProcess _ _
    (mkWorld _ _ {[2%positive := web_zone kind]} {[1%positive := true]} plain_fs []
       (mkConfig "/etc/border/config" None 0 (Some (key_of "auth")) {| listen_DNS := dns; listen_Control := ":5309" |}
          (Peers two_peers) {["example.com." := 2%positive]} tt 1%positive)) ∅ ∅ 0 0 0.

Definition alice_elect (c : Config Chain) : Config Chain * outcome Peer := (c, Ok alice).

Definition web (kind : string) : Process * outcome Launched := Launch alice_elect no_ping 0 "alice" (idle kind ":53").

Lemma web_ok kind : kind = "tcp" \/ kind = "http" -> exists s, web kind = ((web kind).1, Ok s).
Proof.
  intros H. assert (is_ok (web kind).2 = true) as Hw by (destruct H as [-> | ->]; vm_compute; reflexivity).
  destruct (web kind) as [p [s| | |]]; [by exists s|done..].
Qed.

Lemma busy_in_use : forall o l, l ∈ o -> is_Some (listen_err o l).
Proof. intros o l Hl. unfold listen_err, busy_sockets. by rewrite decide_True. Qed.

Lemma web_wants kind dns :
  wants (w_heap (p_world (idle kind dns))) (w_config (p_world (idle kind dns))) (web_lb kind) "10.0.0.1:80".
Proof.
  exists "example.com.", 2%positive, (web_zone kind), (List.hd (Build_Record_ "" "" ∅ None) (z_Records (web_zone kind))).
  exists "alice:80", "alice", "80", alice, (ParseIP "10.0.0.1"). split_and!; try reflexivity; by apply list_elem_of_singleton.
Qed.

(** What the examples need of a launched server. *)
Lemma web_launched kind s :
  web kind = ((web kind).1, Ok s) -> let p := (web kind).1 in
  p_open p = sockets_of s ⊎ ∅ /\ p_closing p = ∅ /\ p_reloaders p = 1%nat /\ p_monitors p = 1%nat /\ p_checkers p = 1%nat /\
  is_Some (ds_udpServer (l_dns s)) /\ is_Some (ds_tcpServer (l_dns s)) /\
  w_chans (p_world p) !! reload (w_config (p_world p)) = Some true /\
  wants (w_heap (p_world p)) (w_config (p_world p)) (web_lb kind) "10.0.0.1:80".
Proof.
  intros E p. destruct (Launch_ok _ _ _ _ _ _ _ E) as [H1 H2 H3 H4 H5 H6 H7 H8 H9 H10 H11 H12 (c & pub & Hc & H13) H14 H15 _ _].
  injection Hc as <- <-. subst p. rewrite H1, H2, H3, H4, H5, H7, H13, H14, H15. split_and!;
    [reflexivity|reflexivity|reflexivity|reflexivity|reflexivity|by eexists|by eexists|reflexivity|exact (web_wants kind ":53")].
Qed.

Lemma Launch_serves_witness :
  exists s b, web "http" = ((web "http").1, Ok s) /\ b ∈ l_balancers s /\
    Balancer.Init "10.0.0.1:80" (balancer_config (web_lb "http")) = Ok b.
Proof.
  destruct (web_ok "http" (or_intror eq_refl)) as [s E].
  destruct (Launch_serves alice_elect no_ping 0 "alice" (idle "http" ":53") (web "http").1 s E) as (_ & _ & _ & _ & H1 & _).
  destruct (H1 _ _ (web_wants "http" ":53")) as (b & Hb & Hi).
  exists s, b. split; [exact E|]. split; [exact Hb|exact Hi].
Defined.

Lemma Launch_Shutdown_sockets_witness :
  exists s p2, web "http" = ((web "http").1, Ok s) /\ Shutdown s (web "http").1 = (p2, Ok tt) /\
    p_open (settle p2) = sockets (http_balancers (l_balancers s)) ⊎ ∅.
Proof.
  destruct (web_ok "http" (or_intror eq_refl)) as [s E].
  destruct (Launch_Shutdown_sockets (SK := busy_sockets) alice_elect no_ping 0 (fun _ => eq_refl) eq_refl "alice" (idle "http" ":53") (web "http").1 s E eq_refl)
    as (p2 & H1 & H2 & _).
  exists s, p2. split; [exact E|]. split; [exact H1|exact H2].
Defined.

(** The reload of what has been launched. *)
Definition then_reload (m : Process * outcome Launched) : Process * outcome (option Launched) :=
  match m with
  | (p, Ok s) => monitorReload alice_elect no_ping 0 s p
  | (p, _) => (p, Panic)
  end.
Definition web_reload (kind : string) : Process * outcome (option Launched) := then_reload (web kind).

Lemma then_reload_ok m p s : m = (p, Ok s) -> monitorReload alice_elect no_ping 0 s p = then_reload m.
Proof. intros ->. reflexivity. Qed.

Lemma reload_replaces_services_witness :
  exists s s2, web "tcp" = ((web "tcp").1, Ok s) /\
    monitorReload alice_elect no_ping 0 s (web "tcp").1 = ((web_reload "tcp").1, Ok (Some s2)) /\
    p_monitors (web_reload "tcp").1 = 2%nat.
Proof.
  destruct (web_ok "tcp" (or_introl eq_refl)) as [s E].
  assert (monitorReload alice_elect no_ping 0 s (web "tcp").1 = web_reload "tcp") as Hr by exact (then_reload_ok _ _ _ E).
  assert (match (web_reload "tcp").2 with Ok (Some _) => true | _ => false end = true) as Hok by (vm_compute; reflexivity).
  destruct (web_reload "tcp") as [p' [[s2|]| | |]]; [|done..]. exists s, s2.
  destruct (web_launched _ _ E) as (H1 & H2 & H3 & H4 & _ & H5 & H6 & H7 & _). split; [exact E|]. split; [exact Hr|].
  rewrite <- H4. exact (proj2 (proj2 (proj2 (proj2 (reload_replaces_services (SK := busy_sockets) alice_elect no_ping 0 s s2 ∅
    (web "tcp").1 p' (fun _ => eq_refl) eq_refl H5 H6 H1 H2 H3 H7 Hr))))).
Defined.

Lemma http_reload_fails_witness :
  exists s, web "http" = ((web "http").1, Ok s) /\ monitorReload alice_elect no_ping 0 s (web "http").1 = web_reload "http" /\
    p_reloaders (web_reload "http").1 = 0%nat.
Proof.
  destruct (web_ok "http" (or_intror eq_refl)) as [s E]. pose proof (Launch_ok _ _ _ _ _ _ _ E) as Hl.
  assert (monitorReload alice_elect no_ping 0 s (web "http").1 = web_reload "http") as Hr by exact (then_reload_ok _ _ _ E).
  destruct (la_balancers _ _ _ _ _ _ Hl _ _ (web_wants "http" ":53")) as (b & Hb & Hi).
  destruct (web_launched _ _ E) as (H1 & H2 & H3 & _ & Hck & _ & _ & H7 & H8). exists s. split; [exact E|]. split; [exact Hr|].
  destruct (web_reload "http") as [p' r].
  refine (proj1 (proj2 (http_reload_fails (SK := busy_sockets) alice_elect no_ping 0 busy_in_use s b (web_lb "http") ∅
    (web "http").1 p' r Hb _ H1 H2 H3 Hck H7 _ Hr))).
  - vm_compute in Hi. by injection Hi as <-.
  - rewrite (Init_listenSpec _ _ _ Hi). exact H8.
Defined.

(** The configuration is replaced by one that does not list the peer. *)
Definition strand (p : Process) : Process :=
  set_world (set_config (SetPeers (w_config (p_world p)) [bob]) (p_world p)) p.

Lemma strand_kept p :
  p_open (strand p) = p_open p /\ p_closing (strand p) = p_closing p /\ p_reloaders (strand p) = p_reloaders p /\
  p_checkers (strand p) = p_checkers p /\
  w_chans (p_world (strand p)) !! reload (w_config (p_world (strand p))) = w_chans (p_world p) !! reload (w_config (p_world p)).
Proof. done. Qed.

Lemma strand_unlisted p : exists e, FindPeer (w_config (p_world (strand p))) "alice" = Err e.
Proof. by eexists. Qed.

Lemma update_strands_peer_witness :
  exists s p', web "tcp" = ((web "tcp").1, Ok s) /\
    monitorReload alice_elect no_ping 0 s (strand (web "tcp").1) = (p', Ok None) /\ p_reloaders p' = 0%nat.
Proof.
  destruct (web_ok "tcp" (or_introl eq_refl)) as [s E]. pose proof (Launch_ok _ _ _ _ _ _ _ E) as Hl.
  destruct (web_launched _ _ E) as (H1 & H2 & H3 & H4 & Hck & H5 & H6 & H7 & _).
  destruct (strand_kept (web "tcp").1) as (F1 & F2 & F3 & F4 & F5).
  destruct (update_strands_peer (SK := busy_sockets) alice_elect no_ping 0 s ∅ (strand (web "tcp").1) (fun _ => eq_refl) eq_refl H5 H6
    (eq_trans F1 H1) (eq_trans F2 H2) (eq_trans F3 H3) (eq_trans F4 Hck) (eq_trans F5 H7)) as (p' & Hr & _ & Hn & _).
  { left. rewrite (la_name _ _ _ _ _ _ Hl). apply strand_unlisted. }
  exists s, p'. split; [exact E|]. split; [exact Hr|exact Hn].
Defined.

(** The DNS server is to listen where the control server does. *)
Definition clash : Process * outcome Launched := Launch alice_elect no_ping 0 "alice" (idle "http" ":5309").

Lemma clash_fails : exists e, clash = (clash.1, Err e) /\ p_open clash.1 <> p_open (idle "http" ":5309").
Proof.
  assert (match clash.2 with Err _ => true | _ => false end = true) as Hw by (vm_compute; reflexivity).
  assert (size (p_open clash.1) = 2%nat) as Hs by (vm_compute; reflexivity).
  destruct clash as [p [|e| |]]; [done| |done..]. exists e. split; [done|]. cbn [fst] in *. intros Eq. rewrite Eq in Hs. done.
Qed.

Lemma failed_launch_blocks_retry_witness :
  exists e q' o, clash = (clash.1, Err e) /\ Launch alice_elect no_ping 0 "bob" clash.1 = (q', o) /\ is_ok o = false.
Proof.
  destruct clash_fails as (e & E & Hne). destruct (Launch alice_elect no_ping 0 "bob" clash.1) as [q' o] eqn:E2.
  exists e, q', o. split; [exact E|]. split; [reflexivity|].
  refine (proj2 (failed_launch_blocks_retry (SK := busy_sockets) alice_elect no_ping 0 busy_in_use "alice" "bob"
    (idle "http" ":5309") clash.1 clash.1 q' e o E Hne (reflexivity _) _ E2)). vm_compute. reflexivity.
Defined.
