(* ===== verification/Commands.v ===== *)
(** * Component: the commands (cmd/border/border.go)

    [serve] with its bootstrap of the configuration, and the commands of the
    client.  A command returns what it prints.  [app] is the table of the commands;
    reading flags and dispatching to the subcommands is code of
    github.com/peterbourgon/ff. *)

From stdpp Require Import gmultiset.
From S2P Require Import Prelude GoNet GoTime HealthCheck DnsConfig Literal Config ConfigZones Prog Disk DnsServer Balancer.
From S2P Require Import ControlServer ControlSafety ControlClient Launcher Lifecycle.

Local Open Scope Z_scope.

(** ** [serve] *)

Section serve.
Context `{HC : HashChain} `{MR : MapRange} `{TL : TlsLib} `{SK : Sockets}.
Context (elect : Config Chain -> Config Chain * outcome Peer) (prepare : Peer -> outcome string) (boot : Z).

(** [<-r]: takes the value out of the buffer, or waits for one. *)
Definition receive (r : loc) : prog World sent := fun w =>
  match w_chans w !! r with
  | Some true => (set_chans (<[r := false]> (w_chans w)) w, Ok Sent)
  | _ => (w, Ok Blocked)
  end.

(** Up to [<-c.ReloadChan()]: the configuration is loaded, and saved and reloaded
    so that its JSON form exists; the signal of that reload is taken back. *)
Definition bootstrap (configFile : string) : prog World sent :=
  r ← make_chan;
  c ← FromDisk (New chain_New r) configFile LoadYAML;
  _ ← modify (set_config c);
  _ ← Save;
  o ← Reload;
  match o with
  | Sent => w ← get; receive (reload (w_config w))
  | Blocked => mret Blocked
  end.

(** Code of the configuration, run in the process. *)
Definition in_world {A} (m : prog World A) : prog Process A := fun p =>
  let '(w, o) := m (p_world p) in (set_world w p, o).

(** Up to the end of [Launch]; [None] when the bootstrap waits. *)
Definition start (configFile : string) (args : list string) : prog Process (option Launched) :=
  match args with
  | [peerName] =>
      o ← in_world (bootstrap configFile);
      match o with
      | Sent => s ← Launch elect prepare boot peerName; mret (Some s)
      | Blocked => mret None
      end
  | _ => lift (Err (Errorf "Please provide a peer name to serve from" []))
  end.

(** How long the server may take to shut down. *)
Definition shutdown_wait (c : Config Chain) : Z := if bool_decide (ShutdownWait c = 0) then Second else ShutdownWait c.

(** The signal handler.  The error of [Shutdown] is ignored. *)
Definition terminate (server : Launched) : prog Process Z := fun p =>
  let sw := shutdown_wait (w_config (p_world p)) in
  match Shutdown server p with
  | (p', Panic) => (p', Panic)
  | (p', Fatal msg) => (p', Fatal msg)
  | (p', _) => (p', Ok sw)
  end.

(** [serve(args)]: [until] is what happens before the signal arrives, a reload
    excepted.  A reload replaces the services while [server] still names those of
    the first [Launch], which are shut down by then; shutting them down once more is
    not modelled. *)
Definition serve (configFile : string) (args : list string) (until : prog Process unit) :
    prog Process (option Z) :=
  o ← start configFile args;
  match o with
  | Some server => _ ← until; sw ← terminate server; mret (Some sw)
  | None => mret None
  end.
End serve.

(** ** The client's commands *)

(** [keyGenerate(args)]; [read] is the outcome of [rand.Read] on 32 bytes. *)
Definition keyGenerate (yaml_Marshal_key : JWK -> outcome string) (read : outcome string) (args : list string) :
    outcome (list string) :=
  match args with
  | [kid] => key ← MakeKey kid read; byt ← yaml_Marshal_key key; Ok [byt]
  | _ => Err (errors_New "Please provide a key id as an argument")
  end.

Section client.
Context `{HC : HashChain} `{MR : MapRange} `{W : !Wire} `{J : Jose}.
Context {S : Type} (http : string -> string -> string -> prog S HttpResponse) (url_Parse : string -> option error).
(** [os.ReadFile] on the client's machine, and what ghodss/yaml decodes. *)
Context (ReadFile : string -> outcome string) (yaml_Unmarshal_client : string -> outcome Client)
        (yaml_Unmarshal_key : string -> outcome JWK) (clientConfigFile : string).

Definition load_client : outcome Client :=
  map_err (Wrapf "Could not load client configuration at %q: %w" [clientConfigFile])
    (Load yaml_Unmarshal_client (ReadFile clientConfigFile)).

Definition clientAuthCheck : prog S (list string) :=
  client ← lift load_client;
  _ ← on_err (Wrapf "Authentication failed: %w" []) (SendRequest http url_Parse client (AuthCheck zero_nonce) false);
  mret ["OK"].

(** The peer that [addpeer] sends: it has no control server. *)
Definition new_peer (jwk : JWK) (ips : list IP) : Peer := {| IPs := ips; ControlServer := ""; Key := Some jwk |}.

Definition parse_addresses (args : list string) : outcome (list IP) :=
  collect (fun ipstr =>
    let ip := ParseIP ipstr in
    if bool_decide (ip = []) then Err (Errorf "IP %q is not a valid IP address" [ipstr]) else Ok [ip]) args.

Definition clientAddPeer (args : list string) : prog S (list string) :=
  client ← lift load_client;
  match args with
  | keyfile :: ((_ :: _) as addrs) =>
      byt ← lift (map_err (Wrapf "Could not read key file: %w" []) (ReadFile keyfile));
      jwk ← lift (map_err (Wrapf "Could not unmarshal JWK YAML: %w" []) (yaml_Unmarshal_key byt));
      ips ← lift (parse_addresses addrs);
      _ ← Exchange http url_Parse client (PeerRegistrationRequest "" (Some (new_peer jwk ips))) false;
      mret []
  | _ => lift (Err (errors_New "Please provide a key file and list of peer IPs"))
  end.

Definition clientReloadConfig (args : list string) : prog S (list string) :=
  client ← lift load_client;
  match args with
  | [] =>
      _ ← on_err (Wrapf "Error updating configuration: %w" []) (Exchange http url_Parse client (ConfigReloadRequest "") false);
      mret ["OK"]
  | _ => lift (Err (errors_New "Invalid Arguments"))
  end.

Definition clientIdentifyPublisher : prog S (list string) :=
  client ← lift load_client;
  resp ← on_err (Wrapf "Error identifying publisher: %w" [])
    (Exchange http url_Parse client (IdentifyPublisherRequest "") false);
  match resp with
  | IdentifyPublisherResponse _ publisher => mret ["Publisher: " +:+ publisher]
  | _ => lift Panic
  end.

(** [updateconfig] loads a configuration in the client's process. *)
Definition on_client {A} (m : prog World A) : prog (World * S) A := fun '(w, s) => let '(w', o) := m w in ((w', s), o).
Definition on_net {A} (m : prog S A) : prog (World * S) A := fun '(w, s) => let '(s', o) := m s in ((w, s'), o).

Definition clientUpdateConfig (args : list string) : prog (World * S) (list string) :=
  client ← lift load_client;
  match args with
  | [file] =>
      r ← on_client make_chan;
      c ← on_client (FromDisk (New chain_New r) file LoadYAML);
      w ← on_client get;
      _ ← on_err (Wrapf "Error updating configuration: %w" [])
        (on_net (Exchange http url_Parse client (ConfigUpdateRequest "" (Some (document (w_heap w) c))) false));
      mret ["OK"]
  | _ => lift (Err (errors_New "Please provide a config file to load"))
  end.
End client.

(** ** [main] *)

(** [ffcli.Command]: a command has its function, or subcommands. *)
Inductive Command (R : Type) := mkCommand {
  cmd_Name : string;
  cmd_Usage : string;
  cmd_ShortHelp : string;
  cmd_Subcommands : list (Command R);
  cmd_Exec : option (list string -> R)
}.
Arguments mkCommand {R}.
Arguments cmd_Name {R}.
Arguments cmd_Usage {R}.
Arguments cmd_ShortHelp {R}.
Arguments cmd_Subcommands {R}.
Arguments cmd_Exec {R}.

(** The functions of the commands. *)
Record Functions (R : Type) := {
  f_serve : list string -> R;
  f_clientAuthCheck : list string -> R;
  f_clientAddPeer : list string -> R;
  f_clientUpdateConfig : list string -> R;
  f_clientReloadConfig : list string -> R;
  f_clientIdentifyPublisher : list string -> R;
  f_keyGenerate : list string -> R
}.
Arguments f_serve {R}.
Arguments f_clientAuthCheck {R}.
Arguments f_clientAddPeer {R}.
Arguments f_clientUpdateConfig {R}.
Arguments f_clientReloadConfig {R}.
Arguments f_clientIdentifyPublisher {R}.
Arguments f_keyGenerate {R}.

Section main.
Context {R : Type} (fs : Functions R).

Definition leaf (name usage help : string) (exec : list string -> R) : Command R :=
  mkCommand name usage help [] (Some exec).

Definition app : Command R :=
  mkCommand "" "border [flags] <subcommand> [args]" ""
    [leaf "serve" "border serve" "Start the border service" (f_serve fs);
     mkCommand "client" "border client --help" "Talk to the border service"
       [leaf "authcheck" "border client authcheck" "Validates that auth is working without doing anything else"
          (f_clientAuthCheck fs);
        leaf "addpeer" "border client addpeer <YAML JWK keyfile> <ip (repeating)>"
          "Add a peer to the quorum. Use keygenerate to generate a keyfile." (f_clientAddPeer fs);
        leaf "updateconfig" "border client updateconfig <config file>" "Update the configuration remotely"
          (f_clientUpdateConfig fs);
        leaf "reloadconfig" "border client reloadconfig" "Force a reload of the configuration" (f_clientReloadConfig fs);
        leaf "identifypublisher" "border client identifypublisher"
          "Produce the name of the current elected publisher peer" (f_clientIdentifyPublisher fs)] None;
     leaf "keygenerate" "border keygenerate <name>" "Generate a new authentication key for use in border"
       (f_keyGenerate fs)] None.
End main.

(** What is printed on the standard error. *)
Inductive diagnostic := Usage (text : string) | Report (e : error).

(** [main]: [run] and [usage] are [Run] and [DefaultUsageFunc] of ffcli, [args] is
    [os.Args].  An error of a command is printed, and [main] returns. *)
Definition main {S} (run : Command (prog S unit) -> list string -> prog S unit) (usage : Command (prog S unit) -> string)
    (fs : Functions (prog S unit)) (args : list string) : prog S (list diagnostic) := fun s =>
  let help := if bool_decide (length args = 1%nat) then [Usage (usage (app fs))] else [] in
  match run (app fs) (tail args) s with
  | (s', Ok _) => (s', Ok help)
  | (s', Err e) => (s', Ok (help ++ [Report e]))
  | (s', Panic) => (s', Panic)
  | (s', Fatal msg) => (s', Fatal msg)
  end.
