(* ===== verification/CommandsSafety.v ===== *)
(** * The commands: bootstrapping, serving, and the client's requests

    [serve] turns a YAML file into a launched server whose DNS zones satisfy the
    precondition of the DNS server's specification; the client's commands reach
    the handlers of the control server. *)

From stdpp Require Import gmultiset.
From S2P Require Import Prelude GoNet GoTime HealthCheck DnsConfig Literal Config ConfigZones Prog Disk DiskSafety DiskLoad DnsServer Balancer.
From S2P Require Import Election ControlServer ControlSafety ControlClient Launcher LauncherChecks Lifecycle LifecycleSafety Commands.

Local Open Scope Z_scope.

(** ** What loading leaves in a zone *)

Lemma convert_record_again soa r r' : convert_record soa r = Ok r' -> convert_record soa (forget_record r') = Ok r'.
Proof.
  unfold convert_record. case_bool_decide as HA; [|case_bool_decide as HL; [|done]]; (destruct soa as [soa|]; [|done]);
    intros (v & Hv & [= <-])%bind_ok; cbn [forget_record rec_Type rec_Name rec_LiteralValue].
  - rewrite bool_decide_eq_true_2 by done. by rewrite Hv.
  - rewrite bool_decide_eq_false_2, bool_decide_eq_true_2 by done. by rewrite Hv.
Qed.

(** The values of a converted zone are those of its literals. *)
Lemma convert_zone_fresh z0 z : convert_zone z0 = Ok z -> fresh_values z.
Proof.
  unfold convert_zone. destruct (z_NS z0) as [ns|]; [|done].
  intros (ns' & Hns & (recs & Hr & [= <-])%bind_ok)%bind_ok. unfold fresh_values, convert_zone.
  cbn [forget_values z_NS z_SOA z_Records].
  assert ((if bool_decide (ns_TTL ns' = 0) then
             match z_SOA z0 with Some soa => Ok {| ns_Servers := ns_Servers ns'; ns_TTL := soa_MinTTL soa |} | None => Panic end
           else Ok ns') = Ok ns') as ->.
  { revert Hns. case_bool_decide as H1; [destruct (z_SOA z0); [|done]; intros [= <-]; by case_bool_decide|].
    intros [= <-]. by rewrite bool_decide_eq_false_2. }
  cbn [mbind outcome_bind].
  assert (forall l l', collect (fun r => r' ← convert_record (z_SOA z0) r; Ok [r']) l = Ok l' ->
    collect (fun r => r' ← convert_record (z_SOA z0) r; Ok [r']) (forget_record <$> l') = Ok l') as Hc.
  { induction l as [|r l IH]; intros l' Hl; [by injection Hl as <-|]. cbn [collect] in Hl.
    apply bind_ok in Hl as (ys & (r' & Hr' & [= <-])%bind_ok & (zs & Hzs & [= <-])%bind_ok).
    cbn [app]. rewrite fmap_cons. cbn [collect]. rewrite (convert_record_again _ _ _ Hr'). cbn [mbind outcome_bind].
    by rewrite (IH _ Hzs). }
  match goal with |- context [collect ?g ?l] => replace (collect g l) with (Ok recs) by (symmetry; exact (Hc _ _ Hr)) end.
  reflexivity.
Qed.

Lemma view_renamed_all f (P Q : string -> Prop) v v' :
  view_renamed f v v' -> (forall k z, v !! k = Some z -> full_zone z) -> (forall n, P n -> Q (f n)) ->
  view_all P v -> view_all Q v'.
Proof.
  intros Hv Hfull HPQ HP k' z' (k & z & -> & Hk & Hr)%Hv. destruct (HP _ _ Hk) as [Hn Hns]. split; [auto|].
  destruct (rename_zone_full f z (Hfull _ _ Hk)) as (z1 & Hr1 & _ & Hnm). rewrite Hr in Hr1. injection Hr1 as <-.
  rewrite Hnm, Forall_fmap. by eapply Forall_impl.
Qed.

Section serve.
Context `{HC : HashChain} `{MR : MapRange} `{TL : TlsLib} `{SK : Sockets}.

(** A file that [FromDisk] loads: it decodes to [d], whose zones have the values [v]
    and names without trailing dots. *)
Record readable (decode : bytes -> outcome Document) (file : string) (w : World) (d : Document) (v : gmap string Zone) : Prop := {
  rd_open : open_err (w_fs w) file = None;
  rd_file : exists b, files (w_fs w) !! file = Some b /\ decode b = Ok d;
  rd_peers : d_Peers d <> [];
  rd_convert : forall k z, d_Zones d !! k = Some z -> exists z', v !! k = Some z' /\ convert_zone z = Ok z';
  rd_dom : forall k, is_Some (v !! k) -> is_Some (d_Zones d !! k);
  rd_full : forall k z, v !! k = Some z -> full_zone z;
  rd_bare : view_all bare v
}.

(** Loading such a file: the names are qualified and the values those of the literals. *)
Lemma load_readable decode loader file (w : World) (d : Document) (v : gmap string Zone) (c : Config Chain) :
  (forall b, files (w_fs w) !! file = Some b -> decode b = Ok d -> loads loader b d) -> readable decode file w d v ->
  exists w' zs, FromDisk c file loader w
    = (w', Ok (mkConfig (TrimSuffix file (Ext file)) None (d_ShutdownWait d) (d_AuthKey d) (d_Listen d)
                 (d_Peers d) zs (chain c) (reload c))) /\
    w_config w' = w_config w /\ w_fs w' = w_fs w /\ zones_ok (w_heap w') zs /\
    view_renamed addDot v (view (w_heap w') zs) /\
    view_all dotted (view (w_heap w') zs) /\ (forall k z, view (w_heap w') zs !! k = Some z -> fresh_values z) /\
    (forall r x, w_chans w !! r = Some x -> w_chans w' !! r = Some x).
Proof.
  intros Hloader [Ho (b & Hb & Hd) Hpeers Hconv Hdom Hfull Hbare].
  destruct (FromDisk_run loader c file w b d v) as (w1 & zs & HF & Ecf & Efs & Hok & Hv & Hch); auto.
  exists w1, zs. split_and!; try done.
  - eapply view_renamed_all; [exact Hv|done| |exact Hbare]. intros n Hn. by apply addDot_bare.
  - intros k z (k0 & z0 & -> & Hk0 & Hr0)%Hv. eapply fresh_values_rename; [exact Hr0|].
    destruct (Hdom k0) as [z00 Hz00]; [eauto|]. destruct (Hconv _ _ Hz00) as (z' & Hz' & Hcz). simplify_eq.
    by eapply convert_zone_fresh.
Qed.

(** Saving what was loaded writes the names of the file. *)
Lemma readable_trimmed decode file (w : World) (d : Document) (v u : gmap string Zone) :
  readable decode file w d v -> view_renamed addDot v u -> view_renamed trimDot u v.
Proof.
  intros Hread Hv. eapply view_renamed_undo; [exact Hv|apply (rd_full _ _ _ _ _ Hread)|].
  eapply view_all_impl; [|exact (rd_bare _ _ _ _ _ Hread)]. intros n Hn. by apply addDot_bare.
Qed.

(** The files of a configuration can be written. *)
Definition writable (prefix : string) (fs : FS) : Prop :=
  prefix <> "" /\ prefix ∉ dirs fs /\ files fs !! prefix = None /\ fs_ready fs.

(** What [serve] needs of the file system and of its configuration file. *)
Definition bootable (configFile : string) (w : World) (d : Document) (v : gmap string Zone) : Prop :=
  writable (TrimSuffix configFile (Ext configFile)) (w_fs w) /\ readable yaml_Unmarshal configFile w d v.

(** C13. The bootstrap of [serve]: from a readable YAML file whose zones have their SOA
    and NS records and names without trailing dots, whose literals parse, and whose
    document can be encoded, read back as it was and added to a hash chain, the
    configuration is loaded, saved and reloaded without an error and without
    waiting.  The process then runs exactly the document: its peers, key, listeners
    and shutdown time, and its zones with parsed values and qualified names; the
    JSON file holds the document; the hash chain is the empty one, there is no
    publisher, and the reload signal of the bootstrap has been taken back, so that
    no reload is pending. *)
Theorem serve_bootstrap (configFile : string) (w : World) (d : Document) (v : gmap string Zone) :
  bootable configFile w d v -> codec_for (with_zones d v) ->
  exists w', bootstrap configFile w = (w', Ok Sent) /\ let c := w_config w' in
    view_renamed addDot v (view (w_heap w') (Zones c)) /\
    FilenamePrefix c = TrimSuffix configFile (Ext configFile) /\ ShutdownWait c = d_ShutdownWait d /\
    AuthKey c = d_AuthKey d /\ Listen c = d_Listen d /\ Peers c = d_Peers d /\
    chain c = chain_New /\ Publisher c = None /\ w_chans w' !! reload c = Some false /\
    exists b, json_Encode (with_zones d v) = Ok b /\ files (w_fs w') !! (FilenamePrefix c +:+ ".json") = Some b.
Proof.
  intros [(Hp1 & Hp2 & Hp3 & Hfs) Hread] Hcodec.
  set (r := fresh (dom (w_chans w))). set (w0 := set_chans (<[r := false]> (w_chans w)) w).
  destruct (load_readable yaml_Unmarshal LoadYAML configFile w0 d v (New chain_New r))
    as (w1 & zs & HF & _ & Efs & Hok & Hv & Hdot & Hfresh & Hch).
  { intros b _. apply LoadYAML_loads. }
  { by destruct Hread. }
  set (c := mkConfig _ _ _ _ _ _ _ _ _) in HF.
  destruct (Save_Reload_document (set_config c w1) v (view (w_heap w1) zs)) as (w2 & w3 & HS & HR & Hsig & Hview & Hc3 & b & Hb & Hf3); try done.
  1-3: cbn [w_fs set_config]; by rewrite Efs.
  { by destruct Hread. }
  { cbn [w_config w_chans set_config]. apply Hch. apply lookup_insert_eq. }
  { by apply names_all_view. }
  { by apply fresh_parses. }
  { by eapply readable_trimmed. }
  cbn [w_config set_config] in Hsig, Hc3, Hview, Hf3.
  exists (set_chans (<[reload c := false]> (w_chans w3)) w3). split.
  - unfold bootstrap. erewrite prog_bind_run; [|reflexivity]. erewrite prog_bind_run; [|exact HF].
    erewrite prog_bind_run; [|reflexivity]. erewrite prog_bind_run; [|exact HS]. erewrite prog_bind_run; [|exact HR].
    cbv beta iota. erewrite prog_bind_run; [|reflexivity]. unfold receive. rewrite Hc3. cbn [reload SetZones]. by rewrite Hsig.
  - cbv zeta. cbn [w_config w_heap w_chans w_fs set_chans]. rewrite Hview, Hc3. cbn [Zones SetZones].
    split_and!; try done; [apply lookup_insert_eq|]. by exists b.
Qed.

(** What a successful [Reload] leaves. *)
Lemma Reload_inv w w' o :
  Reload w = (w', Ok o) ->
  Peers (w_config w') <> [] /\ identity_of w' = identity_of w /\
  (o = Sent -> w_chans w' !! reload (w_config w') = Some true) /\
  forall k l, Zones (w_config w') !! k = Some l -> exists z, w_heap w' !! l = Some z /\ served_zone z.
Proof.
  intros Hr. pose proof (within_run _ _ _ _ _ Reload_keeps Hr) as Hid. unfold Reload in Hr.
  apply prog_bind_ok in Hr as (w0 & ? & [= <- <-] & (w1 & nc & HF%on_err_ok & (w2 & ? & [= <- <-] & Hr)%prog_bind_ok)%prog_bind_ok).
  apply FromDisk_inv in HF as (Hp & _ & _ & _ & Hz).
  apply prog_bind_ok in Hr as (w3 & [] & [= <-] & Hr). unfold send in Hr.
  assert (Peers (w_config w') = Peers nc /\ Zones (w_config w') = Zones nc /\ w_heap w' = w_heap w1) as (-> & -> & ->)
    by (destruct (w_chans _ !! _) as [[]|]; by injection Hr as <- _).
  split_and!; [done|done| |].
  { intros ->. destruct (w_chans _ !! _) as [[]|]; try done. injection Hr as <-. apply lookup_insert_eq. }
  intros k l Hk. exact (proj2 (Hz k l Hk)).
Qed.

Lemma bootstrap_inv configFile w w' :
  bootstrap configFile w = (w', Ok Sent) ->
  Peers (w_config w') <> [] /\ chain (w_config w') = chain_New /\
  FilenamePrefix (w_config w') = TrimSuffix configFile (Ext configFile) /\
  w_chans w' !! reload (w_config w') = Some false /\
  forall k l, Zones (w_config w') !! k = Some l -> exists z, w_heap w' !! l = Some z /\ served_zone z.
Proof.
  unfold bootstrap. intros (w0 & r & _ & (w1 & c & HF & (w2 & [] & [= <-] & Hrun)%prog_bind_ok)%prog_bind_ok)%prog_bind_ok.
  apply FromDisk_inv in HF as (_ & Hch & _ & Hpre & _).
  apply prog_bind_ok in Hrun as (w3 & [] & HS & (w4 & o & HR & Hrun)%prog_bind_ok).
  pose proof (within_run _ _ _ _ _ Save_keeps HS) as Hid. unfold same in Hid.
  destruct (Reload_inv _ _ _ HR) as (Hp & Hid' & _ & Hz). rewrite Hid in Hid'. injection Hid' as E1 E2 E3 E4.
  cbn [w_config set_config] in *.
  destruct o; [|done]. apply prog_bind_ok in Hrun as (w5 & ? & [= <- <-] & Hrun). unfold receive in Hrun.
  destruct (w_chans w4 !! reload (w_config w4)) as [[]|] eqn:E; try done. injection Hrun as <-.
  cbn [w_config w_heap w_chans set_chans]. split_and!; [done|by rewrite E3, Hch|congruence|apply lookup_insert_eq|done].
Qed.

Context (elect : Config Chain -> Config Chain * outcome Peer) (prepare : Peer -> outcome string) (boot : Z).

(** Whatever is in the configuration file: when [serve] has started, the zones the
    DNS server serves are in the state the specification of [ServeDNS] asks for
    (every zone has its SOA and NS records, every record a value of its type, every
    name is qualified), so that no query can make it panic.  The configuration has
    at least one peer and is saved under the file name without its extension; the
    hash chain is the empty one, no reload is pending and one goroutine waits for
    one; and the sockets that were opened are those of the server. *)
Theorem serve_ready (configFile : string) (args : list string) (p p' : Process) (s : Launched) :
  start elect prepare boot configFile args p = (p', Ok (Some s)) ->
  exists w, bootstrap configFile (p_world p) = (w, Ok Sent) /\ args = [l_peerName s] /\
    serves (w_heap (p_world p')) (l_dns s) /\ ds_Zones (l_dns s) = Zones (w_config w) /\
    Peers (w_config w) <> [] /\ chain (w_config w) = chain_New /\
    FilenamePrefix (w_config w) = TrimSuffix configFile (Ext configFile) /\
    w_chans (p_world p') !! reload (w_config w) = Some false /\
    p_reloaders p' = S (p_reloaders p) /\ p_open p' = sockets_of s ⊎ p_open p.
Proof.
  unfold start. destruct args as [|peerName [|? ?]]; [done| |done].
  intros (p1 & o & Hb & Hr)%prog_bind_ok. unfold in_world in Hb. destruct (bootstrap _ _) as [w ob] eqn:E.
  injection Hb as <- ->. destruct o; [|done]. apply prog_bind_ok in Hr as (p2 & s' & HL & [= <- <-]).
  apply Launch_ok in HL. destruct (bootstrap_inv _ _ _ E) as (Hp & Hc & Hf & Hch & Hz). exists w.
  rewrite (la_heap _ _ _ _ _ _ HL), (la_chans _ _ _ _ _ _ HL), (la_dns _ _ _ _ _ _ HL), (la_name _ _ _ _ _ _ HL).
  split_and!; [done|done|by intros k l Hk; apply (Hz k)|done|done|done|done|done|..].
  - apply (la_reloaders _ _ _ _ _ _ HL).
  - apply (la_open _ _ _ _ _ _ HL).
Qed.
End serve.

(** ** The signal *)

Section signal.
Context `{HC : HashChain} `{MR : MapRange} `{TL : TlsLib} `{SK : Sockets}.
Context (elect : Config Chain -> Config Chain * outcome Peer) (prepare : Peer -> outcome string) (boot : Z).
(** Nothing that runs refuses to be shut down. *)
Hypothesis dns_stops : forall l, dns_stop l = None.
Hypothesis http_stops : http_stop = None.

Lemma terminate_running s p x :
  is_Some (ds_udpServer (l_dns s)) -> is_Some (ds_tcpServer (l_dns s)) -> p_open p = sockets_of s ⊎ x -> p_closing p = ∅ ->
  exists p', terminate s p = (p', Ok (shutdown_wait (w_config (p_world p)))) /\
    p_open (settle p') = sockets (http_balancers (l_balancers s)) ⊎ x /\ p_checkers p' = pred (p_checkers p).
Proof.
  intros Hu Ht Ho Hc. destruct (Shutdown s p) as [p' o] eqn:E.
  pose proof (Shutdown_succeeds dns_stops http_stops s p p' o E Hu Ht) as ->.
  pose proof (Shutdown_stops s x p p' _ E Ho Hc) as [_ _ Hck _ _ Hex _].
  exists p'. unfold terminate. rewrite E. auto.
Qed.

(** What the signal stops, when no reload came before it: [serve] shuts down what it
    has launched; the sockets of the server are closed, those of HTTP balancers
    excepted, and so is the health checker. *)
Theorem serve_stops (configFile : string) (args : list string) (work : prog Process unit)
    (p p1 p2 : Process) (s : Launched) (x : gmultiset Listening) :
  start elect prepare boot configFile args p = (p1, Ok (Some s)) -> work p1 = (p2, Ok tt) ->
  p_open p2 = sockets_of s ⊎ x -> p_closing p2 = ∅ ->
  exists p3, serve elect prepare boot configFile args work p = (p3, Ok (Some (shutdown_wait (w_config (p_world p2))))) /\
    p_open (settle p3) = sockets (http_balancers (l_balancers s)) ⊎ x /\ p_checkers p3 = pred (p_checkers p2).
Proof.
  intros Hs Hw Ho Hc. unfold serve. erewrite prog_bind_run; [|exact Hs]. cbv beta iota. erewrite prog_bind_run; [|exact Hw].
  unfold start in Hs. destruct args as [|peerName [|? ?]]; [done| |done].
  apply prog_bind_ok in Hs as (p0 & [] & _ & Hl); [|done]. apply prog_bind_ok in Hl as (p5 & s' & Hl%Launch_ok & [= -> ->]).
  destruct (terminate_running s p2 x) as (p3 & Ht & Hsock & Hck); [by rewrite (la_dns _ _ _ _ _ _ Hl)..|done|done|].
  exists p3. by erewrite prog_bind_run; [|exact Ht].
Qed.
End signal.

(** ** Changes through the control API *)

Section changes.
Context `{HC : HashChain} `{MR : MapRange} `{TL : TlsLib} `{SK : Sockets} `{W : !Wire} `{J : Jose}.
Context (elect : Config Chain -> Config Chain * outcome Peer) (prepare : Peer -> outcome string) (boot : Z).

(** The requests that change the configuration. *)
Definition changing (r : Request) : bool :=
  match r with ConfigUpdateRequest _ _ | PeerRegistrationRequest _ _ | ConfigReloadRequest _ => true | _ => false end.

Lemma on_world_ok {A} (m : prog World A) s s' (a : A) :
  on_world m s = (s', Ok a) -> m (s_world s) = (s_world s', Ok a).
Proof. unfold on_world. destruct (m (s_world s)) as [w o]. by intros [= <- ->]. Qed.

Lemma saveConfig_ok w w' o : saveConfig w = (w', Ok o) -> exists w0, Reload w0 = (w', Ok o).
Proof. unfold saveConfig. intros (w0 & [] & _ & Hr%on_err_ok)%prog_bind_ok. eauto. Qed.

(** A handler of such a request that returns ends with a [Reload]; it has signalled
    when the request is answered. *)
Lemma handler_reloads t r s s' x :
  changing r = true -> handler t r s = (s', Ok x) ->
  exists w0 o, Reload w0 = (s_world s', Ok o) /\ (x <> Waiting -> o = Sent).
Proof.
  destruct r as [| |n [c|]|n peer|n| | | | | |]; try done; intros _; cbn [handler].
  - unfold handleConfigUpdate. intros (s0 & nc & _ & (s1 & ? & [= <- <-] & (s2 & o & Hr%on_world_ok & [= <- <-])%prog_bind_ok)%prog_bind_ok)%prog_bind_ok.
    unfold ReplaceConfig in Hr. apply prog_bind_ok in Hr as (w1 & [] & _ & [w0 Hr]%saveConfig_ok). exists w0, o. by destruct o.
  - unfold handlePeerRegister. intros (s1 & ? & [= <- <-] & (s2 & peers & _ & Hr)%prog_bind_ok)%prog_bind_ok.
    apply prog_bind_ok in Hr as (s3 & [] & _ & (s4 & o & [w0 Hr]%on_world_ok%saveConfig_ok & [= <- <-])%prog_bind_ok).
    exists w0, o. by destruct o.
  - unfold handleConfigReload. intros (s1 & o & Hr%on_err_ok%on_world_ok & [= <- <-])%prog_bind_ok. eexists _, o. by destruct o.
Qed.

(** C19. A change takes effect: when a configUpdate, peerRegister or configReload
    request has been answered, a reload is pending, and when it succeeds the new DNS
    server serves exactly the zones of the changed configuration, in the state the
    specification of [ServeDNS] asks for, whatever configuration was sent. *)
Theorem change_is_served (t : Moment) (r : Request) (sv sv' : Server) (m : Message) (s s2 : Launched)
    (x : gmultiset Listening) (p p' : Process) :
  changing r = true -> handler t r sv = (sv', Ok (Answer m)) ->
  p_world p = s_world sv' -> p_open p = sockets_of s ⊎ x -> p_closing p = ∅ ->
  monitorReload elect prepare boot s p = (p', Ok (Some s2)) ->
  w_chans (p_world p) !! reload (w_config (p_world p)) = Some true /\
  ds_Zones (l_dns s2) = Zones (w_config (s_world sv')) /\ serves (w_heap (p_world p')) (l_dns s2).
Proof.
  intros Hch Hh Hw Ho Hc Hr. destruct (handler_reloads _ _ _ _ _ Hch Hh) as (w0 & o & H0 & Ho').
  destruct (Reload_inv _ _ _ H0) as (_ & _ & Hsig & Hz). specialize (Hsig (Ho' ltac:(done))). rewrite <- Hw in Hsig. split; [done|].
  destruct (monitorReload_launches _ _ _ _ _ _ _ _ Hr Hsig Ho Hc) as (p4 & o4 & Hl & [Ew _ _ _ _] & Hok & _).
  rewrite (Hok s2 eq_refl) in Hl. apply Launch_ok in Hl.
  rewrite (la_heap _ _ _ _ _ _ Hl), (la_dns _ _ _ _ _ _ Hl), Ew, Hw. split; [done|]. intros k l Hk. exact (Hz k l Hk).
Qed.
End changes.

(** ** The client's commands *)

Lemma chars_replicate n c : length (chars (str (replicate n c))) = n.
Proof. by rewrite chars_str, length_replicate. Qed.

(** A nonce of the right size replaces all of another. *)
Lemma copy_all dst n : length (chars dst) = length (chars n) -> copy dst n = n.
Proof. intros Hn. unfold copy. rewrite Hn, Nat.min_id, take_ge, drop_ge, app_nil_r, str_chars by lia. done. Qed.

Lemma copy_zero n : length (chars n) = NonceSize -> copy zero_nonce n = n.
Proof. intros Hn. apply copy_all. unfold zero_nonce. by rewrite chars_replicate. Qed.

Section client.
Context `{HC : HashChain} `{MR : MapRange} `{W : !Wire} `{J : Jose}.
Context (ReadFile : string -> outcome string) (yaml_Unmarshal_client : string -> outcome Client)
        (yaml_Unmarshal_key : string -> outcome JWK) (clientConfigFile : string).

(** The object of the endpoint takes any nonce. *)
Lemma authcheck_object s n :
  requests_ok s -> length (chars n) = NonceSize ->
  Unmarshal (default (req_New (AuthCheck zero_nonce)) (s_requests s !! Endpoint (AuthCheck zero_nonce))) n = (AuthCheck n, None).
Proof.
  intros Hs Hn. pose proof (object_at s (AuthCheck zero_nonce) Hs) as [E Hlen]. destruct (default _ _); try done.
  cbn [Unmarshal]. by rewrite copy_all by congruence.
Qed.

(** C22. [authcheck] tells whether the key is the server's, whatever the server has served
    before.  With the server's key it prints OK, and the configuration, the files and
    the nonces of the server are as before, the nonce being used up; what is left is
    the nonce in the request object of the endpoint.  With a key that cannot decrypt
    what the server's key encrypts it fails, and all that is left at the server is
    the nonce it has handed out. *)
Theorem authcheck_decides (cl : Client) (k : JWK) (s : Server) (t1 t2 : Moment) (n : string) :
  load_client ReadFile yaml_Unmarshal_client clientConfigFile = Ok cl ->
  jose_ok k -> s_authKey s = Some k -> requests_ok s ->
  draw (s_nonces s) (reads t1) = Drew n -> length (chars n) = NonceSize -> now t2 - s_expireTime s <= now t1 ->
  let run := clientAuthCheck transport (fun _ => None) ReadFile yaml_Unmarshal_client clientConfigFile (s, [t1; t2]) in
  (cl_AuthKey cl = Some k -> run = ((put_request (AuthCheck n) s, []), Ok ["OK"])) /\
  ((forall m o c, GetEncrypter (Some k) ≫= (fun enc => enc m) = Ok o -> CompactSerialize o = Ok c ->
      exists j e, ParseEncrypted c = Ok j /\ Decrypt j (cl_AuthKey cl) = Err e) ->
   exists e, run = ((put_nonces (<[n := now t1]> (s_nonces s)) s, [t2]), Err (Wrapf "Authentication failed: %w" [] e))).
Proof.
  intros Hload Hj Hk Hreq Hd Hlen Ht run. split.
  - intros Hcl. assert (exchange_ok cl k false (AuthCheck zero_nonce) s t1 t2 n n) as Hok.
    { split; rewrite ?authcheck_object by done; cbn [SetNonce Marshal req_Nonce]; by rewrite ?copy_zero. }
    edestruct SendRequest_run as (c & Hs & _); [exact Hok|reflexivity|reflexivity|].
    cbn [SetNonce] in Hs. rewrite copy_zero in Hs by done.
    unfold run, clientAuthCheck. erewrite prog_bind_run; [|unfold lift; by rewrite Hload].
    erewrite prog_bind_run; [|unfold on_err; rewrite Hs; reflexivity]. reflexivity.
  - intros Hwrong. destruct (EncryptResponse_ok k (AuthCheckMessage n) n Hj eq_refl) as (c & Hc & _ & o & Ho & Hser).
    destruct (Hwrong n o c Ho Hser) as (j & e & Hp & He).
    assert (decrypt cl c = Err (Join ErrDecrypt e)) as Hdec by (unfold decrypt; rewrite Hp; cbn [mbind outcome_bind]; by rewrite He).
    unfold run, clientAuthCheck, SendRequest, PrepareRequest. erewrite prog_bind_run; [|unfold lift; by rewrite Hload].
    unfold on_err at 1, mbind, prog_bind. cbn [parse_base lift].
    unfold on_err at 1. erewrite GetNonce_gets; [|done..]. rewrite Hdec. cbn [map_err]. by eexists.
Qed.

Lemma parse_addresses_ok addrs :
  Forall (fun a => ParseIP a <> []) addrs -> parse_addresses addrs = Ok (ParseIP <$> addrs).
Proof.
  induction 1 as [|a addrs Ha _ IH]; [done|]. unfold parse_addresses in *. cbn [collect].
  rewrite bool_decide_eq_false_2 by done. cbn [mbind outcome_bind]. by rewrite IH.
Qed.

(** The peers after the registration of one. *)
Definition registered (new : Peer) (peers : list Peer) : list Peer :=
  (fun p => if bool_decide (peer_name p = peer_name new) then new else p) <$> peers.

Lemma replace_peer_named new peers : named new -> Forall named peers -> replace_peer new peers = Ok (registered new peers).
Proof.
  intros Hn. induction 1 as [|p peers Hp _ IH]; [done|]. unfold replace_peer in *. cbn [collect].
  rewrite (Name_named p Hp). cbn [mbind outcome_bind]. rewrite (Name_named new Hn) at 1. cbn [mbind outcome_bind]. by rewrite IH.
Qed.

Lemma registered_names new peers : peer_name <$> registered new peers = peer_name <$> peers.
Proof.
  unfold registered. rewrite <- list_fmap_compose. apply list_fmap_ext. intros i p _. cbn [compose]. by case_bool_decide.
Qed.

Lemma registered_new new peers p : p ∈ registered new peers -> peer_name p = peer_name new -> p = new.
Proof. intros (p0 & -> & _)%list_elem_of_fmap. by case_bool_decide. Qed.

(** Saving and reloading what a handler has put in place. *)
Lemma saveConfig_run (w : World) (tv u : gmap string Zone) :
  let c := w_config w in let p := FilenamePrefix c in
  writable p (w_fs w) -> Peers c <> [] -> w_chans w !! reload c = Some false ->
  zones_ok (w_heap w) (Zones c) -> names_all dotted (w_heap w) (Zones c) -> parses (view (w_heap w) (Zones c)) u ->
  view_renamed trimDot (view (w_heap w) (Zones c)) tv -> codec_for (with_zones (document (w_heap w) c) tv) ->
  exists w2, saveConfig w = (w2, Ok Sent) /\ w_chans w2 !! reload c = Some true /\
    view (w_heap w2) (Zones (w_config w2)) = u /\ w_config w2 = SetZones c (Zones (w_config w2)) /\
    exists b, json_Encode (with_zones (document (w_heap w) c) tv) = Ok b /\ files (w_fs w2) !! (p +:+ ".json") = Some b.
Proof.
  intros c p (Hp1 & Hp2 & Hp3 & Hfs) ???????.
  destruct (Save_Reload_document w tv u) as (w1 & w2 & HS & HR & Hrest); try done. exists w2. split; [|exact Hrest].
  unfold saveConfig. erewrite prog_bind_run; [|unfold on_err; by rewrite HS]. unfold on_err. by rewrite HR.
Qed.

(** The handler of [peerRegister] on a peer. *)
Lemma handlePeerRegister_run t n new s peers w2 :
  replace_peer new (Peers (w_config (s_world s))) = Ok peers ->
  saveConfig (set_config (SetPeers (w_config (s_world s)) peers) (s_world s)) = (w2, Ok Sent) ->
  handler t (PeerRegistrationRequest n (Some new)) s = (put_world w2 s, Ok (Answer NilResponse)).
Proof.
  intros Hp Hs. cbn [handler]. unfold handlePeerRegister. erewrite prog_bind_run; [|reflexivity].
  cbv zeta. erewrite prog_bind_run; [|unfold lift; rewrite Hp; reflexivity]. erewrite prog_bind_run; [|reflexivity].
  erewrite prog_bind_run; [|unfold on_world; cbn [s_world put_world]; rewrite Hs; reflexivity]. reflexivity.
Qed.

(** C23. What [addpeer] does to the peers of the server, from the command line to the
    saved configuration.  With a key file and addresses that parse, a client with the
    key and a server that can write its files, whose zones have their SOA and NS
    records, qualified names and literals that parse, and whose new document can be
    encoded and read back, the command reports no error; the server then runs its
    configuration with the peers changed, a reload is pending, and the JSON file
    holds the changed document.  The names of the peers are those from before: a peer
    with a new name is not added.  A peer with the name of the key takes the key and
    the addresses of the command line, and loses the address of its control server,
    so that its base URL has no host. *)
Theorem addpeer_replaces (cl : Client) (k : JWK) (keyfile byt : string) (jwk : JWK) (addrs : list string)
    (s : Server) (t1 t2 : Moment) (n b : string) (tv u : gmap string Zone) :
  load_client ReadFile yaml_Unmarshal_client clientConfigFile = Ok cl ->
  ReadFile keyfile = Ok byt -> yaml_Unmarshal_key byt = Ok jwk ->
  addrs <> [] -> Forall (fun a => ParseIP a <> []) addrs ->
  let new := new_peer jwk (ParseIP <$> addrs) in
  let w := s_world s in let c := w_config w in
  let D := with_zones (document (w_heap w) (SetPeers c (registered new (Peers c)))) tv in
  exchange_ok cl k false (PeerRegistrationRequest "" (Some new)) s t1 t2 n b ->
  json_Unmarshal_response NilResponse "{}" = Ok NilResponse ->
  Forall named (Peers c) -> Peers c <> [] -> writable (FilenamePrefix c) (w_fs w) -> w_chans w !! reload c = Some false ->
  zones_ok (w_heap w) (Zones c) -> names_all dotted (w_heap w) (Zones c) -> parses (view (w_heap w) (Zones c)) u ->
  view_renamed trimDot (view (w_heap w) (Zones c)) tv -> codec_for D ->
  exists s2, clientAddPeer transport (fun _ => None) ReadFile yaml_Unmarshal_client yaml_Unmarshal_key clientConfigFile
      (keyfile :: addrs) (s, [t1; t2]) = ((s2, []), Ok []) /\
    let w2 := s_world s2 in let c2 := w_config w2 in
    s_nonces s2 = s_nonces s /\ Peers c2 = registered new (Peers c) /\ c2 = SetZones (SetPeers c (Peers c2)) (Zones c2) /\
    view (w_heap w2) (Zones c2) = u /\ w_chans w2 !! reload c2 = Some true /\
    (exists bd, json_Encode D = Ok bd /\ files (w_fs w2) !! (FilenamePrefix c +:+ ".json") = Some bd) /\
    peer_name <$> Peers c2 = peer_name <$> Peers c /\
    (forall p, p ∈ Peers c2 -> peer_name p = KeyID jwk ->
       Key p = Some jwk /\ IPs p = ParseIP <$> addrs /\ BaseURL (FromPeer p) = "http://").
Proof.
  intros Hload Hfile Hkey Hne Haddrs new w c D Hok Hnil Hnamed Hpeers Hw Hchan Hzs Hdot Hparse Htv Hcodec.
  destruct (saveConfig_run (set_config (SetPeers c (registered new (Peers c))) w) tv u) as (w2 & Hsave & Hsig & Hview & Hc2 & bd & Hbd & Hf); try done.
  { cbn [w_config set_config Peers SetPeers]. unfold registered. by destruct (Peers c). }
  set (s1 := put_nonces (s_nonces s) (put_request (SetNonce (PeerRegistrationRequest "" (Some new)) n) s)).
  assert (handler t2 (SetNonce (PeerRegistrationRequest "" (Some new)) n) s1 = (put_world w2 s1, Ok (Answer NilResponse))) as Hh.
  { apply (handlePeerRegister_run _ _ _ _ (registered new (Peers c))); [|exact Hsave]. apply replace_peer_named; [by eexists|done]. }
  exists (put_world w2 s1). split.
  - unfold clientAddPeer. erewrite prog_bind_run; [|unfold lift; by rewrite Hload].
    destruct addrs as [|a addrs]; [done|]. erewrite prog_bind_run; [|unfold lift; by rewrite Hfile].
    erewrite prog_bind_run; [|unfold lift; by rewrite Hkey].
    erewrite prog_bind_run; [|unfold lift; by rewrite (parse_addresses_ok _ Haddrs)].
    erewrite prog_bind_run; [|eapply Exchange_run; [exact Hok|exact Hh|reflexivity|exact Hnil]]. reflexivity.
  - cbv zeta. cbn [s_world put_world]. rewrite Hc2. cbn [Peers SetZones SetPeers reload Zones w_config set_config].
    split_and!; try done; [by exists bd|apply registered_names|].
    intros p Hin Hn. by rewrite (registered_new _ _ _ Hin Hn).
Qed.
End client.

(** ** Examples *)

#[local] Existing Instance plain_codec.
#[local] Existing Instance plain_chain.
#[local] Existing Instance canonical_range.
#[local] Existing Instance plain_jose.
#[local] Existing Instance plain_wire.
#[local] Existing Instance busy_sockets.
#[local] Existing Instance no_tls.

(** The zone of the examples as it is in a file. *)
Definition file_zone : Zone :=
  {| z_SOA := Some {| soa_Domain := "test.home.arpa"; soa_Admin := "administrator.test.home.arpa";
                      soa_MinTTL := 60; soa_Serial := 1; soa_Refresh := 60; soa_Retry := 1; soa_Expire := 120 |};
     z_NS := Some {| ns_Servers := ["test.home.arpa"]; ns_TTL := 0 |};
     z_Records := [{| rec_Type := TypeA; rec_Name := "foo.test.home.arpa"; rec_LiteralValue := example_A; rec_Value := None |}] |}.
Definition loaded_zone : Zone := match convert_zone file_zone with Ok z => z | _ => file_zone end.

Definition file_document : Document :=
  {| d_ShutdownWait := 0; d_AuthKey := Some (key_of "auth"); d_Listen := {| listen_DNS := ":53"; listen_Control := ":5309" |};
     d_Peers := Peers two_peers; d_Zones := {["test.home.arpa" := file_zone]} |}.

Definition file_world : World :=
  mkWorld _ _ ∅ ∅ (put_files plain_fs {["/etc/border/config.yaml" := file_document]}) [] (New tt 1%positive).

Lemma plain_codec_for D : codec_for D.
Proof. split; [done|]. by exists D, tt. Qed.

Lemma file_bootable : bootable "/etc/border/config.yaml" file_world file_document {["test.home.arpa" := loaded_zone]}.
Proof.
  split; [vm_compute; split_and!; [done|set_solver|done|by intros f]|]. split.
  - done.
  - exists file_document. split; [vm_compute|]; reflexivity.
  - done.
  - cbn [d_Zones file_document]. intros k z [<- <-]%lookup_singleton_Some. exists loaded_zone. split; [by rewrite lookup_singleton_eq|].
    vm_compute. reflexivity.
  - cbn [d_Zones file_document]. intros k [z [<- _]%lookup_singleton_Some]. rewrite lookup_singleton_eq. by eexists.
  - intros k z [_ <-]%lookup_singleton_Some. split; vm_compute; by eexists.
  - intros k z [<- <-]%lookup_singleton_Some. split; [reflexivity|]. vm_compute. repeat constructor.
Qed.

Lemma serve_bootstrap_witness :
  exists w', bootstrap "/etc/border/config.yaml" file_world = (w', Ok Sent) /\
    FilenamePrefix (w_config w') = "/etc/border/config" /\ w_chans w' !! reload (w_config w') = Some false.
Proof.
  destruct (serve_bootstrap "/etc/border/config.yaml" file_world file_document {["test.home.arpa" := loaded_zone]}
    file_bootable (plain_codec_for _)) as (w' & H1 & _ & H2 & _ & _ & _ & _ & _ & _ & H3 & _).
  exists w'. split; [exact H1|]. split; [exact H2|exact H3].
Defined.

Definition file_start : Process * outcome (option Launched) :=
  start alice_elect no_ping 0 "/etc/border/config.yaml" ["alice"] (mkProcess _ _ file_world ∅ ∅ 0 0 0).

Lemma file_started : exists s, file_start = (file_start.1, Ok (Some s)).
Proof.
  assert (match file_start.2 with Ok (Some _) => true | _ => false end = true) as Hw by (vm_compute; reflexivity).
  destruct file_start as [p [[s|]| | |]]; [by exists s|done..].
Qed.

Lemma serve_ready_witness :
  exists s, file_start = (file_start.1, Ok (Some s)) /\ serves (w_heap (p_world file_start.1)) (l_dns s).
Proof.
  destruct file_started as [s E].
  destruct (serve_ready alice_elect no_ping 0 "/etc/border/config.yaml" ["alice"] (mkProcess _ _ file_world ∅ ∅ 0 0 0)
    file_start.1 s E) as (w & _ & _ & H & _).
  exists s. split; [exact E|exact H].
Defined.

Lemma started_sockets (file : string) (args : list string) (p p1 : Process) s :
  start alice_elect no_ping 0 file args p = (p1, Ok (Some s)) -> p_open p = ∅ -> p_closing p = ∅ ->
  p_open p1 = sockets_of s ⊎ ∅ /\ p_closing p1 = ∅.
Proof.
  unfold start. destruct args as [|peerName [|? ?]]; [done| |done]. intros (p0 & ob & Hb & Hr)%prog_bind_ok.
  unfold in_world in Hb. destruct (bootstrap _ _) as [w o0]. injection Hb as <- ->. destruct ob; [|done].
  apply prog_bind_ok in Hr as (p2 & s' & Hl%Launch_ok & [= <- <-]). intros Ho Hc. rewrite <- Ho at 1. rewrite <- Hc.
  split; [apply (la_open _ _ _ _ _ _ Hl)|apply (la_closing _ _ _ _ _ _ Hl)].
Qed.

Lemma serve_stops_witness :
  exists s p3 sw, serve alice_elect no_ping 0 "/etc/border/config.yaml" ["alice"] (mret tt) (mkProcess _ _ file_world ∅ ∅ 0 0 0)
      = (p3, Ok (Some sw)) /\ p_open (settle p3) = sockets (http_balancers (l_balancers s)) ⊎ ∅.
Proof.
  destruct file_started as [s E]. destruct (started_sockets _ _ _ _ s E eq_refl eq_refl) as [Ho Hc].
  destruct (serve_stops (SK := busy_sockets) alice_elect no_ping 0 (fun _ => eq_refl) eq_refl "/etc/border/config.yaml" ["alice"]
    (mret tt) _ file_start.1 file_start.1 s ∅ E eq_refl Ho Hc) as (p3 & H1 & H2 & _).
  exists s, p3. eexists. split; [exact H1|exact H2].
Defined.

(** The launched server, a reload through the control API, and the restart. *)
Definition booted : Process := mkProcess _ _ (bootstrap "/etc/border/config.yaml" file_world).1 ∅ ∅ 0 0 0.
Definition booted_run : Process * outcome Launched := Launch alice_elect no_ping 0 "alice" booted.
Definition asked : Server * outcome handled :=
  handler (moment 5) (ConfigReloadRequest "") (put_world (p_world booted_run.1) (plain_server None)).
Definition asked_process : Process := set_world (s_world asked.1) booted_run.1.

Lemma booted_ok : exists s, booted_run = (booted_run.1, Ok s).
Proof.
  assert (is_ok booted_run.2 = true) as Hw by (vm_compute; reflexivity).
  destruct booted_run as [p [s| | |]]; [by exists s|done..].
Qed.

Definition restarted : Process * outcome (option Launched) :=
  match booted_run with
  | (_, Ok s) => monitorReload alice_elect no_ping 0 s asked_process
  | (p, _) => (p, Panic)
  end.

Lemma restarted_ok s :
  booted_run = (booted_run.1, Ok s) ->
  exists s2, monitorReload alice_elect no_ping 0 s asked_process = (restarted.1, Ok (Some s2)).
Proof.
  intros E. assert (match restarted.2 with Ok (Some _) => true | _ => false end = true) as Hw by (vm_compute; reflexivity).
  assert (forall q m, q = (m, Ok s) ->
    match q with (_, Ok s) => monitorReload alice_elect no_ping 0 s asked_process | (p, _) => (p, Panic) end
    = monitorReload alice_elect no_ping 0 s asked_process) as Hq by (intros ?? ->; reflexivity).
  rewrite <- (Hq _ _ E). fold restarted. destruct restarted as [p [[s2|]| | |]]; [by exists s2|done..].
Qed.

Lemma launched_sockets (p p1 : Process) s w :
  Launch alice_elect no_ping 0 "alice" p = (p1, Ok s) -> p_open p = ∅ -> p_closing p = ∅ ->
  p_open (set_world w p1) = sockets_of s ⊎ ∅ /\ p_closing (set_world w p1) = ∅.
Proof. intros Hl%Launch_ok Ho Hc. rewrite <- Ho at 1. rewrite <- Hc. split; [apply (la_open _ _ _ _ _ _ Hl)|apply (la_closing _ _ _ _ _ _ Hl)]. Qed.

Lemma change_is_served_witness :
  exists s s2, booted_run = (booted_run.1, Ok s) /\
    monitorReload alice_elect no_ping 0 s asked_process = (restarted.1, Ok (Some s2)) /\
    serves (w_heap (p_world restarted.1)) (l_dns s2).
Proof.
  destruct booted_ok as [s E]. destruct (restarted_ok s E) as [s2 Hr]. destruct (launched_sockets booted _ s (s_world asked.1) E eq_refl eq_refl) as [Ho Hc].
  assert (asked = (asked.1, Ok (Answer NilResponse))) as Ha.
  { assert (match asked.2 with Ok (Answer NilResponse) => true | _ => false end = true) as Hw by (vm_compute; reflexivity).
    destruct asked as [sv [[[]|]| | |]]; [reflexivity|done..]. }
  exists s, s2. split; [exact E|]. split; [exact Hr|].
  exact (proj2 (proj2 (change_is_served alice_elect no_ping 0 (moment 5) (ConfigReloadRequest "") _ asked.1 NilResponse s s2 ∅
    asked_process restarted.1 eq_refl Ha eq_refl Ho Hc Hr))).
Defined.

Definition long_nonce : string := str (replicate NonceSize "n"%char).
Definition any_file (name : string) : outcome string := Ok name.
Definition long_moment (t : Z) : Moment := {| now := t; reads := [Some long_nonce] |}.
Definition stranger : Client := {| cl_AuthKey := Some (key_of "mallory"); BaseURL := "http://127.0.0.1:5309" |}.

(** A server that has answered an uptime request and an [authcheck]. *)
Definition used_server : Server :=
  put_request (AuthCheck zero_nonce) (put_request (UptimeRequest "n0") (plain_server None)).
Lemma used_ok : requests_ok used_server.
Proof. do 2 (eapply put_request_ok; [by split|]). by apply fresh_requests_ok. Qed.

Lemma authcheck_decides_witness :
  clientAuthCheck transport (fun _ => None) any_file (fun _ => Ok operator) "client.yaml"
    (used_server, [long_moment 5; long_moment 6]) = ((put_request (AuthCheck long_nonce) used_server, []), Ok ["OK"]) /\
  (exists st e, clientAuthCheck transport (fun _ => None) any_file (fun _ => Ok stranger) "client.yaml"
    (used_server, [long_moment 5; long_moment 6]) = (st, Err e)).
Proof.
  assert (length (chars long_nonce) = NonceSize) as Hlen by apply chars_replicate. split.
  - destruct (authcheck_decides any_file (fun _ => Ok operator) "client.yaml" operator (key_of "auth") used_server
      (long_moment 5) (long_moment 6) long_nonce eq_refl (plain_jose_ok _) eq_refl used_ok eq_refl Hlen) as [H _].
    { vm_compute. discriminate. }
    exact (H eq_refl).
  - destruct (authcheck_decides any_file (fun _ => Ok stranger) "client.yaml" stranger (key_of "auth") used_server
      (long_moment 5) (long_moment 6) long_nonce eq_refl (plain_jose_ok _) eq_refl used_ok eq_refl Hlen) as [_ H].
    { vm_compute. discriminate. }
    destruct H as [e H2]; [|eexists _, _; exact H2].
    intros m o c [= <-] [= <-]. eexists _, _. split; reflexivity.
Defined.

(** Messages of which only the nonce is sent; a registration is bob's new key. *)
Definition bob_moved : Peer := new_peer (key_of "bob") [ParseIP "10.0.0.7"].
Definition decode_bob (old : @Request plain_codec plain_chain) (data : string) : @Request plain_codec plain_chain :=
  match old with
  | PeerRegistrationRequest _ _ => PeerRegistrationRequest data (Some bob_moved)
  | _ => SetNonce old data
  end.
Lemma decode_bob_Endpoint old data : Endpoint (decode_bob old data) = Endpoint old.
Proof. by destruct old. Qed.
Definition bob_wire : Wire :=
  {| json_Marshal r := Ok (req_Nonce r);
     json_Unmarshal old data := (decode_bob old data, None);
     json_Unmarshal_Endpoint := decode_bob_Endpoint;
     json_Marshal_response m := Ok "{}";
     json_Unmarshal_response old data := Ok old |}.

Lemma plain_values k z : view example_heap example_zones !! k = Some z -> fresh_values z.
Proof.
  intros (l & H1 & H2)%lookup_view. unfold example_zones in H1. unfold example_heap in H2.
  apply lookup_singleton_Some in H1 as [_ <-]. apply lookup_singleton_Some in H2 as [_ <-]. exact example_fresh.
Qed.

Lemma plain_trimmed : exists tv, view_renamed trimDot (view example_heap example_zones) tv.
Proof.
  destruct (trimZones_spec dotted example_heap example_config example_zones_ok dotted_inj example_dotted) as (h1 & zs1 & _ & R1).
  eexists. exact (renamed_view _ _ _ _ _ example_zones_ok R1).
Qed.

Lemma addpeer_replaces_witness :
  exists s2, clientAddPeer (W := bob_wire) (transport (W := bob_wire)) (fun _ => None) any_file (fun _ => Ok operator)
    (fun _ => Ok (key_of "bob")) "client.yaml" ["bob.key"; "10.0.0.7"] (plain_server None, [moment 5; moment 6])
    = ((s2, []), Ok []) /\ Peers (w_config (s_world s2)) = registered bob_moved (Peers two_peers).
Proof.
  destruct plain_trimmed as [tv Htv].
  destruct (addpeer_replaces (W := bob_wire) any_file (fun _ => Ok operator) (fun _ => Ok (key_of "bob")) "client.yaml" operator (key_of "auth")
    "bob.key" "bob.key" (key_of "bob") ["10.0.0.7"] (plain_server None) (moment 5) (moment 6) "n1" "n1" tv
    (view example_heap example_zones)) as (s2 & H1 & _ & H2 & _); try reflexivity.
  - discriminate.
  - repeat constructor; vm_compute; discriminate.
  - split; try reflexivity; [apply plain_jose_ok|by apply fresh_requests_ok|by vm_compute].
  - repeat constructor; by eexists.
  - discriminate.
  - vm_compute. split_and!; [done|set_solver|done|by intros f].
  - exact example_zones_ok.
  - exact example_dotted.
  - exact (fresh_parses _ plain_values).
  - exact Htv.
  - apply plain_codec_for.
  - exists s2. split; [exact H1|exact H2].
Defined.
