(* ===== verification/Operator.v ===== *)
(** * The operator's other commands, from end to end

    [identifypublisher] against the election of the launch, and [reloadconfig]
    against the file on the peer's disk. *)

From stdpp Require Import gmultiset.
From S2P Require Import Prelude GoNet GoTime HealthCheck DnsConfig Literal Config ConfigZones Prog Disk DiskSafety DiskLoad DnsServer Balancer.
From S2P Require Import Election ControlServer ControlSafety ControlClient Launcher LauncherChecks Lifecycle LifecycleSafety Commands CommandsSafety.

Local Open Scope Z_scope.

Section operator.
Context `{HC : HashChain} `{MR : MapRange} `{TL : TlsLib} `{SK : Sockets} `{W : !Wire} `{J : Jose}.
Context (ReadFile : string -> outcome string) (yaml_Unmarshal_client : string -> outcome Client) (clientConfigFile : string).
Context (elect : Config Chain -> Config Chain * outcome Peer) (prepare : Peer -> outcome string) (boot : Z).

(** The handler of [identifyPublisher] when there is a publisher. *)
Lemma handleIdentifyPublisher_run t n s pub :
  Publisher (w_config (s_world s)) = Some pub -> named pub ->
  handler t (IdentifyPublisherRequest n) s = (s, Ok (Answer (IdentifyPublisherResponse "" (peer_name pub)))).
Proof.
  intros Hp Hn. cbn [handler]. unfold handleIdentifyPublisher. erewrite prog_bind_run; [|reflexivity].
  unfold GetPublisher. rewrite Hp. unfold lift, mret, prog_ret, mbind, prog_bind. by rewrite Name_named.
Qed.

(** C24. Who is the publisher: from the launch of a peer to the next election, whatever
    requests it has served, [identifypublisher] with the right key prints the name of
    a configured peer that answered in the launch's election with a positive uptime
    that no answering peer exceeds, whatever the interleaving of the election's
    goroutines.  Asking changes neither the configuration nor the nonces of the
    peer, only the request object of the endpoint.  Of encoding/json it is relied on
    that the names of the configured peers survive encoding and decoding, as names in
    UTF-8 do. *)
Theorem identifypublisher_prints_oldest (uptime : Peer -> option Z) (hangs : Peer -> bool) (peerName : string) (p p' : Process) (s : Launched)
    (left : list Peer) (winner : outcome Peer) (sv : Server) (cl : Client) (k : JWK) (t1 t2 : Moment) (n b : string) :
  let c := w_config (p_world p) in
  Forall named (Peers c) -> NoDup (peer_name <$> Peers c) -> "" ∉ (peer_name <$> Peers c) ->
  elected uptime hangs (Peers c) left winner -> elect c = (SetPeers c left, winner) ->
  Launch elect prepare boot peerName p = (p', Ok s) ->
  rtc request_step (ctl_server (l_control s) (p_world p')) sv ->
  load_client ReadFile yaml_Unmarshal_client clientConfigFile = Ok cl ->
  exchange_ok cl k false (IdentifyPublisherRequest "") sv t1 t2 n b ->
  (forall q, q ∈ Peers c -> exists mb, json_Marshal_response (IdentifyPublisherResponse "" (peer_name q)) = Ok mb /\
     json_Unmarshal_response (IdentifyPublisherResponse "" "") mb = Ok (IdentifyPublisherResponse "" (peer_name q))) ->
  exists pub u, pub ∈ Peers c /\ uptime pub = Some u /\ 0 < u /\ (forall q v, q ∈ Peers c -> uptime q = Some v -> v <= u) /\
    clientIdentifyPublisher transport (fun _ => None) ReadFile yaml_Unmarshal_client clientConfigFile (sv, [t1; t2])
      = ((put_request (IdentifyPublisherRequest n) sv, []), Ok ["Publisher: " +:+ peer_name pub]).
Proof.
  intros c Hn Hnd Hne (e & Hr & Hf & -> & ->) Helect HL Hreqs Hload Hok Hwire. apply Launch_ok in HL.
  destruct (la_publisher _ _ _ _ _ _ HL) as (c' & pub & He & Hc'). fold c in He. rewrite Helect in He. injection He as <- Hv.
  pose proof (Vote_cases uptime hangs (Peers c) e Hn Hnd Hne (election_rtc_Inv uptime hangs _ _ Hn Hnd Hr) Hf) as Hvote. rewrite Hv in Hvote.
  destruct Hvote as (Hin & u & Hu & Hpos & Hmax).
  assert (Publisher (w_config (s_world sv)) = Some pub) as Hpub.
  { apply requests_identity in Hreqs. unfold identity_of in Hreqs. injection Hreqs as _ -> _ _.
    destruct (la_new _ _ _ _ _ _ HL) as (me & k0 & b0 & _ & ->). cbn [s_world]. by rewrite Hc'. }
  destruct (Hwire pub Hin) as (mb & Hmb & Hub).
  set (s1 := put_nonces (s_nonces sv) (put_request (SetNonce (IdentifyPublisherRequest "") n) sv)).
  assert (handler t2 (SetNonce (IdentifyPublisherRequest "") n) s1
    = (s1, Ok (Answer (IdentifyPublisherResponse "" (peer_name pub))))) as Hh.
  { apply handleIdentifyPublisher_run; [exact Hpub|rewrite Forall_forall in Hn; by apply Hn]. }
  pose proof (Exchange_run _ _ _ _ _ _ _ _ _ _ _ mb Hok Hh Hmb Hub) as Hex.
  exists pub, u. split_and!; [done..|].
  unfold clientIdentifyPublisher. erewrite prog_bind_run; [|unfold lift; by rewrite Hload].
  erewrite prog_bind_run; [|unfold on_err; rewrite Hex; reflexivity]. reflexivity.
Qed.

(** C25. [reloadconfig] from end to end: when the JSON file next to the peer's
    configuration is readable, no reload is pending and the client holds the key, the
    command prints OK, whatever requests the peer has served before, and the peer
    runs exactly what is in that file, with its own prefix, publisher, chain and
    channel.  A reload is pending, and when it succeeds the DNS server
    serves the zones of the file.  No other file is read: not the YAML file that
    [serve] was started with. *)
Theorem reloadconfig_runs_file (cl : Client) (k : JWK) (d : Document) (v : gmap string Zone) (s : Server)
    (t1 t2 : Moment) (n b : string) :
  let c := w_config (s_world s) in
  load_client ReadFile yaml_Unmarshal_client clientConfigFile = Ok cl ->
  exchange_ok cl k false (ConfigReloadRequest "") s t1 t2 n b ->
  json_Unmarshal_response NilResponse "{}" = Ok NilResponse ->
  (forall b', files (w_fs (s_world s)) !! (FilenamePrefix c +:+ ".json") = Some b' -> exists ch, chain_Add chain_New b' = Ok ch) ->
  readable json_Decode (FilenamePrefix c +:+ ".json") (s_world s) d v -> w_chans (s_world s) !! reload c = Some false ->
  exists s2 zs, clientReloadConfig transport (fun _ => None) ReadFile yaml_Unmarshal_client clientConfigFile [] (s, [t1; t2])
      = ((s2, []), Ok ["OK"]) /\
    let w2 := s_world s2 in
    w_config w2 = mkConfig (FilenamePrefix c) (Publisher c) (d_ShutdownWait d) (d_AuthKey d) (d_Listen d) (d_Peers d)
                    zs (chain c) (reload c) /\
    view_renamed addDot v (view (w_heap w2) zs) /\ w_fs w2 = w_fs (s_world s) /\ w_chans w2 !! reload c = Some true /\
    forall l l' (x : gmultiset Listening) p p',
      p_world p = w2 -> p_open p = sockets_of l ⊎ x -> p_closing p = ∅ ->
      monitorReload elect prepare boot l p = (p', Ok (Some l')) ->
      view_renamed addDot v (view (w_heap (p_world p')) (ds_Zones (l_dns l'))).
Proof.
  intros c Hload Hok Hnil Hch Hread Hchan. set (w := s_world s) in *.
  destruct (load_readable json_Decode LoadJSON (FilenamePrefix c +:+ ".json") w d v c) as (w1 & zs & HF & Ecf & Efs & _ & Hv & _ & _ & Hchs); [|done|].
  { intros b' Hf' Hb'. destruct (Hch b' Hf') as [ch Hb]. by eapply LoadJSON_loads. }
  pose proof (Reload_run w w1 d zs HF Ecf (Hchs _ _ Hchan)) as HR. fold c in HR.
  set (w2 := mkWorld _ _ _ _ _ _ _) in HR.
  set (s1 := put_nonces (s_nonces s) (put_request (SetNonce (ConfigReloadRequest "") n) s)).
  assert (handler t2 (SetNonce (ConfigReloadRequest "") n) s1 = (put_world w2 s1, Ok (Answer NilResponse))) as Hh.
  { cbn [SetNonce handler]. unfold handleConfigReload.
    erewrite prog_bind_run; [|unfold on_err, on_world; change (s_world s1) with w; rewrite HR; reflexivity]. reflexivity. }
  pose proof (Exchange_run _ _ _ _ _ _ _ _ _ _ NilResponse "{}" Hok Hh eq_refl Hnil) as Hex.
  exists (put_world w2 s1), zs. split.
  { unfold clientReloadConfig. erewrite prog_bind_run; [|unfold lift; by rewrite Hload].
    erewrite prog_bind_run; [|unfold on_err; rewrite Hex; reflexivity]. reflexivity. }
  cbv zeta. cbn [s_world put_world]. split_and!; [reflexivity|exact Hv|exact Efs|apply lookup_insert_eq|].
  intros l l' x p p' Ew Ho Hcl Hr.
  assert (w_chans (p_world p) !! reload (w_config (p_world p)) = Some true) as Hsig by (rewrite Ew; apply lookup_insert_eq).
  destruct (monitorReload_launches _ _ _ _ _ _ _ _ Hr Hsig Ho Hcl) as (p4 & o4 & Hl & [Ew4 _ _ _ _] & Hok4 & _).
  rewrite (Hok4 l' eq_refl) in Hl. apply Launch_ok in Hl.
  rewrite (la_heap _ _ _ _ _ _ Hl), (la_dns _ _ _ _ _ _ Hl), Ew4, Ew. exact Hv.
Qed.
End operator.

(** ** Examples *)

#[local] Existing Instance plain_codec.
#[local] Existing Instance plain_chain.
#[local] Existing Instance canonical_range.
#[local] Existing Instance plain_jose.
#[local] Existing Instance plain_wire.
#[local] Existing Instance busy_sockets.
#[local] Existing Instance no_tls.

Definition both_answer (p : Peer) : option Z :=
  if bool_decide (p = alice) then Some 5 else if bool_decide (p = bob) then Some 3 else None.

Lemma alice_oldest : elected both_answer none_hangs [alice; bob] [alice; bob] (Ok alice).
Proof.
  exists {| e_peers := [alice; bob]; e_uptimes := {["alice" := 5; "bob" := 3]};
            e_goroutines := [(alice, Finished); (bob, Finished)] |}. split_and!.
  - eapply rtc_l; [apply (step_uptime both_answer none_hangs _ _ [(alice, Asking)] bob [] "bob" 3); reflexivity|].
    eapply rtc_l; [apply (step_uptime both_answer none_hangs _ _ [] alice [(bob, Finished)] "alice" 5); reflexivity|]. apply rtc_refl.
  - by repeat constructor.
  - reflexivity.
  - by vm_compute.
Qed.

(** The server has handed out a nonce since it was launched. *)
Lemma operator_identify_ok me b0 w :
  let sv := mkServer _ _ w me (Some (key_of "auth")) b0 NonceExpiration ∅ ∅ in
  exists sv', rtc request_step sv sv' /\ s_nonces sv' = {["n0" := 4]} /\
    exchange_ok operator (key_of "auth") false (IdentifyPublisherRequest "") sv' (moment 5) (moment 6) "n1" "n1".
Proof.
  intros sv. exists (put_nonces {["n0" := 4]} sv). split_and!; [|reflexivity|].
  - apply rtc_once. exists {| now := 4; reads := [Some "n0"] |}, NonceRequest, {| r_Method := "GET"; r_Body := Ok "" |}. by eexists.
  - split; try reflexivity; [apply plain_jose_ok|by apply fresh_requests_ok|by vm_compute].
Qed.

Lemma identifypublisher_prints_oldest_witness :
  exists s sv st pub, web "tcp" = ((web "tcp").1, Ok s) /\ s_nonces sv = {["n0" := 4]} /\
    clientIdentifyPublisher transport (fun _ => None) any_file (fun _ => Ok operator) "client.yaml"
      (sv, [moment 5; moment 6]) = (st, Ok ["Publisher: " +:+ peer_name pub]) /\
    both_answer pub = Some 5.
Proof.
  destruct (web_ok "tcp" (or_introl eq_refl)) as [s E]. destruct (Launch_ok _ _ _ _ _ _ _ E) as [].
  destruct la_new as (me & k & b0 & Hk & Hsv). injection Hk as <-. destruct quorum_ok as (H1 & H2 & H3).
  destruct (operator_identify_ok me b0 (p_world (web "tcp").1)) as (sv & Hreqs & Hn0 & Hok). rewrite <- Hsv in Hreqs.
  destruct (identifypublisher_prints_oldest (SK := busy_sockets) any_file (fun _ => Ok operator) "client.yaml" alice_elect no_ping 0
    both_answer none_hangs "alice" (idle "tcp" ":53") (web "tcp").1 s [alice; bob] (Ok alice) sv operator (key_of "auth") (moment 5) (moment 6) "n1" "n1"
    H1 H2 H3 alice_oldest eq_refl E Hreqs eq_refl Hok)
    as (pub & u & Hin & Hu & _ & Hmax & Hrun).
  { intros q _. exists (peer_name q). split; reflexivity. }
  exists s, sv. eexists _, pub. split; [exact E|]. split; [exact Hn0|]. split; [exact Hrun|].
  assert (5 <= u) as Hu5 by (apply (Hmax alice); [left|reflexivity]).
  unfold both_answer in *. repeat case_bool_decide; congruence || (injection Hu as <-; lia).
Defined.

(** A peer whose JSON file holds the document of the example file, and that has been
    asked to reload before. *)
Definition on_disk : Server :=
  mkServer _ _ (mkWorld _ _ ∅ {[1%positive := false]} (put_files plain_fs {["/etc/border/config.json" := file_document]}) []
      (mkConfig "/etc/border/config" None 0 (Some (key_of "auth")) {| listen_DNS := ":53"; listen_Control := ":5309" |}
         (Peers two_peers) ∅ tt 1%positive))
    (mkPeer "alice" "10.0.0.1") (Some (key_of "auth")) 0 30 ∅ {["configReload" := ConfigReloadRequest "n0"]}.

Lemma on_disk_objects : requests_ok on_disk.
Proof. unfold requests_ok, on_disk. cbn [s_requests]. intros e r [<- <-]%lookup_singleton_Some. by split. Qed.

Lemma reloadconfig_runs_file_witness :
  exists s2, clientReloadConfig transport (fun _ => None) any_file (fun _ => Ok operator) "client.yaml" []
      (on_disk, [moment 5; moment 6]) = ((s2, []), Ok ["OK"]) /\ Peers (w_config (s_world s2)) = Peers two_peers.
Proof.
  destruct (proj2 file_bootable) as [_ _ R3 R4 R5 R6 R7].
  destruct (reloadconfig_runs_file (SK := busy_sockets) any_file (fun _ => Ok operator) "client.yaml" alice_elect no_ping 0
    operator (key_of "auth") file_document {["test.home.arpa" := loaded_zone]} on_disk (moment 5) (moment 6) "n1" "n1")
    as (s2 & zs & H1 & H2 & _).
  - reflexivity.
  - split; try reflexivity; [apply plain_jose_ok|exact on_disk_objects|by vm_compute].
  - reflexivity.
  - intros b' _. by exists tt.
  - split; [reflexivity|exists file_document; split; [vm_compute|]; reflexivity|exact R3|exact R4|exact R5|exact R6|exact R7].
  - reflexivity.
  - exists s2. split; [exact H1|]. rewrite H2. reflexivity.
Defined.
