(* ===== verification/Updates.v ===== *)
(** * Updating the configuration, from the operator's file to the DNS server

    [updateconfig] loads a YAML file on the operator's machine and sends the
    configuration to a peer, which installs, saves and reloads it; the reload
    restarts the services of the peer. *)

From stdpp Require Import gmultiset.
From S2P Require Import Prelude GoNet GoTime HealthCheck DnsConfig Literal Config ConfigZones Prog Disk DiskSafety DiskLoad DnsServer Balancer.
From S2P Require Import Election ControlServer ControlSafety ControlClient Launcher LauncherChecks Lifecycle LifecycleSafety Commands CommandsSafety.

Local Open Scope Z_scope.

Lemma zone_names_forget z : zone_names (forget_values z) = zone_names z.
Proof. unfold zone_names, forget_values. cbn [z_SOA z_NS z_Records]. by rewrite <- list_fmap_compose. Qed.

Lemma forget_again z : forget_values (forget_values z) = forget_values z.
Proof. unfold forget_values. cbn [z_SOA z_NS z_Records]. f_equal. by rewrite <- list_fmap_compose. Qed.

Lemma rename_forget f z z1 : rename_zone f z = Ok z1 -> rename_zone f (forget_values z) = Ok (forget_values z1).
Proof.
  unfold rename_zone, forget_values. destruct z as [[soa|] [ns|] recs]; try done. cbn [z_SOA z_NS z_Records].
  intros [= <-]. cbn [z_SOA z_NS z_Records]. by rewrite <- !list_fmap_compose.
Qed.

Lemma view_renamed_forget f v u :
  (forall k z, v !! k = Some z -> full_zone z) -> view_renamed f v u -> view_renamed f (forget_values <$> v) (forget_values <$> u).
Proof.
  intros Hfull Hv k' z'. rewrite lookup_fmap. split.
  - intros (z1 & (k & z & -> & Hk & Hr)%Hv & ->)%fmap_Some. exists k, (forget_values z). rewrite lookup_fmap, Hk.
    split_and!; [done..|]. by apply rename_forget.
  - intros (k & z0 & -> & Hk0 & Hr).
    rewrite lookup_fmap in Hk0. apply fmap_Some in Hk0 as (z & Hk & ->).
    destruct (rename_zone_full f z (Hfull _ _ Hk)) as (z1 & Hr1 & _). rewrite (rename_forget _ _ _ Hr1) in Hr. injection Hr as <-.
    assert (u !! f k = Some z1) as -> by (apply Hv; eauto). done.
Qed.

Section updates.
Context `{HC : HashChain} `{MR : MapRange}.

(** The configuration of a message in the memory of the process. *)
Lemma unmarshalled_run (d : Document) (w : World) :
  (forall k z, d_Zones d !! k = Some z -> full_zone z) ->
  exists h zs, unmarshalled d w = (set_heap h w, Ok (decoded (New chain_New (reload (w_config w))) d zs)) /\
    view h zs = d_Zones d /\ zones_ok h zs.
Proof.
  intros Hfull. unfold unmarshalled, decode_into, get, mbind, prog_bind.
  destruct (alloc_zones (d_Zones d) (w_heap w)) as [h zs] eqn:Ea. exists h, zs.
  destruct (alloc_zones_spec _ _ _ _ Ea) as [Hview Hinj]. split_and!; [done..|]. split; [done|]. intros k l Hk.
  pose proof (alloc_loop (map_to_list (d_Zones d)) (w_heap w) (NoDup_fst_map_to_list _)) as Hl.
  unfold alloc_zones in Ea. rewrite Ea in Hl. destruct Hl as (_ & I2 & _).
  destruct (I2 _ _ Hk) as (_ & z & Hz%elem_of_map_to_list & Hlz). eauto.
Qed.

(** Installing the configuration of a message. *)
Lemma ReplaceConfig_run (d : Document) (tv u : gmap string Zone) (w : World) :
  let c := w_config w in
  writable (FilenamePrefix c) (w_fs w) -> w_chans w !! reload c = Some false -> d_Peers d <> [] ->
  (forall k z, d_Zones d !! k = Some z -> full_zone z) -> view_all dotted (d_Zones d) -> parses (d_Zones d) u ->
  view_renamed trimDot (d_Zones d) tv -> codec_for (with_zones d tv) ->
  exists nc w1 w2, unmarshalled d w = (w1, Ok nc) /\ w_config w1 = c /\ ReplaceConfig nc (chain c) w1 = (w2, Ok Sent) /\
    view (w_heap w2) (Zones (w_config w2)) = u /\ w_chans w2 !! reload c = Some true /\
    w_config w2 = mkConfig (FilenamePrefix c) (Publisher c) (d_ShutdownWait d) (d_AuthKey d) (d_Listen d) (d_Peers d)
                    (Zones (w_config w2)) (chain c) (reload c).
Proof.
  intros c Hw Hchan Hpeers Hfull Hdot Hparse Htv Hcodec.
  destruct (unmarshalled_run d w Hfull) as (h & zs & Hu & Hview & Hok).
  set (nc := decoded _ d zs) in Hu. set (c' := CopyFrom c (SetChain nc (chain c))).
  destruct (saveConfig_run (set_config c' (set_heap h w)) tv u) as (w2 & HS & Hsig & Hv & Hc & _); try done.
  { apply names_all_view; [done|]. cbn [w_heap w_config set_config set_heap]. change (Zones c') with zs. by rewrite Hview. }
  { cbn [w_heap w_config set_config set_heap]. change (Zones c') with zs. by rewrite Hview. }
  { cbn [w_heap w_config set_config set_heap]. change (Zones c') with zs. by rewrite Hview. }
  exists nc, (set_heap h w), w2. split_and!; [exact Hu|done| |exact Hv|exact Hsig|exact Hc].
  unfold ReplaceConfig. erewrite (prog_bind_run _ _ _ (set_config c' (set_heap h w)) tt) by reflexivity. exact HS.
Qed.
End updates.

Section command.
Context `{HC : HashChain} `{MR : MapRange} `{TL : TlsLib} `{SK : Sockets} `{W : !Wire} `{J : Jose}.
Context (ReadFile : string -> outcome string) (yaml_Unmarshal_client : string -> outcome Client) (clientConfigFile : string).
Context (elect : Config Chain -> Config Chain * outcome Peer) (prepare : Peer -> outcome string) (boot : Z).

(** What the file [d] with the zones [v] is sent as: qualified names, no values. *)
Definition sent_as (d : Document) (v : gmap string Zone) (D : Document) : Prop :=
  exists u, view_renamed addDot v u /\ D = with_zones d u.

Lemma handleConfigUpdate_run t n D tv u s :
  let w := s_world s in let c := w_config w in
  writable (FilenamePrefix c) (w_fs w) -> w_chans w !! reload c = Some false -> d_Peers D <> [] ->
  (forall k z, d_Zones D !! k = Some z -> full_zone z) -> view_all dotted (d_Zones D) -> parses (d_Zones D) u ->
  view_renamed trimDot (d_Zones D) tv -> codec_for (with_zones D tv) ->
  exists w2, handler t (ConfigUpdateRequest n (Some D)) s = (put_world w2 s, Ok (Answer NilResponse)) /\
    view (w_heap w2) (Zones (w_config w2)) = u /\ w_chans w2 !! reload c = Some true /\
    w_config w2 = mkConfig (FilenamePrefix c) (Publisher c) (d_ShutdownWait D) (d_AuthKey D) (d_Listen D) (d_Peers D)
                    (Zones (w_config w2)) (chain c) (reload c).
Proof.
  intros w c Hw Hchan Hpeers Hfull Hdot Hparse Htv Hcodec.
  destruct (ReplaceConfig_run D tv u w Hw Hchan Hpeers Hfull Hdot Hparse Htv Hcodec) as (nc & w1 & w2 & Hu & Hc1 & Hr & Hrest).
  exists w2. split; [|exact Hrest]. cbn [handler handleConfigUpdate].
  erewrite prog_bind_run; [|unfold on_world; fold w; rewrite Hu; reflexivity].
  erewrite prog_bind_run; [|reflexivity]. cbn [s_world put_world]. rewrite Hc1.
  erewrite prog_bind_run; [|unfold on_world; cbn [s_world put_world]; rewrite Hr; reflexivity]. reflexivity.
Qed.

(** What the server makes of the zones it is sent is what the operator's machine has. *)
Lemma sent_parses d v D u :
  view_renamed addDot v u -> sent_as d v D -> (forall k z, u !! k = Some z -> full_zone z /\ fresh_values z) ->
  view_all dotted u ->
  (forall k z, d_Zones D !! k = Some z -> full_zone z) /\ view_all dotted (d_Zones D) /\ parses (d_Zones D) u.
Proof.
  intros Hu (u' & Hu' & ->) Hfull Hdot. rewrite (view_renamed_unique _ _ _ _ Hu' Hu). cbn [d_Zones with_zones]. split_and!.
  - intros k z. rewrite lookup_fmap. intros (z0 & Hz0 & ->)%fmap_Some. apply (Hfull _ _ Hz0).
  - intros k z. rewrite lookup_fmap. intros (z0 & Hz0 & ->)%fmap_Some. rewrite zone_names_forget. by apply Hdot.
  - split.
    + intros k z. rewrite lookup_fmap. intros (z0 & Hz0 & ->)%fmap_Some. exists z0. split; [done|].
      rewrite forget_again. apply (Hfull _ _ Hz0).
    + intros k. by rewrite lookup_fmap, fmap_is_Some.
Qed.

(** What the server saves is what was in the file. *)
Lemma sent_saved decode file w d v D :
  readable decode file w d v -> sent_as d v D -> codec_for (with_zones d v) ->
  view_renamed trimDot (d_Zones D) (forget_values <$> v) /\ codec_for (with_zones D (forget_values <$> v)).
Proof.
  intros Hread (u & Hu & ->) Hcodec. split.
  - apply view_renamed_forget; [|by eapply readable_trimmed]. intros k z (k0 & z0 & -> & Hk0 & Hr)%Hu.
    destruct (rename_zone_full addDot z0 (rd_full _ _ _ _ _ Hread _ _ Hk0)) as (z1 & Hr1 & Hf1 & _). rewrite Hr in Hr1. by injection Hr1 as <-.
  - enough (with_zones (with_zones d u) (forget_values <$> v) = with_zones d v) as -> by done.
    unfold with_zones. cbn [d_ShutdownWait d_AuthKey d_Listen d_Peers]. f_equal. rewrite <- map_fmap_compose.
    apply map_fmap_ext. intros k z _. apply forget_again.
Qed.

(** C14. [updateconfig] from end to end.  When the operator's YAML file is readable and its
    document can be encoded and read back, the client holds the key, the peer can
    write its files and has no reload pending, and the document that is sent is
    what the peer decodes, the command prints OK.  (It is, when no update was sent to
    the peer since it was started; a document that is decoded on top of an earlier one
    is merged with it, see [refused_update_is_merged].)  The peer then runs exactly
    that file: its peers, key, listeners, shutdown time and zones, with parsed values
    and qualified names, while the peer's own file prefix, publisher, hash chain and
    reload channel stay as they were and the nonce is used up.  A reload is pending,
    and when it succeeds, the new DNS server serves those zones. *)
Theorem updateconfig_installs (cl : Client) (k : JWK) (file : string) (d D : Document) (v : gmap string Zone)
    (wc : World) (s : Server) (t1 t2 : Moment) (n b : string) :
  load_client ReadFile yaml_Unmarshal_client clientConfigFile = Ok cl ->
  readable yaml_Unmarshal file wc d v -> codec_for (with_zones d v) -> sent_as d v D ->
  exchange_ok cl k false (ConfigUpdateRequest "" (Some D)) s t1 t2 n b ->
  json_Unmarshal_response NilResponse "{}" = Ok NilResponse ->
  let c := w_config (s_world s) in
  writable (FilenamePrefix c) (w_fs (s_world s)) -> w_chans (s_world s) !! reload c = Some false ->
  exists wc' s2 zs, clientUpdateConfig transport (fun _ => None) ReadFile yaml_Unmarshal_client clientConfigFile
      [file] (wc, (s, [t1; t2])) = ((wc', (s2, [])), Ok ["OK"]) /\
    let w2 := s_world s2 in
    w_config w2 = mkConfig (FilenamePrefix c) (Publisher c) (d_ShutdownWait d) (d_AuthKey d) (d_Listen d) (d_Peers d)
                    zs (chain c) (reload c) /\
    view_renamed addDot v (view (w_heap w2) zs) /\ s_nonces s2 = s_nonces s /\ w_chans w2 !! reload c = Some true /\
    forall l l' (x : gmultiset Listening) p p',
      p_world p = w2 -> p_open p = sockets_of l ⊎ x -> p_closing p = ∅ ->
      monitorReload elect prepare boot l p = (p', Ok (Some l')) ->
      view_renamed addDot v (view (w_heap (p_world p')) (ds_Zones (l_dns l'))).
Proof.
  intros Hload Hread Hcodec Hsent Hok Hnil c Hw Hchan.
  destruct (sent_saved _ _ _ _ _ _ Hread Hsent Hcodec) as [Htv HcodecD].
  set (r := fresh (dom (w_chans wc))). set (w0 := set_chans (<[r := false]> (w_chans wc)) wc).
  destruct (load_readable yaml_Unmarshal LoadYAML file w0 d v (New chain_New r))
    as (wc' & zs & HF & _ & _ & Hzs & Hv & Hdot & Hfresh & _); [intros b' _; apply LoadYAML_loads|by destruct Hread|].
  destruct (sent_parses d v D _ Hv Hsent) as (Hfull & HdotD & Hparse); [|done|].
  { intros k0 z Hz. split; [by eapply zones_ok_full|by apply (Hfresh k0)]. }
  destruct Hsent as (u & Hu & ED). rewrite <- (view_renamed_unique _ _ _ _ Hv Hu) in ED.
  set (s1 := put_nonces (s_nonces s) (put_request (SetNonce (ConfigUpdateRequest "" (Some D)) n) s)).
  destruct (handleConfigUpdate_run t2 n D (forget_values <$> v) (view (w_heap wc') zs) s1 Hw Hchan) as (w2 & Hh & Hview & Hsig & Hc); [by rewrite ED; apply (rd_peers _ _ _ _ _ Hread)|done..|].
  set (zs2 := Zones (w_config w2)) in *. exists wc', (put_world w2 s1), zs2. split; [|cbv zeta; cbn [s_world put_world]; split_and!].
  - unfold clientUpdateConfig. erewrite prog_bind_run; [|unfold lift; by rewrite Hload].
    erewrite (prog_bind_run _ _ _ (w0, (s, [t1; t2])) r) by reflexivity. erewrite prog_bind_run; [|unfold on_client; rewrite HF; reflexivity].
    erewrite prog_bind_run; [|reflexivity]. erewrite prog_bind_run; [reflexivity|].
    unfold on_err, on_net. set (D' := document _ _). replace D' with D by (rewrite ED; reflexivity).
    erewrite Exchange_run; [reflexivity|exact Hok|exact Hh|reflexivity|exact Hnil].
  - rewrite Hc, ED. reflexivity.
  - rewrite Hview. exact Hv.
  - reflexivity.
  - exact Hsig.
  - intros l l' x p p' Ew Ho Hcl Hr. change (w_chans w2 !! reload c = Some true) in Hsig. rewrite <- Ew in Hsig.
    assert (reload c = reload (w_config (p_world p))) as Er by (rewrite Ew, Hc; reflexivity). rewrite Er in Hsig.
    destruct (monitorReload_launches _ _ _ _ _ _ _ _ Hr Hsig Ho Hcl) as (p4 & o4 & Hl & [Ew4 _ _ _ _] & Hok4 & _).
    rewrite (Hok4 l' eq_refl) in Hl. apply Launch_ok in Hl.
    rewrite (la_heap _ _ _ _ _ _ Hl), (la_dns _ _ _ _ _ _ Hl), Ew4, Ew. change (view_renamed addDot v (view (w_heap w2) zs2)). rewrite Hview. exact Hv.
Qed.

(** ** The request object of the endpoint *)




End command.

(** ** Example *)

#[local] Existing Instance plain_codec.
#[local] Existing Instance plain_chain.
#[local] Existing Instance canonical_range.
#[local] Existing Instance plain_jose.
#[local] Existing Instance busy_sockets.
#[local] Existing Instance no_tls.

(** The zone of the example file with qualified names, and the document that is sent. *)
Definition qualified_zone : Zone := match rename_zone addDot loaded_zone with Ok z => z | _ => loaded_zone end.
Definition sent_document : Document :=
  {| d_ShutdownWait := 0; d_AuthKey := Some (key_of "auth"); d_Listen := {| listen_DNS := ":53"; listen_Control := ":5309" |};
     d_Peers := Peers two_peers; d_Zones := forget_values <$> {["test.home.arpa." := qualified_zone]} |}.

Lemma file_sent : sent_as file_document {["test.home.arpa" := loaded_zone]} sent_document.
Proof.
  eexists. split; [|reflexivity]. intros k' z'. split.
  - intros [<- <-]%lookup_singleton_Some. exists "test.home.arpa", loaded_zone. rewrite lookup_singleton_eq.
    split_and!; [vm_compute; reflexivity|done|vm_compute; reflexivity].
  - intros (k & z & -> & [<- <-]%lookup_singleton_Some & Hr). unfold qualified_zone. rewrite Hr. vm_compute. reflexivity.
Qed.

(** A wire on which updates carry that document. *)
Definition decode_update (old : @Request plain_codec plain_chain) (data : string) : @Request plain_codec plain_chain :=
  match old with
  | ConfigUpdateRequest _ _ => ConfigUpdateRequest data (Some sent_document)
  | _ => SetNonce old data
  end.
Lemma decode_update_Endpoint old data : Endpoint (decode_update old data) = Endpoint old.
Proof. by destruct old. Qed.
Definition update_wire : Wire :=
  {| json_Marshal r := Ok (req_Nonce r);
     json_Unmarshal old data := (decode_update old data, None);
     json_Unmarshal_Endpoint := decode_update_Endpoint;
     json_Marshal_response m := Ok "{}";
     json_Unmarshal_response old data := Ok old |}.

Lemma updateconfig_installs_witness :
  exists wc' s2, clientUpdateConfig (W := update_wire) (transport (W := update_wire)) (fun _ => None) any_file
      (fun _ => Ok operator) "client.yaml" ["/etc/border/config.yaml"] (file_world, (plain_server None, [moment 5; moment 6]))
    = ((wc', (s2, [])), Ok ["OK"]) /\ AuthKey (w_config (s_world s2)) = Some (key_of "auth").
Proof.
  destruct (updateconfig_installs (W := update_wire) any_file (fun _ => Ok operator) "client.yaml" alice_elect no_ping 0
    operator (key_of "auth") "/etc/border/config.yaml" file_document sent_document {["test.home.arpa" := loaded_zone]}
    file_world (plain_server None) (moment 5) (moment 6) "n1" "n1") as (wc' & s2 & zs & H1 & H2 & _).
  - reflexivity.
  - exact (proj2 file_bootable).
  - apply plain_codec_for.
  - exact file_sent.
  - split; try reflexivity; [apply plain_jose_ok|by apply fresh_requests_ok|by vm_compute].
  - reflexivity.
  - vm_compute. split_and!; [done|set_solver|done|by intros f].
  - reflexivity.
  - exists wc', s2. split; [exact H1|]. rewrite H2. reflexivity.
Defined.




