(* ===== verification/Daemon.v ===== *)
(** * The daemon as a whole

    The steps of a running daemon: requests to its control server, runs of its
    health checks, rounds of its publisher monitor, and reloads.  Every one of them
    is the code of the component, run on the one configuration and the one heap of
    zones that all components share.  The DNS server reads those zones at any
    time; what is shown here is that none of the others can make it panic. *)

From stdpp Require Import gmultiset.
From S2P Require Import Prelude GoNet GoTime HealthCheck DnsConfig Literal Config ConfigZones Prog Disk DiskSafety DiskLoad DnsServer Balancer.
From S2P Require Import Election ControlServer ControlSafety ControlClient Launcher LauncherChecks Lifecycle LifecycleSafety Commands CommandsSafety.

Local Open Scope Z_scope.

(** ** Zones that can be answered from *)

(** A zone with its SOA and NS records in which every record has a value of its
    type.  Names may be qualified or, after a [Save], not. *)
Definition sound_zone (z : Zone) : Prop := full_zone z /\ typed_zone z.

(** Every zone that could be answered from still can. *)
Definition improves (h h' : Heap) : Prop := forall l, at_loc sound_zone h l -> at_loc sound_zone h' l.
#[export] Instance improves_preorder : PreOrder improves.
Proof. split; [by intros h l|]. intros h1 h2 h3 H1 H2 l Hl. by apply H2, H1. Qed.

Lemma rename_zone_sound f z z' : rename_zone f z = Ok z' -> sound_zone z -> sound_zone z'.
Proof. intros Hr [_ Ht]. split; [by eapply rename_zone_inv_full|by eapply rename_zone_typed]. Qed.

Lemma convert_zone_sound z z' : convert_zone z = Ok z' -> sound_zone z -> sound_zone z'.
Proof.
  intros Hc [[HS HN] _]. split; [|by eapply convert_zone_typed]. unfold convert_zone in Hc.
  destruct (z_NS z) as [ns|]; [|done]. apply bind_ok in Hc as (ns' & _ & (recs & _ & [= <-])%bind_ok). split; [done|by eexists].
Qed.

Lemma update_zone_improves f l h h' :
  (forall z z', f z = Ok z' -> sound_zone z -> sound_zone z') -> update_zone f l h = Ok h' -> improves h h'.
Proof. intros Hf Hu l0. by apply (update_zone_at _ f l). Qed.

Section heap.
Context {Ch : Type} `{MR : MapRange}.

Lemma rename_zones_improves f h zs h' zs' : rename_zones f h zs = Ok (h', zs') -> improves h h'.
Proof.
  unfold rename_zones. intros Hr.
  apply (for_each_inv (fun st : Heap * ZoneMap => improves h st.1)) in Hr; [done| |done].
  intros [k l] [h1 zs1] [h2 zs2] _ H1 (h3 & Hu & [= <- <-])%bind_ok. etrans; [exact H1|].
  eapply update_zone_improves; [apply rename_zone_sound|exact Hu].
Qed.

Lemma convertLiterals_improves h (c : Config Ch) h' : convertLiterals h c = Ok h' -> improves h h'.
Proof.
  unfold convertLiterals. apply (for_each_inv (improves h)); [|done].
  intros [k l] h1 h2 _ H1 Hu. etrans; [exact H1|]. eapply update_zone_improves; [apply convert_zone_sound|exact Hu].
Qed.

Lemma alloc_zones_improves zones h h' zs : alloc_zones zones h = (h', zs) -> improves h h'.
Proof.
  intros E l (z & Hz & Hs). pose proof (alloc_loop (map_to_list zones) h (NoDup_fst_map_to_list zones)) as Hl.
  unfold alloc_zones in E. rewrite E in Hl. destruct Hl as (I1 & _). exists z. by rewrite (I1 l) by eauto.
Qed.
End heap.

(** ** Code that keeps zones answerable *)

Section code.
Context `{HC : HashChain} `{MR : MapRange} `{W : !Wire} `{J : Jose}.

Definition heap_improves : relation World := fun w w' => improves (w_heap w) (w_heap w').
#[export] Instance heap_improves_preorder : PreOrder heap_improves.
Proof. split; [intros w; apply improves_preorder|]. intros w1 w2 w3. unfold heap_improves. apply transitivity. Qed.

Lemma trim_config_improves : within heap_improves trim_config.
Proof.
  apply within_get_bind. intros w. unfold lift, mbind, prog_bind.
  destruct (trimZones (w_heap w) (w_config w)) as [[h c]| | |] eqn:E; try (by unfold heap_improves).
  unfold trimZones in E. apply bind_ok in E as ([h' zs] & Hr & [= <- _]). by eapply rename_zones_improves.
Qed.
#[local] Hint Resolve trim_config_improves : prog.

(** Code that writes elsewhere. *)
Lemma modify_improves f : (forall w, w_heap (f w) = w_heap w) -> within heap_improves (modify f).
Proof. intros Hf. apply within_modify. intros w. unfold heap_improves. by rewrite Hf. Qed.
#[local] Hint Extern 1 (within heap_improves (modify _)) => (apply modify_improves; by intros ?) : prog.

Lemma Save_improves : within heap_improves Save.
Proof. unfold Save, ToDisk, SaveJSON, SaveYAML, write_file, move, refuse, do_op. walk. Qed.

Lemma decode_into_improves c d : within heap_improves (decode_into c d).
Proof.
  intros w. unfold decode_into. destruct (alloc_zones _ _) as [h zs] eqn:E. by eapply alloc_zones_improves.
Qed.
Lemma make_chan_improves : within heap_improves make_chan.
Proof. intros w. by unfold heap_improves. Qed.
#[local] Hint Resolve Save_improves decode_into_improves make_chan_improves : prog.

Lemma postLoad_improves c filename ch r : within heap_improves (postLoad c filename ch r).
Proof.
  unfold postLoad. case_bool_decide; [walk|]. apply within_get_bind. intros w. unfold lift, modify, mbind, prog_bind.
  destruct (convertLiterals _ _) as [h| | |] eqn:E1; try (by unfold heap_improves). apply convertLiterals_improves in E1.
  destruct (decorateZones _ _) as [[h' c']| | |] eqn:E2; [|exact E1..].
  unfold decorateZones in E2. apply bind_ok in E2 as ([h2 zs] & Hr & [= <- _]).
  unfold heap_improves. etrans; [exact E1|]. by eapply rename_zones_improves.
Qed.
#[local] Hint Resolve postLoad_improves : prog.

Lemma Reload_improves : within heap_improves Reload.
Proof.
  unfold Reload, FromDisk, refuse, LoadJSON. walk. intros w. unfold send, heap_improves. by destruct (_ !! _) as [[]|].
Qed.
#[local] Hint Resolve Reload_improves : prog.

Lemma ReplaceConfig_improves c ch : within heap_improves (ReplaceConfig c ch).
Proof. unfold ReplaceConfig, saveConfig. walk. Qed.
Lemma saveConfig_improves : within heap_improves saveConfig.
Proof. unfold saveConfig. walk. Qed.
Lemma unmarshalled_improves d : within heap_improves (unmarshalled d).
Proof. unfold unmarshalled. walk. Qed.
#[local] Hint Resolve ReplaceConfig_improves saveConfig_improves unmarshalled_improves : prog.

Definition server_improves : relation Server := fun s s' => heap_improves (s_world s) (s_world s').
#[export] Instance server_improves_preorder : PreOrder server_improves.
Proof. split; [intros s; apply heap_improves_preorder|]. intros s1 s2 s3. unfold server_improves. apply transitivity. Qed.

Lemma on_world_improves {A} (m : prog World A) : within heap_improves m -> within server_improves (on_world m).
Proof. intros Hm s. unfold on_world. specialize (Hm (s_world s)). by destruct (m (s_world s)). Qed.
#[local] Hint Resolve on_world_improves : prog.
Lemma modify_server_improves f : (forall s, s_world (f s) = s_world s) -> within server_improves (modify f).
Proof. intros Hf. apply within_modify. intros s. unfold server_improves. by rewrite Hf. Qed.
#[local] Hint Extern 1 (within server_improves (modify _)) => (apply modify_server_improves; by intros ?) : prog.

Lemma handler_improves t r : within server_improves (handler t r).
Proof.
  unfold handler, handleAuthCheck, handlePing, handleNonce, handleConfigUpdate, handlePeerRegister, handleConfigReload, handleIdentifyPublisher,
    handleUptime, handleConfigChain, handleConfigFetch.
  walk.
Qed.

Lemma handle_improves t proto r s s' o : handle t proto r s = (s', o) -> heap_improves (s_world s) (s_world s').
Proof.
  unfold handle. case_bool_decide.
  - destruct (handleValidateNonce _ _ _ _ s) as [s1 o1] eqn:Ev.
    pose proof (handleValidateNonce_world _ _ _ _ _ _ _ Ev) as Hw.
    destruct o1 as [[code|req']|?| |?]; try (intros [= <- _]; by rewrite Hw).
    destruct (handler t req' s1) as [s2 o2] eqn:Eh. intros [= <- _]. rewrite <- Hw.
    exact (within_run _ _ _ _ _ (handler_improves t req') Eh).
  - destruct (handler t _ s) as [s2 o2] eqn:Eh. intros [= <- _]. exact (within_run _ _ _ _ _ (handler_improves t _) Eh).
Qed.

(** The rounds of [monitorConfig]. *)
Section monitor.
Context (NewFromString : list string -> outcome Chain) (LastMatch : Chain -> Chain -> outcome unit)
        (exchange : Peer -> Request -> outcome Message).

Definition monitor_improves : relation Monitor := fun st st' => heap_improves st.1 st'.1.
#[export] Instance monitor_improves_preorder : PreOrder monitor_improves.
Proof. split; [intros s; apply heap_improves_preorder|]. intros s1 s2 s3. unfold monitor_improves. apply transitivity. Qed.

Lemma or_continue_within R `{!PreOrder R} {A} (m : prog Monitor A) k :
  within R m -> (forall a, within R (k a)) -> within R (or_continue m k).
Proof.
  intros Hm Hk st. unfold or_continue. specialize (Hm st). destruct (m st) as [st1 [a|?| |?]]; [|exact Hm..].
  etrans; [exact Hm|apply Hk].
Qed.

Lemma ask_improves peer req : within monitor_improves (ask exchange peer req).
Proof. intros [w log]. unfold monitor_improves, heap_improves. done. Qed.
Lemma on_process_improves {A} (m : prog World A) : within heap_improves m -> within monitor_improves (on_process m).
Proof. intros Hm [w log]. unfold on_process. specialize (Hm w). by destruct (m w). Qed.

Lemma fetchConfig_improves p : within monitor_improves (fetchConfig NewFromString exchange p).
Proof.
  unfold fetchConfig. apply or_continue_within; [apply _|apply ask_improves|]. intros []; walk.
  apply or_continue_within; [apply _|walk|]. intros ch. walk. apply or_continue_within; [apply _| |intros o; walk].
  apply on_process_improves. walk.
Qed.

Lemma monitorConfig_improves name : within monitor_improves (monitorConfig NewFromString LastMatch exchange name).
Proof.
  unfold monitorConfig. walk. apply or_continue_within; [apply _|apply ask_improves|]. intros []; walk.
  do 4 (apply or_continue_within; [apply _|walk|]; intros ?; walk). apply fetchConfig_improves.
Qed.
End monitor.
End code.

(** ** Health checks *)

Section checks.
Context {Ch : Type} `{MR : MapRange}.
Context (elect : Config Ch -> Config Ch * outcome Peer) (prepare : Peer -> outcome string).
(** An election changes no zones: it removes peers. *)
Hypothesis elect_zones : forall c, Zones (elect c).1 = Zones c.

Notation W := (Services Ch).

(** What the actions may do: keep zones answerable, and the map of zones. *)
Definition calm (w w' : W) : Prop := improves (sv_heap w) (sv_heap w') /\ Zones (sv_config w') = Zones (sv_config w).

Definition calm_action (act : HealthCheckAction W) : Prop := forall check w w' e,
  FailedAction act check w = Ok (w', e) \/ ReviveAction act check w = Ok (w', e) -> calm w w'.

Lemma holdElection_calm w w' e : holdElection elect w = Ok (w', e) -> calm w w'.
Proof.
  unfold holdElection. pose proof (elect_zones (sv_config w)) as Hz. destruct (elect (sv_config w)) as [c o]. cbn [fst] in Hz.
  destruct o as [pub|?| |?]; try done; [intros (n & _ & [= <- _])%bind_ok|intros [= <- _]]; by split.
Qed.

(** A record keeps its type under a value of that type. *)
Lemma set_value_at_sound i v z r :
  z_Records z !! i = Some r -> match v with ValA _ => rec_Type r = TypeA | ValLB _ => rec_Type r = TypeLB end ->
  sound_zone z -> sound_zone (set_value_at i v z).
Proof.
  intros Hr Hv [Hf Ht]. split; [exact Hf|]. unfold typed_zone, set_value_at in *. cbn [z_Records].
  apply Forall_alter; [exact Ht|]. intros r' Hr' _. rewrite Hr in Hr'. injection Hr' as <-. by destruct v.
Qed.

Lemma at_value h l i z v :
  h !! l = Some z -> value_at h l i = Some v -> exists r, z_Records z !! i = Some r /\ rec_Value r = Some v.
Proof. intros Hz Hv. unfold value_at in Hv. rewrite Hz in Hv. simpl in Hv. destruct (z_Records z !! i); [eauto|done]. Qed.

Lemma write_calm (w : W) l i z (v v' : RecordValue) :
  sv_heap w !! l = Some z -> value_at (sv_heap w) l i = Some v ->
  match v, v' with ValA _, ValA _ | ValLB _, ValLB _ => True | _, _ => False end ->
  calm w (mkServices (<[l := set_value_at i v' z]> (sv_heap w)) (sv_config w)).
Proof.
  intros Hz Hv Hk. split; [|done]. destruct (at_value _ _ _ _ _ Hz Hv) as (r & Hr & Hrv). intros l0 (z0 & H0 & Hs).
  cbn [sv_heap]. destruct (decide (l = l0)) as [<-|Hne]; [|exists z0; by rewrite lookup_insert_ne].
  rewrite Hz in H0. injection H0 as <-. exists (set_value_at i v' z). rewrite lookup_insert_eq. split; [done|].
  apply (set_value_at_sound i v' z r Hr); [|exact Hs]. destruct Hs as [_ Ht]. unfold typed_zone in Ht. rewrite Forall_forall in Ht.
  specialize (Ht r (list_elem_of_lookup_2 _ _ _ Hr)). unfold typed_record in Ht. rewrite Hrv in Ht. by destruct v, v'.
Qed.

Lemma on_A_calm l i f (w w' : W) e : on_A l i f w = Ok (w', e) -> calm w w'.
Proof.
  unfold on_A. destruct (sv_heap w !! l) as [z|] eqn:Hz; [|done]. destruct (value_at _ l i) as [[a|lb]|] eqn:Hv; try done.
  intros [= <- _]. by eapply write_calm.
Qed.
Lemma on_LB_calm l i f (w w' : W) e : on_LB l i f w = Ok (w', e) -> calm w w'.
Proof.
  unfold on_LB. destruct (sv_heap w !! l) as [z|] eqn:Hz; [|done]. destruct (value_at _ l i) as [[a|lb]|] eqn:Hv; try done.
  intros [= <- _]. by eapply write_calm.
Qed.

Lemma RemovePeer_zones (c c' : Config Ch) p : RemovePeer c p = Ok c' -> Zones c' = Zones c.
Proof. unfold RemovePeer. by intros (ps & _ & [= <-])%bind_ok. Qed.

Lemma peer_check_calm peer acts act : peer_check elect prepare peer = Ok acts -> act ∈ acts -> calm_action act.
Proof.
  unfold peer_check. intros (n & _ & [= <-])%bind_ok ->%list_elem_of_singleton check w w' e. cbn [FailedAction ReviveAction].
  intros [(c & Hc%RemovePeer_zones & Hh)%bind_ok|Hh]; apply holdElection_calm in Hh; [|exact Hh].
  destruct Hh as [Hi Hz]. split; [exact Hi|]. cbn [sv_config] in Hz. congruence.
Qed.

Lemma record_checks_calm c l i rec acts act : record_checks c l i rec = Ok acts -> act ∈ acts -> calm_action act.
Proof.
  unfold record_checks. intros Hr Ha. case_bool_decide; [|case_bool_decide; [|injection Hr as <-; by apply elem_of_nil in Ha]];
    destruct (rec_Value rec) as [[a|lb]|]; try done.
  - apply (collect_elem_of _ _ _ act Hr) in Ha as (chk & xs & _ & [= <-] & (ip & -> & _)%list_elem_of_fmap).
    intros ???? [Hf|Hf]; eapply on_A_calm; exact Hf.
  - apply (collect_elem_of _ _ _ act Hr) in Ha as (chk & xs & _ & (bs & Hb & (ls & Hl & [= <-])%bind_ok)%bind_ok & [Ha|Ha]%elem_of_app).
    + apply (collect_elem_of _ _ _ act Hb) in Ha as (be & ys & _ & Hy & Ha). unfold backend_check in Hy.
      apply bind_ok in Hy as ([host port] & _ & [= <-]). apply list_elem_of_singleton in Ha as ->.
      intros ???? [Hf|Hf]; eapply on_LB_calm; exact Hf.
    + apply (collect_elem_of _ _ _ act Hl) in Ha as (li & ys & _ & Hy & Ha). unfold listener_checks in Hy.
      apply bind_ok in Hy as ([host port] & _ & Hy). destruct (FindPeer c host) as [peer|?| |?]; try done.
      injection Hy as <-. apply list_elem_of_fmap in Ha as (ip & -> & _). intros ???? [Hf|Hf]; eapply on_LB_calm; exact Hf.
Qed.

Lemma buildHealthChecks_calm h c hcr :
  buildHealthChecks elect prepare h c = Ok hcr -> Forall calm_action (HealthChecks hcr).
Proof.
  unfold buildHealthChecks. intros (ps & Hp & (zs & Hz & [= <-])%bind_ok)%bind_ok. apply Forall_forall. intros act.
  cbn [HealthChecks HealthCheck.Init]. intros [Ha|Ha]%elem_of_app.
  - apply (collect_elem_of _ _ _ act Hp) in Ha as (peer & acts & _ & Hc & Ha). by eapply peer_check_calm.
  - apply (collect_elem_of _ _ _ act Hz) in Ha as ([k l] & acts & _ & Hc & Ha). unfold zone_checks in Hc. cbn [snd] in Hc.
    destruct (h !! l) as [z|]; [|done]. apply (collect_elem_of _ _ _ act Hc) in Ha as ([i rec] & xs & _ & Hr & Ha).
    by eapply record_checks_calm.
Qed.

(** A goroutine of the checker. *)
Lemma run_one_calm env i hcr w hcr' w' :
  run_one env i (hcr, w) = Ok (hcr', w') -> Forall calm_action (HealthChecks hcr) ->
  calm w w' /\ Forall calm_action (HealthChecks hcr').
Proof.
  intros Hr Hc. unfold run_one in Hr. destruct (HealthChecks hcr !! i) as [act|] eqn:Ha; [|done].
  destruct (Failures hcr !! i) as [n|]; [|done].
  assert (calm_action act) as Hact by (by eapply Forall_lookup_1).
  assert (forall b, Forall calm_action (alter (set_check_failed b) i (HealthChecks hcr))) as Halter.
  { intros b. apply Forall_alter; [exact Hc|]. intros x _ Hx. exact Hx. }
  assert (calm w w) as Hrefl by (split; [apply improves_preorder|done]).
  destruct (runCheck env (Check act)) as [?|?| |?]; [..|done|done].
  - apply bind_ok in Hr as (w1 & H1 & [= <- <-]). split; [|apply Halter]. case_bool_decide; [|by injection H1 as <-].
    apply bind_ok in H1 as ([w2 err] & H2 & [= <-]). eapply Hact. eauto.
  - destruct (_ && _); [|injection Hr as <- <-; done]. apply bind_ok in Hr as ([w2 err] & H2 & [= <- <-]).
    split; [eapply Hact; eauto|apply Halter].
Qed.
End checks.

(** ** The running daemon *)

Section daemon.
Context `{HC : HashChain} `{MR : MapRange} `{TL : TlsLib} `{SK : Sockets} `{W : !Wire} `{J : Jose} `{DL : DnsLib}.
Context (elect : Config Chain -> Config Chain * outcome Peer) (prepare : Peer -> outcome string) (boot : Z).
Context (NewFromString : list string -> outcome Chain) (LastMatch : Chain -> Chain -> outcome unit)
        (exchange : Peer -> Request -> outcome Message).

(** The process, the services that run, and the state of the control server and
    of the health checker. *)
Record Daemon := mkDaemon {
  dm_process : Process;
  dm_server : Launched;
  dm_control : Server;
  dm_checker : HealthChecker (Services Chain)
}.

Definition launched_daemon (p : Process) (s : Launched) : Daemon :=
  mkDaemon p s (ctl_server (l_control s) (p_world p)) (l_checker s).

Notation world d := (p_world (dm_process d)).
Definition with_world (w : World) (d : Daemon) : Daemon :=
  mkDaemon (set_world w (dm_process d)) (dm_server d) (dm_control d) (dm_checker d).

(** What happened: a request with its result, the run of a check, a round of the
    monitor with the requests it sent, a reload. *)
Inductive event := Answered (o : served) | Checked | Monitored (log : list Request) | Reloaded.

(** A handler that panics is recovered from by net/http; a panic anywhere else ends
    the process.  A reload takes place when it was signalled. *)
Inductive daemon_step : event -> Daemon -> Daemon -> Prop :=
| daemon_request d t proto r s' o :
    handle t proto r (put_world (world d) (dm_control d)) = (s', o) ->
    daemon_step (Answered o) d (mkDaemon (set_world (s_world s') (dm_process d)) (dm_server d) s' (dm_checker d))
| daemon_check d env i hcr' sv' :
    run_one env i (dm_checker d, mkServices (w_heap (world d)) (w_config (world d))) = Ok (hcr', sv') ->
    daemon_step Checked d
      (mkDaemon (set_world (set_config (sv_config sv') (set_heap (sv_heap sv') (world d))) (dm_process d))
         (dm_server d) (dm_control d) hcr')
| daemon_monitor d w' log x :
    monitorConfig NewFromString LastMatch exchange (l_peerName (dm_server d)) (world d, []) = ((w', log), Ok x) ->
    daemon_step (Monitored log) d (with_world w' d)
| daemon_reload d p' s2 :
    w_chans (world d) !! reload (w_config (world d)) = Some true ->
    monitorReload elect prepare boot (dm_server d) (dm_process d) = (p', Ok (Some s2)) ->
    daemon_step Reloaded d (launched_daemon p' s2).

(** Steps other than reloads. *)
Definition steady_step (d d' : Daemon) : Prop := exists e, daemon_step e d d' /\ e <> Reloaded.

(** Steps that leave no half-applied configuration behind: requests that change
    something are not refused, and the monitor does not fetch. *)
Definition complete (e : event) (d d' : Daemon) : Prop :=
  match e with
  | Answered o => world d' = world d \/ o = Pending \/ exists body, o = Reply {| w_Code := 200; w_Body := body |}
  | Monitored log => ConfigFetchRequest "" ∉ log
  | _ => True
  end.
Definition complete_step (d d' : Daemon) : Prop := exists e, daemon_step e d d' /\ complete e d d'.

(** The zones the DNS server answers from. *)
Definition answerable (h : Heap) (zs : ZoneMap) : Prop := forall k l, zs !! k = Some l -> at_loc sound_zone h l.

Lemma answerable_improves h h' zs : answerable h zs -> improves h h' -> answerable h' zs.
Proof. intros Ha Hi k l Hk. eapply Hi, Ha, Hk. Qed.

Lemma ServeDNS_answerable h ds r :
  answerable h (ds_Zones ds) ->
  (exists m, ServeDNS h ds r = Ok m) \/ ((exists msg, ServeDNS h ds r = Fatal msg) /\ ends_process h ds r).
Proof.
  intros Ha. unfold ServeDNS, answers. destruct (msg_Question r) as [|q qs] eqn:Eq; [left; by eexists|].
  destruct (findZone ds (q_Name q)) as [l|] eqn:El; [|left; by eexists].
  destruct (proj1 (find_zone_spec _ _ _) El) as (i & _ & Hi & _). destruct (Ha _ _ Hi) as (z & Hz & Hf & Ht). rewrite Hz.
  rewrite (answer_zone_spec z _ _ Hf Ht). destruct (zone_answers_total z (q_Name q) (q_Qtype q) (errors_New "")) as [_ Hp].
  destruct (zone_answers _ _ _) as [rrs|e| |msg] eqn:E; [left; by eexists| |done|].
  - by destruct (zone_answers_total z (q_Name q) (q_Qtype q) e).
  - right. split; [by exists msg|]. exists q, qs, l, z. split_and!; [done..|]. apply zone_answers_fatal. by exists msg.
Qed.

(** ** Requests that are answered *)

Lemma handler_world t r : changing r = false -> keeps s_world (handler t r).
Proof.
  destruct r; try done; intros _; cbn [handler];
    unfold handleNonce, handleIdentifyPublisher, handleUptime, handleConfigChain, handleConfigFetch; walk.
Qed.

(** The configuration after a handler has returned: as before, or reloaded. *)
Definition settled (w w' : World) : Prop := w' = w \/ exists w0 o, Reload w0 = (w', Ok o).

Lemma handler_settled t r s s' x : handler t r s = (s', Ok x) -> settled (s_world s) (s_world s').
Proof.
  intros Hh. destruct (changing r) eqn:Hc.
  - right. destruct (handler_reloads _ _ _ _ _ Hc Hh) as (w0 & o & H0 & _). eauto.
  - left. exact (within_run _ _ _ _ _ (handler_world t r Hc) Hh).
Qed.

Lemma handle_settled t proto r s s' o :
  handle t proto r s = (s', o) -> (o = Pending \/ exists body, o = Reply {| w_Code := 200; w_Body := body |}) ->
  settled (s_world s) (s_world s').
Proof.
  assert (forall key (x : outcome handled), (respond key x = Pending \/ exists body, respond key x = Reply {| w_Code := 200; w_Body := body |}) ->
    exists h, x = Ok h) as Hresp by (intros key [h|e| |m] [Hr|[body Hr]]; try done; eauto).
  unfold handle. intros Hh Ho. case_bool_decide.
  - destruct (handleValidateNonce _ _ _ _ s) as [s1 o1] eqn:Ev. apply handleValidateNonce_world in Ev as Hw.
    destruct o1 as [[code|req']|?| |?]; try (injection Hh as <- _; by left).
    destruct (handler t req' s1) as [s2 o2] eqn:Eh. injection Hh as <- <-. destruct (Hresp _ _ Ho) as [h ->].
    rewrite <- Hw. by eapply handler_settled.
  - destruct (handler t _ s) as [s2 o2] eqn:Eh. injection Hh as <- <-. destruct (Hresp _ _ Ho) as [h ->].
    by eapply handler_settled.
Qed.

(** ** A monitor that does not fetch *)

(** The requests sent so far, and what it means that a fetch is among them. *)
Definition log_kept : relation Monitor := fun st st' => exists l, st'.2 = st.2 ++ l.
#[export] Instance log_kept_preorder : PreOrder log_kept.
Proof.
  split; [intros st; exists []; by rewrite app_nil_r|].
  intros s1 s2 s3 [l1 H1] [l2 H2]. exists (l1 ++ l2). by rewrite H2, H1, (assoc_L (++)).
Qed.

Lemma fetchConfig_log p st st' o :
  fetchConfig NewFromString exchange p st = (st', o) -> ConfigFetchRequest "" ∈ st'.2.
Proof.
  destruct st as [w log]. unfold fetchConfig, or_continue at 1, ask. intros Hr.
  assert (log_kept (w, log ++ [ConfigFetchRequest ""]) st') as [l Hl]; [|rewrite Hl; cbn [snd]; set_solver].
  destruct (exchange p (ConfigFetchRequest "")) as [resp|?| |?]; try (injection Hr as <- _; reflexivity).
  revert Hr. eapply (within_run log_kept). destruct resp; walk.
  apply or_continue_within; [apply _|walk|]. intros ch. walk. apply or_continue_within; [apply _| |intros x; walk].
  intros [w1 log1]. unfold on_process. match goal with |- context [let '(_, _) := ?m w1 in _] => destruct (m w1) as [w2 o2] end. exists []. by rewrite app_nil_r.
Qed.

Lemma monitorConfig_no_fetch name w w' log o :
  monitorConfig NewFromString LastMatch exchange name (w, []) = ((w', log), o) -> ConfigFetchRequest "" ∉ log -> w' = w.
Proof.
  intros Hr Hlog. unfold monitorConfig in Hr. erewrite prog_bind_run in Hr; [|reflexivity]. cbv zeta in Hr. cbn [fst] in Hr.
  destruct (GetPublisher (w_config w)) as [pub|]; [|by injection Hr as <- _ _].
  unfold lift, mbind, prog_bind in Hr. destruct (Name pub) as [n|?| |?]; try (by injection Hr as <- _ _).
  case_bool_decide; [by injection Hr as <- _ _|]. unfold or_continue at 1, ask in Hr. cbn [app] in Hr.
  destruct (exchange pub _) as [resp|?| |?]; try (by injection Hr as <- _ _).
  destruct resp; try (by injection Hr as <- _ _).
  do 3 (unfold or_continue at 1 in Hr; match type of Hr with context [match ?x with Ok _ => _ | _ => _ end] => destruct x end;
    try (by injection Hr as <- _ _)).
  case_bool_decide; [by injection Hr as <- _ _|]. unfold or_continue at 1 in Hr.
  destruct (LastMatch _ _); try (by injection Hr as <- _ _). by apply fetchConfig_log in Hr.
Qed.

(** ** The invariants *)

Hypothesis elect_zones : forall c, Zones (elect c).1 = Zones c.

(** What every step keeps. *)
Record steady (d : Daemon) : Prop := {
  sd_dns : answerable (w_heap (world d)) (ds_Zones (l_dns (dm_server d)));
  sd_checks : Forall calm_action (HealthChecks (dm_checker d))
}.

(** What holds in addition when no change was left half-applied: the zones that a
    reload would serve are answerable too. *)
Definition reloadable (d : Daemon) : Prop := answerable (w_heap (world d)) (Zones (w_config (world d))).

Lemma Reload_answerable w w' o : Reload w = (w', Ok o) -> answerable (w_heap w') (Zones (w_config w')).
Proof.
  intros (_ & _ & _ & Hz)%Reload_inv k l Hk. destruct (Hz k l Hk) as (z & Hl & Hf & Ht & _). by exists z.
Qed.

Lemma Launch_steady peerName p p' s :
  Launch elect prepare boot peerName p = (p', Ok s) -> answerable (w_heap (p_world p)) (Zones (w_config (p_world p))) ->
  steady (launched_daemon p' s) /\ reloadable (launched_daemon p' s).
Proof.
  intros Hl%Launch_ok Ha. pose proof (la_checker _ _ _ _ _ _ Hl) as Hc. destruct (la_publisher _ _ _ _ _ _ Hl) as (c & pub & He & Hw).
  assert (Zones (w_config (p_world p')) = Zones (w_config (p_world p))) as Hz.
  { rewrite Hw. cbn [Zones SetPublisher]. pose proof (elect_zones (w_config (p_world p))) as E. by rewrite He in E. }
  unfold reloadable, launched_daemon. cbn [dm_process]. rewrite Hz, (la_heap _ _ _ _ _ _ Hl). split; [|done]. split.
  - cbn [dm_process dm_server]. by rewrite (la_heap _ _ _ _ _ _ Hl), (la_dns _ _ _ _ _ _ Hl).
  - by eapply buildHealthChecks_calm.
Qed.

Lemma steady_kept e d d' : daemon_step e d d' -> e <> Reloaded -> steady d -> steady d'.
Proof.
  intros Hs He [Hd Hc]. destruct Hs as [d t proto r s' o Hh|d env i hcr' sv' Hr|d w' log x Hm|]; [..|done]; split;
    cbn [dm_process dm_server dm_checker with_world p_world set_world]; try done.
  - eapply answerable_improves; [exact Hd|]. exact (handle_improves _ _ _ _ _ _ Hh).
  - apply run_one_calm in Hr as [[Hi _] _]; [|done]. eapply answerable_improves; [exact Hd|exact Hi].
  - by apply run_one_calm in Hr as [_ ?].
  - eapply answerable_improves; [exact Hd|].
    exact (within_run _ _ _ _ _ (monitorConfig_improves NewFromString LastMatch exchange _) Hm).
Qed.

Lemma complete_kept e d d' :
  daemon_step e d d' -> complete e d d' -> steady d -> reloadable d -> steady d' /\ reloadable d'.
Proof.
  intros Hs Hcomp Hst Hre.
  assert (e <> Reloaded -> steady d') as Hst' by (intros; by eapply steady_kept).
  destruct Hs as [d t proto r s' o Hh|d env i hcr' sv' Hr|d w' log x Hm|d p' s2 Hch Hm].
  - split; [by apply Hst'|]. unfold reloadable. cbn [dm_process p_world set_world]. cbn [complete dm_process p_world set_world] in Hcomp.
    assert (settled (world d) (s_world s')) as [-> | (w0 & x & H0)]; [|exact Hre|by eapply Reload_answerable].
    destruct Hcomp as [->|Ho]; [by left|]. exact (handle_settled _ _ _ _ _ _ Hh Ho).
  - split; [by apply Hst'|]. destruct (run_one_calm _ _ _ _ _ _ Hr (sd_checks _ Hst)) as [[Hi Hz] _].
    unfold reloadable. cbn [dm_process p_world set_world set_config set_heap w_heap w_config]. rewrite Hz.
    eapply answerable_improves; [exact Hre|exact Hi].
  - split; [by apply Hst'|]. apply monitorConfig_no_fetch in Hm as ->; [|done]. exact Hre.
  - destruct (monitorReload_world _ _ _ _ _ _ _ Hch Hm) as (p4 & Hw & Hl).
    eapply Launch_steady; [exact Hl|]. rewrite Hw. exact Hre.
Qed.

Lemma start_steady configFile args p p' s :
  start elect prepare boot configFile args p = (p', Ok (Some s)) ->
  steady (launched_daemon p' s) /\ reloadable (launched_daemon p' s).
Proof.
  unfold start. destruct args as [|peerName [|? ?]]; [done| |done].
  intros (p1 & o & Hb & Hr)%prog_bind_ok. unfold in_world in Hb. destruct (bootstrap _ _) as [w ob] eqn:E.
  injection Hb as <- ->. destruct o; [|done]. apply prog_bind_ok in Hr as (p2 & s' & HL & [= <- <-]).
  eapply Launch_steady; [exact HL|]. destruct (bootstrap_inv _ _ _ E) as (_ & _ & _ & _ & Hz).
  intros k l Hk. destruct (Hz k l Hk) as (z & Hl & Hf & Ht & _). by exists z.
Qed.

(** C15. The DNS server never panics.  After [serve] has started from any configuration
    file and up to the next reload, whatever control requests arrive, good or bad,
    answered or refused, whatever the health checks find and change in the records,
    and whatever elections and rounds of the monitor do, every query is replied to,
    unless it is one that ends the process in [logrus.Fatalf]: not for SOA or NS, for
    a name whose first record is a load balancer with a listener that is not an
    address and a port.  The same holds after any number of reloads in runs in which
    no request that changes the configuration is refused half-way and the monitor
    does not fetch a configuration. *)
Theorem dns_never_panics (configFile : string) (args : list string) (p p' : Process) (s : Launched) (d : Daemon) (q : Msg) :
  start elect prepare boot configFile args p = (p', Ok (Some s)) ->
  rtc steady_step (launched_daemon p' s) d \/ rtc complete_step (launched_daemon p' s) d ->
  let h := w_heap (p_world (dm_process d)) in let ds := l_dns (dm_server d) in
  (exists m, ServeDNS h ds q = Ok m) \/ ((exists msg, ServeDNS h ds q = Fatal msg) /\ ends_process h ds q).
Proof.
  intros Hs Hrun. cbv zeta. apply ServeDNS_answerable. apply start_steady in Hs as [Hst Hre].
  cut (steady d); [by intros []|]. destruct Hrun as [Hrun|Hrun].
  - revert Hst. clear Hre. induction Hrun as [|d1 d2 d3 (e & H12 & He) _ IH]; [done|]. intros Hst. eapply IH, steady_kept; eauto.
  - revert Hst Hre. induction Hrun as [|d1 d2 d3 (e & H12 & He) _ IH]; [done|]. intros Hst Hre.
    destruct (complete_kept e d1 d2 H12 He Hst Hre). by apply IH.
Qed.
End daemon.

(** ** Examples *)

#[local] Existing Instance plain_codec.
#[local] Existing Instance plain_chain.
#[local] Existing Instance canonical_range.
#[local] Existing Instance plain_jose.
#[local] Existing Instance plain_wire.
#[local] Existing Instance busy_sockets.
#[local] Existing Instance no_tls.
#[local] Existing Instance plain_dns.

(** A request arrives; then a name is looked up. *)
Lemma dns_never_panics_witness :
  exists s d, file_start = (file_start.1, Ok (Some s)) /\
    rtc (steady_step alice_elect no_ping 0 plain_NewFromString plain_LastMatch plain_exchange) (launched_daemon file_start.1 s) d /\
    let h := w_heap (p_world (dm_process d)) in let ds := l_dns (dm_server d) in let q := query "foo.test.home.arpa." dns_TypeA in
    ((exists m, ServeDNS h ds q = Ok m) \/ ((exists msg, ServeDNS h ds q = Fatal msg) /\ ends_process h ds q)).
Proof.
  destruct file_started as [s E].
  destruct (handle (moment 5) NonceRequest {| r_Method := "GET"; r_Body := Ok "" |}
    (put_world (p_world file_start.1) (ctl_server (l_control s) (p_world file_start.1)))) as [s' o] eqn:Hh.
  assert (steady_step alice_elect no_ping 0 plain_NewFromString plain_LastMatch plain_exchange (launched_daemon file_start.1 s)
    (mkDaemon (set_world (s_world s') file_start.1) s s' (l_checker s))) as Hstep.
  { exists (Answered o). split; [exact (daemon_request _ _ _ _ _ _ (launched_daemon file_start.1 s) _ _ _ _ _ Hh)|discriminate]. }
  eexists s, _. split; [exact E|]. split; [exact (rtc_once _ _ Hstep)|].
  exact (dns_never_panics alice_elect no_ping 0 plain_NewFromString plain_LastMatch plain_exchange (fun _ => eq_refl)
    "/etc/border/config.yaml" ["alice"] _ _ _ _ _ E (or_introl (rtc_once _ _ Hstep))).
Defined.
